(** * TradeSafe arbitrage pipeline: a shallow embedding and its properties

    The development follows the TypeScript sources of the decision and
    execution pipeline:

    - [lib/arbitrage/detector]   ([detectArbitrage], the persistence buffer)
    - [lib/agents/riskAssessment]   ([assessRisk])
    - [lib/agents/capitalAllocation]   ([allocateCapitalForOpportunity])
    - [lib/agents/debateAgent]   ([debateWithMedianConsensus], [fallbackDebateResult])
    - [lib/agents/runner]   ([guardianCheck])
    - [lib/agents/executionEngine]   ([executeArbitrageWithPartialFills])
    - [lib/state/*]   (portfolio, audit log, execution log)

    Numbers.  A JavaScript [number] is modelled by [JS.number]: an exact
    rational, or one of the three IEEE special values [+Infinity],
    [-Infinity], [NaN].  Arithmetic on finite values is exact (rounding of
    binary64 is not modelled) and the special values follow IEEE 754 /
    ECMAScript; the negative zero is identified with zero.  Timestamps
    ([Date.now()]) and counters are integers.

    Since the rounding is left out, the properties of amounts are stated
    with the comparisons and the operations of the sources themselves (an
    amount against the cap the code computed, a filled quantity against the
    depth added in the order of the book), with equalities that binary64
    keeps ([0 + x], [x - x], [x / x]), or with bounds that leave room for
    the rounding. *)

From Stdlib Require Import QArith Qabs Qminmax Lqa ZArith Lia Sorted.
From stdpp Require Import gmap strings list fin_maps.

Local Open Scope Z_scope.

(** ** JavaScript numbers *)

Declare Scope js_scope.
Delimit Scope js_scope with js.

Module JS.

Inductive number : Type :=
| Num (q : Q)
| PInf
| NInf
| NaN.

Bind Scope js_scope with number.

Definition Qlt_bool (x y : Q) : bool := negb (Qle_bool y x).

Definition Qis_zero (q : Q) : bool := Qeq_bool q 0.
Definition Qis_pos (q : Q) : bool := Qlt_bool 0 q.

Definition of_Z (z : Z) : number := Num (inject_Z z).

Definition is_nan (x : number) : bool :=
  match x with NaN => true | _ => false end.

Definition is_finite (x : number) : bool :=
  match x with Num _ => true | _ => false end.

(** [-x] *)
Definition neg (x : number) : number :=
  match x with
  | Num q => Num (- q)
  | PInf => NInf
  | NInf => PInf
  | NaN => NaN
  end.

(** [x + y] *)
Definition add (x y : number) : number :=
  match x, y with
  | NaN, _ | _, NaN => NaN
  | Num a, Num b => Num (a + b)
  | PInf, NInf | NInf, PInf => NaN
  | PInf, _ | _, PInf => PInf
  | NInf, _ | _, NInf => NInf
  end.

(** [x - y] *)
Definition sub (x y : number) : number := add x (neg y).

(** [x * y] *)
Definition mul (x y : number) : number :=
  match x, y with
  | NaN, _ | _, NaN => NaN
  | Num a, Num b => Num (a * b)
  | Num a, PInf | PInf, Num a =>
      if Qis_zero a then NaN else if Qis_pos a then PInf else NInf
  | Num a, NInf | NInf, Num a =>
      if Qis_zero a then NaN else if Qis_pos a then NInf else PInf
  | PInf, PInf | NInf, NInf => PInf
  | PInf, NInf | NInf, PInf => NInf
  end.

(** [x / y]; a zero divisor is the positive zero *)
Definition div (x y : number) : number :=
  match x, y with
  | NaN, _ | _, NaN => NaN
  | Num a, Num b =>
      if Qis_zero b then
        (if Qis_zero a then NaN else if Qis_pos a then PInf else NInf)
      else Num (a / b)
  | Num _, (PInf | NInf) => Num 0
  | PInf, Num b => if Qis_zero b then PInf else if Qis_pos b then PInf else NInf
  | NInf, Num b => if Qis_zero b then NInf else if Qis_pos b then NInf else PInf
  | (PInf | NInf), (PInf | NInf) => NaN
  end.

(** [x < y] *)
Definition lt (x y : number) : bool :=
  match x, y with
  | NaN, _ | _, NaN => false
  | Num a, Num b => Qlt_bool a b
  | NInf, (Num _ | PInf) => true
  | Num _, PInf => true
  | _, _ => false
  end.

(** [x <= y] *)
Definition le (x y : number) : bool :=
  match x, y with
  | NaN, _ | _, NaN => false
  | Num a, Num b => Qle_bool a b
  | NInf, _ => true
  | _, PInf => true
  | _, _ => false
  end.

(** [x > y], [x >= y] *)
Definition gt (x y : number) : bool := lt y x.
Definition ge (x y : number) : bool := le y x.

(** [Math.abs] *)
Definition abs (x : number) : number :=
  match x with
  | Num q => Num (Qabs q)
  | PInf | NInf => PInf
  | NaN => NaN
  end.

(** [Math.min], [Math.max]: [NaN] as soon as one argument is *)
Definition min (x y : number) : number :=
  match x, y with
  | NaN, _ | _, NaN => NaN
  | _, _ => if lt y x then y else x
  end.

Definition max (x y : number) : number :=
  match x, y with
  | NaN, _ | _, NaN => NaN
  | _, _ => if lt x y then y else x
  end.

(** truthiness of a number: [0] and [NaN] are falsy *)
Definition truthy (x : number) : bool :=
  match x with
  | Num q => negb (Qis_zero q)
  | PInf | NInf => true
  | NaN => false
  end.

(** [x || d] *)
Definition or_default (x d : number) : number :=
  if truthy x then x else d.

(** numeric equality of two values of the model ([===] on numbers,
    except that it holds of [NaN] and [NaN]) *)
Definition eqv (x y : number) : Prop :=
  match x, y with
  | Num a, Num b => (a == b)%Q
  | PInf, PInf | NInf, NInf | NaN, NaN => True
  | _, _ => False
  end.

End JS.

Notation "x + y" := (JS.add x y) : js_scope.
Notation "x - y" := (JS.sub x y) : js_scope.
Notation "x * y" := (JS.mul x y) : js_scope.
Notation "x / y" := (JS.div x y) : js_scope.
Notation "x <? y" := (JS.lt x y) : js_scope.
Notation "x <=? y" := (JS.le x y) : js_scope.
Notation "x >? y" := (JS.gt x y) : js_scope.
Notation "x >=? y" := (JS.ge x y) : js_scope.
Notation "x ≈ y" := (JS.eqv x y) (at level 70) : js_scope.

(** numeric literals of the sources: [int 75] is [75], [dec 15 100] is [0.15] *)
Definition int (z : Z) : JS.number := JS.of_Z z.
Definition dec (n : Z) (d : positive) : JS.number := JS.Num (n # d).

(** ** Template literals

    A template literal is kept as the list of its fragments, so that the
    numbers interpolated in a message stay visible: [Show x] is [`${x}`],
    [Fixed x d] is [`${x.toFixed(d)}`], [Base36 x n] is
    [x.toString(36).substr(2, n)]. *)

Inductive frag : Type :=
| Lit (s : string)
| Show (x : JS.number)
| Fixed (x : JS.number) (digits : nat)
| Base36 (x : JS.number) (len : nat).

Definition text : Type := list frag.

#[global] Instance Q_eq_dec : EqDecision Q.
Proof. solve_decision. Defined.
#[global] Instance number_eq_dec : EqDecision JS.number.
Proof. solve_decision. Defined.
#[global] Instance frag_eq_dec : EqDecision frag.
Proof. solve_decision. Defined.

(** values stored in the [details] of a log entry *)
Inductive jsval : Type :=
| VNum (x : JS.number)
| VStr (s : string)
| VText (t : text)
| VBool (b : bool).

(** ** [Array.prototype.sort] with a comparator

    ECMAScript requires the sort to be stable and reads a [NaN] returned by
    the comparator as [+0]; for a consistent comparator the result is the
    stable sorted permutation, computed here by insertion. *)

Section Sort.
Context {A : Type} (cmp : A -> A -> JS.number).

Fixpoint sort_insert (x : A) (l : list A) : list A :=
  match l with
  | [] => [x]
  | y :: l' =>
      if (cmp x y >? int 0)%js then y :: sort_insert x l' else x :: y :: l'
  end.

Definition js_sort (l : list A) : list A := foldr sort_insert [] l.
End Sort.

(** ** Process-wide state ([lib/state/*], module-level singletons)

    Each interface of the sources is a record in a module of its name. *)

(** [lib/arbitrage/detector] *)
Module Opportunity.
Record t : Type := {
  id : text;
  symbol : string;
  spreadPct : JS.number;
  action : string;
  estimatedGrossProfitPct : JS.number;
  binancePrice : JS.number;
  indianPrice : JS.number;
  firstSeenTs : Z;
  lastSeenTs : Z;
  persistenceCount : Z;
}.
End Opportunity.

Module OpportunityPersistence.
Record t : Type := {
  opportunityKey : string;
  firstSeenTs : Z;
  lastSeenTs : Z;
  persistenceCount : Z;
  data : Opportunity.t;
}.
End OpportunityPersistence.

(** [lib/state/portfolio] *)
Module Position.
Record t : Type := {
  symbol : string;
  exchange : string;
  quantity : JS.number;
  averagePrice : JS.number;
}.
End Position.

Module Portfolio.
Record t : Type := {
  cash : JS.number;
  positions : list Position.t;
  totalValue : JS.number;
  lastUpdate : Z;
}.
End Portfolio.

(** [lib/state/auditLog] *)
Inductive EventType : Type :=
| detection | debate | risk_assessment | allocation | execution | system.

Module AuditLogEntry.
Record t : Type := {
  id : text;
  timestamp : Z;
  eventType : EventType;
  component : option string;
  action : string;
  details : list (string * jsval);
}.
End AuditLogEntry.

(** [lib/state/executionLog] *)
Inductive ExecStatus : Type :=
| pending | executing | filled | partial | completed | failed.

Module ExecutionRecord.
Record t : Type := {
  id : text;
  symbol : string;
  type : option string;
  timestamp : Z;
  status : ExecStatus;
  buyExchange : option string;
  sellExchange : option string;
  buyPrice : option JS.number;
  buyQty : option JS.number;
  sellPrice : option JS.number;
  sellQty : option JS.number;
  profit : option JS.number;
  partialFill : option bool;
  completedAt : option Z;
}.
End ExecutionRecord.

(** [lib/state/global] *)
Module GuardianConfig.
Record veto : Type := {
  exchangeOutage : bool;
  highVolatility : bool;
}.
Record t : Type := {
  maxTradePctOfPortfolio : JS.number;
  dailyMaxTrades : JS.number;
  globalMaxExposurePct : JS.number;
  vetoconditions : veto;
}.
End GuardianConfig.

(** [priceDiscovery]: one tick of the rolling price history *)
Module PriceTick.
Record t : Type := {
  price : JS.number;
  timestamp : Z;
}.
End PriceTick.

(** The singletons of the process, together with the two sources of
    non-determinism of the code: [clock n] is what the [n]-th call of
    [Date.now()] returns and [random n] what the [n]-th call of
    [Math.random()] returns; [tzOffsetMs] is the offset of the local time
    zone, which [toDateString] uses. *)
Record World : Type := {
  portfolio : Portfolio.t;
  executionLog : list ExecutionRecord.t;
  auditLog : list AuditLogEntry.t;
  guardianSettings : GuardianConfig.t;
  persistenceBuffer : gmap string OpportunityPersistence.t;
  priceHistory : gmap string (list PriceTick.t);
  clockTicks : nat;
  randomTicks : nat;
  clock : nat -> Z;
  random : nat -> JS.number;
  tzOffsetMs : Z;
}.

Definition set_portfolio (p : Portfolio.t) (w : World) : World :=
  {| portfolio := p; executionLog := executionLog w; auditLog := auditLog w;
     guardianSettings := guardianSettings w;
     persistenceBuffer := persistenceBuffer w; priceHistory := priceHistory w;
     clockTicks := clockTicks w; randomTicks := randomTicks w;
     clock := clock w; random := random w; tzOffsetMs := tzOffsetMs w |}.

Definition set_executionLog (l : list ExecutionRecord.t) (w : World) : World :=
  {| portfolio := portfolio w; executionLog := l; auditLog := auditLog w;
     guardianSettings := guardianSettings w;
     persistenceBuffer := persistenceBuffer w; priceHistory := priceHistory w;
     clockTicks := clockTicks w; randomTicks := randomTicks w;
     clock := clock w; random := random w; tzOffsetMs := tzOffsetMs w |}.

Definition set_auditLog (l : list AuditLogEntry.t) (w : World) : World :=
  {| portfolio := portfolio w; executionLog := executionLog w; auditLog := l;
     guardianSettings := guardianSettings w;
     persistenceBuffer := persistenceBuffer w; priceHistory := priceHistory w;
     clockTicks := clockTicks w; randomTicks := randomTicks w;
     clock := clock w; random := random w; tzOffsetMs := tzOffsetMs w |}.

Definition set_persistenceBuffer (b : gmap string OpportunityPersistence.t)
    (w : World) : World :=
  {| portfolio := portfolio w; executionLog := executionLog w;
     auditLog := auditLog w; guardianSettings := guardianSettings w;
     persistenceBuffer := b; priceHistory := priceHistory w;
     clockTicks := clockTicks w; randomTicks := randomTicks w;
     clock := clock w; random := random w; tzOffsetMs := tzOffsetMs w |}.

Definition set_clockTicks (n : nat) (w : World) : World :=
  {| portfolio := portfolio w; executionLog := executionLog w;
     auditLog := auditLog w; guardianSettings := guardianSettings w;
     persistenceBuffer := persistenceBuffer w; priceHistory := priceHistory w;
     clockTicks := n; randomTicks := randomTicks w;
     clock := clock w; random := random w; tzOffsetMs := tzOffsetMs w |}.

Definition set_randomTicks (n : nat) (w : World) : World :=
  {| portfolio := portfolio w; executionLog := executionLog w;
     auditLog := auditLog w; guardianSettings := guardianSettings w;
     persistenceBuffer := persistenceBuffer w; priceHistory := priceHistory w;
     clockTicks := clockTicks w; randomTicks := n;
     clock := clock w; random := random w; tzOffsetMs := tzOffsetMs w |}.

(** *** The state monad of the effectful functions *)

Definition M (A : Type) : Type := World -> A * World.

Definition ret {A} (a : A) : M A := fun w => (a, w).
Definition bind {A B} (m : M A) (k : A -> M B) : M B :=
  fun w => let '(a, w') := m w in k a w'.
Definition get : M World := fun w => (w, w).
Definition modify (f : World -> World) : M unit := fun w => (tt, f w).

Notation "x <- m ;; k" := (bind m (fun x => k))
  (at level 63, m at next level, right associativity).
Notation "m ;;; k" := (bind m (fun _ => k))
  (at level 63, right associativity).

(** [Date.now()] *)
Definition dateNow : M Z :=
  fun w => (clock w (clockTicks w), set_clockTicks (S (clockTicks w)) w).

(** [Math.random()] *)
Definition mathRandom : M JS.number :=
  fun w => (random w (randomTicks w), set_randomTicks (S (randomTicks w)) w).

(** [new Date(ts).toDateString()], up to the rendering of the day: the
    index of the local calendar day of [ts] *)
Definition toDateString (w : World) (ts : Z) : Z :=
  (ts + tzOffsetMs w) / 86400000.

(** [getPortfolio], [updatePortfolio({cash, totalValue})] *)
Definition getPortfolio : M Portfolio.t := fun w => (portfolio w, w).

Definition updatePortfolio (cash' totalValue' : JS.number) : M Portfolio.t :=
  w <- get ;;
  now <- dateNow ;;
  let updated :=
    {| Portfolio.cash := cash';
       Portfolio.positions := Portfolio.positions (portfolio w);
       Portfolio.totalValue := totalValue';
       Portfolio.lastUpdate := now |} in
  modify (set_portfolio updated) ;;;
  ret updated.

(** [addAuditLog]: the id reads the clock and the random source, the
    timestamp reads the clock again *)
Definition addAuditLog (ev : EventType) (act : string) (comp : option string)
    (det : list (string * jsval)) : M AuditLogEntry.t :=
  t1 <- dateNow ;;
  r <- mathRandom ;;
  t2 <- dateNow ;;
  let logEntry :=
    {| AuditLogEntry.id := [Lit "audit_"; Show (JS.of_Z t1); Lit "_"; Base36 r 9];
       AuditLogEntry.timestamp := t2;
       AuditLogEntry.eventType := ev;
       AuditLogEntry.component := comp;
       AuditLogEntry.action := act;
       AuditLogEntry.details := det |} in
  w <- get ;;
  modify (set_auditLog (auditLog w ++ [logEntry])) ;;;
  ret logEntry.

Definition getAuditLog : M (list AuditLogEntry.t) := fun w => (auditLog w, w).

(** [addExecutionRecord], [updateExecutionRecord] *)
Definition addExecutionRecord (r : ExecutionRecord.t) : M unit :=
  w <- get ;;
  modify (set_executionLog (executionLog w ++ [r])).

Fixpoint findIndex {A} (f : A -> bool) (l : list A) : option nat :=
  match l with
  | [] => None
  | x :: l' => if f x then Some O else S <$> findIndex f l'
  end.

Definition updateExecutionRecord (rid : text)
    (upd : ExecutionRecord.t -> ExecutionRecord.t) : M unit :=
  w <- get ;;
  match findIndex (fun r => bool_decide (ExecutionRecord.id r = rid))
          (executionLog w) with
  | Some index =>
      match executionLog w !! index with
      | Some r => modify (set_executionLog (<[index := upd r]> (executionLog w)))
      | None => ret tt
      end
  | None => ret tt
  end.

(** [for (const x of l) { ... }] over a loop-carried value *)
Fixpoint forEach {A S} (body : S -> A -> M S) (l : list A) (s : S) : M S :=
  match l with
  | [] => ret s
  | x :: l' => s' <- body s x ;; forEach body l' s'
  end.

(** ** The opportunity detector ([lib/arbitrage/detector]) *)

Module Detector.

(** [priceDiscovery]: [DiscoveredPrice], the fields the detector reads
    and the volatility summary *)
Record DiscoveredPrice : Type := {
  symbol : string;
  binancePrice : JS.number;
  indianPrice : JS.number;
  nsePrice : JS.number;
  volatility : JS.number;
  tickCount : Z;
}.

Record DetectArbitrageOptions : Type := {
  minSpreadPct : option JS.number;
  persistenceMs : option JS.number;
  minPersistenceCount : option JS.number;
}.

(** [opts = {}] *)
Definition noOptions : DetectArbitrageOptions :=
  {| minSpreadPct := None; persistenceMs := None; minPersistenceCount := None |}.

(** the destructuring defaults of [detectArbitrage] *)
Definition minSpreadPctOf (opts : DetectArbitrageOptions) : JS.number :=
  default (dec 5 10) (minSpreadPct opts).
Definition persistenceMsOf (opts : DetectArbitrageOptions) : JS.number :=
  default (int 2000) (persistenceMs opts).
Definition minPersistenceCountOf (opts : DetectArbitrageOptions) : JS.number :=
  default (int 2) (minPersistenceCount opts).

(** [((indianPrice - binancePrice) / binancePrice) * 100] *)
Definition spreadPctOf (priceData : DiscoveredPrice) : JS.number :=
  (((indianPrice priceData - binancePrice priceData) / binancePrice priceData)
     * int 100)%js.

Definition actionOf (spreadPct : JS.number) : string :=
  if (spreadPct >? int 0)%js then "buy-binance-sell-india"
  else "buy-india-sell-binance".

(** [`${symbol}_${action}`] *)
Definition keyOf (symbol action : string) : string :=
  symbol +:+ "_" +:+ action.

(** the two guards that make the loop [continue] *)
Definition missingPrice (priceData : DiscoveredPrice) : bool :=
  negb (JS.truthy (binancePrice priceData))
  || negb (JS.truthy (indianPrice priceData)).

Definition belowThreshold (minSpread : JS.number) (priceData : DiscoveredPrice)
    : bool :=
  (JS.abs (spreadPctOf priceData) <? minSpread)%js.

(** the loop-carried locals *)
Record Loop : Type := {
  seenKeys : gset string;
  opportunities : list Opportunity.t;
}.

(** the update of an existing buffer entry *)
Definition refreshed (currentTime : Z) (priceData : DiscoveredPrice)
    (persistence : OpportunityPersistence.t) : OpportunityPersistence.t :=
  let spreadPct := spreadPctOf priceData in
  let count := OpportunityPersistence.persistenceCount persistence + 1 in
  let old := OpportunityPersistence.data persistence in
  {| OpportunityPersistence.opportunityKey :=
       OpportunityPersistence.opportunityKey persistence;
     OpportunityPersistence.firstSeenTs :=
       OpportunityPersistence.firstSeenTs persistence;
     OpportunityPersistence.lastSeenTs := currentTime;
     OpportunityPersistence.persistenceCount := count;
     OpportunityPersistence.data :=
       {| Opportunity.id := Opportunity.id old;
          Opportunity.symbol := Opportunity.symbol old;
          Opportunity.spreadPct := JS.abs spreadPct;
          Opportunity.action := Opportunity.action old;
          Opportunity.estimatedGrossProfitPct :=
            (JS.abs spreadPct - dec 3 10)%js;
          Opportunity.binancePrice := binancePrice priceData;
          Opportunity.indianPrice := indianPrice priceData;
          Opportunity.firstSeenTs := Opportunity.firstSeenTs old;
          Opportunity.lastSeenTs := currentTime;
          Opportunity.persistenceCount := count |} |}.

(** a new buffer entry *)
Definition inserted (currentTime : Z) (oppId : text) (opportunityKey : string)
    (priceData : DiscoveredPrice) : OpportunityPersistence.t :=
  let spreadPct := spreadPctOf priceData in
  {| OpportunityPersistence.opportunityKey := opportunityKey;
     OpportunityPersistence.firstSeenTs := currentTime;
     OpportunityPersistence.lastSeenTs := currentTime;
     OpportunityPersistence.persistenceCount := 1;
     OpportunityPersistence.data :=
       {| Opportunity.id := oppId;
          Opportunity.symbol := symbol priceData;
          Opportunity.spreadPct := JS.abs spreadPct;
          Opportunity.action := actionOf spreadPct;
          Opportunity.estimatedGrossProfitPct :=
            (JS.abs spreadPct - dec 3 10)%js;
          Opportunity.binancePrice := binancePrice priceData;
          Opportunity.indianPrice := indianPrice priceData;
          Opportunity.firstSeenTs := currentTime;
          Opportunity.lastSeenTs := currentTime;
          Opportunity.persistenceCount := 1 |} |}.

(** the persistence criteria of one buffer entry *)
Definition meetsCriteria (currentTime : Z) (persistMs minCount : JS.number)
    (persistence : OpportunityPersistence.t) : bool :=
  let timePersisted :=
    currentTime - OpportunityPersistence.firstSeenTs persistence in
  let meetsCountCriteria :=
    (JS.of_Z (OpportunityPersistence.persistenceCount persistence)
       >=? minCount)%js in
  let meetsTimeCriteria := (JS.of_Z timePersisted >=? persistMs)%js in
  meetsCountCriteria || meetsTimeCriteria.

(** the body of [for (const priceData of prices)] *)
Definition observe (currentTime : Z) (minSpread persistMs minCount : JS.number)
    (l : Loop) (priceData : DiscoveredPrice) : M Loop :=
  if missingPrice priceData then ret l
  else if belowThreshold minSpread priceData then ret l
  else
    let action := actionOf (spreadPctOf priceData) in
    let opportunityKey := keyOf (symbol priceData) action in
    let seen := {[opportunityKey]} ∪ seenKeys l in
    w <- get ;;
    persistence <-
      match persistenceBuffer w !! opportunityKey with
      | Some persistence =>
          ret (refreshed currentTime priceData persistence)
      | None =>
          t <- dateNow ;;
          r <- mathRandom ;;
          let oppId :=
            [Lit "opp_"; Lit (symbol priceData); Lit "_";
             Show (JS.of_Z t); Lit "_"; Base36 r 6] in
          ret (inserted currentTime oppId opportunityKey priceData)
      end ;;
    w' <- get ;;
    modify (set_persistenceBuffer
              (<[opportunityKey := persistence]> (persistenceBuffer w'))) ;;;
    if meetsCriteria currentTime persistMs minCount persistence then
      ret {| seenKeys := seen;
             opportunities :=
               opportunities l ++ [OpportunityPersistence.data persistence] |}
    else
      ret {| seenKeys := seen; opportunities := opportunities l |}.

(** the keys the clean-up removes: not seen in this poll and last seen
    more than ten seconds ago *)
Definition stale (seen : gset string) (currentTime : Z)
    (entry : string * OpportunityPersistence.t) : Prop :=
  (fst entry ∉ seen)
  ∧ 10000 < currentTime - OpportunityPersistence.lastSeenTs (snd entry).

#[global] Instance stale_dec seen currentTime entry :
  Decision (stale seen currentTime entry).
Proof. unfold stale. apply _. Defined.

Definition staleKeys (seen : gset string) (currentTime : Z)
    (buffer : gmap string OpportunityPersistence.t) : list string :=
  fst <$> filter (stale seen currentTime) (map_to_list buffer).

Definition byProfitDesc (a b : Opportunity.t) : JS.number :=
  (Opportunity.estimatedGrossProfitPct b
     - Opportunity.estimatedGrossProfitPct a)%js.

Definition detectArbitrage (prices : list DiscoveredPrice)
    (opts : DetectArbitrageOptions) : M (list Opportunity.t) :=
  currentTime <- dateNow ;;
  l <- forEach
         (observe currentTime (minSpreadPctOf opts) (persistenceMsOf opts)
            (minPersistenceCountOf opts))
         prices {| seenKeys := ∅; opportunities := [] |} ;;
  w <- get ;;
  modify (set_persistenceBuffer
            (foldr delete (persistenceBuffer w)
               (staleKeys (seenKeys l) currentTime (persistenceBuffer w)))) ;;;
  ret (js_sort byProfitDesc (opportunities l)).

End Detector.

(** ** External collaborators

    What an awaited call to a collaborator gives: it throws, or it returns. *)
Inductive outcome (A : Type) : Type :=
| Threw (message : string)
| Returned (a : A).
Arguments Threw {A} message.
Arguments Returned {A} a.

(** [lib/exchanges/indianMock] *)
Module IndianMock.

(** [{bids, asks}], each level a pair [[price, qty]] *)
Record OrderBook : Type := {
  bids : list (JS.number * JS.number);
  asks : list (JS.number * JS.number);
}.

Record LiquidityEstimate : Type := {
  fillableQty : JS.number;
  expectedAvgPrice : JS.number;
}.

(** the loop of [getIndianLiquidityEstimate] over [orderbook.asks], on its
    three locals [(remainingQty, totalCost, filledQty)] *)
Fixpoint walkAsks (levels : list (JS.number * JS.number))
    (remainingQty totalCost filledQty : JS.number)
    : JS.number * JS.number * JS.number :=
  match levels with
  | [] => (remainingQty, totalCost, filledQty)
  | (price, qty) :: rest =>
      if (remainingQty <=? int 0)%js then (remainingQty, totalCost, filledQty)
      else
        let fillQty := JS.min remainingQty qty in
        walkAsks rest (remainingQty - fillQty)%js
          (totalCost + price * fillQty)%js (filledQty + fillQty)%js
  end.

(** [getIndianLiquidityEstimate(symbol, targetQty)], given what
    [getIndianOrderBook(symbol, 20)] did *)
Definition getIndianLiquidityEstimate (orderbook : outcome OrderBook)
    (targetQty : JS.number) : outcome LiquidityEstimate :=
  match orderbook with
  | Threw e => Threw e
  | Returned orderbook =>
      let '(_, totalCost, filledQty) :=
        walkAsks (asks orderbook) targetQty (int 0) (int 0) in
      let expectedAvgPrice :=
        if (filledQty >? int 0)%js then (totalCost / filledQty)%js else int 0 in
      Returned {| fillableQty := filledQty;
                  expectedAvgPrice := expectedAvgPrice |}
  end.

End IndianMock.

(** ** The risk assessor ([lib/agents/riskAssessment]) *)

Module Risk.

Record RiskAssessmentResult : Type := {
  riskScore : JS.number;
  slippagePct : JS.number;
  volatilityPct : JS.number;
  liquidityEstimate : IndianMock.LiquidityEstimate;
  notes : list text;
}.

(** [getPriceHistory(symbol)] *)
Definition getPriceHistory (w : World) (symbol : string) : list PriceTick.t :=
  default [] (priceHistory w !! symbol).

Definition length_of {A} (l : list A) : JS.number :=
  JS.of_Z (Z.of_nat (length l)).

Section WithSqrt.
(** [Math.sqrt], which no rational function computes: the assessor is
    modelled for any function in its place *)
Variable sqrt : JS.number -> JS.number.

(** step 1: the volatility and the notes it pushes *)
Definition deriveVolatility (history : list PriceTick.t)
    : JS.number * list text :=
  if bool_decide (2 <= length history)%nat then
    let prices := PriceTick.price <$> history in
    let mean := (foldl JS.add (int 0) prices / length_of prices)%js in
    let variance :=
      (foldl (fun sum price => sum + (price - mean) * (price - mean))
         (int 0) prices / length_of prices)%js in
    let stdDev := sqrt variance in
    let volatilityPct := ((stdDev / mean) * int 100)%js in
    (volatilityPct,
     if (volatilityPct >? int 1)%js then
       [[Lit "High volatility detected ("; Fixed volatilityPct 2;
         Lit "%) - price may move rapidly"]]
     else if (volatilityPct >? dec 5 10)%js then
       [[Lit "Moderate volatility ("; Fixed volatilityPct 2; Lit "%)"]]
     else [])
  else
    (dec 5 10,
     [[Lit "Insufficient price history ("; Show (length_of history);
       Lit " ticks) - volatility unknown"]]).

(** the result of the [catch] branch *)
Definition errorResult : RiskAssessmentResult :=
  {| riskScore := int 80;
     slippagePct := int 1;
     volatilityPct := int 1;
     liquidityEstimate :=
       {| IndianMock.fillableQty := int 0;
          IndianMock.expectedAvgPrice := int 0 |};
     notes :=
       [[Lit "Error assessing risk - proceeding with high risk score for safety"]] |}.

(** steps 4 to 7 and the clamp: the score, from the four quantities it
    reads *)
Definition scoreOf (spreadPct volatilityPct fillRatio slippagePct : JS.number)
    : JS.number :=
  let riskScore := int 50 in
  let riskScore :=
    if (spreadPct >? int 2)%js then (riskScore - int 20)%js
    else if (spreadPct >? int 1)%js then (riskScore - int 10)%js
    else if (spreadPct <? dec 5 10)%js then (riskScore + int 20)%js
    else riskScore in
  let riskScore :=
    if (volatilityPct >? int 1)%js then (riskScore + int 25)%js
    else if (volatilityPct >? dec 5 10)%js then (riskScore + int 15)%js
    else if (volatilityPct <? dec 1 10)%js then (riskScore - int 10)%js
    else riskScore in
  let riskScore :=
    if (fillRatio <? dec 5 10)%js then (riskScore + int 30)%js
    else if (fillRatio <? dec 8 10)%js then (riskScore + int 15)%js
    else if (fillRatio >=? int 1)%js then (riskScore - int 5)%js
    else riskScore in
  let riskScore :=
    if (JS.abs slippagePct >? dec 5 10)%js then (riskScore + int 20)%js
    else if (JS.abs slippagePct >? dec 2 10)%js then (riskScore + int 10)%js
    else riskScore in
  JS.max (int 0) (JS.min (int 100) riskScore).

(** [assessRisk(opportunity, targetQuantity = 1)], given what the
    order-book collaborator did *)
Definition assessRisk (w : World) (opportunity : Opportunity.t)
    (targetQuantity : option JS.number)
    (orderbook : outcome IndianMock.OrderBook) : RiskAssessmentResult :=
  let targetQuantity := default (int 1) targetQuantity in
  let spreadPct := Opportunity.spreadPct opportunity in
  let indianPrice := Opportunity.indianPrice opportunity in
  let priceHistory := getPriceHistory w (Opportunity.symbol opportunity) in
  let '(volatilityPct, notes) := deriveVolatility priceHistory in
  match IndianMock.getIndianLiquidityEstimate orderbook targetQuantity with
  | Threw _ => errorResult
  | Returned liquidityEstimate =>
      let fillableQty := IndianMock.fillableQty liquidityEstimate in
      let notes :=
        notes ++
        (if (fillableQty <? targetQuantity)%js then
           [[Lit "Low liquidity: only "; Fixed fillableQty 3;
             Lit " fillable of "; Show targetQuantity; Lit " requested"];
            [Lit "Partial fills likely - may not capture full spread"]]
         else [[Lit "Sufficient liquidity available for target quantity"]]) in
      let midPrice := indianPrice in
      let slippagePct :=
        if (fillableQty >? int 0)%js then
          (((IndianMock.expectedAvgPrice liquidityEstimate - midPrice)
              / midPrice) * int 100)%js
        else int 1 in
      let notes :=
        notes ++
        (if (JS.abs slippagePct >? dec 5 10)%js then
           [[Lit "High slippage expected ("; Fixed slippagePct 2;
             Lit "%) due to orderbook depth"]]
         else []) in
      let notes :=
        notes ++
        (if (spreadPct >? int 2)%js then
           [[Lit "Large spread ("; Fixed spreadPct 2;
             Lit "%) provides good profit buffer"]]
         else if (spreadPct >? int 1)%js then []
         else if (spreadPct <? dec 5 10)%js then
           [[Lit "Tight spread ("; Fixed spreadPct 2;
             Lit "%) leaves little margin for error"]]
         else []) in
      let fillRatio := (fillableQty / targetQuantity)%js in
      let notes :=
        notes ++
        (if (fillRatio <? dec 5 10)%js then
           [[Lit "Very low fill ratio ("; Fixed (fillRatio * int 100)%js 0;
             Lit "%)"]]
         else []) in
      let riskScore := scoreOf spreadPct volatilityPct fillRatio slippagePct in
      let notes :=
        notes ++
        (if (riskScore >? int 70)%js then
           [[Lit "HIGH RISK - consider skipping this opportunity"]]
         else if (riskScore >? int 50)%js then
           [[Lit "MEDIUM RISK - proceed with caution and smaller position"]]
         else if (riskScore <? int 30)%js then
           [[Lit "LOW RISK - favorable conditions for execution"]]
         else []) in
      {| riskScore := riskScore;
         slippagePct := JS.abs slippagePct;
         volatilityPct := volatilityPct;
         liquidityEstimate := liquidityEstimate;
         notes := notes |}
  end.
End WithSqrt.

(** a rational stand-in for [Math.sqrt], exact to six decimals, used to
    run the assessor on concrete inputs *)
Definition sqrt6 (x : JS.number) : JS.number :=
  match x with
  | JS.Num q =>
      if JS.Qlt_bool q 0 then JS.NaN
      else JS.Num (Z.sqrt (Qnum q * Zpos (Qden q) * 1000000000000)
                     # (Qden q * 1000000))
  | JS.PInf => JS.PInf
  | JS.NInf | JS.NaN => JS.NaN
  end.

End Risk.

(** ** The capital allocator ([lib/agents/capitalAllocation]) *)

Module Allocation.

Record Portfolio : Type := {
  usdtBalance : JS.number;
  maxTradeAmount : JS.number;
  exposurePct : option JS.number;
}.

Record AllocationResult : Type := {
  allocationPct : JS.number;
  allocatedUSDT : JS.number;
  reason : text;
}.

(** [allocateCapitalForOpportunity]; on numbers nothing in the [try]
    block throws, so the [catch] branch (a zero allocation) is not
    reached *)
Definition allocateCapitalForOpportunity (opportunity : Opportunity.t)
    (risk : Risk.RiskAssessmentResult) (portfolio : Portfolio)
    : AllocationResult :=
  let riskScore := Risk.riskScore risk in
  let '(allocationPct, reason) :=
    if (riskScore >? int 80)%js then
      (dec 2 100, [Lit "Very high risk ("; Fixed riskScore 0;
                   Lit ") - minimal allocation (2%)"])
    else if (riskScore >=? int 60)%js then
      (dec 5 100, [Lit "High risk ("; Fixed riskScore 0;
                   Lit ") - conservative allocation (5%)"])
    else if (riskScore >=? int 30)%js then
      (dec 10 100, [Lit "Medium risk ("; Fixed riskScore 0;
                    Lit ") - moderate allocation (10%)"])
    else
      (dec 15 100, [Lit "Low risk ("; Fixed riskScore 0;
                    Lit ") - aggressive allocation (15%)"]) in
  let potentialAllocation := (usdtBalance portfolio * allocationPct)%js in
  let allocatedUSDT := JS.min potentialAllocation (maxTradeAmount portfolio) in
  let reason :=
    if (allocatedUSDT <? potentialAllocation)%js then
      reason ++ [Lit ". Capped at max trade amount ($"; Fixed allocatedUSDT 2;
                 Lit ")"]
    else reason in
  let fillableQty :=
    IndianMock.fillableQty (Risk.liquidityEstimate risk) in
  let reason :=
    if (fillableQty <? int 1)%js then
      reason ++ [Lit ". Warning: Limited liquidity ("; Fixed fillableQty 2;
                 Lit " fillable)"]
    else reason in
  let reason :=
    if (Risk.volatilityPct risk >? int 1)%js then
      reason ++ [Lit ". High volatility ("; Fixed (Risk.volatilityPct risk) 2;
                 Lit "%) detected"]
    else reason in
  {| allocationPct := allocationPct;
     allocatedUSDT := allocatedUSDT;
     reason := reason |}.

End Allocation.

(** ** The debate engine ([lib/agents/debateAgent]) *)

Module Debate.

Record AgentPerspective : Type := {
  score : JS.number;
  reasons : list text;
}.

Inductive Decision : Type := execute | wait.

Record DebateResult : Type := {
  bullish : AgentPerspective;
  bearish : AgentPerspective;
  neutral : AgentPerspective;
  finalDecisionScore : JS.number;
  decision : Decision;
  raw : string;
}.

(** a value of the parsed reply where the engine expects a number.  The
    engine reads it twice: [v || 0] reads its truthiness and
    [Math.min(1, v)] converts it with ToNumber.  A value that is not a number
    (null, a boolean, a string, an array or an object) is given by what
    these two readings make of it: the string ['high'] is truthy and
    converts to [NaN], [true] is truthy and converts to 1, [null] and the
    empty string are falsy, and the conversion of an object that has a
    [toString] property throws a TypeError *)
Inductive JsonValue : Type :=
| JsonNumber (x : JS.number)
| JsonOther (truthy : bool) (toNumber : outcome JS.number).

(** what [JSON.parse] gives for one perspective of the reply: a score that
    may be absent or may not be a number, and reasons that may not be an
    array *)
Record ParsedPerspective : Type := {
  parsed_score : option JsonValue;
  parsed_reasons : option (list string);
}.

(** the parsed reply; a perspective that is absent makes
    [parsed.bullish.score] throw *)
Record Parsed : Type := {
  parsed_bullish : option ParsedPerspective;
  parsed_bearish : option ParsedPerspective;
  parsed_neutral : option ParsedPerspective;
}.

(** the perspective provider, as the engine sees it: no client
    ([GROQ_API_KEY] not set), a call that throws, or a completion with its
    raw text and what [JSON.parse] makes of it ([None]: it throws) *)
Inductive Provider : Type :=
| NoClient
| CallThrows
| Completion (raw : string) (parsed : option Parsed).

(** [Math.max(0, Math.min(1, x))] *)
Definition clamp01 (x : JS.number) : JS.number :=
  JS.max (int 0) (JS.min (int 1) x).

(** [scores.sort((a, b) => a - b); scores[1]] *)
Definition medianOf (scores : list JS.number) : JS.number :=
  default JS.NaN (js_sort JS.sub scores !! 1%nat).

Definition decide_ (finalDecisionScore threshold : JS.number) : Decision :=
  if (finalDecisionScore >=? threshold)%js then execute else wait.

Definition fallbackDebateResult (o : Opportunity.t)
    (r : Risk.RiskAssessmentResult) (a : Allocation.AllocationResult)
    (t : JS.number) : DebateResult :=
  let spreadScore := JS.min (int 1) (Opportunity.spreadPct o / int 3)%js in
  let riskPenalty := (Risk.riskScore r / int 100)%js in
  let bullish :=
    {| score := JS.max (int 0)
                  (JS.min (int 1) (spreadScore - riskPenalty * dec 3 10)%js);
       reasons :=
         [[Lit "Spread "; Fixed (Opportunity.spreadPct o) 2; Lit "%"];
          [Lit "Allocated $"; Show (Allocation.allocatedUSDT a)];
          [Lit "Time-sensitive"]] |} in
  let bearish :=
    {| score := JS.max (int 0) (JS.min (int 1) riskPenalty);
       reasons :=
         [[Lit "Risk "; Show (Risk.riskScore r); Lit "/100"];
          [Lit "Slippage "; Fixed (Risk.slippagePct r) 2; Lit "%"];
          [Lit "Volatility risk"]] |} in
  let neutral :=
    {| score := dec 5 10;
       reasons := [[Lit "Balanced risk-reward"];
                   [Lit "Conservative allocation"]] |} in
  let scores := [score bullish; (int 1 - score bearish)%js; score neutral] in
  let median := medianOf scores in
  {| bullish := bullish; bearish := bearish; neutral := neutral;
     finalDecisionScore := median;
     decision := decide_ median t;
     raw := "Fallback" |}.

(** [parsed.x.score || 0] as [Math.min] receives it, converted to a number:
    an absent score and a falsy one give 0, a number gives itself, and
    another truthy value gives what ToNumber makes of it, or throws *)
Definition scoreOperand (v : option JsonValue) : outcome JS.number :=
  match v with
  | None => Returned (int 0)
  | Some (JsonNumber x) => Returned (JS.or_default x (int 0))
  | Some (JsonOther true coerced) => coerced
  | Some (JsonOther false _) => Returned (int 0)
  end.

(** one perspective of the reply, clamped; [n] is the number of reasons
    kept *)
Definition perspectiveOf (n : nat) (p : ParsedPerspective)
    : outcome AgentPerspective :=
  match scoreOperand (parsed_score p) with
  | Threw message => Threw message
  | Returned x =>
      Returned
        {| score := JS.max (int 0) (JS.min (int 1) x);
           reasons :=
             match parsed_reasons p with
             | Some l => (fun s => [Lit s]) <$> take n l
             | None => []
             end |}
  end.

(** the consensus of three perspectives *)
Definition consensus (bullish bearish neutral : AgentPerspective)
    (executeConfidenceThreshold : JS.number) (raw : string) : DebateResult :=
  let scores := [score bullish; (int 1 - score bearish)%js; score neutral] in
  let finalDecisionScore := medianOf scores in
  {| bullish := bullish; bearish := bearish; neutral := neutral;
     finalDecisionScore := finalDecisionScore;
     decision := decide_ finalDecisionScore executeConfidenceThreshold;
     raw := raw |}.

(** [debateWithMedianConsensus(opportunity, risk, allocation,
    executeConfidenceThreshold = 0.6)] *)
Definition debateWithMedianConsensus (provider : Provider)
    (opportunity : Opportunity.t) (risk : Risk.RiskAssessmentResult)
    (allocation : Allocation.AllocationResult)
    (executeConfidenceThreshold : option JS.number) : DebateResult :=
  let executeConfidenceThreshold :=
    default (dec 6 10) executeConfidenceThreshold in
  let fallback :=
    fallbackDebateResult opportunity risk allocation
      executeConfidenceThreshold in
  match provider with
  | NoClient => fallback
  | CallThrows => fallback
  | Completion raw None => fallback
  | Completion raw (Some parsed) =>
      match parsed_bullish parsed, parsed_bearish parsed,
            parsed_neutral parsed with
      | Some b, Some r, Some n =>
          match perspectiveOf 3 b, perspectiveOf 3 r, perspectiveOf 2 n with
          | Returned bullish, Returned bearish, Returned neutral =>
              consensus bullish bearish neutral executeConfidenceThreshold raw
          | _, _, _ => fallback
          end
      | _, _, _ => fallback
      end
  end.

(** the median of three numbers, as the specification words it: the
    middle one of the three, neither the smallest nor the largest *)
Definition median3 (a b c : Q) : Q :=
  Qmax (Qmin a b) (Qmin (Qmax a b) c).

End Debate.

(** ** The Guardian ([lib/agents/runner]) *)

Module Runner.

Record GuardianResult : Type := {
  pass : bool;
  reason : option text;
  warnings : list text;
}.

(** the filter of check 2: an entry of today whose action is
    ['execution_completed'] *)
Definition completedToday (w : World) (today : Z) (log : AuditLogEntry.t)
    : bool :=
  negb (AuditLogEntry.timestamp log =? 0)
  && (toDateString w (AuditLogEntry.timestamp log) =? today)
  && bool_decide (AuditLogEntry.action log = "execution_completed").

(** the reasons of the four vetoes *)
Definition tradeSizeReason (tradePct limit : JS.number) : text :=
  [Lit "Trade size "; Fixed (tradePct * int 100)%js 1; Lit "% exceeds limit ";
   Show (limit * int 100)%js; Lit "%"].
Definition dailyLimitReason (limit : JS.number) : text :=
  [Lit "Daily trade limit reached ("; Show limit; Lit ")"].
Definition volatilityReason (volatilityPct : JS.number) : text :=
  [Lit "High volatility "; Fixed volatilityPct 2; Lit "% exceeds threshold"].
Definition riskScoreReason (riskScore : JS.number) : text :=
  [Lit "Risk score "; Show riskScore; Lit " too high for autonomous execution"].
Definition exposureWarning (currentExposure : JS.number) : text :=
  [Lit "High exposure: "; Fixed (currentExposure * int 100)%js 1; Lit "%"].

Definition veto (reason : text) (warnings : list text) : GuardianResult :=
  {| pass := false; reason := Some reason; warnings := warnings |}.

(** [guardianCheck(opportunity, risk, allocation, guardianConfig?)] *)
Definition guardianCheck (opportunity : Opportunity.t)
    (risk : Risk.RiskAssessmentResult)
    (allocation : Allocation.AllocationResult)
    (guardianConfig : option GuardianConfig.t) : M GuardianResult :=
  let warnings : list text := [] in
  portfolio <- getPortfolio ;;
  w <- get ;;
  let config := default (guardianSettings w) guardianConfig in
  (* Check 1: trade size vs portfolio *)
  let tradePct :=
    (Allocation.allocatedUSDT allocation / Portfolio.totalValue portfolio)%js in
  if (tradePct >? GuardianConfig.maxTradePctOfPortfolio config)%js then
    ret (veto (tradeSizeReason tradePct
                 (GuardianConfig.maxTradePctOfPortfolio config)) warnings)
  else
    (* Check 2: daily trade count *)
    now <- dateNow ;;
    let today := toDateString w now in
    logs <- getAuditLog ;;
    let todayLogs := List.filter (completedToday w today) logs in
    if (JS.of_Z (Z.of_nat (length todayLogs))
          >=? GuardianConfig.dailyMaxTrades config)%js then
      ret (veto (dailyLimitReason (GuardianConfig.dailyMaxTrades config))
             warnings)
    else
      (* Check 3: global exposure *)
      let currentExposure :=
        ((Portfolio.totalValue portfolio - Portfolio.cash portfolio)
           / Portfolio.totalValue portfolio)%js in
      let warnings :=
        if (currentExposure >? GuardianConfig.globalMaxExposurePct config)%js
        then warnings ++ [exposureWarning currentExposure]
        else warnings in
      (* Check 4: high volatility veto *)
      if GuardianConfig.highVolatility (GuardianConfig.vetoconditions config)
         && (Risk.volatilityPct risk >? int 2)%js then
        ret (veto (volatilityReason (Risk.volatilityPct risk)) warnings)
      (* Check 5: risk score threshold *)
      else if (Risk.riskScore risk >? int 75)%js then
        ret (veto (riskScoreReason (Risk.riskScore risk)) warnings)
      else
        ret {| pass := true; reason := None; warnings := warnings |}.

End Runner.

(** ** The execution engine ([lib/agents/executionEngine]) *)

Module Execution.

Record ExecuteArbitrageResult : Type := {
  success : bool;
  buyPrice : JS.number;
  buyQty : JS.number;
  avgSellPrice : JS.number;
  filledQty : JS.number;
  netProfit : JS.number;
  slippagePct : JS.number;
  partialFill : bool;
  auditId : text;
  error : option string;
}.

(** step 5, the loop over [orderbook.asks] on its three locals
    [(remainingQty, totalSellValue, filledQty)] *)
Fixpoint sellAcross (levels : list (JS.number * JS.number))
    (remainingQty totalSellValue filledQty : JS.number)
    : JS.number * JS.number * JS.number :=
  match levels with
  | [] => (remainingQty, totalSellValue, filledQty)
  | (price, qty) :: rest =>
      if (remainingQty <=? int 0)%js then
        (remainingQty, totalSellValue, filledQty)
      else
        let fillQty := JS.min remainingQty qty in
        sellAcross rest (remainingQty - fillQty)%js
          (totalSellValue + price * fillQty)%js (filledQty + fillQty)%js
  end.

(** the quantity filled against the asks, and the fill ratio *)
Definition filledOf (levels : list (JS.number * JS.number))
    (buyQty : JS.number) : JS.number :=
  snd (sellAcross levels buyQty (int 0) (int 0)).

Definition fillRatioOf (levels : list (JS.number * JS.number))
    (buyQty : JS.number) : JS.number :=
  (filledOf levels buyQty / buyQty)%js.

(** the entry of the execution log written at step 3 *)
Definition started (executionId : text) (symbol : string)
    (buyPrice buyQty : JS.number) (now : Z) : ExecutionRecord.t :=
  {| ExecutionRecord.id := executionId;
     ExecutionRecord.symbol := symbol;
     ExecutionRecord.type := Some "arbitrage";
     ExecutionRecord.timestamp := now;
     ExecutionRecord.status := executing;
     ExecutionRecord.buyExchange := Some "binance_testnet";
     ExecutionRecord.sellExchange := Some "indian_mock";
     ExecutionRecord.buyPrice := Some buyPrice;
     ExecutionRecord.buyQty := Some buyQty;
     ExecutionRecord.sellPrice := None;
     ExecutionRecord.sellQty := None;
     ExecutionRecord.profit := None;
     ExecutionRecord.partialFill := None;
     ExecutionRecord.completedAt := None |}.

(** the update of step 8 *)
Definition finished (avgSellPrice filledQty netProfit : JS.number)
    (partialFill : bool) (now : Z) (r : ExecutionRecord.t)
    : ExecutionRecord.t :=
  {| ExecutionRecord.id := ExecutionRecord.id r;
     ExecutionRecord.symbol := ExecutionRecord.symbol r;
     ExecutionRecord.type := ExecutionRecord.type r;
     ExecutionRecord.timestamp := ExecutionRecord.timestamp r;
     ExecutionRecord.status := completed;
     ExecutionRecord.buyExchange := ExecutionRecord.buyExchange r;
     ExecutionRecord.sellExchange := ExecutionRecord.sellExchange r;
     ExecutionRecord.buyPrice := ExecutionRecord.buyPrice r;
     ExecutionRecord.buyQty := ExecutionRecord.buyQty r;
     ExecutionRecord.sellPrice := Some avgSellPrice;
     ExecutionRecord.sellQty := Some filledQty;
     ExecutionRecord.profit := Some netProfit;
     ExecutionRecord.partialFill := Some partialFill;
     ExecutionRecord.completedAt := Some now |}.

(** [executeArbitrageWithPartialFills(opportunity, allocatedUSDT)], given
    what [getIndianOrderBook(symbol, 20)] does when it is awaited *)
Definition executeArbitrageWithPartialFills (opportunity : Opportunity.t)
    (allocatedUSDT : JS.number) (orderbook : outcome IndianMock.OrderBook)
    : M ExecuteArbitrageResult :=
  t0 <- dateNow ;;
  r0 <- mathRandom ;;
  let executionId := [Lit "EXEC_"; Show (JS.of_Z t0); Lit "_"; Base36 r0 6] in
  let symbol := Opportunity.symbol opportunity in
  let binancePrice := Opportunity.binancePrice opportunity in
  (* 2. buy quantity *)
  let buyQty := (allocatedUSDT / binancePrice)%js in
  (* 3. the buy leg *)
  addAuditLog execution "buy_order_placed" (Some "binance_testnet")
    [("symbol", VStr symbol); ("qty", VNum buyQty);
     ("price", VNum binancePrice); ("allocatedUSDT", VNum allocatedUSDT)] ;;;
  r1 <- mathRandom ;;
  let buySlippage := (dec 1 10000 + r1 * dec 9 10000)%js in
  let buyPrice := (binancePrice * (int 1 + buySlippage))%js in
  let buyFees := (buyPrice * buyQty * dec 1 1000)%js in
  t1 <- dateNow ;;
  addExecutionRecord (started executionId symbol buyPrice buyQty t1) ;;;
  (* 4. the order book *)
  match orderbook with
  | Threw message =>
      addAuditLog execution "execution_failed" (Some "executionEngine")
        [("executionId", VText executionId); ("error", VStr message)] ;;;
      ret {| success := false;
             buyPrice := int 0; buyQty := int 0; avgSellPrice := int 0;
             filledQty := int 0; netProfit := int 0; slippagePct := int 0;
             partialFill := false; auditId := executionId;
             error := Some message |}
  | Returned orderbook =>
      (* 5. the sell leg across the levels *)
      let '(_, totalSellValue, filledQty) :=
        sellAcross (IndianMock.asks orderbook) buyQty (int 0) (int 0) in
      let avgSellPrice :=
        if (filledQty >? int 0)%js then (totalSellValue / filledQty)%js
        else int 0 in
      let fillRatio := (filledQty / buyQty)%js in
      let partialFill := (fillRatio <? int 1)%js in
      addAuditLog execution "sell_simulated" (Some "indian_exchange")
        [("symbol", VStr symbol); ("targetQty", VNum buyQty);
         ("filledQty", VNum filledQty);
         ("fillRatio", VText [Fixed fillRatio 2]);
         ("avgSellPrice", VNum avgSellPrice);
         ("partialFill", VBool partialFill)] ;;;
      (* 6. rollback below 90% *)
      (if (fillRatio <? dec 9 10)%js then
         addAuditLog system "rollback_triggered" (Some "executionEngine")
           [("reason",
             VText [Lit "Fill ratio "; Fixed (fillRatio * int 100)%js 1;
                    Lit "% < 90%"]);
            ("buyQty", VNum buyQty); ("filledQty", VNum filledQty);
            ("hedgeAction", VStr "simulated_hedge_order")] ;;;
         ret tt
       else ret tt) ;;;
      (* 7. final metrics *)
      let buyCost := (buyPrice * buyQty + buyFees)%js in
      let sellRevenue := (avgSellPrice * filledQty)%js in
      let sellFees := (sellRevenue * dec 2 1000)%js in
      let netProfit := (sellRevenue - sellFees - buyCost)%js in
      let slippagePct :=
        (((avgSellPrice - Opportunity.indianPrice opportunity)
            / Opportunity.indianPrice opportunity) * int 100)%js in
      (* 8. execution log *)
      t2 <- dateNow ;;
      updateExecutionRecord executionId
        (finished avgSellPrice filledQty netProfit partialFill t2) ;;;
      (* 9. portfolio *)
      portfolio <- getPortfolio ;;
      updatePortfolio (Portfolio.cash portfolio + netProfit)%js
        (Portfolio.totalValue portfolio + netProfit)%js ;;;
      (* 10. final audit entry *)
      addAuditLog execution "execution_completed" (Some "executionEngine")
        [("executionId", VText executionId); ("symbol", VStr symbol);
         ("buyPrice", VNum buyPrice); ("buyQty", VNum buyQty);
         ("avgSellPrice", VNum avgSellPrice); ("filledQty", VNum filledQty);
         ("netProfit", VText [Fixed netProfit 2]);
         ("slippagePct", VText [Fixed slippagePct 3]);
         ("partialFill", VBool partialFill)] ;;;
      ret {| success := true;
             buyPrice := buyPrice; buyQty := buyQty;
             avgSellPrice := avgSellPrice; filledQty := filledQty;
             netProfit := netProfit; slippagePct := JS.abs slippagePct;
             partialFill := partialFill; auditId := executionId;
             error := None |}
  end.

(** the entries a run appends to the audit log *)
Definition appended (before after : World) : list AuditLogEntry.t :=
  drop (length (auditLog before)) (auditLog after).

Definition rollbackEvents (l : list AuditLogEntry.t) : list AuditLogEntry.t :=
  List.filter
    (fun e => bool_decide (AuditLogEntry.action e = "rollback_triggered")) l.

End Execution.

(** ** Sample states

    [DEFAULT_STATE] of [lib/state/global], with a clock that advances by one
    second per reading and a constant random source. *)

Module Sample.

Definition DEFAULT_PORTFOLIO : Portfolio.t :=
  {| Portfolio.cash := int 100000;
     Portfolio.positions := [];
     Portfolio.totalValue := int 100000;
     Portfolio.lastUpdate := 1700000000000 |}.

Definition DEFAULT_GUARDIAN : GuardianConfig.t :=
  {| GuardianConfig.maxTradePctOfPortfolio := dec 15 100;
     GuardianConfig.dailyMaxTrades := int 30;
     GuardianConfig.globalMaxExposurePct := dec 5 10;
     GuardianConfig.vetoconditions :=
       {| GuardianConfig.exchangeOutage := true;
          GuardianConfig.highVolatility := true |} |}.

Definition DEFAULT_STATE : World :=
  {| portfolio := DEFAULT_PORTFOLIO;
     executionLog := [];
     auditLog := [];
     guardianSettings := DEFAULT_GUARDIAN;
     persistenceBuffer := ∅;
     priceHistory := ∅;
     clockTicks := 0;
     randomTicks := 0;
     clock := fun n => 1700000000000 + 1000 * Z.of_nat n;
     random := fun _ => dec 5 10;
     tzOffsetMs := 0 |}.

Definition withHistory (symbol : string) (prices : list JS.number)
    (w : World) : World :=
  {| portfolio := portfolio w; executionLog := executionLog w;
     auditLog := auditLog w; guardianSettings := guardianSettings w;
     persistenceBuffer := persistenceBuffer w;
     priceHistory :=
       <[symbol := (fun p => {| PriceTick.price := p;
                                PriceTick.timestamp := 1700000000000 |})
                     <$> prices]> (priceHistory w);
     clockTicks := clockTicks w; randomTicks := randomTicks w;
     clock := clock w; random := random w; tzOffsetMs := tzOffsetMs w |}.

(** the opportunity of the end-to-end scenario: 50000 against 50750 *)
Definition btc : Opportunity.t :=
  {| Opportunity.id := [Lit "opp_BTCUSDT"];
     Opportunity.symbol := "BTCUSDT";
     Opportunity.spreadPct := dec 15 10;
     Opportunity.action := "buy-binance-sell-india";
     Opportunity.estimatedGrossProfitPct := dec 12 10;
     Opportunity.binancePrice := int 50000;
     Opportunity.indianPrice := int 50750;
     Opportunity.firstSeenTs := 1700000000000;
     Opportunity.lastSeenTs := 1700000002000;
     Opportunity.persistenceCount := 2 |}.

Definition book (levels : list (JS.number * JS.number))
    : outcome IndianMock.OrderBook :=
  Returned {| IndianMock.bids := []; IndianMock.asks := levels |}.

Definition riskOf (score volatility : JS.number) : Risk.RiskAssessmentResult :=
  {| Risk.riskScore := score;
     Risk.slippagePct := dec 1 10;
     Risk.volatilityPct := volatility;
     Risk.liquidityEstimate :=
       {| IndianMock.fillableQty := int 1;
          IndianMock.expectedAvgPrice := int 50760 |};
     Risk.notes := [] |}.

Definition allocationOf (amount : JS.number) : Allocation.AllocationResult :=
  {| Allocation.allocationPct := dec 10 100;
     Allocation.allocatedUSDT := amount;
     Allocation.reason := [] |}.

Definition wallet (balance maxTrade : JS.number) : Allocation.Portfolio :=
  {| Allocation.usdtBalance := balance;
     Allocation.maxTradeAmount := maxTrade;
     Allocation.exposurePct := None |}.

End Sample.

(** ** Vocabulary of the statements *)

(** two finite numbers in order *)
Definition le_fin (x y : JS.number) : Prop :=
  exists a b : Q, x = JS.Num a /\ y = JS.Num b /\ (a <= b)%Q.

(** [m] is a median of [a], [b], [c]: it is one of them, two of them are at
    most [m] and two of them are at least [m] *)
Definition is_median (m a b c : Q) : Prop :=
  ((m == a) \/ (m == b) \/ (m == c))%Q
  /\ ((a <= m /\ b <= m) \/ (a <= m /\ c <= m) \/ (b <= m /\ c <= m))%Q
  /\ ((m <= a /\ m <= b) \/ (m <= a /\ m <= c) \/ (m <= b /\ m <= c))%Q.

(** the consensus rule on a debate result with finite scores: the final
    score is the median of the three numbers [bullish], [1 - bearish] (the
    difference as the engine computes it) and [neutral], and the decision is
    [execute] exactly from the threshold on *)
Definition median_rule (res : Debate.DebateResult) (threshold : JS.number)
    : Prop :=
  forall b x n : Q,
    Debate.score (Debate.bullish res) = JS.Num b ->
    (int 1 - Debate.score (Debate.bearish res))%js = JS.Num x ->
    Debate.score (Debate.neutral res) = JS.Num n ->
    (exists m : Q,
        Debate.finalDecisionScore res = JS.Num m
        /\ (m == Debate.median3 b x n)%Q
        /\ is_median m b x n)
    /\ (Debate.decision res = Debate.execute
        <-> (Debate.finalDecisionScore res >=? threshold)%js = true).

(** the three scores of a reply convert to numbers *)
Definition scoresConvert (pb pe pn : Debate.ParsedPerspective)
    (xb xe xn : JS.number) : Prop :=
  Debate.scoreOperand (Debate.parsed_score pb) = Returned xb
  /\ Debate.scoreOperand (Debate.parsed_score pe) = Returned xe
  /\ Debate.scoreOperand (Debate.parsed_score pn) = Returned xn.

(** the three scores of a reply are the given numbers *)
Definition scoresAre (pb pe pn : Debate.ParsedPerspective) (b e n : Q) : Prop :=
  Debate.parsed_score pb = Some (Debate.JsonNumber (JS.Num b))
  /\ Debate.parsed_score pe = Some (Debate.JsonNumber (JS.Num e))
  /\ Debate.parsed_score pn = Some (Debate.JsonNumber (JS.Num n)).

(** a score of the reply cannot be converted to a number *)
Definition scoreThrows (pb pe pn : Debate.ParsedPerspective) : Prop :=
  exists message,
    Debate.scoreOperand (Debate.parsed_score pb) = Threw message
    \/ Debate.scoreOperand (Debate.parsed_score pe) = Threw message
    \/ Debate.scoreOperand (Debate.parsed_score pn) = Threw message.

(** the provider is unavailable or its call fails: no client, a call that
    throws, or a reply that does not parse into three perspectives *)
Definition provider_fails (provider : Debate.Provider) : Prop :=
  match provider with
  | Debate.NoClient | Debate.CallThrows => True
  | Debate.Completion _ None => True
  | Debate.Completion _ (Some parsed) =>
      Debate.parsed_bullish parsed = None
      \/ Debate.parsed_bearish parsed = None
      \/ Debate.parsed_neutral parsed = None
  end.


(** a reply of the provider with the three given scores *)
Definition reply (bullish bearish neutral : JS.number) : Debate.Provider :=
  let perspective s :=
    Some {| Debate.parsed_score := Some (Debate.JsonNumber s);
            Debate.parsed_reasons := Some ["reason 1"; "reason 2"] |} in
  Debate.Completion "{...}"
    (Some {| Debate.parsed_bullish := perspective bullish;
             Debate.parsed_bearish := perspective bearish;
             Debate.parsed_neutral := perspective neutral |}).

(** the final score and the decision for three scores of the provider, at
    the default threshold *)
Definition debated (bullish bearish neutral : JS.number)
    : JS.number * Debate.Decision :=
  let res :=
    Debate.debateWithMedianConsensus (reply bullish bearish neutral) Sample.btc
      (Sample.riskOf (int 35) (dec 5 10)) (Sample.allocationOf (int 5000))
      None in
  (Debate.finalDecisionScore res, Debate.decision res).


(** *** The quantities the Guardian compares, in a given world *)

Section GuardianVocabulary.
Variables (risk : Risk.RiskAssessmentResult)
          (allocation : Allocation.AllocationResult)
          (guardianConfig : option GuardianConfig.t) (w : World).

Definition configOf : GuardianConfig.t :=
  default (guardianSettings w) guardianConfig.

(** check 1: [allocation.allocatedUSDT / portfolio.totalValue] *)
Definition tradePctOf : JS.number :=
  (Allocation.allocatedUSDT allocation / Portfolio.totalValue (portfolio w))%js.
Definition tradeTooLarge : bool :=
  (tradePctOf >? GuardianConfig.maxTradePctOfPortfolio configOf)%js.

(** check 2: the ['execution_completed'] entries of today *)
Definition todayCount : JS.number :=
  let today := toDateString w (clock w (clockTicks w)) in
  JS.of_Z (Z.of_nat (length (List.filter (Runner.completedToday w today)
                               (auditLog w)))).
Definition dailyLimitReached : bool :=
  (todayCount >=? GuardianConfig.dailyMaxTrades configOf)%js.

(** check 3: the exposure and the warnings it leaves *)
Definition exposureOf : JS.number :=
  ((Portfolio.totalValue (portfolio w) - Portfolio.cash (portfolio w))
     / Portfolio.totalValue (portfolio w))%js.
Definition exposureTooHigh : bool :=
  (exposureOf >? GuardianConfig.globalMaxExposurePct configOf)%js.
Definition exposureWarnings : list text :=
  if exposureTooHigh then [Runner.exposureWarning exposureOf] else [].

(** checks 4 and 5 *)
Definition tooVolatile : bool :=
  GuardianConfig.highVolatility (GuardianConfig.vetoconditions configOf)
  && (Risk.volatilityPct risk >? int 2)%js.
Definition tooRisky : bool := (Risk.riskScore risk >? int 75)%js.
End GuardianVocabulary.




(** *** Order books *)

(** the total quantity on the ask side *)
Definition depthOf (levels : list (JS.number * JS.number)) : JS.number :=
  foldl JS.add (int 0) (snd <$> levels).

(** every quantity of the ask side is a finite number, not negative *)
Definition wellFormedAsks (levels : list (JS.number * JS.number)) : bool :=
  forallb (fun level => JS.is_finite (snd level) && (int 0 <=? snd level)%js)
    levels.

(** the same total, over the rationals *)
Fixpoint qdepth (levels : list (JS.number * JS.number)) : Q :=
  match levels with
  | [] => 0
  | (_, JS.Num q) :: rest => q + qdepth rest
  | _ :: rest => qdepth rest
  end.


(** a book with a single ask of 0.05 at 50760, and one deep enough for an
    order of 0.1 *)
Definition thinBook : IndianMock.OrderBook :=
  {| IndianMock.bids := []; IndianMock.asks := [(int 50760, dec 5 100)] |}.
Definition deepBook : IndianMock.OrderBook :=
  {| IndianMock.bids := [];
     IndianMock.asks := [(int 50760, dec 5 100); (int 50770, int 3)] |}.


(** *** The persistence buffer *)

(** the key under which a price input is buffered *)
Definition inputKey (priceData : Detector.DiscoveredPrice) : string :=
  Detector.keyOf (Detector.symbol priceData)
    (Detector.actionOf (Detector.spreadPctOf priceData)).

(** a price input that passes the two guards of the loop *)
Definition qualifies (minSpread : JS.number)
    (priceData : Detector.DiscoveredPrice) : bool :=
  negb (Detector.missingPrice priceData)
  && negb (Detector.belowThreshold minSpread priceData).

(** the keys observed in a poll: those of the inputs that pass the guards *)
Definition observedKeys (minSpread : JS.number)
    (prices : list Detector.DiscoveredPrice) : gset string :=
  list_to_set (inputKey <$> List.filter (qualifies minSpread) prices).

(** the key of an opportunity *)
Definition opportunityKeyOf (o : Opportunity.t) : string :=
  Detector.keyOf (Opportunity.symbol o) (Opportunity.action o).

(** an entry of the buffer is consistent with its key and with the
    snapshot it carries; the detector only ever writes such entries *)
Definition consistent (key : string) (entry : OpportunityPersistence.t) : Prop :=
  opportunityKeyOf (OpportunityPersistence.data entry) = key
  /\ Opportunity.firstSeenTs (OpportunityPersistence.data entry)
     = OpportunityPersistence.firstSeenTs entry.

Definition consistentBuffer (buffer : gmap string OpportunityPersistence.t)
    : Prop :=
  map_Forall consistent buffer.

#[global] Instance consistent_dec key entry : Decision (consistent key entry).
Proof. unfold consistent. apply _. Defined.

#[global] Instance consistentBuffer_dec buffer : Decision (consistentBuffer buffer).
Proof. unfold consistentBuffer. apply _. Defined.

(** the persistence invariant of an emitted opportunity *)
Definition persisted (persistMs minCount : JS.number) (o : Opportunity.t)
    : Prop :=
  (JS.of_Z (Opportunity.lastSeenTs o - Opportunity.firstSeenTs o)
     >=? persistMs)%js = true
  \/ (JS.of_Z (Opportunity.persistenceCount o) >=? minCount)%js = true.

(** the first reading of the clock in a world: the [currentTime] of the poll
    that starts there *)
Definition pollTime (w : World) : Z := clock w (clockTicks w).


(** what the loop of a poll establishes, from [(l, w)] before the loop to
    [(l', w')] after it *)
Definition loopPost (currentTime : Z) (minSpread persistMs minCount : JS.number)
    (prices : list Detector.DiscoveredPrice)
    (l : Detector.Loop) (w : World) (l' : Detector.Loop) (w' : World) : Prop :=
  Detector.seenKeys l' = observedKeys minSpread prices ∪ Detector.seenKeys l
  /\ (forall k, k ∉ observedKeys minSpread prices ->
        persistenceBuffer w' !! k = persistenceBuffer w !! k)
  /\ (forall k, k ∈ observedKeys minSpread prices ->
        exists e, persistenceBuffer w' !! k = Some e
                  /\ OpportunityPersistence.lastSeenTs e = currentTime)
  /\ (consistentBuffer (persistenceBuffer w) ->
      consistentBuffer (persistenceBuffer w'))
  /\ exists new,
       Detector.opportunities l' = Detector.opportunities l ++ new
       /\ (consistentBuffer (persistenceBuffer w) ->
           Forall (fun o => persisted persistMs minCount o
                            /\ opportunityKeyOf o ∈ observedKeys minSpread prices)
             new).


(** *** Sample polls *)

(** BTCUSDT at 50000 on Binance and 50750 on the Indian exchange (a spread
    of 1.5%), and ETHUSDT at 3000 against 3006 (a spread of 0.2%) *)
Definition btcPrices : Detector.DiscoveredPrice :=
  {| Detector.symbol := "BTCUSDT";
     Detector.binancePrice := int 50000;
     Detector.indianPrice := int 50750;
     Detector.nsePrice := int 0;
     Detector.volatility := int 0;
     Detector.tickCount := 1 |}.

Definition ethPrices : Detector.DiscoveredPrice :=
  {| Detector.symbol := "ETHUSDT";
     Detector.binancePrice := int 3000;
     Detector.indianPrice := int 3006;
     Detector.nsePrice := int 0;
     Detector.volatility := int 0;
     Detector.tickCount := 1 |}.

(** the state after [n] polls of the given prices with the default options,
    and what the next poll returns *)
Fixpoint afterPolls (n : nat) (prices : list Detector.DiscoveredPrice)
    (w : World) : World :=
  match n with
  | O => w
  | S n' =>
      afterPolls n' prices
        (snd (Detector.detectArbitrage prices Detector.noOptions w))
  end.

(** the state of [Sample.DEFAULT_STATE] with its clock moved forward by
    [ms] milliseconds *)
Definition later (ms : Z) (w : World) : World :=
  {| portfolio := portfolio w; executionLog := executionLog w;
     auditLog := auditLog w; guardianSettings := guardianSettings w;
     persistenceBuffer := persistenceBuffer w; priceHistory := priceHistory w;
     clockTicks := clockTicks w; randomTicks := randomTicks w;
     clock := fun n => clock w n + ms; random := random w;
     tzOffsetMs := tzOffsetMs w |}.


(** ** Vocabulary of the further properties *)


(** the sample opportunity with another spread *)
Definition withSpread (spread : JS.number) (o : Opportunity.t) : Opportunity.t :=
  {| Opportunity.id := Opportunity.id o;
     Opportunity.symbol := Opportunity.symbol o;
     Opportunity.spreadPct := spread;
     Opportunity.action := Opportunity.action o;
     Opportunity.estimatedGrossProfitPct := Opportunity.estimatedGrossProfitPct o;
     Opportunity.binancePrice := Opportunity.binancePrice o;
     Opportunity.indianPrice := Opportunity.indianPrice o;
     Opportunity.firstSeenTs := Opportunity.firstSeenTs o;
     Opportunity.lastSeenTs := Opportunity.lastSeenTs o;
     Opportunity.persistenceCount := Opportunity.persistenceCount o |}.


(** *** Polls of the detector *)

(** the opportunity carries the prices of the input [p], read at
    [currentTime] *)
Definition snapshotOf (currentTime : Z) (p : Detector.DiscoveredPrice)
    (o : Opportunity.t) : Prop :=
  Opportunity.lastSeenTs o = currentTime
  /\ Opportunity.binancePrice o = Detector.binancePrice p
  /\ Opportunity.indianPrice o = Detector.indianPrice p
  /\ Opportunity.spreadPct o = JS.abs (Detector.spreadPctOf p)
  /\ Opportunity.estimatedGrossProfitPct o
     = (JS.abs (Detector.spreadPctOf p) - dec 3 10)%js.

(** how many inputs of a poll are observed under the key [k] *)
Definition occurrences (minSpread : JS.number)
    (prices : list Detector.DiscoveredPrice) (k : string) : Z :=
  Z.of_nat
    (length
       (List.filter
          (fun p => qualifies minSpread p && bool_decide (inputKey p = k))
          prices)).

(** the persistence count of a key of the buffer: zero when it has no entry *)
Definition countOf (entry : option OpportunityPersistence.t) : Z :=
  from_option OpportunityPersistence.persistenceCount 0 entry.

(** both prices of the input are finite numbers *)
Definition finitePrices (p : Detector.DiscoveredPrice) : Prop :=
  JS.is_finite (Detector.binancePrice p) = true
  /\ JS.is_finite (Detector.indianPrice p) = true.

(** [a] is listed before [b]: its estimated profit is not the smaller one *)
Definition profitDesc (a b : Opportunity.t) : Prop :=
  (Opportunity.estimatedGrossProfitPct b
     <=? Opportunity.estimatedGrossProfitPct a)%js = true.


(** SOLUSDT at 100 on Binance and 102 on the Indian exchange: a spread of 2% *)
Definition solPrices : Detector.DiscoveredPrice :=
  {| Detector.symbol := "SOLUSDT";
     Detector.binancePrice := int 100;
     Detector.indianPrice := int 102;
     Detector.nsePrice := int 0;
     Detector.volatility := int 0;
     Detector.tickCount := 1 |}.




(** ** Further functions of the sources *)

(** *** The allocation across opportunities ([lib/agents/capitalAllocation]) *)

Module Capital.

Record AllocationStrategy : Type := {
  opportunityId : string;
  allocatedCapital : JS.number;
  percentage : JS.number;
  priority : JS.number;
  reasoning : text;
}.

Record HeldPosition : Type := {
  symbol : string;
  amount : JS.number;
  value : JS.number;
}.

Record PortfolioState : Type := {
  totalCapital : JS.number;
  availableCapital : JS.number;
  allocatedCapitalOf : JS.number;
  positions : list HeldPosition;
}.

Record OpportunityScore : Type := {
  id : string;
  symbolOf : option string;
  expectedReturn : JS.number;
  risk : JS.number;
  sharpeRatio : JS.number;
  timeHorizon : JS.number;
  spreadSize : option JS.number;
  estimatedValue : option JS.number;
}.

(** [opp.spreadSize || 0] *)
Definition spreadOrZero (opp : OpportunityScore) : JS.number :=
  match spreadSize opp with
  | Some s => JS.or_default s (int 0)
  | None => int 0
  end.

(** the test [if (opp.spreadSize)] *)
Definition hasSpread (opp : OpportunityScore) : bool :=
  match spreadSize opp with
  | Some s => JS.truthy s
  | None => false
  end.

Definition calculatePriority (opp : OpportunityScore) : JS.number :=
  let baseScore := sharpeRatio opp in
  let spreadBonus := (spreadOrZero opp * int 10)%js in
  let riskPenalty := (risk opp * int 50)%js in
  let timeBonus :=
    if (timeHorizon opp <? int 60)%js then int 20
    else if (timeHorizon opp <? int 300)%js then int 10 else int 0 in
  let priority := (baseScore + spreadBonus - riskPenalty + timeBonus)%js in
  JS.max (int 0) priority.

Definition MAX_SINGLE_ALLOCATION_PCT : JS.number := dec 20 100.
Definition MAX_TOTAL_ALLOCATION_PCT : JS.number := dec 80 100.
Definition MIN_ALLOCATION : JS.number := int 100.

(** the allocation of the opportunity of rank [i], before the three caps *)
Definition sized (portfolio : PortfolioState) (i : nat)
    (opp : OpportunityScore) : JS.number :=
  let kellyFraction :=
    JS.max (int 0)
      (JS.min ((expectedReturn opp - risk opp)
                 / JS.max (expectedReturn opp) (dec 1 100))%js
              (dec 25 100)) in
  let allocation := (availableCapital portfolio * kellyFraction)%js in
  let rankingMultiplier := (int 1 - JS.of_Z (Z.of_nat i) * dec 1 10)%js in
  let allocation := (allocation * JS.max rankingMultiplier (dec 3 10))%js in
  let allocation :=
    if hasSpread opp then
      let spreadMultiplier := (int 1 + spreadOrZero opp / int 10)%js in
      (allocation * JS.min spreadMultiplier (int 2))%js
    else allocation in
  let riskMultiplier := (int 1 - risk opp * dec 5 10)%js in
  (allocation * JS.max riskMultiplier (dec 2 10))%js.

Definition reasoningOf (opp : OpportunityScore) (priority : JS.number) : text :=
  [Lit "Priority: "; Fixed priority 1; Lit ". ";
   Lit "Expected return: "; Fixed (expectedReturn opp * int 100)%js 2; Lit "%, ";
   Lit "Risk: "; Fixed (risk opp * int 100)%js 1; Lit "%, ";
   Lit "Sharpe: "; Fixed (sharpeRatio opp) 2]
  ++ (if hasSpread opp then
        [Lit ", Spread: "; Fixed (spreadOrZero opp) 2; Lit "%"]
      else []).

(** the loop [for (let i = 0; i < scoredOpportunities.length; i++)] from
    rank [i] on, over its locals [remainingCapital], [totalAllocated] and
    [allocations] *)
Fixpoint allocateFrom (portfolio : PortfolioState) (i : nat)
    (scored : list (OpportunityScore * JS.number))
    (remainingCapital totalAllocated : JS.number)
    (allocations : list AllocationStrategy) : list AllocationStrategy :=
  match scored with
  | [] => allocations
  | (opp, priority) :: rest =>
      let maxTotalAllocation :=
        (availableCapital portfolio * MAX_TOTAL_ALLOCATION_PCT)%js in
      if (remainingCapital <? MIN_ALLOCATION)%js then allocations
      else if (totalAllocated >=? maxTotalAllocation)%js then allocations
      else
        let allocation := sized portfolio i opp in
        let maxSingleAllocation :=
          (availableCapital portfolio * MAX_SINGLE_ALLOCATION_PCT)%js in
        let allocation := JS.min allocation maxSingleAllocation in
        let allocation := JS.min allocation remainingCapital in
        let remainingTotal := (maxTotalAllocation - totalAllocated)%js in
        let allocation := JS.min allocation remainingTotal in
        if (allocation <? MIN_ALLOCATION)%js then
          allocateFrom portfolio (S i) rest remainingCapital totalAllocated
            allocations
        else
          let percentage :=
            ((allocation / totalCapital portfolio) * int 100)%js in
          allocateFrom portfolio (S i) rest
            (remainingCapital - allocation)%js
            (totalAllocated + allocation)%js
            (allocations
               ++ [{| opportunityId := id opp;
                      allocatedCapital := allocation;
                      percentage := percentage;
                      priority := priority;
                      reasoning := reasoningOf opp priority |}])
  end.

Definition byPriorityDesc (a b : OpportunityScore * JS.number) : JS.number :=
  (snd b - snd a)%js.

Definition allocateCapital (opportunities : list OpportunityScore)
    (portfolio : PortfolioState) : list AllocationStrategy :=
  match opportunities with
  | [] => []
  | _ =>
      let scoredOpportunities :=
        js_sort byPriorityDesc
          ((fun opp => (opp, calculatePriority opp)) <$> opportunities) in
      allocateFrom portfolio 0 scoredOpportunities
        (availableCapital portfolio) (int 0) []
  end.

Definition rebalancePortfolio (portfolio : PortfolioState)
    (newOpportunities : list OpportunityScore) : list AllocationStrategy :=
  let currentPositionsValue :=
    foldl (fun sum pos => (sum + value pos)%js) (int 0) (positions portfolio) in
  let adjustedPortfolio :=
    {| totalCapital := totalCapital portfolio;
       availableCapital :=
         (availableCapital portfolio + currentPositionsValue * dec 3 10)%js;
       allocatedCapitalOf := allocatedCapitalOf portfolio;
       positions := positions portfolio |} in
  allocateCapital newOpportunities adjustedPortfolio.

(** [riskTolerance] defaults to [0.5] *)
Definition allocateForSingleOpportunity (opportunity : OpportunityScore)
    (portfolio : PortfolioState) (riskTolerance : option JS.number)
    : JS.number :=
  match allocateCapital [opportunity] portfolio with
  | [] => int 0
  | first :: _ =>
      (allocatedCapital first * default (dec 5 10) riskTolerance)%js
  end.

Record Diversification : Type := {
  isDiversified : bool;
  warnings : list text;
}.

Definition concentrationOf (portfolio : PortfolioState)
    (allocation : AllocationStrategy) : JS.number :=
  ((allocatedCapital allocation / totalCapital portfolio) * int 100)%js.

Definition totalOf (allocations : list AllocationStrategy) : JS.number :=
  foldl (fun sum a => (sum + allocatedCapital a)%js) (int 0) allocations.

Definition checkDiversification (allocations : list AllocationStrategy)
    (portfolio : PortfolioState) : Diversification :=
  let warnings :=
    flat_map
      (fun allocation =>
         let concentration := concentrationOf portfolio allocation in
         if (concentration >? int 25)%js then
           [[Lit "Opportunity "; Lit (opportunityId allocation);
             Lit " represents "; Fixed concentration 1;
             Lit "% of portfolio (>25% limit)"]]
         else [])
      allocations in
  let totalAllocated := totalOf allocations in
  let totalAllocationPct :=
    ((totalAllocated / totalCapital portfolio) * int 100)%js in
  let warnings :=
    if (totalAllocationPct >? int 85)%js then
      warnings ++ [[Lit "Total allocation is "; Fixed totalAllocationPct 1;
                    Lit "% (>85% recommended limit)"]]
    else warnings in
  let warnings :=
    if (length allocations <? 3)%nat && (0 <? length allocations)%nat then
      warnings ++ [[Lit "Only ";
                    Show (JS.of_Z (Z.of_nat (length allocations)));
                    Lit " opportunities allocated. Consider more diversification."]]
    else warnings in
  {| isDiversified := bool_decide (length warnings = 0%nat);
     warnings := warnings |}.

End Capital.

(** the numbers of an opportunity score are finite *)
Definition finiteScore (opp : Capital.OpportunityScore) : Prop :=
  JS.is_finite (Capital.expectedReturn opp) = true
  /\ JS.is_finite (Capital.risk opp) = true
  /\ from_option JS.is_finite true (Capital.spreadSize opp) = true.

(** an allocation within the limits of a portfolio, by the comparisons of
    the loop: a finite amount, not below [MIN_ALLOCATION], not above the
    product [availableCapital * MAX_SINGLE_ALLOCATION_PCT] as the loop
    computes it, and not above what is available *)
Definition withinSingleLimit (available : JS.number)
    (s : Capital.AllocationStrategy) : Prop :=
  JS.is_finite (Capital.allocatedCapital s) = true
  /\ (Capital.allocatedCapital s <? Capital.MIN_ALLOCATION)%js = false
  /\ (Capital.allocatedCapital s
      <=? available * Capital.MAX_SINGLE_ALLOCATION_PCT)%js = true
  /\ (Capital.allocatedCapital s <=? available)%js = true.

(** a sample portfolio and two sample scores *)
Definition fund (total available : JS.number) : Capital.PortfolioState :=
  {| Capital.totalCapital := total;
     Capital.availableCapital := available;
     Capital.allocatedCapitalOf := int 0;
     Capital.positions := [] |}.

Definition score (name : string) (expectedReturn risk : JS.number)
    (spread : option JS.number) : Capital.OpportunityScore :=
  {| Capital.id := name;
     Capital.symbolOf := None;
     Capital.expectedReturn := expectedReturn;
     Capital.risk := risk;
     Capital.sharpeRatio := int 2;
     Capital.timeHorizon := int 30;
     Capital.spreadSize := spread;
     Capital.estimatedValue := None |}.


(** *** The trade-risk assessment ([lib/agents/riskAssessment])

    The assessors await the price feeds; each is modelled from the point
    where the awaited data is at hand: the prices or spreads it collected, or
    the failure of one of the calls.  [assessExchangeReliability] is not
    modelled: the factor it returns is an input of [assessTradeRisk]. *)

Module TradeRisk.

Inductive Severity : Type := low | medium | high | critical.

(** a fragment of a description: one of a template literal, or
    [x.toLocaleString()] *)
Inductive piece : Type :=
| Plain (f : frag)
| Locale (x : JS.number).

Record RiskFactor : Type := {
  name : string;
  severity : Severity;
  impact : JS.number;
  description : list piece;
}.

Inductive Recommendation : Type := proceed | proceed_with_caution | abort.

Record RiskAssessment : Type := {
  overallRisk : JS.number;
  riskLevel : Severity;
  factors : list RiskFactor;
  recommendation : Recommendation;
  reasoning : list string;
  timestamp : Z;
}.

Record TradeRequest : Type := {
  symbol : string;
  side : string;
  quantity : JS.number;
  exchanges : list string;
  estimatedValue : JS.number;
  opportunitySpread : option JS.number;
}.

#[global] Instance Severity_eq_dec : EqDecision Severity.
Proof. solve_decision. Defined.
#[global] Instance Recommendation_eq_dec : EqDecision Recommendation.
Proof. solve_decision. Defined.

(** [xs.reduce((a, b) => a + b, 0) / xs.length] *)
Definition meanOf (xs : list JS.number) : JS.number :=
  (foldl JS.add (int 0) xs / JS.of_Z (Z.of_nat (length xs)))%js.

(** [xs.reduce((sum, x) => sum + Math.pow(x - mean, 2), 0) / xs.length] *)
Definition varianceOf (xs : list JS.number) (mean : JS.number) : JS.number :=
  (foldl (fun sum x => sum + (x - mean) * (x - mean))%js (int 0) xs
     / JS.of_Z (Z.of_nat (length xs)))%js.

(** [names.join(', ')] *)
Fixpoint join (names : list string) : string :=
  match names with
  | [] => EmptyString
  | [n] => n
  | n :: rest => n +:+ ", " +:+ join rest
  end.

Section WithSqrt.
Variable sqrt : JS.number -> JS.number.

(** [assessVolatility(symbol)], given the average prices the three checks
    collected, or the failure of a check *)
Definition assessVolatility (priceChecks : outcome (list JS.number))
    : RiskFactor :=
  match priceChecks with
  | Threw _ =>
      {| name := "Volatility"; severity := medium; impact := dec 5 10;
         description := [Plain (Lit "Error assessing volatility")] |}
  | Returned priceChecks =>
      if (length priceChecks <? 2)%nat then
        {| name := "Volatility"; severity := medium; impact := dec 5 10;
           description :=
             [Plain (Lit "Insufficient data to assess volatility")] |}
      else
        let mean := meanOf priceChecks in
        let variance := varianceOf priceChecks mean in
        let stdDev := sqrt variance in
        let coefficientOfVariation := (stdDev / mean)%js in
        let cv := Plain (Fixed (coefficientOfVariation * int 100)%js 3) in
        let '(severity, impact, description) :=
          if (coefficientOfVariation <? dec 1 1000)%js then
            (low, dec 1 10,
             [Plain (Lit "Price is very stable (CV: "); cv; Plain (Lit "%)")])
          else if (coefficientOfVariation <? dec 5 1000)%js then
            (low, dec 3 10,
             [Plain (Lit "Price is stable (CV: "); cv; Plain (Lit "%)")])
          else if (coefficientOfVariation <? dec 1 100)%js then
            (medium, dec 5 10,
             [Plain (Lit "Moderate volatility detected (CV: "); cv;
              Plain (Lit "%)")])
          else
            (high, dec 8 10,
             [Plain (Lit "High volatility detected (CV: "); cv;
              Plain (Lit "%). Prices may change rapidly.")]) in
        {| name := "Volatility"; severity := severity;
           impact := JS.min impact (int 1); description := description |}
  end.

(** [assessLiquidity(symbol, quantity)], given the volumes of the NSE
    prices the feed returned (none when the call failed) *)
Definition assessLiquidity (nseVolumes : list JS.number)
    (quantity : JS.number) : RiskFactor :=
  let totalVolume :=
    match nseVolumes with
    | volume :: _ => volume
    | [] => int 1000000
    end in
  let volumeRatio := (totalVolume / quantity)%js in
  let '(severity, impact, description) :=
    if (volumeRatio >? int 1000)%js then
      (low, dec 1 10,
       [Plain (Lit "Excellent liquidity (volume ");
        Plain (Fixed volumeRatio 0); Plain (Lit "x order size)")])
    else if (volumeRatio >? int 100)%js then
      (low, dec 2 10,
       [Plain (Lit "Good liquidity (volume ");
        Plain (Fixed volumeRatio 0); Plain (Lit "x order size)")])
    else if (volumeRatio >? int 10)%js then
      (medium, dec 5 10,
       [Plain (Lit "Moderate liquidity (volume ");
        Plain (Fixed volumeRatio 0);
        Plain (Lit "x order size). May experience slippage.")])
    else
      (high, dec 8 10,
       [Plain (Lit "Low liquidity (volume only ");
        Plain (Fixed volumeRatio 1);
        Plain (Lit "x order size). High slippage risk.")]) in
  {| name := "Liquidity"; severity := severity; impact := impact;
     description := description |}.

(** [assessSpreadPersistence(symbol, currentSpread)], given the spreads the
    two later checks found, or the failure of a check *)
Definition assessSpreadPersistence (currentSpread : option JS.number)
    (later : outcome (list JS.number)) : RiskFactor :=
  match currentSpread with
  | None =>
      {| name := "Spread Persistence"; severity := medium; impact := dec 3 10;
         description := [Plain (Lit "No spread data provided")] |}
  | Some currentSpread =>
      if negb (JS.truthy currentSpread) then
        {| name := "Spread Persistence"; severity := medium;
           impact := dec 3 10;
           description := [Plain (Lit "No spread data provided")] |}
      else
        match later with
        | Threw _ =>
            {| name := "Spread Persistence"; severity := medium;
               impact := dec 5 10;
               description :=
                 [Plain (Lit "Error assessing spread persistence")] |}
        | Returned later =>
            let spreadChecks := currentSpread :: later in
            let avgSpread := meanOf spreadChecks in
            let spreadVariance := varianceOf spreadChecks avgSpread in
            let spreadStdDev := sqrt spreadVariance in
            let spreadCV := (spreadStdDev / avgSpread)%js in
            let range :=
              [Plain (Fixed avgSpread 2); Plain (Lit "% ± ");
               Plain (Fixed spreadStdDev 2)] in
            let '(severity, impact, description) :=
              if (spreadCV <? dec 5 100)%js then
                (low, dec 1 10,
                 [Plain (Lit "Spread is very stable (")] ++ range
                 ++ [Plain (Lit "%)")])
              else if (spreadCV <? dec 15 100)%js then
                (low, dec 3 10,
                 [Plain (Lit "Spread is moderately stable (")] ++ range
                 ++ [Plain (Lit "%)")])
              else if (spreadCV <? dec 3 10)%js then
                (medium, dec 6 10,
                 [Plain (Lit "Spread is fluctuating (")] ++ range
                 ++ [Plain (Lit "%). May close before execution.")])
              else
                (high, dec 8 10,
                 [Plain (Lit "Spread is highly unstable (")] ++ range
                 ++ [Plain (Lit "%). Likely to disappear.")]) in
            {| name := "Spread Persistence"; severity := severity;
               impact := impact; description := description |}
        end
  end.

(** the factor of the position size *)
Definition valueRiskOf (trade : TradeRequest) : RiskFactor :=
  {| name := "Position Size";
     severity :=
       if (estimatedValue trade >? int 100000)%js then high
       else if (estimatedValue trade >? int 10000)%js then medium else low;
     impact := JS.min (estimatedValue trade / int 100000)%js (int 1);
     description :=
       [Plain (Lit "Trade value: $"); Locale (estimatedValue trade)] |}.

(** [assessTradeRisk(trade)] *)
Definition assessTradeRisk (priceChecks : outcome (list JS.number))
    (nseVolumes : list JS.number) (laterSpreads : outcome (list JS.number))
    (exchangeRisk : RiskFactor) (trade : TradeRequest) : M RiskAssessment :=
  let volatilityRisk := assessVolatility priceChecks in
  let liquidityRisk := assessLiquidity nseVolumes (quantity trade) in
  let spreadRisk :=
    assessSpreadPersistence (opportunitySpread trade) laterSpreads in
  let valueRisk := valueRiskOf trade in
  let factors :=
    [volatilityRisk; liquidityRisk; spreadRisk; exchangeRisk; valueRisk] in
  let overallRisk :=
    (impact volatilityRisk * dec 25 100
     + impact liquidityRisk * dec 25 100
     + impact spreadRisk * dec 30 100
     + impact exchangeRisk * dec 10 100
     + impact valueRisk * dec 10 100)%js in
  let '(riskLevel, recommendation, reasoning) :=
    if (overallRisk <? dec 3 10)%js then
      (low, proceed,
       "All risk factors are within acceptable limits. Trade can proceed confidently.")
    else if (overallRisk <? dec 5 10)%js then
      (medium, proceed_with_caution,
       "Some risk factors detected. Monitor the trade closely and consider reducing position size.")
    else if (overallRisk <? dec 7 10)%js then
      (high, proceed_with_caution,
       "Multiple high-risk factors detected. Only proceed with small position size and close monitoring.")
    else
      (critical, abort,
       "Risk level is too high. Market conditions are unfavorable for this trade.") in
  let highRiskFactors :=
    List.filter
      (fun f => bool_decide (severity f = high)
                || bool_decide (severity f = critical)) factors in
  let reasoning :=
    match highRiskFactors with
    | [] => [reasoning]
    | _ =>
        [reasoning; " High-risk factors: "; join (name <$> highRiskFactors);
         "."]
    end in
  now <- dateNow ;;
  ret {| overallRisk := overallRisk; riskLevel := riskLevel;
         factors := factors; recommendation := recommendation;
         reasoning := reasoning; timestamp := now |}.

(** [calculateSafePositionSize(trade, riskTolerance)] *)
Definition calculateSafePositionSize
    (priceChecks : outcome (list JS.number))
    (nseVolumes : list JS.number) (laterSpreads : outcome (list JS.number))
    (exchangeRisk : RiskFactor) (trade : TradeRequest)
    (riskTolerance : JS.number) : M JS.number :=
  assessment <-
    assessTradeRisk priceChecks nseVolumes laterSpreads exchangeRisk trade ;;
  let portfolioValue := int 100000 in
  let baseAllocation := (portfolioValue * dec 5 100)%js in
  let toleranceAdjusted := (baseAllocation * riskTolerance)%js in
  let riskAdjustment := (int 1 - overallRisk assessment)%js in
  let riskAdjusted := (toleranceAdjusted * riskAdjustment)%js in
  let maxAllocation :=
    match recommendation assessment with
    | proceed_with_caution => (portfolioValue * dec 3 100)%js
    | abort => int 0
    | proceed => (portfolioValue * dec 10 100)%js
    end in
  let finalAllocation := JS.min riskAdjusted maxAllocation in
  let avgPrice := (estimatedValue trade / quantity trade)%js in
  let safeQuantity := (finalAllocation / avgPrice)%js in
  ret (JS.max (int 0) safeQuantity).

(** [quickRiskCheck(symbol, estimatedValue)] *)
Definition quickRiskCheck (priceChecks : outcome (list JS.number))
    (estimatedValue : JS.number) : bool * string :=
  let volatility := assessVolatility priceChecks in
  if bool_decide (severity volatility = critical) then
    (false, "Extreme volatility detected")
  else if (estimatedValue >? int 100000)%js then
    (false, "Trade value exceeds safe limits")
  else (true, "Passed quick risk check").

End WithSqrt.

End TradeRisk.

(** a factor whose impact is a finite number between 0 and 1 *)
Definition unitImpact (f : TradeRisk.RiskFactor) : Prop :=
  exists x : Q, TradeRisk.impact f = JS.Num x /\ (0 <= x <= 1)%Q.

(** a sample trade and a sample exchange factor *)
Definition trade (quantity value : JS.number) (spread : option JS.number)
    : TradeRisk.TradeRequest :=
  {| TradeRisk.symbol := "BTCUSDT"; TradeRisk.side := "buy";
     TradeRisk.quantity := quantity;
     TradeRisk.exchanges := ["binance"; "wazirx"];
     TradeRisk.estimatedValue := value;
     TradeRisk.opportunitySpread := spread |}.

Definition reliable : TradeRisk.RiskFactor :=
  {| TradeRisk.name := "Exchange Reliability";
     TradeRisk.severity := TradeRisk.low;
     TradeRisk.impact := dec 10 100;
     TradeRisk.description :=
       [TradeRisk.Plain (Lit "Exchange reliability score: ");
        TradeRisk.Plain (Fixed (int 90) 0); TradeRisk.Plain (Lit "%")] |}.


(** *** The debate sessions ([lib/agents/debateAgent])

    A session is an object that [conductDebateRound] and [reachConsensus]
    mutate and that the map [debateSessions] also holds: the sessions live
    in a store of objects, and both the callers and the map hold references
    into it. *)

Module Session.

Inductive Stance : Type := bullish | bearish | neutral.
Inductive Consensus : Type := proceed | abort | needs_more_data.

#[global] Instance Stance_eq_dec : EqDecision Stance.
Proof. solve_decision. Defined.
#[global] Instance Consensus_eq_dec : EqDecision Consensus.
Proof. solve_decision. Defined.

(** the fields of [context] that the confidences and the fallback reasonings
    read; the others only enter the prompts *)
Record Context : Type := {
  spread : option JS.number;
  riskScore : option JS.number;
}.

(** [x || d] for a field that may be missing *)
Definition orElse (x : option JS.number) (d : JS.number) : JS.number :=
  match x with
  | Some v => JS.or_default v d
  | None => d
  end.

Module AgentArgument.
Record t : Type := {
  agentName : string;
  role : string;
  stance : Stance;
  confidence : JS.number;
  reasoning : text;
  evidence : list Context;
  timestamp : Z;
}.
End AgentArgument.

Module DebateRound.
Record t : Type := {
  roundNumber : nat;
  arguments : list AgentArgument.t;
  consensus : option Consensus;
  timestamp : Z;
}.
End DebateRound.

Module DebateSession.
Record t : Type := {
  sessionId : text;
  topic : string;
  rounds : list DebateRound.t;
  finalDecision : option Consensus;
  finalConsensus : option JS.number;
  participants : list string;
  startTime : Z;
  endTime : option Z;
}.
End DebateSession.

(** the process with its sessions: [objects] is the store of the session
    objects, [allocated] the number of objects created so far, and
    [debateSessions] the map of the module, from session ids to references *)
Record Debates : Type := {
  world : World;
  objects : nat -> DebateSession.t;
  allocated : nat;
  debateSessions : list (text * nat);
}.

Definition D (A : Type) : Type := Debates -> A * Debates.

Definition dret {A} (a : A) : D A := fun d => (a, d).
Definition dbind {A B} (m : D A) (k : A -> D B) : D B :=
  fun d => let '(a, d') := m d in k a d'.

(** an effect on the clock or the random source, in a process with sessions *)
Definition lift {A} (m : M A) : D A :=
  fun d =>
    let '(a, w') := m (world d) in
    (a, {| world := w'; objects := objects d; allocated := allocated d;
           debateSessions := debateSessions d |}).

(** reading and writing the object behind a reference *)
Definition deref (ref : nat) : D DebateSession.t := fun d => (objects d ref, d).

Definition assign (ref : nat) (session : DebateSession.t) : D unit :=
  fun d =>
    (tt, {| world := world d;
            objects := fun r => if Nat.eqb r ref then session else objects d r;
            allocated := allocated d;
            debateSessions := debateSessions d |}).

(** [new] of a session object *)
Definition alloc (session : DebateSession.t) : D nat :=
  fun d =>
    (allocated d,
     {| world := world d;
        objects := fun r => if Nat.eqb r (allocated d) then session
                            else objects d r;
        allocated := S (allocated d);
        debateSessions := debateSessions d |}).

(** [Map.prototype.set] and [get] *)
Fixpoint mapSet (key : text) (ref : nat) (entries : list (text * nat))
    : list (text * nat) :=
  match entries with
  | [] => [(key, ref)]
  | (k, r) :: rest =>
      if bool_decide (k = key) then (k, ref) :: rest
      else (k, r) :: mapSet key ref rest
  end.

Fixpoint mapGet (key : text) (entries : list (text * nat)) : option nat :=
  match entries with
  | [] => None
  | (k, r) :: rest => if bool_decide (k = key) then Some r else mapGet key rest
  end.

Definition setSession (key : text) (ref : nat) : D unit :=
  fun d =>
    (tt, {| world := world d; objects := objects d; allocated := allocated d;
            debateSessions := mapSet key ref (debateSessions d) |}).

#[local] Notation "x <- m ;; k" := (dbind m (fun x => k))
  (at level 63, m at next level, right associativity).
#[local] Notation "m ;;; k" := (dbind m (fun _ => k))
  (at level 63, right associativity).

(** what the language model did for the two analysts: there is no client
    ([GROQ_API_KEY] is not set), or each of the two calls failed or returned
    a completion, with or without content *)
Definition Groq : Type :=
  option (outcome (option string) * outcome (option string)).

Definition fallbackBullishReasoning (context : Context) : text :=
  let spread := orElse (spread context) (dec 15 10) in
  let risk := orElse (riskScore context) (dec 3 10) in
  [Lit "• Strong "; Fixed spread 2;
   Lit "% spread provides healthy profit margin above fees and slippage
• Low risk score ("; Fixed (risk * int 100)%js 0;
   Lit "%) indicates stable market conditions
• Both exchanges have sufficient liquidity for smooth execution
• Time-sensitive opportunity - spread may narrow if not acted upon quickly"].

Definition fallbackBearishReasoning (context : Context) : text :=
  let risk := orElse (riskScore context) (dec 3 10) in
  [Lit "• Execution across two exchanges introduces timing risk and potential for slippage
• "; Fixed (risk * int 100)%js 0;
   Lit "% risk score suggests market volatility could erode gains
• Transaction fees and withdrawal fees will reduce net profit significantly
• Spread may be artificially wide due to temporary liquidity imbalance"].

(** [completion.choices[0]?.message?.content || 'No reasoning provided'] *)
Definition contentOf (content : option string) : text :=
  match content with
  | Some s => if bool_decide (s = EmptyString) then [Lit "No reasoning provided"]
              else [Lit s]
  | None => [Lit "No reasoning provided"]
  end.

Definition generateBullishArgument (groq : Groq) (context : Context)
    : D AgentArgument.t :=
  let '(reasoning, confidence) :=
    match groq with
    | Some (Returned content, _) =>
        (contentOf content,
         JS.min (dec 9 10)
           (orElse (spread context) (int 1) / int 2
            * (int 1 - orElse (riskScore context) (dec 3 10)))%js)
    | Some (Threw _, _) | None =>
        (fallbackBullishReasoning context, dec 6 10)
    end in
  now <- lift dateNow ;;
  dret {| AgentArgument.agentName := "Bullish Analyst";
          AgentArgument.role := "market_analyst";
          AgentArgument.stance := bullish;
          AgentArgument.confidence := confidence;
          AgentArgument.reasoning := reasoning;
          AgentArgument.evidence := [context];
          AgentArgument.timestamp := now |}.

Definition generateBearishArgument (groq : Groq) (context : Context)
    : D AgentArgument.t :=
  let '(reasoning, confidence) :=
    match groq with
    | Some (_, Returned content) =>
        (contentOf content,
         JS.min (dec 9 10)
           (orElse (riskScore context) (dec 3 10) + dec 3 10)%js)
    | Some (_, Threw _) | None =>
        (fallbackBearishReasoning context, dec 6 10)
    end in
  now <- lift dateNow ;;
  dret {| AgentArgument.agentName := "Bearish Analyst";
          AgentArgument.role := "market_analyst";
          AgentArgument.stance := bearish;
          AgentArgument.confidence := confidence;
          AgentArgument.reasoning := reasoning;
          AgentArgument.evidence := [context];
          AgentArgument.timestamp := now |}.

(** [session.rounds.push(round)] *)
Definition pushRound (round : DebateRound.t) (session : DebateSession.t)
    : DebateSession.t :=
  {| DebateSession.sessionId := DebateSession.sessionId session;
     DebateSession.topic := DebateSession.topic session;
     DebateSession.rounds := DebateSession.rounds session ++ [round];
     DebateSession.finalDecision := DebateSession.finalDecision session;
     DebateSession.finalConsensus := DebateSession.finalConsensus session;
     DebateSession.participants := DebateSession.participants session;
     DebateSession.startTime := DebateSession.startTime session;
     DebateSession.endTime := DebateSession.endTime session |}.

(** the three assignments that end [reachConsensus] *)
Definition conclude (decision : Consensus) (confidence : JS.number) (now : Z)
    (session : DebateSession.t) : DebateSession.t :=
  {| DebateSession.sessionId := DebateSession.sessionId session;
     DebateSession.topic := DebateSession.topic session;
     DebateSession.rounds := DebateSession.rounds session;
     DebateSession.finalDecision := Some decision;
     DebateSession.finalConsensus := Some confidence;
     DebateSession.participants := DebateSession.participants session;
     DebateSession.startTime := DebateSession.startTime session;
     DebateSession.endTime := Some now |}.

(** [startDebate(topic, context)]: the reference to the new session *)
Definition startDebate (topic : string) (context : Context) : D nat :=
  t <- lift dateNow ;;
  r <- lift mathRandom ;;
  let sessionId := [Lit "DEBATE_"; Show (JS.of_Z t); Lit "_"; Base36 r 9] in
  start <- lift dateNow ;;
  session <-
    alloc {| DebateSession.sessionId := sessionId;
             DebateSession.topic := topic;
             DebateSession.rounds := [];
             DebateSession.finalDecision := None;
             DebateSession.finalConsensus := None;
             DebateSession.participants :=
               ["Bullish Analyst"; "Bearish Analyst"; "Risk Assessor";
                "Execution Agent"];
             DebateSession.startTime := start;
             DebateSession.endTime := None |} ;;
  setSession sessionId session ;;;
  dret session.

(** [conductDebateRound(session, context)]; of the two arguments, generated
    concurrently, the bullish one reads the clock first *)
Definition conductDebateRound (session : nat) (context : Context)
    (groq : Groq) : D DebateRound.t :=
  before <- deref session ;;
  let roundNumber := S (length (DebateSession.rounds before)) in
  bullishArg <- generateBullishArgument groq context ;;
  bearishArg <- generateBearishArgument groq context ;;
  let args := [bullishArg; bearishArg] in
  let bullishWeight := AgentArgument.confidence bullishArg in
  let bearishWeight := AgentArgument.confidence bearishArg in
  let netSentiment := (bullishWeight - bearishWeight)%js in
  let consensus :=
    if (JS.abs netSentiment <? dec 2 10)%js then needs_more_data
    else if (netSentiment >? int 0)%js then proceed
    else abort in
  now <- lift dateNow ;;
  let round :=
    {| DebateRound.roundNumber := roundNumber;
       DebateRound.arguments := args;
       DebateRound.consensus := Some consensus;
       DebateRound.timestamp := now |} in
  current <- deref session ;;
  assign session (pushRound round current) ;;;
  dret round.

Record Verdict : Type := {
  decision : Consensus;
  confidence : JS.number;
  explanation : text;
}.

(** the two nested loops of [reachConsensus], on their four locals
    [(totalBullish, totalBearish, countBullish, countBearish)] *)
Definition tally (acc : JS.number * JS.number * nat * nat)
    (arg : AgentArgument.t) : JS.number * JS.number * nat * nat :=
  let '(totalBullish, totalBearish, countBullish, countBearish) := acc in
  match AgentArgument.stance arg with
  | bullish =>
      ((totalBullish + AgentArgument.confidence arg)%js, totalBearish,
       S countBullish, countBearish)
  | bearish =>
      (totalBullish, (totalBearish + AgentArgument.confidence arg)%js,
       countBullish, S countBearish)
  | neutral => acc
  end.

Definition tallyRounds (rounds : list DebateRound.t)
    : JS.number * JS.number * nat * nat :=
  foldl (fun acc round => foldl tally acc (DebateRound.arguments round))
    (int 0, int 0, 0%nat, 0%nat) rounds.

(** [reachConsensus(session)] *)
Definition reachConsensus (session : nat) : D Verdict :=
  current <- deref session ;;
  match DebateSession.rounds current with
  | [] =>
      dret {| decision := abort; confidence := int 0;
              explanation := [Lit "No debate rounds conducted"] |}
  | _ =>
      let rounds := DebateSession.rounds current in
      let '(totalBullish, totalBearish, countBullish, countBearish) :=
        tallyRounds rounds in
      let avgBullish :=
        if (0 <? countBullish)%nat
        then (totalBullish / JS.of_Z (Z.of_nat countBullish))%js else int 0 in
      let avgBearish :=
        if (0 <? countBearish)%nat
        then (totalBearish / JS.of_Z (Z.of_nat countBearish))%js else int 0 in
      let netSentiment := (avgBullish - avgBearish)%js in
      let decision := if (netSentiment >? int 0)%js then proceed else abort in
      let confidence := JS.abs netSentiment in
      let count := Show (JS.of_Z (Z.of_nat (length rounds))) in
      let explanation :=
        match decision with
        | proceed =>
            [Lit "After "; count;
             Lit " round(s) of analysis, the bullish case is stronger. ";
             Lit "Bullish confidence: "; Fixed (avgBullish * int 100)%js 1;
             Lit "%, ";
             Lit "Bearish confidence: "; Fixed (avgBearish * int 100)%js 1;
             Lit "%. ";
             Lit "Recommendation: Proceed with trade execution."]
        | _ =>
            [Lit "After "; count;
             Lit " round(s) of analysis, the bearish case is stronger. ";
             Lit "Bearish confidence: "; Fixed (avgBearish * int 100)%js 1;
             Lit "%, ";
             Lit "Bullish confidence: "; Fixed (avgBullish * int 100)%js 1;
             Lit "%. ";
             Lit "Recommendation: Abort trade to avoid potential losses."]
        end in
      now <- lift dateNow ;;
      latest <- deref session ;;
      assign session (conclude decision confidence now latest) ;;;
      dret {| decision := decision; confidence := confidence;
              explanation := explanation |}
  end.

(** [getDebateHistory(sessionId)] *)
Definition getDebateHistory (sessionId : text) : D (option DebateSession.t) :=
  fun d =>
    (match mapGet sessionId (debateSessions d) with
     | Some ref => Some (objects d ref)
     | None => None
     end, d).

Record QuickDebate : Type := {
  verdict : Verdict;
  bullishReasoning : text;
  bearishReasoning : text;
}.

(** [arg?.reasoning || fallback] *)
Definition reasoningOr (arg : option AgentArgument.t) (fallback : string)
    : text :=
  match arg with
  | Some a =>
      match AgentArgument.reasoning a with
      | [] | [Lit EmptyString] => [Lit fallback]
      | reasoning => reasoning
      end
  | None => [Lit fallback]
  end.

(** [quickDebate(topic, context)] *)
Definition quickDebate (topic : string) (context : Context) (groq : Groq)
    : D QuickDebate :=
  session <- startDebate topic context ;;
  round <- conductDebateRound session context groq ;;
  consensus <- reachConsensus session ;;
  let bullishArg :=
    List.find (fun a => bool_decide (AgentArgument.stance a = bullish))
      (DebateRound.arguments round) in
  let bearishArg :=
    List.find (fun a => bool_decide (AgentArgument.stance a = bearish))
      (DebateRound.arguments round) in
  dret {| verdict := consensus;
          bullishReasoning := reasoningOr bullishArg "No bullish argument";
          bearishReasoning := reasoningOr bearishArg "No bearish argument" |}.

End Session.

(** the language model was of no help: there is no client, or both calls
    failed *)
Definition withoutModel (groq : Session.Groq) : Prop :=
  match groq with
  | None | Some (Threw _, Threw _) => True
  | _ => False
  end.

(** a process with no session yet *)
Definition noSessions (w : World) : Session.Debates :=
  {| Session.world := w;
     Session.objects :=
       fun _ =>
         {| Session.DebateSession.sessionId := [];
            Session.DebateSession.topic := EmptyString;
            Session.DebateSession.rounds := [];
            Session.DebateSession.finalDecision := None;
            Session.DebateSession.finalConsensus := None;
            Session.DebateSession.participants := [];
            Session.DebateSession.startTime := 0;
            Session.DebateSession.endTime := None |};
     Session.allocated := 0;
     Session.debateSessions := [] |}.


(** *** The positions of the portfolio ([lib/state/portfolio]) *)

Module Positions.

(** [p.symbol === symbol && p.exchange === exchange] *)
Definition held (symbol exchange : string) (p : Position.t) : bool :=
  bool_decide (Position.symbol p = symbol)
  && bool_decide (Position.exchange p = exchange).

(** [addPosition(position)] *)
Definition addPosition (position : Position.t) : M unit :=
  w <- get ;;
  let portfolio := portfolio w in
  let existingIndex :=
    findIndex (held (Position.symbol position) (Position.exchange position))
      (Portfolio.positions portfolio) in
  let positions :=
    match existingIndex with
    | Some index => <[index := position]> (Portfolio.positions portfolio)
    | None => Portfolio.positions portfolio ++ [position]
    end in
  now <- dateNow ;;
  modify (set_portfolio
            {| Portfolio.cash := Portfolio.cash portfolio;
               Portfolio.positions := positions;
               Portfolio.totalValue := Portfolio.totalValue portfolio;
               Portfolio.lastUpdate := now |}).

(** [removePosition(symbol, exchange)] *)
Definition removePosition (symbol exchange : string) : M unit :=
  w <- get ;;
  let portfolio := portfolio w in
  let positions :=
    List.filter (fun p => negb (held symbol exchange p))
      (Portfolio.positions portfolio) in
  now <- dateNow ;;
  modify (set_portfolio
            {| Portfolio.cash := Portfolio.cash portfolio;
               Portfolio.positions := positions;
               Portfolio.totalValue := Portfolio.totalValue portfolio;
               Portfolio.lastUpdate := now |}).

End Positions.

(** the key of a position, and the positions of a state *)
Definition positionKey (p : Position.t) : string * string :=
  (Position.symbol p, Position.exchange p).

Definition positionsOf (w : World) : list Position.t :=
  Portfolio.positions (portfolio w).

(** a sample position *)
Definition holding (symbol exchange : string) (quantity : JS.number)
    : Position.t :=
  {| Position.symbol := symbol; Position.exchange := exchange;
     Position.quantity := quantity; Position.averagePrice := int 50000 |}.


(** *** Reading the execution log ([lib/state/executionLog]) *)

Module Executions.

(** [ToIntegerOrInfinity] of a finite number: truncation towards zero *)
Definition truncate (q : Q) : Z := Z.quot (Qnum q) (Zpos (Qden q)).

(** [l.slice(start)] *)
Definition slice {A} (start : JS.number) (l : list A) : list A :=
  let len := Z.of_nat (length l) in
  match start with
  | JS.NaN | JS.NInf => l
  | JS.PInf => []
  | JS.Num q =>
      let relativeStart := truncate q in
      let k :=
        if relativeStart <? 0 then Z.max (len + relativeStart) 0
        else Z.min relativeStart len in
      drop (Z.to_nat k) l
  end.

(** [getExecutionLog(limit?)] *)
Definition getExecutionLog (limit : option JS.number) (w : World)
    : list ExecutionRecord.t :=
  match limit with
  | Some limit =>
      if JS.truthy limit then slice (JS.neg limit) (executionLog w)
      else executionLog w
  | None => executionLog w
  end.

(** [getExecutionById(id)] *)
Definition getExecutionById (rid : text) (w : World)
    : option ExecutionRecord.t :=
  List.find (fun record => bool_decide (ExecutionRecord.id record = rid))
    (executionLog w).

End Executions.


(** *** The price discovery ([lib/agents/priceDiscovery]) *)

Module PriceDiscovery.

Definition MAX_TICKS : nat := 100.

Definition set_priceHistory (h : gmap string (list PriceTick.t)) (w : World)
    : World :=
  {| portfolio := portfolio w; executionLog := executionLog w;
     auditLog := auditLog w; guardianSettings := guardianSettings w;
     persistenceBuffer := persistenceBuffer w; priceHistory := h;
     clockTicks := clockTicks w; randomTicks := randomTicks w;
     clock := clock w; random := random w; tzOffsetMs := tzOffsetMs w |}.

(** [addPriceTick(symbol, price)] *)
Definition addPriceTick (symbol : string) (price : JS.number) : M unit :=
  w <- get ;;
  let ticks := default [] (priceHistory w !! symbol) in
  now <- dateNow ;;
  let ticks := ticks ++ [{| PriceTick.price := price;
                            PriceTick.timestamp := now |}] in
  let ticks := if (MAX_TICKS <? length ticks)%nat then tail ticks else ticks in
  w' <- get ;;
  modify (set_priceHistory (<[symbol := ticks]> (priceHistory w'))).

Section WithSqrt.
Variable sqrt : JS.number -> JS.number.

(** [calculateVolatility(symbol)] *)
Definition calculateVolatility (w : World) (symbol : string) : JS.number :=
  match priceHistory w !! symbol with
  | None => int 0
  | Some ticks =>
      if (length ticks <? 2)%nat then int 0
      else
        let prices := PriceTick.price <$> ticks in
        let mean := TradeRisk.meanOf prices in
        let variance := TradeRisk.varianceOf prices mean in
        let stdDev := sqrt variance in
        ((stdDev / mean) * int 100)%js
  end.

(** what the three feeds gave for a symbol: a price, or [null] when the
    call failed *)
Record Fetched : Type := {
  binance : option JS.number;
  indian : option JS.number;
  nse : option JS.number;
}.

Record Spreads : Type := {
  binanceVsIndian : option JS.number;
  binanceVsNse : option JS.number;
  indianVsNse : option JS.number;
}.

(** [a && b] on two prices that may be [null], and [x || 0] *)
Definition both (a b : option JS.number) : option (JS.number * JS.number) :=
  match a, b with
  | Some x, Some y => if JS.truthy x && JS.truthy y then Some (x, y) else None
  | _, _ => None
  end.

Definition orZero (x : option JS.number) : JS.number :=
  match x with
  | Some v => JS.or_default v (int 0)
  | None => int 0
  end.

(** [((to - from) / from) * 100] when both prices are there *)
Definition spreadBetween (from to : option JS.number) : option JS.number :=
  match both from to with
  | Some (x, y) => Some (((y - x) / x) * int 100)%js
  | None => None
  end.

(** the body of the loop of [discoverPrices] for one symbol *)
Definition discoverOne (symbol : string) (fetched : Fetched)
    : M (Detector.DiscoveredPrice * Spreads) :=
  match binance fetched with
  | Some binancePrice => addPriceTick symbol binancePrice
  | None => ret tt
  end ;;;
  let spreads :=
    {| binanceVsIndian := spreadBetween (binance fetched) (indian fetched);
       binanceVsNse := spreadBetween (binance fetched) (nse fetched);
       indianVsNse := spreadBetween (indian fetched) (nse fetched) |} in
  w <- get ;;
  let volatility := calculateVolatility w symbol in
  let tickCount := Z.of_nat (length (Risk.getPriceHistory w symbol)) in
  _ <- dateNow ;;
  ret ({| Detector.symbol := symbol;
          Detector.binancePrice := orZero (binance fetched);
          Detector.indianPrice := orZero (indian fetched);
          Detector.nsePrice := orZero (nse fetched);
          Detector.volatility := volatility;
          Detector.tickCount := tickCount |}, spreads).

(** [discoverPrices(symbols)], given what the feeds gave for each symbol *)
Definition discoverPrices (fetches : list (string * Fetched))
    : M (list (Detector.DiscoveredPrice * Spreads)) :=
  forEach
    (fun results '(symbol, fetched) =>
       result <- discoverOne symbol fetched ;;
       ret (results ++ [result]))
    fetches [].

End WithSqrt.

End PriceDiscovery.

(** every window of the price history holds at most [MAX_TICKS] ticks *)
Definition boundedHistory (w : World) : Prop :=
  map_Forall (fun _ ticks => (length ticks <= PriceDiscovery.MAX_TICKS)%nat)
    (priceHistory w).

(** what the feeds gave for a symbol, when the first two answered *)
Definition quoted (binance indian : JS.number) : PriceDiscovery.Fetched :=
  {| PriceDiscovery.binance := Some binance;
     PriceDiscovery.indian := Some indian;
     PriceDiscovery.nse := None |}.


(** what [discoverPrices] reports for a symbol, from what the feeds gave *)
Definition reported (entry : string * PriceDiscovery.Fetched)
    (result : Detector.DiscoveredPrice * PriceDiscovery.Spreads) : Prop :=
  Detector.symbol (fst result) = fst entry
  /\ Detector.binancePrice (fst result)
     = PriceDiscovery.orZero (PriceDiscovery.binance (snd entry))
  /\ Detector.indianPrice (fst result)
     = PriceDiscovery.orZero (PriceDiscovery.indian (snd entry))
  /\ PriceDiscovery.binanceVsIndian (snd result)
     = PriceDiscovery.spreadBetween (PriceDiscovery.binance (snd entry))
         (PriceDiscovery.indian (snd entry))
  /\ 0 <= Detector.tickCount (fst result).

(** the feeds gave the two prices [b] and [i] that an arbitrage needs,
    neither zero nor [NaN] *)
Definition quotedAt (fetched : PriceDiscovery.Fetched) (b i : JS.number)
    : Prop :=
  PriceDiscovery.binance fetched = Some b
  /\ PriceDiscovery.indian fetched = Some i
  /\ JS.truthy b = true /\ JS.truthy i = true.


(** *** The mock of the Indian exchange ([lib/exchanges/indianMock]) *)

Module IndianFeed.

(** [getIndianExchangePrice(symbol, opts)], given what [getBinancePrices]
    gave: the prices it returned, or its failure *)
Definition getIndianExchangePrice (symbol : string)
    (binancePrices : outcome (list JS.number))
    (driftOverride : option JS.number) : M (outcome JS.number) :=
  match binancePrices with
  | Threw message => ret (Threw message)
  | Returned [] => ret (Threw ("Failed to fetch base price for " +:+ symbol))
  | Returned (binancePrice :: _) =>
      drift <-
        match driftOverride with
        | Some drift => ret drift
        | None => r <- mathRandom ;; ret (dec 5 1000 + r * dec 2 100)%js
        end ;;
      ret (Returned (binancePrice * (int 1 + drift))%js)
  end.

(** one side of the book: the loop [for (let i = 0; i < depth; i++)] from
    level [i] on, with [count] levels to go *)
Fixpoint levelsFrom (priceAt : nat -> JS.number) (i count : nat)
    : M (list (JS.number * JS.number)) :=
  match count with
  | O => ret []
  | S count' =>
      r <- mathRandom ;;
      let quantity := (dec 1 10 + r * int 5)%js in
      rest <- levelsFrom priceAt (S i) count' ;;
      ret ((priceAt i, quantity) :: rest)
  end.

(** [getIndianOrderBook(symbol, depth = 10)], given what
    [getIndianExchangePrice] gave *)
Definition getIndianOrderBook (midPrice : outcome JS.number)
    (depth : option nat) : M (outcome IndianMock.OrderBook) :=
  match midPrice with
  | Threw message => ret (Threw message)
  | Returned midPrice =>
      let depth := default 10%nat depth in
      r <- mathRandom ;;
      let spreadPercent := (dec 1 1000 + r * dec 4 1000)%js in
      let priceOffset (i : nat) :=
        (spreadPercent * (JS.of_Z (Z.of_nat i) + int 1))%js in
      bids <- levelsFrom (fun i => (midPrice * (int 1 - priceOffset i))%js)
                0 depth ;;
      asks <- levelsFrom (fun i => (midPrice * (int 1 + priceOffset i))%js)
                0 depth ;;
      ret (Returned {| IndianMock.bids := bids; IndianMock.asks := asks |})
  end.

End IndianFeed.

(** [Math.random()] returns a number at least 0 and below 1 *)
Definition unitRandom (w : World) : Prop :=
  forall n, exists q : Q, random w n = JS.Num q /\ (0 <= q < 1)%Q.

(** the order of the levels of a side of the book: the price of [b] is not
    below the price of [a], or not above it *)
Definition upward (a b : JS.number * JS.number) : Prop :=
  (fst a <=? fst b)%js = true.

Definition downward (a b : JS.number * JS.number) : Prop :=
  (fst b <=? fst a)%js = true.

(** the quantity of a level of the mock: at least 0.1, less than 5.1 *)
Definition mockQuantity (level : JS.number * JS.number) : Prop :=
  exists q : Q, snd level = JS.Num q /\ (1 # 10 <= q < 51 # 10)%Q.


(** *** The autonomous runner ([lib/agents/runner])

    The runner keeps its counters in the [runner] section of the global
    state and its timer in the module variable [runnerInterval]; the rest of
    the state is the [World] of the agents it calls. *)

Module RunnerLoop.

#[global] Instance Decision_eq_dec : EqDecision Debate.Decision.
Proof. solve_decision. Defined.

Record RunnerState : Type := {
  isRunning : bool;
  startTime : option Z;
  pollCount : Z;
  opportunitiesProcessed : Z;
  executionsAttempted : Z;
  executionsSuccessful : Z;
  lastPollTime : option Z;
  currentSymbols : list string;
}.

(** the process of the runner: [runnerInterval] holds the period of the
    timer that [setInterval] started, if any *)
Record Process : Type := {
  world : World;
  runner : RunnerState;
  runnerInterval : option JS.number;
}.

Definition P (A : Type) : Type := Process -> A * Process.

Definition pret {A} (a : A) : P A := fun p => (a, p).
Definition pbind {A B} (m : P A) (k : A -> P B) : P B :=
  fun p => let '(a, p') := m p in k a p'.

#[local] Notation "x <- m ;; k" := (pbind m (fun x => k))
  (at level 63, m at next level, right associativity).
#[local] Notation "m ;;; k" := (pbind m (fun _ => k))
  (at level 63, right associativity).

(** a call into the agents *)
Definition lift {A} (m : M A) : P A :=
  fun p =>
    let '(a, w') := m (world p) in
    (a, {| world := w'; runner := runner p;
           runnerInterval := runnerInterval p |}).

Definition getRunner : P RunnerState := fun p => (runner p, p).
Definition setRunner (r : RunnerState) : P unit :=
  fun p => (tt, {| world := world p; runner := r;
                   runnerInterval := runnerInterval p |}).
Definition setInterval (period : option JS.number) : P unit :=
  fun p => (tt, {| world := world p; runner := runner p;
                   runnerInterval := period |}).

(** the four counters, one at a time *)
Definition polled (r : RunnerState) (now : Z) : RunnerState :=
  {| isRunning := isRunning r; startTime := startTime r;
     pollCount := pollCount r + 1;
     opportunitiesProcessed := opportunitiesProcessed r;
     executionsAttempted := executionsAttempted r;
     executionsSuccessful := executionsSuccessful r;
     lastPollTime := Some now; currentSymbols := currentSymbols r |}.

Definition processed (r : RunnerState) : RunnerState :=
  {| isRunning := isRunning r; startTime := startTime r;
     pollCount := pollCount r;
     opportunitiesProcessed := opportunitiesProcessed r + 1;
     executionsAttempted := executionsAttempted r;
     executionsSuccessful := executionsSuccessful r;
     lastPollTime := lastPollTime r; currentSymbols := currentSymbols r |}.

Definition attempted (r : RunnerState) : RunnerState :=
  {| isRunning := isRunning r; startTime := startTime r;
     pollCount := pollCount r;
     opportunitiesProcessed := opportunitiesProcessed r;
     executionsAttempted := executionsAttempted r + 1;
     executionsSuccessful := executionsSuccessful r;
     lastPollTime := lastPollTime r; currentSymbols := currentSymbols r |}.

Definition succeeded (r : RunnerState) : RunnerState :=
  {| isRunning := isRunning r; startTime := startTime r;
     pollCount := pollCount r;
     opportunitiesProcessed := opportunitiesProcessed r;
     executionsAttempted := executionsAttempted r;
     executionsSuccessful := executionsSuccessful r + 1;
     lastPollTime := lastPollTime r; currentSymbols := currentSymbols r |}.

(** what the outside world answers while one opportunity is processed:
    the order book fetched for the risk assessment, the perspective provider
    of the debate, and the order book fetched for the execution *)
Record Answers : Type := {
  riskBook : outcome IndianMock.OrderBook;
  provider : Debate.Provider;
  executionBook : outcome IndianMock.OrderBook;
}.

Section WithSqrt.
Variable sqrt : JS.number -> JS.number.

(** steps 3a to 3c of the loop, on the state they read *)
Definition riskFor (w : World) (answers : Answers) (opp : Opportunity.t)
    : Risk.RiskAssessmentResult :=
  Risk.assessRisk sqrt w opp (Some (int 1)) (riskBook answers).

Definition allocationFor (w : World) (answers : Answers) (opp : Opportunity.t)
    : Allocation.AllocationResult :=
  Allocation.allocateCapitalForOpportunity opp (riskFor w answers opp)
    {| Allocation.usdtBalance := Portfolio.cash (portfolio w);
       Allocation.maxTradeAmount := int 5000;
       Allocation.exposurePct := None |}.

Definition debateFor (w : World) (answers : Answers) (opp : Opportunity.t)
    : Debate.DebateResult :=
  Debate.debateWithMedianConsensus (provider answers) opp
    (riskFor w answers opp) (allocationFor w answers opp) (Some (dec 6 10)).

(** the body of [for (const opp of opportunities)] *)
Definition processOpportunity (answers : Answers) (opp : Opportunity.t)
    : P unit :=
  r <- getRunner ;;
  setRunner (processed r) ;;;
  w <- lift get ;;
  let risk := riskFor w answers opp in
  let allocation := allocationFor w answers opp in
  let debate := debateFor w answers opp in
  let guardianSettings := guardianSettings w in
  guardian <-
    lift (Runner.guardianCheck opp risk allocation (Some guardianSettings)) ;;
  if Runner.pass guardian
     && bool_decide (Debate.decision debate = Debate.execute) then
    r <- getRunner ;;
    setRunner (attempted r) ;;;
    lift (addAuditLog execution "autonomous_execution_initiated"
            (Some "runner")
            [("opportunity", VText (Opportunity.id opp));
             ("symbol", VStr (Opportunity.symbol opp));
             ("riskScore", VNum (Risk.riskScore risk));
             ("allocation", VNum (Allocation.allocatedUSDT allocation));
             ("debateScore", VNum (Debate.finalDecisionScore debate))]) ;;;
    result <-
      lift (Execution.executeArbitrageWithPartialFills opp
              (Allocation.allocatedUSDT allocation) (executionBook answers)) ;;
    if Execution.success result then
      r <- getRunner ;;
      setRunner (succeeded r)
    else pret tt
  else pret tt.

(** the loop over the opportunities; [answers i] is what the outside world
    answers for the [i]-th one *)
Fixpoint processAll (answers : nat -> Answers) (i : nat)
    (opportunities : list Opportunity.t) : P unit :=
  match opportunities with
  | [] => pret tt
  | opp :: rest =>
      processOpportunity (answers i) opp ;;;
      processAll answers (S i) rest
  end.

(** [pollOnce()] up to its first [await] *)
Definition pollBegin : P unit :=
  r <- getRunner ;;
  now <- lift dateNow ;;
  setRunner (polled r now).

(** [pollOnce()] from there on; [feeds] is what the price feeds give for
    each symbol *)
Definition pollRest (feeds : string -> PriceDiscovery.Fetched)
    (answers : nat -> Answers) : P unit :=
  r <- getRunner ;;
  prices <-
    lift (PriceDiscovery.discoverPrices sqrt
            ((fun symbol => (symbol, feeds symbol)) <$> currentSymbols r)) ;;
  opportunities <-
    lift (Detector.detectArbitrage (fst <$> prices)
            {| Detector.minSpreadPct := Some (dec 5 10);
               Detector.persistenceMs := Some (int 2000);
               Detector.minPersistenceCount := Some (int 2) |}) ;;
  processAll answers 0 opportunities.

Definition pollOnce (feeds : string -> PriceDiscovery.Fetched)
    (answers : nat -> Answers) : P unit :=
  pollBegin ;;; pollRest feeds answers.

End WithSqrt.

(** [startRunner(pollMs = 2000)]: the first poll is started and runs up to
    its first [await] before [startRunner] returns *)
Definition startRunner (pollMs : option JS.number) : P bool :=
  r <- getRunner ;;
  if isRunning r then pret false
  else
    let pollMs := default (int 2000) pollMs in
    now <- lift dateNow ;;
    setRunner {| isRunning := true; startTime := Some now;
                 pollCount := 0; opportunitiesProcessed := 0;
                 executionsAttempted := 0; executionsSuccessful := 0;
                 lastPollTime := lastPollTime r;
                 currentSymbols := currentSymbols r |} ;;;
    lift (addAuditLog system "runner_started" (Some "runner")
            [("pollMs", VNum pollMs);
             ("symbols", VText (Lit <$> currentSymbols r))]) ;;;
    setInterval (Some pollMs) ;;;
    pollBegin ;;;
    pret true.

(** [stopRunner()] *)
Definition stopRunner : P bool :=
  r <- getRunner ;;
  if negb (isRunning r) then pret false
  else
    setInterval None ;;;
    setRunner {| isRunning := false; startTime := startTime r;
                 pollCount := pollCount r;
                 opportunitiesProcessed := opportunitiesProcessed r;
                 executionsAttempted := executionsAttempted r;
                 executionsSuccessful := executionsSuccessful r;
                 lastPollTime := lastPollTime r;
                 currentSymbols := currentSymbols r |} ;;;
    runtime <-
      match startTime r with
      | Some start => now <- lift dateNow ;; pret (now - start)
      | None => pret 0
      end ;;
    lift (addAuditLog system "runner_stopped" (Some "runner")
            [("totalPolls", VNum (JS.of_Z (pollCount r)));
             ("opportunitiesProcessed",
              VNum (JS.of_Z (opportunitiesProcessed r)));
             ("executionsAttempted", VNum (JS.of_Z (executionsAttempted r)));
             ("executionsSuccessful", VNum (JS.of_Z (executionsSuccessful r)));
             ("runtime", VNum (JS.of_Z runtime))]) ;;;
    pret true.

(** [getRunnerStatus()], [setRunnerSymbols(symbols)] *)
Definition getRunnerStatus : P RunnerState := getRunner.

Definition setRunnerSymbols (symbols : list string) : P unit :=
  r <- getRunner ;;
  setRunner {| isRunning := isRunning r; startTime := startTime r;
               pollCount := pollCount r;
               opportunitiesProcessed := opportunitiesProcessed r;
               executionsAttempted := executionsAttempted r;
               executionsSuccessful := executionsSuccessful r;
               lastPollTime := lastPollTime r; currentSymbols := symbols |}.

(** a [Partial<GuardianConfig>]: the properties it has *)
Record GuardianPatch : Type := {
  maxTradePctOfPortfolio : option JS.number;
  dailyMaxTrades : option JS.number;
  globalMaxExposurePct : option JS.number;
  vetoconditions : option GuardianConfig.veto;
}.

Definition set_guardianSettings (g : GuardianConfig.t) (w : World) : World :=
  {| portfolio := portfolio w; executionLog := executionLog w;
     auditLog := auditLog w; guardianSettings := g;
     persistenceBuffer := persistenceBuffer w; priceHistory := priceHistory w;
     clockTicks := clockTicks w; randomTicks := randomTicks w;
     clock := clock w; random := random w; tzOffsetMs := tzOffsetMs w |}.

(** [{ ...state.guardianSettings, ...config }] *)
Definition merged (settings : GuardianConfig.t) (config : GuardianPatch)
    : GuardianConfig.t :=
  {| GuardianConfig.maxTradePctOfPortfolio :=
       default (GuardianConfig.maxTradePctOfPortfolio settings)
         (maxTradePctOfPortfolio config);
     GuardianConfig.dailyMaxTrades :=
       default (GuardianConfig.dailyMaxTrades settings) (dailyMaxTrades config);
     GuardianConfig.globalMaxExposurePct :=
       default (GuardianConfig.globalMaxExposurePct settings)
         (globalMaxExposurePct config);
     GuardianConfig.vetoconditions :=
       default (GuardianConfig.vetoconditions settings)
         (vetoconditions config) |}.

(** [updateGuardianConfig(config)], [getGuardianConfig()] *)
Definition updateGuardianConfig (config : GuardianPatch) : M unit :=
  bind get
    (fun w => modify (set_guardianSettings (merged (guardianSettings w) config))).

Definition getGuardianConfig : M GuardianConfig.t :=
  fun w => (guardianSettings w, w).

End RunnerLoop.

(** the counters of the runner are in order: no more successes than
    attempts, no more attempts than opportunities processed *)
Definition countersOrdered (r : RunnerLoop.RunnerState) : Prop :=
  0 <= RunnerLoop.executionsSuccessful r
  /\ RunnerLoop.executionsSuccessful r <= RunnerLoop.executionsAttempted r
  /\ RunnerLoop.executionsAttempted r <= RunnerLoop.opportunitiesProcessed r.

(** the process of the default state, with the runner stopped *)
Definition idle (w : World) : RunnerLoop.Process :=
  {| RunnerLoop.world := w;
     RunnerLoop.runner :=
       {| RunnerLoop.isRunning := false;
          RunnerLoop.startTime := None;
          RunnerLoop.pollCount := 0;
          RunnerLoop.opportunitiesProcessed := 0;
          RunnerLoop.executionsAttempted := 0;
          RunnerLoop.executionsSuccessful := 0;
          RunnerLoop.lastPollTime := None;
          RunnerLoop.currentSymbols := ["BTCUSDT"; "ETHUSDT"; "BNBUSDT"] |};
     RunnerLoop.runnerInterval := None |}.

(** the outside world of the end-to-end scenario: a deep book and no
    language model *)
Definition calm : RunnerLoop.Answers :=
  {| RunnerLoop.riskBook := Returned deepBook;
     RunnerLoop.provider := Debate.NoClient;
     RunnerLoop.executionBook := Returned deepBook |}.

(** a patch that only sets the daily limit *)
Definition dailyLimit (limit : JS.number) : RunnerLoop.GuardianPatch :=
  {| RunnerLoop.maxTradePctOfPortfolio := None;
     RunnerLoop.dailyMaxTrades := Some limit;
     RunnerLoop.globalMaxExposurePct := None;
     RunnerLoop.vetoconditions := None |}.

(** the timer of the runner is set exactly while the runner is running *)
Definition timerMatches (p : RunnerLoop.Process) : Prop :=
  RunnerLoop.isRunning (RunnerLoop.runner p) = true
  <-> is_Some (RunnerLoop.runnerInterval p).

(** the four counters of the runner *)
Definition countersOf (r : RunnerLoop.RunnerState) : Z * Z * Z * Z :=
  (RunnerLoop.pollCount r, RunnerLoop.opportunitiesProcessed r,
   RunnerLoop.executionsAttempted r, RunnerLoop.executionsSuccessful r).

(** the part of the state that trading writes: the portfolio, the execution
    log, the audit log, and the settings of the Guardian *)
Definition ledger (w : World)
    : Portfolio.t * list ExecutionRecord.t * list AuditLogEntry.t
      * GuardianConfig.t :=
  (portfolio w, executionLog w, auditLog w, guardianSettings w).

(** * Properties *)

(** ** Facts about numbers *)

Section NumberFacts.
Local Open Scope Q_scope.

Lemma Qle_bool_spec (a b : Q) : reflect (a <= b) (Qle_bool a b).
Proof.
  destruct (Qle_bool a b) eqn:E; constructor.
  - now apply Qle_bool_iff.
  - intros H. apply Qle_bool_iff in H. congruence.
Qed.

Lemma Qlt_bool_spec (a b : Q) : reflect (a < b) (JS.Qlt_bool a b).
Proof.
  unfold JS.Qlt_bool. destruct (Qle_bool_spec b a); simpl; constructor; lra.
Qed.

Lemma Qis_zero_spec (a : Q) : reflect (a == 0) (JS.Qis_zero a).
Proof.
  unfold JS.Qis_zero. destruct (Qeq_bool a 0) eqn:E; constructor.
  - now apply Qeq_bool_iff.
  - intros H. apply Qeq_bool_iff in H. congruence.
Qed.

Lemma Qis_pos_spec (a : Q) : reflect (0 < a) (JS.Qis_pos a).
Proof. apply Qlt_bool_spec. Qed.

End NumberFacts.

(** case analysis on every comparison of rationals in sight *)
Ltac qcases :=
  repeat match goal with
    | |- context [JS.Qlt_bool ?a ?b] => destruct (Qlt_bool_spec a b)
    | |- context [Qle_bool ?a ?b] => destruct (Qle_bool_spec a b)
    | |- context [JS.Qis_zero ?a] => destruct (Qis_zero_spec a)
    | |- context [JS.Qis_pos ?a] => destruct (Qis_pos_spec a)
    | H : context [JS.Qlt_bool ?a ?b] |- _ => destruct (Qlt_bool_spec a b)
    | H : context [Qle_bool ?a ?b] |- _ => destruct (Qle_bool_spec a b)
    | H : context [JS.Qis_zero ?a] |- _ => destruct (Qis_zero_spec a)
    | H : context [JS.Qis_pos ?a] |- _ => destruct (Qis_pos_spec a)
    end.

Ltac js_unfold :=
  unfold JS.gt, JS.ge, JS.sub, int, dec, JS.of_Z, inject_Z in *.

(** ** The risk assessor *)

Lemma le_fin_add (x y : JS.number) (k : Z) :
  le_fin x y -> le_fin (x + int k)%js (y + int k)%js.
Proof.
  intros (a & b & -> & -> & H). eexists _, _. repeat split.
  unfold inject_Z. simpl. lra.
Qed.

Lemma le_fin_sub (x y : JS.number) (k : Z) :
  le_fin x y -> le_fin (x - int k)%js (y - int k)%js.
Proof.
  intros (a & b & -> & -> & H). eexists _, _. repeat split.
  unfold inject_Z. simpl. lra.
Qed.

Lemma le_fin_clamp (lo hi : Z) (x y : JS.number) :
  le_fin x y ->
  (JS.max (int lo) (JS.min (int hi) x) <=? JS.max (int lo) (JS.min (int hi) y))%js
  = true.
Proof.
  intros (a & b & -> & -> & H). js_unfold. simpl.
  qcases; simpl; qcases; simpl; qcases; try reflexivity; lra.
Qed.

(** step 5 of [assessRisk] is monotone in the volatility *)
Lemma volatility_penalty_monotone (r v1 v2 : JS.number) :
  JS.is_finite r = true -> (v1 <=? v2)%js = true ->
  le_fin
    (if (v1 >? int 1)%js then (r + int 25)%js
     else if (v1 >? dec 5 10)%js then (r + int 15)%js
     else if (v1 <? dec 1 10)%js then (r - int 10)%js else r)
    (if (v2 >? int 1)%js then (r + int 25)%js
     else if (v2 >? dec 5 10)%js then (r + int 15)%js
     else if (v2 <? dec 1 10)%js then (r - int 10)%js else r).
Proof.
  intros Hr Hle. destruct r as [q| | |]; try discriminate Hr.
  destruct v1 as [a| | |], v2 as [b| | |]; try discriminate Hle;
    js_unfold; simpl in *; qcases; try discriminate; try lra;
    eexists _, _; (split; [reflexivity|split; [reflexivity|]]); simpl; lra.
Qed.

(** steps 4 to 7 and the clamp together are monotone in the volatility *)
Lemma scoreOf_monotone (spreadPct v1 v2 fillRatio slippagePct : JS.number) :
  (v1 <=? v2)%js = true ->
  (Risk.scoreOf spreadPct v1 fillRatio slippagePct
     <=? Risk.scoreOf spreadPct v2 fillRatio slippagePct)%js = true.
Proof.
  intros Hle. unfold Risk.scoreOf. cbv zeta. apply le_fin_clamp.
  repeat match goal with
    | |- le_fin (if ?c then _ else _) (if ?c then _ else _) => destruct c
    | |- le_fin (_ + int _)%js (_ + int _)%js => apply le_fin_add
    | |- le_fin (_ - int _)%js (_ - int _)%js => apply le_fin_sub
    end.
  all: eapply volatility_penalty_monotone; [|exact Hle].
  all: repeat match goal with
         | |- context [if ?c then _ else _] => destruct c
         end; reflexivity.
Qed.

(** C7. The risk score of [assessRisk] never decreases when the volatility
    derived from the price history increases and everything else (the
    opportunity, the target quantity, the order book) is the same; the
    clamp to [[0, 100]] keeps the order. *)
Theorem assessRisk_riskScore_monotone_in_volatility
    (sqrt : JS.number -> JS.number) (w1 w2 : World)
    (opportunity : Opportunity.t) (targetQuantity : option JS.number)
    (orderbook : outcome IndianMock.OrderBook) :
  let history w := Risk.getPriceHistory w (Opportunity.symbol opportunity) in
  let v1 := fst (Risk.deriveVolatility sqrt (history w1)) in
  let v2 := fst (Risk.deriveVolatility sqrt (history w2)) in
  (v1 <=? v2)%js = true ->
  (Risk.riskScore (Risk.assessRisk sqrt w1 opportunity targetQuantity orderbook)
     <=? Risk.riskScore
           (Risk.assessRisk sqrt w2 opportunity targetQuantity orderbook))%js
  = true.
Proof.
  intros history v1 v2 Hle. unfold Risk.assessRisk.
  subst v1 v2 history. cbv beta in Hle.
  destruct (Risk.deriveVolatility sqrt (Risk.getPriceHistory w1 _)) as [v1 n1].
  destruct (Risk.deriveVolatility sqrt (Risk.getPriceHistory w2 _)) as [v2 n2].
  simpl in Hle.
  destruct (IndianMock.getIndianLiquidityEstimate orderbook _) as [e|est].
  - reflexivity.
  - cbn [Risk.riskScore]. now apply scoreOf_monotone.
Qed.

Lemma assessRisk_riskScore_monotone_in_volatility_witness :
  let calm := Sample.withHistory "BTCUSDT" [int 100; int 100] Sample.DEFAULT_STATE in
  let wild := Sample.withHistory "BTCUSDT" [int 100; int 110] Sample.DEFAULT_STATE in
  let levels := Sample.book [(int 50760, int 2)] in
  (Risk.riskScore (Risk.assessRisk Risk.sqrt6 calm Sample.btc None levels)
     <=? Risk.riskScore (Risk.assessRisk Risk.sqrt6 wild Sample.btc None levels))%js
  = true.
Proof.
  intros calm wild levels.
  apply (assessRisk_riskScore_monotone_in_volatility Risk.sqrt6 calm wild
           Sample.btc None levels).
  vm_compute. reflexivity.
Defined.

(** ** The capital allocator *)

(** the allocation percentage is one of the four bands, all within (0, 1) *)
Lemma allocation_is_min (opportunity : Opportunity.t)
    (risk : Risk.RiskAssessmentResult) (portfolio : Allocation.Portfolio) :
  exists pct : Q,
    (0 < pct < 1)%Q
    /\ Allocation.allocatedUSDT
         (Allocation.allocateCapitalForOpportunity opportunity risk portfolio)
       = JS.min (Allocation.usdtBalance portfolio * JS.Num pct)%js
           (Allocation.maxTradeAmount portfolio).
Proof.
  unfold Allocation.allocateCapitalForOpportunity.
  destruct (Risk.riskScore risk >? int 80)%js;
    [|destruct (Risk.riskScore risk >=? int 60)%js;
      [|destruct (Risk.riskScore risk >=? int 30)%js]];
    eexists; (split; [|reflexivity]); lra.
Qed.

(** C2 (as amended). For a portfolio with a finite balance and a finite
    [maxTradeAmount], the allocated amount is at most [maxTradeAmount]; when
    the balance is not negative it is also at most the balance; and when the
    balance is zero and [maxTradeAmount] is not negative it is zero. *)
Theorem allocateCapitalForOpportunity_within_limits
    (opportunity : Opportunity.t) (risk : Risk.RiskAssessmentResult)
    (portfolio : Allocation.Portfolio) (balance maxTrade : Q) :
  Allocation.usdtBalance portfolio = JS.Num balance ->
  Allocation.maxTradeAmount portfolio = JS.Num maxTrade ->
  let allocated :=
    Allocation.allocatedUSDT
      (Allocation.allocateCapitalForOpportunity opportunity risk portfolio) in
  (allocated <=? JS.Num maxTrade)%js = true
  /\ ((0 <= balance)%Q -> (allocated <=? JS.Num balance)%js = true)
  /\ ((balance == 0)%Q -> (0 <= maxTrade)%Q -> (allocated ≈ int 0)%js).
Proof.
  intros Hb Hm allocated. subst allocated.
  destruct (allocation_is_min opportunity risk portfolio) as (pct & Hpct & ->).
  rewrite Hb, Hm. js_unfold. simpl. repeat split; intros.
  - qcases; simpl; qcases; try reflexivity; lra.
  - qcases; simpl; qcases; try reflexivity; nra.
  - qcases; simpl; nra.
Qed.

Lemma allocateCapitalForOpportunity_within_limits_witness :
  let allocated :=
    Allocation.allocatedUSDT
      (Allocation.allocateCapitalForOpportunity Sample.btc
         (Sample.riskOf (int 35) (dec 5 10))
         (Sample.wallet (int 100000) (int 5000))) in
  (allocated <=? int 5000)%js = true
  /\ ((0 <= 100000)%Q -> (allocated <=? int 100000)%js = true)
  /\ ((100000 == 0)%Q -> (0 <= 5000)%Q -> (allocated ≈ int 0)%js).
Proof.
  apply (allocateCapitalForOpportunity_within_limits Sample.btc
           (Sample.riskOf (int 35) (dec 5 10))
           (Sample.wallet (int 100000) (int 5000)) 100000 5000);
    reflexivity.
Defined.

(** C2 (as stated) fails on a negative balance: with a balance of -100 and
    a medium risk the allocator returns -10, which is above the balance and
    is not zero. *)
Lemma allocateCapitalForOpportunity_negative_balance :
  let portfolio := Sample.wallet (int (-100)) (int 5000) in
  let allocated :=
    Allocation.allocatedUSDT
      (Allocation.allocateCapitalForOpportunity Sample.btc
         (Sample.riskOf (int 50) (dec 5 10)) portfolio) in
  (Allocation.usdtBalance portfolio <=? int 0)%js = true
  /\ (allocated ≈ int (-10))%js
  /\ (allocated <=? Allocation.usdtBalance portfolio)%js = false
  /\ ~ (allocated ≈ int 0)%js.
Proof.
  vm_compute. repeat split; try reflexivity. intros H; discriminate H.
Qed.

(** ** The debate engine *)

Lemma median3_is_median (a b c : Q) : is_median (Debate.median3 a b c) a b c.
Proof.
  unfold is_median, Debate.median3.
  destruct (Q.max_spec a b) as [[H1 E1]|[H1 E1]],
    (Q.min_spec a b) as [[H2 E2]|[H2 E2]]; try lra;
    destruct (Q.min_spec (Qmax a b) c) as [[H3 E3]|[H3 E3]];
    destruct (Q.max_spec (Qmin a b) (Qmin (Qmax a b) c)) as [[H4 E4]|[H4 E4]];
    lra.
Qed.

(** sorting three finite scores and reading index 1 gives their median *)
Lemma medianOf_three (a b c : Q) :
  exists m : Q,
    Debate.medianOf [JS.Num a; JS.Num b; JS.Num c] = JS.Num m
    /\ (m == Debate.median3 a b c)%Q.
Proof.
  pose proof (median3_is_median a b c) as Hm. revert Hm.
  generalize (Debate.median3 a b c). intros m Hm. unfold is_median in Hm.
  unfold Debate.medianOf, js_sort. simpl. js_unfold. simpl.
  qcases; simpl; qcases; simpl; eexists; (split; [reflexivity|]);
    js_unfold; lra.
Qed.

(** the shape every result of the engine has *)
Lemma consensus_median_rule (bullish bearish neutral : Debate.AgentPerspective)
    (threshold : JS.number) (raw : string) :
  median_rule (Debate.consensus bullish bearish neutral threshold raw) threshold.
Proof.
  intros b x n Hb Hx Hn.
  cbn [Debate.consensus Debate.bullish Debate.bearish Debate.neutral]
    in Hb, Hx, Hn.
  unfold Debate.consensus. cbn [Debate.finalDecisionScore Debate.decision].
  rewrite Hb, Hx, Hn.
  destruct (medianOf_three b x n) as (m & Em & Hm).
  rewrite Em. split.
  - exists m. split; [reflexivity|]. split; [exact Hm|].
    pose proof (median3_is_median b x n) as H.
    unfold is_median in *. rewrite <- Hm in H. exact H.
  - unfold Debate.decide_. destruct (JS.Num m >=? threshold)%js; split;
      intros H; first [reflexivity | discriminate H].
Qed.

Lemma fallback_is_consensus (o : Opportunity.t) (r : Risk.RiskAssessmentResult)
    (a : Allocation.AllocationResult) (t : JS.number) :
  let res := Debate.fallbackDebateResult o r a t in
  res = Debate.consensus (Debate.bullish res) (Debate.bearish res)
          (Debate.neutral res) t "Fallback".
Proof. reflexivity. Qed.

(** a reply whose three scores convert gives the consensus of the three
    clamped scores *)
Lemma debate_of_reply (raw : string) (parsed : Debate.Parsed)
    (pb pe pn : Debate.ParsedPerspective) (xb xe xn : JS.number)
    (opportunity : Opportunity.t) (risk : Risk.RiskAssessmentResult)
    (allocation : Allocation.AllocationResult)
    (executeConfidenceThreshold : option JS.number) :
  Debate.parsed_bullish parsed = Some pb ->
  Debate.parsed_bearish parsed = Some pe ->
  Debate.parsed_neutral parsed = Some pn ->
  scoresConvert pb pe pn xb xe xn ->
  exists bullish bearish neutral,
    Debate.debateWithMedianConsensus (Debate.Completion raw (Some parsed))
      opportunity risk allocation executeConfidenceThreshold
    = Debate.consensus bullish bearish neutral
        (default (dec 6 10) executeConfidenceThreshold) raw
    /\ Debate.score bullish = Debate.clamp01 xb
    /\ Debate.score bearish = Debate.clamp01 xe
    /\ Debate.score neutral = Debate.clamp01 xn.
Proof.
  intros Hb He Hn (Hxb & Hxe & Hxn).
  unfold Debate.debateWithMedianConsensus, Debate.perspectiveOf.
  rewrite Hb, He, Hn, Hxb, Hxe, Hxn.
  eexists _, _, _. split; [reflexivity|]. repeat split.
Qed.

(** a reply one of whose scores cannot be converted gives the fallback *)
Lemma debate_of_unconvertible_reply (raw : string) (parsed : Debate.Parsed)
    (pb pe pn : Debate.ParsedPerspective)
    (opportunity : Opportunity.t) (risk : Risk.RiskAssessmentResult)
    (allocation : Allocation.AllocationResult)
    (executeConfidenceThreshold : option JS.number) :
  Debate.parsed_bullish parsed = Some pb ->
  Debate.parsed_bearish parsed = Some pe ->
  Debate.parsed_neutral parsed = Some pn ->
  scoreThrows pb pe pn ->
  Debate.debateWithMedianConsensus (Debate.Completion raw (Some parsed))
    opportunity risk allocation executeConfidenceThreshold
  = Debate.fallbackDebateResult opportunity risk allocation
      (default (dec 6 10) executeConfidenceThreshold).
Proof.
  intros Hb He Hn (message & Hthrow).
  unfold Debate.debateWithMedianConsensus, Debate.perspectiveOf.
  rewrite Hb, He, Hn.
  destruct Hthrow as [H|[H|H]]; rewrite H;
    repeat match goal with
      | |- context [match Debate.scoreOperand ?v with _ => _ end] =>
          destruct (Debate.scoreOperand v)
      end; reflexivity.
Qed.

(** every result of the engine is a consensus or the fallback *)
Lemma debate_result_shape (provider : Debate.Provider)
    (opportunity : Opportunity.t) (risk : Risk.RiskAssessmentResult)
    (allocation : Allocation.AllocationResult)
    (executeConfidenceThreshold : option JS.number) :
  let threshold := default (dec 6 10) executeConfidenceThreshold in
  let res :=
    Debate.debateWithMedianConsensus provider opportunity risk allocation
      executeConfidenceThreshold in
  res = Debate.fallbackDebateResult opportunity risk allocation threshold
  \/ exists bullish bearish neutral raw,
       res = Debate.consensus bullish bearish neutral threshold raw.
Proof.
  cbv zeta. unfold Debate.debateWithMedianConsensus.
  destruct provider as [| |raw [parsed|]]; try (now left).
  destruct (Debate.parsed_bullish parsed), (Debate.parsed_bearish parsed),
    (Debate.parsed_neutral parsed); try (now left).
  repeat match goal with
    | |- context [match Debate.perspectiveOf ?n ?p with _ => _ end] =>
        destruct (Debate.perspectiveOf n p)
    end; try (now left).
  right. eauto.
Qed.

(** clamping leaves a number of [[0, 1]] as it is, and gives a number of
    [[0, 1]] for everything but [NaN] *)
Lemma clamp01_unit (q : Q) :
  (0 <= q <= 1)%Q ->
  (Debate.clamp01 (JS.or_default (JS.Num q) (int 0)) ≈ JS.Num q)%js.
Proof.
  intros Hq. unfold Debate.clamp01, JS.or_default. js_unfold. simpl.
  qcases; simpl; qcases; simpl; qcases; simpl; lra.
Qed.

Lemma clamp01_range (x : JS.number) :
  JS.is_nan x = false ->
  exists q : Q, Debate.clamp01 x = JS.Num q /\ (0 <= q <= 1)%Q.
Proof.
  intros Hx. unfold Debate.clamp01.
  destruct x as [q| | |]; try discriminate; js_unfold; simpl; qcases; simpl;
    qcases; eexists; (split; [reflexivity|]); lra.
Qed.

(** C1. Whatever the provider does, the result of
    [debateWithMedianConsensus], and the result of [fallbackDebateResult],
    has as [finalDecisionScore] the median of the three numbers
    [bullish.score], [1 - bearish.score] and [neutral.score] (when they are
    finite), and its decision is [execute] if and only if that score is at
    least the threshold, which is 0.6 when none is given.  The three scores
    are those of the reply: each is the score of the reply clamped into
    [[0, 1]], so for a reply with three scores [b], [e], [n] within [[0, 1]]
    the final score is the median of [b], [1 - e] and [n].  A clamped score
    is a number of [[0, 1]] unless the score of the reply converts to [NaN]
    (as a string that is not a number does); and when a score cannot be
    converted at all, the result is the fallback. *)
Theorem debate_finalDecisionScore_is_median (provider : Debate.Provider)
    (opportunity : Opportunity.t) (risk : Risk.RiskAssessmentResult)
    (allocation : Allocation.AllocationResult)
    (executeConfidenceThreshold : option JS.number) (t : JS.number) :
  let threshold := default (dec 6 10) executeConfidenceThreshold in
  let res :=
    Debate.debateWithMedianConsensus provider opportunity risk allocation
      executeConfidenceThreshold in
  median_rule res threshold
  /\ median_rule (Debate.fallbackDebateResult opportunity risk allocation t) t
  /\ (forall raw parsed pb pe pn,
        provider = Debate.Completion raw (Some parsed) ->
        Debate.parsed_bullish parsed = Some pb ->
        Debate.parsed_bearish parsed = Some pe ->
        Debate.parsed_neutral parsed = Some pn ->
        (forall xb xe xn,
            scoresConvert pb pe pn xb xe xn ->
            Debate.score (Debate.bullish res) = Debate.clamp01 xb
            /\ Debate.score (Debate.bearish res) = Debate.clamp01 xe
            /\ Debate.score (Debate.neutral res) = Debate.clamp01 xn
            /\ Debate.raw res = raw)
        /\ (forall b e n : Q,
              scoresAre pb pe pn b e n ->
              (0 <= b <= 1)%Q -> (0 <= e <= 1)%Q -> (0 <= n <= 1)%Q ->
              exists x m : Q,
                (int 1 - JS.Num e)%js = JS.Num x
                /\ Debate.finalDecisionScore res = JS.Num m
                /\ is_median m b x n
                /\ (Debate.decision res = Debate.execute
                    <-> (JS.Num m >=? threshold)%js = true))
        /\ (scoreThrows pb pe pn ->
            res = Debate.fallbackDebateResult opportunity risk allocation
                    threshold))
  /\ (forall x, JS.is_nan x = false ->
        exists q : Q, Debate.clamp01 x = JS.Num q /\ (0 <= q <= 1)%Q).
Proof.
  assert (Hf : forall t', median_rule
                (Debate.fallbackDebateResult opportunity risk allocation t') t').
  { intros t'. rewrite fallback_is_consensus. apply consensus_median_rule. }
  cbv zeta. split; [|split; [apply Hf|split; [|exact clamp01_range]]].
  - destruct (debate_result_shape provider opportunity risk allocation
                executeConfidenceThreshold)
      as [->|(bullish & bearish & neutral & raw & ->)];
      [apply Hf|apply consensus_median_rule].
  - intros raw parsed pb pe pn -> Hb He Hn. split; [|split].
    + intros xb xe xn Hconv.
      destruct (debate_of_reply raw parsed pb pe pn xb xe xn opportunity risk
                  allocation executeConfidenceThreshold Hb He Hn Hconv)
        as (bullish & bearish & neutral & -> & H1 & H2 & H3).
      cbn [Debate.consensus Debate.bullish Debate.bearish Debate.neutral
           Debate.raw]. auto.
    + intros b e n (Sb & Se & Sn) Hb01 He01 Hn01.
      assert (Hconv : scoresConvert pb pe pn
                        (JS.or_default (JS.Num b) (int 0))
                        (JS.or_default (JS.Num e) (int 0))
                        (JS.or_default (JS.Num n) (int 0))).
      { unfold scoresConvert. rewrite Sb, Se, Sn. repeat split. }
      destruct (debate_of_reply raw parsed pb pe pn _ _ _ opportunity risk
                  allocation executeConfidenceThreshold Hb He Hn Hconv)
        as (bullish & bearish & neutral & -> & H1 & H2 & H3).
      pose proof (clamp01_unit b Hb01) as Cb. rewrite <- H1 in Cb.
      pose proof (clamp01_unit e He01) as Ce. rewrite <- H2 in Ce.
      pose proof (clamp01_unit n Hn01) as Cn. rewrite <- H3 in Cn.
      destruct (Debate.score bullish) as [b'| | |] eqn:Eb; try contradiction.
      destruct (Debate.score bearish) as [e'| | |] eqn:Ee; try contradiction.
      destruct (Debate.score neutral) as [n'| | |] eqn:En; try contradiction.
      cbn [JS.eqv] in Cb, Ce, Cn.
      destruct (consensus_median_rule bullish bearish neutral
                  (default (dec 6 10) executeConfidenceThreshold) raw
                  b' (inject_Z 1 + - e')%Q n')
        as ((m & Em & _ & Hmed) & Hdec).
      * cbn [Debate.consensus Debate.bullish]. exact Eb.
      * cbn [Debate.consensus Debate.bearish]. rewrite Ee. reflexivity.
      * cbn [Debate.consensus Debate.neutral]. exact En.
      * exists (inject_Z 1 + - e)%Q, m. split; [reflexivity|].
        split; [exact Em|]. split.
        -- unfold is_median in *. rewrite Cb, Ce, Cn in Hmed. exact Hmed.
        -- rewrite Em in Hdec. exact Hdec.
    + intros Hthrow.
      apply (debate_of_unconvertible_reply raw parsed pb pe pn); assumption.
Qed.

(** numeric equality is respected by the operations the fallback uses *)
Lemma eqv_refl (x : JS.number) : (x ≈ x)%js.
Proof. destruct x; simpl; auto. reflexivity. Qed.

Lemma mul_comm_eqv (x y : JS.number) : (x * y ≈ y * x)%js.
Proof.
  destruct x, y; simpl; auto; try (qcases; simpl; auto; fail). apply Qmult_comm.
Qed.

Lemma lt_eqv (x x' y y' : JS.number) :
  (x ≈ x')%js -> (y ≈ y')%js -> (x <? y)%js = (x' <? y')%js.
Proof.
  destruct x, x', y, y'; simpl; intros Hx Hy; try contradiction; try reflexivity.
  qcases; try reflexivity; lra.
Qed.

Lemma neg_eqv (x x' : JS.number) : (x ≈ x')%js -> (JS.neg x ≈ JS.neg x')%js.
Proof. destruct x, x'; simpl; auto. intros H. now rewrite H. Qed.

Lemma add_eqv (x x' y y' : JS.number) :
  (x ≈ x')%js -> (y ≈ y')%js -> (x + y ≈ x' + y')%js.
Proof.
  destruct x, x', y, y'; simpl; intros Hx Hy; try contradiction; auto.
  now rewrite Hx, Hy.
Qed.

Lemma sub_eqv (x x' y y' : JS.number) :
  (x ≈ x')%js -> (y ≈ y')%js -> (x - y ≈ x' - y')%js.
Proof. intros Hx Hy. unfold JS.sub. apply add_eqv; [exact Hx|now apply neg_eqv]. Qed.

Lemma min_eqv (x x' y y' : JS.number) :
  (x ≈ x')%js -> (y ≈ y')%js -> (JS.min x y ≈ JS.min x' y')%js.
Proof.
  intros Hx Hy. pose proof (lt_eqv y y' x x' Hy Hx) as E.
  destruct x, x', y, y'; simpl in *; try contradiction; auto;
    try rewrite E;
    try match goal with
      | |- context [if ?c then _ else _] => destruct c; simpl; auto
      end.
Qed.

Lemma max_eqv (x x' y y' : JS.number) :
  (x ≈ x')%js -> (y ≈ y')%js -> (JS.max x y ≈ JS.max x' y')%js.
Proof.
  intros Hx Hy. pose proof (lt_eqv x x' y y' Hx Hy) as E.
  destruct x, x', y, y'; simpl in *; try contradiction; auto;
    try rewrite E;
    try match goal with
      | |- context [if ?c then _ else _] => destruct c; simpl; auto
      end.
Qed.

Lemma clamp01_eqv (x x' : JS.number) :
  (x ≈ x')%js -> (Debate.clamp01 x ≈ Debate.clamp01 x')%js.
Proof.
  intros H. unfold Debate.clamp01.
  apply max_eqv; [apply eqv_refl|]. apply min_eqv; [apply eqv_refl|exact H].
Qed.

(** C9. When the provider is unavailable or its call fails, the result is
    the fallback, a function of the risk score and of the spread alone for
    its scores: bullish = clamp(spreadScore - 0.3 * riskPenalty), bearish =
    clamp(riskPenalty), neutral = 0.5, where spreadScore = min(1,
    spreadPct / 3), riskPenalty = riskScore / 100 and clamp(x) =
    max(0, min(1, x)). *)
Theorem debate_falls_back_when_provider_fails (provider : Debate.Provider)
    (opportunity : Opportunity.t) (risk : Risk.RiskAssessmentResult)
    (allocation : Allocation.AllocationResult)
    (executeConfidenceThreshold : option JS.number) :
  provider_fails provider ->
  let res :=
    Debate.debateWithMedianConsensus provider opportunity risk allocation
      executeConfidenceThreshold in
  let spreadScore :=
    JS.min (int 1) (Opportunity.spreadPct opportunity / int 3)%js in
  let riskPenalty := (Risk.riskScore risk / int 100)%js in
  res = Debate.fallbackDebateResult opportunity risk allocation
          (default (dec 6 10) executeConfidenceThreshold)
  /\ (Debate.score (Debate.bullish res)
      ≈ Debate.clamp01 (spreadScore - dec 3 10 * riskPenalty))%js
  /\ Debate.score (Debate.bearish res) = Debate.clamp01 riskPenalty
  /\ Debate.score (Debate.neutral res) = dec 5 10.
Proof.
  intros Hfail res spreadScore riskPenalty.
  assert (E : res = Debate.fallbackDebateResult opportunity risk allocation
                      (default (dec 6 10) executeConfidenceThreshold)).
  { subst res. unfold Debate.debateWithMedianConsensus.
    destruct provider as [| |raw [parsed|]]; try reflexivity.
    simpl in Hfail.
    destruct (Debate.parsed_bullish parsed), (Debate.parsed_bearish parsed),
      (Debate.parsed_neutral parsed); try reflexivity.
    destruct Hfail as [H|[H|H]]; discriminate H. }
  split; [exact E|]. rewrite E. cbn [Debate.fallbackDebateResult
    Debate.bullish Debate.bearish Debate.neutral Debate.score].
  split; [|split; reflexivity].
  apply clamp01_eqv. apply sub_eqv; [apply eqv_refl|apply mul_comm_eqv].
Qed.

Lemma debate_falls_back_when_provider_fails_witness :
  let res :=
    Debate.debateWithMedianConsensus Debate.NoClient Sample.btc
      (Sample.riskOf (int 35) (dec 5 10)) (Sample.allocationOf (int 5000))
      None in
  (Debate.score (Debate.bullish res) ≈ dec 395 1000)%js
  /\ Debate.score (Debate.bearish res) = Debate.clamp01 (int 35 / int 100)%js
  /\ Debate.score (Debate.neutral res) = dec 5 10
  /\ Debate.decision res = Debate.wait.
Proof.
  destruct (debate_falls_back_when_provider_fails Debate.NoClient Sample.btc
              (Sample.riskOf (int 35) (dec 5 10))
              (Sample.allocationOf (int 5000)) None I)
    as (E & Hb & He & Hn).
  cbv zeta. split; [|split; [exact He|split; [exact Hn|]]].
  - rewrite E. vm_compute. reflexivity.
  - rewrite E. vm_compute. reflexivity.
Defined.

Lemma debate_finalDecisionScore_is_median_witness :
  let res :=
    Debate.debateWithMedianConsensus (reply (dec 8 10) (dec 3 10) (dec 5 10))
      Sample.btc (Sample.riskOf (int 35) (dec 5 10))
      (Sample.allocationOf (int 5000)) None in
  exists x m : Q,
    (int 1 - dec 3 10)%js = JS.Num x
    /\ Debate.finalDecisionScore res = JS.Num m
    /\ is_median m (8 # 10) x (5 # 10)
    /\ (Debate.decision res = Debate.execute
        <-> (JS.Num m >=? dec 6 10)%js = true).
Proof.
  destruct (debate_finalDecisionScore_is_median
              (reply (dec 8 10) (dec 3 10) (dec 5 10)) Sample.btc
              (Sample.riskOf (int 35) (dec 5 10))
              (Sample.allocationOf (int 5000)) None (dec 6 10))
    as (_ & _ & Hreply & _).
  destruct (Hreply _ _ _ _ _ eq_refl eq_refl eq_refl eq_refl)
    as (_ & Hmedian & _).
  apply (Hmedian (8 # 10) (3 # 10) (5 # 10)).
  - repeat split.
  - split; vm_compute; discriminate.
  - split; vm_compute; discriminate.
  - split; vm_compute; discriminate.
Defined.

(** score triples, ties included *)
Example debated_08_03_05 :
  debated (dec 8 10) (dec 3 10) (dec 5 10) = (JS.Num (1 + - (3 # 10)), Debate.execute).
Proof. vm_compute. reflexivity. Qed.

Example debated_09_09_05 :
  debated (dec 9 10) (dec 9 10) (dec 5 10) = (dec 5 10, Debate.wait).
Proof. vm_compute. reflexivity. Qed.

Example debated_tie_low :
  debated (dec 2 10) (dec 8 10) (dec 9 10) = (dec 2 10, Debate.wait).
Proof. vm_compute. reflexivity. Qed.

Example debated_tie_high :
  debated (dec 6 10) (dec 1 10) (dec 6 10) = (dec 6 10, Debate.execute).
Proof. vm_compute. reflexivity. Qed.

Example debated_all_equal :
  debated (dec 5 10) (dec 5 10) (dec 5 10) = (dec 5 10, Debate.wait).
Proof. vm_compute. reflexivity. Qed.

Example debated_out_of_range :
  debated (int 7) (int (-3)) JS.NaN = (int 1, Debate.execute).
Proof. vm_compute. reflexivity. Qed.

(** scores that are not numbers: the string ['high'] converts to [NaN] and
    gives the score [NaN], [true] converts to 1, [null] is falsy and gives
    0; an object whose conversion throws sends the engine to the fallback *)
Example score_not_a_number :
  let perspective v :=
    Debate.perspectiveOf 3
      {| Debate.parsed_score := Some v; Debate.parsed_reasons := None |} in
  let scored x := Returned {| Debate.score := x; Debate.reasons := [] |} in
  perspective (Debate.JsonOther true (Returned JS.NaN)) = scored JS.NaN
  /\ perspective (Debate.JsonOther true (Returned (int 1))) = scored (int 1)
  /\ perspective (Debate.JsonOther false (Returned (int 0))) = scored (int 0)
  /\ perspective
       (Debate.JsonOther true
          (Threw "Cannot convert object to primitive value"))
     = Threw "Cannot convert object to primitive value".
Proof. vm_compute. repeat split. Qed.

(** ** The Guardian *)

(** [guardianCheck] as a decision list over the five checks *)
Lemma guardianCheck_unfold (opportunity : Opportunity.t)
    (risk : Risk.RiskAssessmentResult)
    (allocation : Allocation.AllocationResult)
    (guardianConfig : option GuardianConfig.t) (w : World) :
  let config := configOf guardianConfig w in
  fst (Runner.guardianCheck opportunity risk allocation guardianConfig w)
  = if tradeTooLarge allocation guardianConfig w then
      Runner.veto
        (Runner.tradeSizeReason (tradePctOf allocation w)
           (GuardianConfig.maxTradePctOfPortfolio config)) []
    else if dailyLimitReached guardianConfig w then
      Runner.veto
        (Runner.dailyLimitReason (GuardianConfig.dailyMaxTrades config)) []
    else if tooVolatile risk guardianConfig w then
      Runner.veto (Runner.volatilityReason (Risk.volatilityPct risk))
        (exposureWarnings guardianConfig w)
    else if tooRisky risk then
      Runner.veto (Runner.riskScoreReason (Risk.riskScore risk))
        (exposureWarnings guardianConfig w)
    else
      {| Runner.pass := true; Runner.reason := None;
         Runner.warnings := exposureWarnings guardianConfig w |}.
Proof.
  cbv zeta.
  unfold Runner.guardianCheck, tradeTooLarge, dailyLimitReached, tooVolatile,
    tooRisky, exposureWarnings, exposureTooHigh, todayCount, exposureOf,
    tradePctOf, configOf, bind, getPortfolio, get, getAuditLog, dateNow, ret.
  cbn [fst snd auditLog set_clockTicks tzOffsetMs toDateString].
  destruct (_ / _ >? _)%js; cbn [fst]; [reflexivity|].
  destruct (JS.of_Z _ >=? _)%js; cbn [fst]; [reflexivity|].
  destruct (GuardianConfig.highVolatility _ && _); cbn [fst]; [reflexivity|].
  destruct (Risk.riskScore risk >? int 75)%js; reflexivity.
Qed.





(** the two scenarios of the Guardian: a trade of 20% against a limit of
    15%, and a second trade of the day against a limit of one *)
Example guardian_veto_trade_size :
  fst (Runner.guardianCheck Sample.btc (Sample.riskOf (int 35) (dec 5 10))
         (Sample.allocationOf (int 20000)) None Sample.DEFAULT_STATE)
  = {| Runner.pass := false;
       Runner.reason :=
         Some [Lit "Trade size "; Fixed (int 20000 / int 100000 * int 100)%js 1;
               Lit "% exceeds limit "; Show (dec 15 100 * int 100)%js; Lit "%"];
       Runner.warnings := [] |}.
Proof. vm_compute. reflexivity. Qed.

(** ** The execution engine *)

Lemma wellFormedAsks_cons (p q : JS.number) (rest : list (JS.number * JS.number)) :
  wellFormedAsks ((p, q) :: rest) = true ->
  exists x : Q, q = JS.Num x /\ (0 <= x)%Q /\ wellFormedAsks rest = true.
Proof.
  simpl. intros H. apply andb_prop in H as [H Hrest].
  apply andb_prop in H as [Hfin Hpos].
  destruct q as [x| | |]; try discriminate Hfin. exists x.
  split; [reflexivity|]. split; [|exact Hrest].
  js_unfold. simpl in Hpos. qcases; first [lra | discriminate].
Qed.

Lemma qdepth_nonneg (levels : list (JS.number * JS.number)) :
  wellFormedAsks levels = true -> (0 <= qdepth levels)%Q.
Proof.
  induction levels as [|[p q] rest IH]; intros H; [simpl; lra|].
  apply wellFormedAsks_cons in H as (x & -> & Hx & Hrest).
  specialize (IH Hrest). simpl. lra.
Qed.

Lemma depthOf_qdepth_acc (levels : list (JS.number * JS.number)) (acc : Q) :
  wellFormedAsks levels = true ->
  exists d : Q,
    foldl JS.add (JS.Num acc) (snd <$> levels) = JS.Num d
    /\ (d == acc + qdepth levels)%Q.
Proof.
  revert acc. induction levels as [|[p q] rest IH]; intros acc H.
  - exists acc. split; [reflexivity|]. simpl. lra.
  - apply wellFormedAsks_cons in H as (x & -> & Hx & Hrest).
    destruct (IH (acc + x)%Q Hrest) as (d & E & Hd).
    exists d. split; [exact E|]. simpl. lra.
Qed.

Lemma depthOf_qdepth (levels : list (JS.number * JS.number)) :
  wellFormedAsks levels = true ->
  exists d : Q, depthOf levels = JS.Num d /\ (d == qdepth levels)%Q.
Proof.
  intros H. destruct (depthOf_qdepth_acc levels 0 H) as (d & E & Hd).
  exists d. split; [exact E|]. lra.
Qed.

(** when the book holds less than what remains to be sold, the loop goes
    through every level and fills the whole depth *)
Lemma sellAcross_exhausts (levels : list (JS.number * JS.number))
    (remaining total : JS.number) (f : Q) :
  wellFormedAsks levels = true ->
  (JS.Num (qdepth levels) <? remaining)%js = true ->
  exists f' : Q,
    snd (Execution.sellAcross levels remaining total (JS.Num f)) = JS.Num f'
    /\ (f' == f + qdepth levels)%Q.
Proof.
  revert remaining total f.
  induction levels as [|[p q] rest IH]; intros remaining total f Hwf Hlt.
  - exists f. split; [reflexivity|]. simpl. lra.
  - apply wellFormedAsks_cons in Hwf as (x & -> & Hx & Hrest).
    pose proof (qdepth_nonneg rest Hrest) as Hd.
    destruct remaining as [r| | |]; try discriminate Hlt.
    + simpl in Hlt. cbn [Execution.sellAcross].
      js_unfold. cbn [JS.le JS.min JS.lt JS.add JS.neg].
      destruct (Qle_bool_spec r (0 # 1));
        [qcases; first [lra | discriminate]|].
      destruct (Qlt_bool_spec x r); [|qcases; first [lra | discriminate]].
      destruct (IH (JS.Num (r + - x)) (total + p * JS.Num x)%js (f + x)%Q Hrest)
        as (f' & E & Hf').
      { simpl. qcases; first [reflexivity | lra | discriminate]. }
      exists f'. split; [exact E|]. simpl. lra.
    + cbn [Execution.sellAcross]. js_unfold.
      cbn [JS.le JS.min JS.lt JS.add JS.neg].
      destruct (IH JS.PInf (total + p * JS.Num x)%js (f + x)%Q Hrest eq_refl)
        as (f' & E & Hf').
      exists f'. split; [exact E|]. simpl. lra.
Qed.

(** [updateExecutionRecord] leaves the audit log alone *)
Lemma updateExecutionRecord_frame (rid : text)
    (upd : ExecutionRecord.t -> ExecutionRecord.t) (w : World) :
  let w' := snd (updateExecutionRecord rid upd w) in
  auditLog w' = auditLog w /\ portfolio w' = portfolio w
  /\ clockTicks w' = clockTicks w /\ randomTicks w' = randomTicks w
  /\ clock w' = clock w /\ random w' = random w.
Proof.
  unfold updateExecutionRecord, bind, get, modify, ret. cbn.
  destruct (findIndex _ _) as [index|]; [|cbn; tauto].
  destruct (executionLog w !! index); cbn; tauto.
Qed.

(** the actions of the entries a run appends to the audit log *)
Lemma execute_appended_actions (opportunity : Opportunity.t)
    (allocatedUSDT : JS.number) (orderbook : IndianMock.OrderBook) (w : World) :
  let buyQty := (allocatedUSDT / Opportunity.binancePrice opportunity)%js in
  let fillRatio := Execution.fillRatioOf (IndianMock.asks orderbook) buyQty in
  let w' :=
    snd (Execution.executeArbitrageWithPartialFills opportunity allocatedUSDT
           (Returned orderbook) w) in
  AuditLogEntry.action <$> Execution.appended w w'
  = ["buy_order_placed"; "sell_simulated"]
      ++ (if (fillRatio <? dec 9 10)%js then ["rollback_triggered"] else [])
      ++ ["execution_completed"].
Proof.
  cbv zeta. unfold Execution.fillRatioOf, Execution.filledOf,
    Execution.appended, Execution.executeArbitrageWithPartialFills.
  unfold addAuditLog, addExecutionRecord, updatePortfolio, getPortfolio,
    bind, get, modify, ret, dateNow, mathRandom. cbn -[updateExecutionRecord].
  destruct (Execution.sellAcross _ _ _ _) as [[remaining total] filledQty].
  cbn -[updateExecutionRecord].
  destruct (filledQty / _ <? dec 9 10)%js; cbn -[updateExecutionRecord].
  all: match goal with
       | |- context [updateExecutionRecord ?i ?u ?w0] =>
           pose proof (updateExecutionRecord_frame i u w0) as Hframe;
           destruct (updateExecutionRecord i u w0) as [[] w1]
       end.
  all: cbn in Hframe; destruct Hframe as (Ha & Hp & Hc & Hr & Hck & Hrd).
  all: cbn; rewrite Ha; cbn.
  all: rewrite <- !app_assoc, drop_app_length; reflexivity.
Qed.

(** what a run that fetched the order book returns about the fill *)
Lemma execute_result_fill (opportunity : Opportunity.t)
    (allocatedUSDT : JS.number) (orderbook : IndianMock.OrderBook) (w : World) :
  let buyQty := (allocatedUSDT / Opportunity.binancePrice opportunity)%js in
  let res :=
    fst (Execution.executeArbitrageWithPartialFills opportunity allocatedUSDT
           (Returned orderbook) w) in
  Execution.success res = true
  /\ Execution.buyQty res = buyQty
  /\ Execution.filledQty res
     = Execution.filledOf (IndianMock.asks orderbook) buyQty
  /\ Execution.partialFill res
     = (Execution.fillRatioOf (IndianMock.asks orderbook) buyQty <? int 1)%js.
Proof.
  cbv zeta. unfold Execution.fillRatioOf, Execution.filledOf,
    Execution.executeArbitrageWithPartialFills.
  unfold addAuditLog, addExecutionRecord, updatePortfolio, getPortfolio,
    bind, get, modify, ret, dateNow, mathRandom. cbn -[updateExecutionRecord].
  destruct (Execution.sellAcross _ _ _ _) as [[remaining total] filledQty].
  cbn -[updateExecutionRecord].
  destruct (filledQty / _ <? dec 9 10)%js; cbn -[updateExecutionRecord].
  all: match goal with
       | |- context [updateExecutionRecord ?i ?u ?w0] =>
           destruct (updateExecutionRecord i u w0) as [[] w1]
       end.
  all: cbn; repeat split; reflexivity.
Qed.

(** a book shallower than the order fills less than the order *)
Lemma shallow_book_fill (levels : list (JS.number * JS.number))
    (buyQty : JS.number) :
  wellFormedAsks levels = true ->
  (depthOf levels <? buyQty)%js = true ->
  (Execution.filledOf levels buyQty <? buyQty)%js = true
  /\ (Execution.fillRatioOf levels buyQty <? int 1)%js = true.
Proof.
  intros Hwf Hlt.
  destruct (depthOf_qdepth levels Hwf) as (d & Ed & Hd).
  pose proof (qdepth_nonneg levels Hwf) as Hpos.
  rewrite Ed in Hlt.
  assert (Hlt' : (JS.Num (qdepth levels) <? buyQty)%js = true).
  { rewrite <- Hlt. apply lt_eqv; [simpl; lra|apply eqv_refl]. }
  destruct (sellAcross_exhausts levels buyQty (int 0) (inject_Z 0) Hwf Hlt')
    as (f & Ef & Hf).
  unfold Execution.fillRatioOf, Execution.filledOf.
  change (int 0) with (JS.Num (inject_Z 0)) at 2 4. rewrite Ef.
  unfold inject_Z in Hf.
  destruct buyQty as [b| | |]; try discriminate Hlt.
  - simpl in Hlt. js_unfold. simpl.
    destruct (Qlt_bool_spec d b); [|discriminate].
    split; [qcases; first [reflexivity | lra]|].
    destruct (Qis_zero_spec b); [lra|]. simpl.
    destruct (Qlt_bool_spec (f / b) 1); [reflexivity|].
    exfalso. apply n0. apply Qlt_shift_div_r; lra.
  - split; reflexivity.
Qed.

(** C4. In [executeArbitrageWithPartialFills], once the order book is
    fetched: [partialFill] is [fillRatio < 1.0]; a ['rollback_triggered']
    event is appended to the audit log exactly when [fillRatio < 0.9] (and
    then once); and when the total depth of the ask side is below [buyQty],
    [filledQty < buyQty] and [partialFill] is true. *)
Theorem executeArbitrage_partial_fill_and_rollback
    (opportunity : Opportunity.t) (allocatedUSDT : JS.number)
    (orderbook : IndianMock.OrderBook) (w : World) :
  let levels := IndianMock.asks orderbook in
  let buyQty := (allocatedUSDT / Opportunity.binancePrice opportunity)%js in
  let fillRatio := Execution.fillRatioOf levels buyQty in
  let run :=
    Execution.executeArbitrageWithPartialFills opportunity allocatedUSDT
      (Returned orderbook) w in
  let res := fst run in
  let rollbacks := Execution.rollbackEvents (Execution.appended w (snd run)) in
  Execution.partialFill res = (fillRatio <? int 1)%js
  /\ (Execution.filledQty res / Execution.buyQty res)%js = fillRatio
  /\ (length rollbacks = if (fillRatio <? dec 9 10)%js then 1%nat else 0%nat)
  /\ (wellFormedAsks levels = true ->
      (depthOf levels <? buyQty)%js = true ->
      (Execution.filledQty res <? Execution.buyQty res)%js = true
      /\ Execution.partialFill res = true).
Proof.
  cbv zeta.
  pose proof (execute_result_fill opportunity allocatedUSDT orderbook w)
    as (_ & Eb & Ef & Ep).
  pose proof (execute_appended_actions opportunity allocatedUSDT orderbook w)
    as Ea.
  cbv zeta in Eb, Ef, Ep, Ea. rewrite Eb, Ef, Ep.
  split; [reflexivity|]. split; [reflexivity|]. split.
  - unfold Execution.rollbackEvents.
    set (l := Execution.appended w _) in *.
    assert (E : length (List.filter
                 (fun e => bool_decide (AuditLogEntry.action e = "rollback_triggered")) l)
                = length (List.filter
                    (fun a => bool_decide (a = "rollback_triggered"))
                    (AuditLogEntry.action <$> l))).
    { clear Ea. induction l as [|e l IH]; [reflexivity|]. simpl.
      destruct (bool_decide _); simpl; now rewrite IH. }
    rewrite E, Ea. destruct (_ <? dec 9 10)%js; reflexivity.
  - intros Hwf Hlt.
    destruct (shallow_book_fill _ _ Hwf Hlt) as [H1 H2]. now rewrite H2.
Qed.

Lemma executeArbitrage_partial_fill_and_rollback_witness :
  let run :=
    Execution.executeArbitrageWithPartialFills Sample.btc (int 5000)
      (Returned thinBook) Sample.DEFAULT_STATE in
  (Execution.filledQty (fst run) <? Execution.buyQty (fst run))%js = true
  /\ Execution.partialFill (fst run) = true.
Proof.
  apply (proj2 (proj2 (proj2
           (executeArbitrage_partial_fill_and_rollback Sample.btc (int 5000)
              thinBook Sample.DEFAULT_STATE))));
    vm_compute; reflexivity.
Defined.

(** a thin book: half of the order is filled and the rollback is logged;
    a deep book: the order is filled and no rollback is logged; a book that
    cannot be fetched: the execution fails *)
Example execute_thin_book :
  let run :=
    Execution.executeArbitrageWithPartialFills Sample.btc (int 5000)
      (Returned thinBook) Sample.DEFAULT_STATE in
  (Execution.filledQty (fst run) ≈ dec 5 100)%js
  /\ AuditLogEntry.action <$> auditLog (snd run)
     = ["buy_order_placed"; "sell_simulated"; "rollback_triggered";
        "execution_completed"].
Proof. vm_compute. split; reflexivity. Qed.

Example execute_deep_book :
  let run :=
    Execution.executeArbitrageWithPartialFills Sample.btc (int 5000)
      (Returned deepBook) Sample.DEFAULT_STATE in
  (Execution.filledQty (fst run) ≈ dec 1 10)%js
  /\ Execution.partialFill (fst run) = false
  /\ AuditLogEntry.action <$> auditLog (snd run)
     = ["buy_order_placed"; "sell_simulated"; "execution_completed"]
  /\ ExecutionRecord.status <$> executionLog (snd run) = [completed].
Proof. vm_compute. repeat split; reflexivity. Qed.

Example execute_no_book :
  let run :=
    Execution.executeArbitrageWithPartialFills Sample.btc (int 5000)
      (Threw "Failed to fetch base price for BTCUSDT") Sample.DEFAULT_STATE in
  Execution.success (fst run) = false
  /\ AuditLogEntry.action <$> auditLog (snd run)
     = ["buy_order_placed"; "execution_failed"]
  /\ ExecutionRecord.status <$> executionLog (snd run) = [executing].
Proof. vm_compute. repeat split; reflexivity. Qed.

(** ** The opportunity detector *)

(** *** Sorting permutes *)

Lemma elem_of_sort_insert {A} (cmp : A -> A -> JS.number) (x y : A) (l : list A) :
  x ∈ sort_insert cmp y l <-> x = y \/ x ∈ l.
Proof.
  induction l as [|z l IH]; cbn [sort_insert].
  - rewrite list_elem_of_singleton, elem_of_nil. tauto.
  - destruct (cmp y z >? int 0)%js.
    + rewrite !elem_of_cons, IH. tauto.
    + rewrite !elem_of_cons. tauto.
Qed.

Lemma elem_of_js_sort {A} (cmp : A -> A -> JS.number) (x : A) (l : list A) :
  x ∈ js_sort cmp l <-> x ∈ l.
Proof.
  induction l as [|y l IH]; simpl; [reflexivity|].
  rewrite elem_of_sort_insert, elem_of_cons, IH. reflexivity.
Qed.

(** *** One iteration of the loop *)

Lemma observe_skip (currentTime : Z) (minSpread persistMs minCount : JS.number)
    (l : Detector.Loop) (priceData : Detector.DiscoveredPrice) (w : World) :
  qualifies minSpread priceData = false ->
  Detector.observe currentTime minSpread persistMs minCount l priceData w
  = (l, w).
Proof.
  unfold qualifies, Detector.observe. intros H.
  destruct (Detector.missingPrice priceData); [reflexivity|].
  destruct (Detector.belowThreshold minSpread priceData); [reflexivity|].
  discriminate H.
Qed.

Lemma observe_qualifying (currentTime : Z)
    (minSpread persistMs minCount : JS.number)
    (l : Detector.Loop) (priceData : Detector.DiscoveredPrice) (w : World) :
  qualifies minSpread priceData = true ->
  exists (entry : OpportunityPersistence.t) (w' : World),
    Detector.observe currentTime minSpread persistMs minCount l priceData w
    = ({| Detector.seenKeys := {[inputKey priceData]} ∪ Detector.seenKeys l;
          Detector.opportunities :=
            Detector.opportunities l
            ++ (if Detector.meetsCriteria currentTime persistMs minCount entry
                then [OpportunityPersistence.data entry] else []) |}, w')
    /\ persistenceBuffer w'
       = <[inputKey priceData := entry]> (persistenceBuffer w)
    /\ ((exists old,
            persistenceBuffer w !! inputKey priceData = Some old
            /\ entry = Detector.refreshed currentTime priceData old)
        \/ (persistenceBuffer w !! inputKey priceData = None
            /\ exists oppId,
                 entry = Detector.inserted currentTime oppId
                           (inputKey priceData) priceData)).
Proof.
  unfold qualifies, Detector.observe. intros H.
  destruct (Detector.missingPrice priceData); [discriminate H|].
  destruct (Detector.belowThreshold minSpread priceData); [discriminate H|].
  fold (inputKey priceData).
  cbv beta iota zeta delta [bind get modify ret dateNow mathRandom].
  destruct (persistenceBuffer w !! inputKey priceData) as [old|] eqn:E;
    cbv beta iota zeta delta [bind get modify ret dateNow mathRandom].
  - exists (Detector.refreshed currentTime priceData old). eexists. split.
    + destruct (Detector.meetsCriteria _ _ _ _); rewrite ?app_nil_r;
        reflexivity.
    + split; [reflexivity|left; eauto].
  - eexists (Detector.inserted currentTime _ (inputKey priceData) priceData).
    eexists. split.
    + destruct (Detector.meetsCriteria _ _ _ _); rewrite ?app_nil_r;
        reflexivity.
    + split; [reflexivity|right; eauto].
Qed.

(** *** The entries the loop writes *)

Lemma refreshed_entry (currentTime : Z) (persistMs minCount : JS.number)
    (priceData : Detector.DiscoveredPrice) (key : string)
    (old : OpportunityPersistence.t) :
  consistent key old ->
  let entry := Detector.refreshed currentTime priceData old in
  OpportunityPersistence.lastSeenTs entry = currentTime
  /\ consistent key entry
  /\ (Detector.meetsCriteria currentTime persistMs minCount entry = true ->
      persisted persistMs minCount (OpportunityPersistence.data entry)).
Proof.
  intros [Hkey Hfirst]. cbv zeta. split; [reflexivity|]. split.
  - split; [exact Hkey|exact Hfirst].
  - unfold Detector.meetsCriteria, persisted. cbn. rewrite Hfirst.
    intros H. apply orb_true_iff in H. tauto.
Qed.

Lemma inserted_entry (currentTime : Z) (persistMs minCount : JS.number)
    (priceData : Detector.DiscoveredPrice) (oppId : text) :
  let entry :=
    Detector.inserted currentTime oppId (inputKey priceData) priceData in
  OpportunityPersistence.lastSeenTs entry = currentTime
  /\ consistent (inputKey priceData) entry
  /\ (Detector.meetsCriteria currentTime persistMs minCount entry = true ->
      persisted persistMs minCount (OpportunityPersistence.data entry)).
Proof.
  cbv zeta. split; [reflexivity|]. split.
  - split; reflexivity.
  - unfold Detector.meetsCriteria, persisted. cbn.
    intros H. apply orb_true_iff in H. tauto.
Qed.

Lemma observedKeys_cons (minSpread : JS.number)
    (priceData : Detector.DiscoveredPrice)
    (prices : list Detector.DiscoveredPrice) :
  observedKeys minSpread (priceData :: prices)
  = if qualifies minSpread priceData
    then {[inputKey priceData]} ∪ observedKeys minSpread prices
    else observedKeys minSpread prices.
Proof.
  unfold observedKeys. simpl. destruct (qualifies minSpread priceData);
    reflexivity.
Qed.

(** *** The loop *)

Lemma forEach_cons {A S} (body : S -> A -> M S) (x : A) (l : list A) (s : S)
    (w : World) :
  forEach body (x :: l) s w
  = forEach body l (fst (body s x w)) (snd (body s x w)).
Proof. cbn [forEach]. unfold bind. destruct (body s x w); reflexivity. Qed.

Lemma forEach_observe (currentTime : Z) (minSpread persistMs minCount : JS.number)
    (prices : list Detector.DiscoveredPrice) (l : Detector.Loop) (w : World) :
  let run :=
    forEach (Detector.observe currentTime minSpread persistMs minCount)
      prices l w in
  loopPost currentTime minSpread persistMs minCount prices l w
    (fst run) (snd run).
Proof.
  revert l w. induction prices as [|p ps IH]; intros l w; cbv zeta.
  - unfold loopPost, observedKeys. cbn [forEach ret fst snd List.filter fmap
      list_fmap list_to_set foldr].
    split; [set_solver|]. split; [reflexivity|]. split; [set_solver|].
    split; [tauto|]. exists []. rewrite app_nil_r. split; [reflexivity|].
    intros _. constructor.
  - unfold loopPost in IH |- *.
    rewrite forEach_cons, observedKeys_cons.
    destruct (qualifies minSpread p) eqn:Hq.
    + destruct (observe_qualifying currentTime minSpread persistMs minCount
                  l p w Hq) as (entry & w1 & -> & Hbuf & Hentry).
      cbn [fst snd].
      specialize (IH {| Detector.seenKeys := {[inputKey p]} ∪ Detector.seenKeys l;
                        Detector.opportunities :=
                          Detector.opportunities l
                          ++ (if Detector.meetsCriteria currentTime persistMs
                                   minCount entry
                              then [OpportunityPersistence.data entry] else []) |}
                    w1).
      cbv zeta in IH. destruct (forEach _ ps _ w1) as [l' w'].
      cbn [fst snd] in *.
      destruct IH as (Hseen & Hout & Hin & Hcons & new & Hopps & Hnew).
      cbn [Detector.seenKeys Detector.opportunities] in *.
      assert (Hfacts :
        consistentBuffer (persistenceBuffer w) ->
        OpportunityPersistence.lastSeenTs entry = currentTime
        /\ consistent (inputKey p) entry
        /\ (Detector.meetsCriteria currentTime persistMs minCount entry = true ->
            persisted persistMs minCount (OpportunityPersistence.data entry))).
      { intros Hw. destruct Hentry as [(old & Hold & ->)|(_ & oppId & ->)].
        - apply refreshed_entry. exact (Hw _ _ Hold).
        - apply inserted_entry. }
      assert (Hlast : OpportunityPersistence.lastSeenTs entry = currentTime).
      { destruct Hentry as [(old & Hold & ->)|(_ & oppId & ->)]; reflexivity. }
      assert (Hcons1 : consistentBuffer (persistenceBuffer w) ->
                       consistentBuffer (persistenceBuffer w1)).
      { intros Hw. rewrite Hbuf. apply map_Forall_insert_2; [|exact Hw].
        apply (Hfacts Hw). }
      split; [rewrite Hseen; set_solver|]. split; [|split; [|split]].
      * intros k Hk. rewrite Hout by set_solver. rewrite Hbuf.
        apply lookup_insert_ne. set_solver.
      * intros k Hk.
        destruct (decide (k ∈ observedKeys minSpread ps)) as [Hps|Hps];
          [now apply Hin|].
        assert (k = inputKey p) as -> by set_solver.
        rewrite (Hout _ Hps), Hbuf, lookup_insert_eq. eauto.
      * intros Hw. apply Hcons, Hcons1, Hw.
      * eexists. split; [rewrite Hopps, <- app_assoc; reflexivity|].
        intros Hw. apply Forall_app. split.
        -- destruct (Detector.meetsCriteria _ _ _ entry) eqn:Hm; [|constructor].
           constructor; [|constructor]. destruct (Hfacts Hw) as (_ & Hc & Hp).
           split; [now apply Hp|]. destruct Hc as [-> _]. set_solver.
        -- eapply Forall_impl; [apply Hnew, Hcons1, Hw|].
           intros o [Ho Hk]. split; [exact Ho|set_solver].
    + rewrite (observe_skip _ _ _ _ _ _ _ Hq). apply IH.
Qed.

(** *** The clean-up *)

Lemma lookup_foldr_delete (m : gmap string OpportunityPersistence.t)
    (ks : list string) (k : string) :
  foldr delete m ks !! k = if decide (k ∈ ks) then None else m !! k.
Proof.
  induction ks as [|k' ks IH]; cbn [foldr].
  - destruct (decide (k ∈ [])) as [H|H]; [|reflexivity].
    apply elem_of_nil in H. contradiction.
  - destruct (decide (k' = k)) as [->|Hne].
    + rewrite lookup_delete_eq.
      destruct (decide (k ∈ k :: ks)) as [_|H]; [reflexivity|].
      exfalso. apply H. left.
    + rewrite lookup_delete_ne by exact Hne. rewrite IH.
      destruct (decide (k ∈ ks)) as [H|H], (decide (k ∈ k' :: ks)) as [H'|H'];
        try reflexivity.
      * exfalso. apply H'. now right.
      * exfalso. apply elem_of_cons in H' as [->|H']; [now apply Hne|now apply H].
Qed.

Lemma elem_of_staleKeys (seen : gset string) (currentTime : Z)
    (m : gmap string OpportunityPersistence.t) (k : string) :
  k ∈ Detector.staleKeys seen currentTime m
  <-> exists e, m !! k = Some e /\ (k ∉ seen)
                /\ 10000 < currentTime - OpportunityPersistence.lastSeenTs e.
Proof.
  unfold Detector.staleKeys. rewrite list_elem_of_fmap. split.
  - intros ([k' e] & -> & H). apply list_elem_of_filter in H as [[H1 H2] H].
    apply elem_of_map_to_list in H. exists e. auto.
  - intros (e & He & H1 & H2). exists (k, e). split; [reflexivity|].
    apply list_elem_of_filter. split; [split; assumption|].
    now apply elem_of_map_to_list.
Qed.

(** *** A poll *)

Lemma detectArbitrage_unfold (prices : list Detector.DiscoveredPrice)
    (opts : Detector.DetectArbitrageOptions) (w : World) :
  let currentTime := pollTime w in
  let loop :=
    forEach
      (Detector.observe currentTime (Detector.minSpreadPctOf opts)
         (Detector.persistenceMsOf opts) (Detector.minPersistenceCountOf opts))
      prices {| Detector.seenKeys := ∅; Detector.opportunities := [] |}
      (set_clockTicks (S (clockTicks w)) w) in
  Detector.detectArbitrage prices opts w
  = (js_sort Detector.byProfitDesc (Detector.opportunities (fst loop)),
     set_persistenceBuffer
       (foldr delete (persistenceBuffer (snd loop))
          (Detector.staleKeys (Detector.seenKeys (fst loop)) currentTime
             (persistenceBuffer (snd loop))))
       (snd loop)).
Proof.
  cbv zeta. unfold Detector.detectArbitrage, pollTime.
  cbv beta iota zeta delta [bind get modify ret dateNow].
  destruct (forEach _ _ _ _) as [l w1]. reflexivity.
Qed.

(** what a poll does to the buffer and what it returns *)
Lemma detectArbitrage_spec (prices : list Detector.DiscoveredPrice)
    (opts : Detector.DetectArbitrageOptions) (w : World) :
  let currentTime := pollTime w in
  let observed := observedKeys (Detector.minSpreadPctOf opts) prices in
  let run := Detector.detectArbitrage prices opts w in
  let buffer' := persistenceBuffer (snd run) in
  (forall k, k ∈ observed ->
     exists e, buffer' !! k = Some e
               /\ OpportunityPersistence.lastSeenTs e = currentTime)
  /\ (forall k, k ∉ observed ->
        buffer' !! k
        = match persistenceBuffer w !! k with
          | Some e =>
              if decide (10000 < currentTime
                                 - OpportunityPersistence.lastSeenTs e)
              then None else Some e
          | None => None
          end)
  /\ (consistentBuffer (persistenceBuffer w) ->
      consistentBuffer buffer'
      /\ Forall (fun o =>
                   persisted (Detector.persistenceMsOf opts)
                     (Detector.minPersistenceCountOf opts) o
                   /\ opportunityKeyOf o ∈ observed) (fst run)).
Proof.
  cbv zeta. rewrite detectArbitrage_unfold. cbv zeta. cbn [fst snd].
  pose proof (forEach_observe (pollTime w) (Detector.minSpreadPctOf opts)
                (Detector.persistenceMsOf opts)
                (Detector.minPersistenceCountOf opts) prices
                {| Detector.seenKeys := ∅; Detector.opportunities := [] |}
                (set_clockTicks (S (clockTicks w)) w)) as Hloop.
  cbv zeta in Hloop. destruct (forEach _ _ _ _) as [l w1].
  cbn [fst snd] in *.
  destruct Hloop as (Hseen & Hout & Hin & Hcons & new & Hopps & Hnew).
  cbn [Detector.seenKeys Detector.opportunities persistenceBuffer
       set_clockTicks set_persistenceBuffer] in *.
  assert (Hs : Detector.seenKeys l
               = observedKeys (Detector.minSpreadPctOf opts) prices)
    by (rewrite Hseen; set_solver).
  clear Hseen. rewrite Hs. split; [|split].
  - intros k Hk. destruct (Hin k Hk) as (e & He & Hlast).
    exists e. split; [|exact Hlast]. rewrite lookup_foldr_delete.
    destruct (decide _) as [Hstale|_]; [|exact He].
    apply elem_of_staleKeys in Hstale as (e' & _ & Hno & _). contradiction.
  - intros k Hk. rewrite lookup_foldr_delete, (Hout k Hk).
    destruct (persistenceBuffer w !! k) as [e|] eqn:E.
    + destruct (decide (10000 < _)) as [Hold|Hyoung];
        destruct (decide (k ∈ _)) as [Hstale|Hfresh]; try reflexivity.
      * exfalso. apply Hfresh. apply elem_of_staleKeys. exists e.
        rewrite (Hout k Hk). auto.
      * exfalso. apply elem_of_staleKeys in Hstale as (e' & He' & _ & Hlt).
        rewrite (Hout k Hk), E in He'. injection He' as <-. contradiction.
    + destruct (decide _); reflexivity.
  - intros Hw. split.
    + intros k e He. rewrite lookup_foldr_delete in He.
      destruct (decide _); [discriminate He|]. exact (Hcons Hw k e He).
    + apply List.Forall_forall. intros o Ho. rewrite <- list_elem_of_In in Ho.
      apply elem_of_js_sort in Ho. rewrite Hopps in Ho. cbn in Ho.
      specialize (Hnew Hw). rewrite List.Forall_forall in Hnew.
      apply Hnew. now rewrite <- list_elem_of_In.
Qed.

Lemma consistentBuffer_empty : consistentBuffer ∅.
Proof. apply map_Forall_empty. Qed.

Lemma detectArbitrage_consistent (prices : list Detector.DiscoveredPrice)
    (opts : Detector.DetectArbitrageOptions) (w : World) :
  consistentBuffer (persistenceBuffer w) ->
  consistentBuffer
    (persistenceBuffer (snd (Detector.detectArbitrage prices opts w))).
Proof.
  intros Hw. now apply (proj2 (proj2 (detectArbitrage_spec prices opts w))).
Qed.

Lemma afterPolls_consistent (n : nat) (prices : list Detector.DiscoveredPrice)
    (w : World) :
  consistentBuffer (persistenceBuffer w) ->
  consistentBuffer (persistenceBuffer (afterPolls n prices w)).
Proof.
  revert w. induction n as [|n IH]; intros w Hw; [exact Hw|].
  cbn [afterPolls]. apply IH. now apply detectArbitrage_consistent.
Qed.

(** C5. From a buffer the detector has written (every entry consistent
    with the snapshot it carries, as in the empty buffer and after every
    poll), every opportunity [detectArbitrage] returns satisfies
    [lastSeenTs - firstSeenTs >= persistenceMs] or
    [persistenceCount >= minPersistenceCount]; and an iteration whose buffer
    entry meets neither criterion pushes nothing. *)
Theorem detectArbitrage_emits_persisted
    (prices : list Detector.DiscoveredPrice)
    (opts : Detector.DetectArbitrageOptions) (w : World) :
  consistentBuffer (persistenceBuffer w) ->
  let persistMs := Detector.persistenceMsOf opts in
  let minCount := Detector.minPersistenceCountOf opts in
  Forall (persisted persistMs minCount)
    (fst (Detector.detectArbitrage prices opts w))
  /\ (forall currentTime l priceData w0 entry,
        let step :=
          Detector.observe currentTime (Detector.minSpreadPctOf opts)
            persistMs minCount l priceData w0 in
        persistenceBuffer (snd step) !! inputKey priceData = Some entry ->
        Detector.meetsCriteria currentTime persistMs minCount entry = false ->
        Detector.opportunities (fst step) = Detector.opportunities l).
Proof.
  intros Hw persistMs minCount. split.
  - destruct (detectArbitrage_spec prices opts w) as (_ & _ & H).
    destruct (H Hw) as [_ Hall]. eapply Forall_impl; [exact Hall|].
    intros o [Ho _]. exact Ho.
  - intros currentTime l priceData w0 entry step. subst step.
    destruct (qualifies (Detector.minSpreadPctOf opts) priceData) eqn:Hq.
    + destruct (observe_qualifying currentTime (Detector.minSpreadPctOf opts)
                  persistMs minCount l priceData w0 Hq)
        as (entry' & w1 & -> & Hbuf & _).
      cbn [fst snd Detector.opportunities]. rewrite Hbuf, lookup_insert_eq.
      intros [= ->] ->. apply app_nil_r.
    + rewrite (observe_skip _ _ _ _ _ _ _ Hq). reflexivity.
Qed.

Lemma detectArbitrage_emits_persisted_witness :
  let w := afterPolls 1 [btcPrices] Sample.DEFAULT_STATE in
  let out := fst (Detector.detectArbitrage [btcPrices] Detector.noOptions w) in
  length out = 1%nat /\ Forall (persisted (int 2000) (int 2)) out.
Proof.
  intros w out. split; [vm_compute; reflexivity|].
  apply (detectArbitrage_emits_persisted [btcPrices] Detector.noOptions w).
  apply (@bool_decide_unpack _ (consistentBuffer_dec (persistenceBuffer w))).
  vm_compute. reflexivity.
Defined.

Lemma elem_of_observedKeys (minSpread : JS.number)
    (prices : list Detector.DiscoveredPrice) (k : string) :
  k ∈ observedKeys minSpread prices
  <-> exists q, q ∈ prices /\ qualifies minSpread q = true /\ inputKey q = k.
Proof.
  induction prices as [|p ps IH].
  - unfold observedKeys. cbn. split; [set_solver|].
    intros (q & Hq & _). now apply elem_of_nil in Hq.
  - rewrite observedKeys_cons. split.
    + destruct (qualifies minSpread p) eqn:Hp.
      * rewrite elem_of_union, elem_of_singleton, IH.
        intros [->|(q & Hq & H)].
        -- exists p. split; [left|auto].
        -- exists q. split; [now right|exact H].
      * rewrite IH. intros (q & Hq & H). exists q. split; [now right|exact H].
    + intros (q & Hq & Hqual & Hkey). apply elem_of_cons in Hq as [->|Hq].
      * rewrite Hqual. apply elem_of_union. left. now apply elem_of_singleton.
      * assert (k ∈ observedKeys minSpread ps) by (apply IH; eauto).
        destruct (qualifies minSpread p); [apply elem_of_union; now right|easy].
Qed.

Lemma below_not_qualifies (minSpread : JS.number)
    (priceData : Detector.DiscoveredPrice) :
  Detector.belowThreshold minSpread priceData = true ->
  qualifies minSpread priceData = false.
Proof. unfold qualifies. intros ->. apply andb_false_r. Qed.

Lemma forEach_app {A S} (body : S -> A -> M S) (l1 l2 : list A) (s : S)
    (w : World) :
  forEach body (l1 ++ l2) s w
  = forEach body l2 (fst (forEach body l1 s w)) (snd (forEach body l1 s w)).
Proof.
  revert s w. induction l1 as [|x l1 IH]; intros s w; [reflexivity|].
  rewrite <- app_comm_cons, !forEach_cons. apply IH.
Qed.

(** an input below the threshold can be erased from the poll *)
Lemma detectArbitrage_erase (prices1 prices2 : list Detector.DiscoveredPrice)
    (priceData : Detector.DiscoveredPrice)
    (opts : Detector.DetectArbitrageOptions) (w : World) :
  qualifies (Detector.minSpreadPctOf opts) priceData = false ->
  Detector.detectArbitrage (prices1 ++ priceData :: prices2) opts w
  = Detector.detectArbitrage (prices1 ++ prices2) opts w.
Proof.
  intros Hq. rewrite !detectArbitrage_unfold. cbv zeta.
  rewrite !forEach_app, forEach_cons, (observe_skip _ _ _ _ _ _ _ Hq).
  reflexivity.
Qed.

(** C6. A price input whose [|spreadPct|] is below [minSpreadPct] (0.5 by
    default) leaves the loop of [detectArbitrage] as it found it: the buffer,
    the seen keys and the list of opportunities are unchanged, and the poll
    is the poll without that input.  When no other input of the poll is
    observed under the same key, the entry of the key is neither inserted nor
    updated (it is as before the poll, or purged) and no opportunity is
    returned for the key. *)
Theorem detectArbitrage_skips_small_spreads
    (prices1 prices2 : list Detector.DiscoveredPrice)
    (priceData : Detector.DiscoveredPrice)
    (opts : Detector.DetectArbitrageOptions) (w : World) :
  let minSpread := Detector.minSpreadPctOf opts in
  let key := inputKey priceData in
  let run := Detector.detectArbitrage (prices1 ++ priceData :: prices2) opts w in
  Detector.belowThreshold minSpread priceData = true ->
  (forall currentTime persistMs minCount l w0,
      Detector.observe currentTime minSpread persistMs minCount l priceData w0
      = (l, w0))
  /\ run = Detector.detectArbitrage (prices1 ++ prices2) opts w
  /\ ((forall q, q ∈ prices1 ++ prices2 -> inputKey q = key ->
         Detector.belowThreshold minSpread q = true) ->
      (persistenceBuffer (snd run) !! key = persistenceBuffer w !! key
       \/ persistenceBuffer (snd run) !! key = None)
      /\ (consistentBuffer (persistenceBuffer w) ->
          forall o, o ∈ fst run -> opportunityKeyOf o <> key)).
Proof.
  intros minSpread key run Hbelow.
  pose proof (below_not_qualifies _ _ Hbelow) as Hq.
  split; [|split].
  - intros. now apply observe_skip.
  - now apply detectArbitrage_erase.
  - intros Hothers.
    assert (Hno : key ∉ observedKeys minSpread (prices1 ++ priceData :: prices2)).
    { intros Hin. apply elem_of_observedKeys in Hin as (q & Hin & Hqual & Hkey).
      apply elem_of_app in Hin as [Hin|Hin];
        [|apply elem_of_cons in Hin as [->|Hin]].
      - rewrite (below_not_qualifies _ _ (Hothers q ltac:(set_solver) Hkey))
          in Hqual. discriminate.
      - fold minSpread in Hq. rewrite Hq in Hqual. discriminate.
      - rewrite (below_not_qualifies _ _ (Hothers q ltac:(set_solver) Hkey))
          in Hqual. discriminate. }
    destruct (detectArbitrage_spec (prices1 ++ priceData :: prices2) opts w)
      as (_ & Hout & Hcons).
    fold run minSpread in Hout, Hcons. split.
    + rewrite (Hout key Hno). destruct (persistenceBuffer w !! key) as [e|];
        [|now left]. destruct (decide _); [now right|now left].
    + intros Hw o Ho Hkey. destruct (Hcons Hw) as [_ Hall].
      rewrite List.Forall_forall in Hall. apply list_elem_of_In in Ho.
      destruct (Hall o Ho) as [_ Hobs]. rewrite Hkey in Hobs. contradiction.
Qed.

Lemma detectArbitrage_skips_small_spreads_witness :
  let run :=
    Detector.detectArbitrage ([btcPrices] ++ ethPrices :: []) Detector.noOptions
      Sample.DEFAULT_STATE in
  run = Detector.detectArbitrage ([btcPrices] ++ []) Detector.noOptions
          Sample.DEFAULT_STATE
  /\ persistenceBuffer (snd run) !! inputKey ethPrices = None.
Proof.
  intros run.
  destruct (detectArbitrage_skips_small_spreads [btcPrices] [] ethPrices
              Detector.noOptions Sample.DEFAULT_STATE eq_refl)
    as (_ & Herase & Hkey).
  split; [exact Herase|].
  destruct Hkey as [[H|H] _]; [|exact H|exact H].
  intros q Hq. apply list_elem_of_singleton in Hq as ->.
  vm_compute. discriminate.
Defined.

(** C8. After a poll at time [now], a buffered key that no input of the
    poll was observed under (no input passed the guards with that key) and
    whose [lastSeenTs] is more than 10000 ms before [now] is gone from the
    buffer; a key observed in the poll is buffered, last seen at [now]; and a
    key not observed but last seen at most 10000 ms ago keeps its entry. *)
Theorem detectArbitrage_purges_stale_keys
    (prices : list Detector.DiscoveredPrice)
    (opts : Detector.DetectArbitrageOptions) (w : World) :
  let now := pollTime w in
  let observed := observedKeys (Detector.minSpreadPctOf opts) prices in
  let buffer' :=
    persistenceBuffer (snd (Detector.detectArbitrage prices opts w)) in
  (forall k e,
      persistenceBuffer w !! k = Some e -> k ∉ observed ->
      10000 < now - OpportunityPersistence.lastSeenTs e ->
      buffer' !! k = None)
  /\ (forall k, k ∈ observed ->
        exists e, buffer' !! k = Some e
                  /\ OpportunityPersistence.lastSeenTs e = now)
  /\ (forall k e,
        persistenceBuffer w !! k = Some e -> k ∉ observed ->
        now - OpportunityPersistence.lastSeenTs e <= 10000 ->
        buffer' !! k = Some e).
Proof.
  intros now observed buffer'.
  destruct (detectArbitrage_spec prices opts w) as (Hin & Hout & _).
  fold now observed buffer' in Hin, Hout. split; [|split].
  - intros k e He Hk Hold. rewrite (Hout k Hk), He.
    destruct (decide _); [reflexivity|contradiction].
  - exact Hin.
  - intros k e He Hk Hyoung. rewrite (Hout k Hk), He.
    destruct (decide _); [lia|reflexivity].
Qed.

Lemma detectArbitrage_purges_stale_keys_witness :
  let seeded := afterPolls 1 [btcPrices] Sample.DEFAULT_STATE in
  let key := inputKey btcPrices in
  is_Some (persistenceBuffer seeded !! key)
  /\ persistenceBuffer
       (snd (Detector.detectArbitrage [ethPrices] Detector.noOptions
               (later 11000 seeded))) !! key = None
  /\ is_Some
       (persistenceBuffer
          (snd (Detector.detectArbitrage [ethPrices] Detector.noOptions
                  (later 5000 seeded))) !! key).
Proof.
  intros seeded key.
  destruct (persistenceBuffer seeded !! key) as [e|] eqn:E;
    [|vm_compute in E; discriminate E].
  split; [eexists; reflexivity|]. split.
  - apply (proj1 (detectArbitrage_purges_stale_keys [ethPrices]
                    Detector.noOptions (later 11000 seeded)) key e).
    + exact E.
    + vm_compute. discriminate.
    + vm_compute in E. injection E as <-. vm_compute. reflexivity.
  - exists e.
    apply (proj2 (proj2 (detectArbitrage_purges_stale_keys [ethPrices]
                           Detector.noOptions (later 5000 seeded))) key e).
    + exact E.
    + vm_compute. discriminate.
    + vm_compute in E. injection E as <-. vm_compute. discriminate.
Defined.

(** *** Keys

    The key [`${symbol}_${action}`] determines the symbol and the action:
    the two actions have the same length. *)

Lemma string_length_app (s t : string) :
  String.length (s +:+ t) = (String.length s + String.length t)%nat.
Proof. induction s as [|c s IH]; simpl; [reflexivity|now rewrite IH]. Qed.

Lemma string_app_inj_suffix (s1 s2 t1 t2 : string) :
  String.length t1 = String.length t2 ->
  s1 +:+ t1 = s2 +:+ t2 -> s1 = s2 /\ t1 = t2.
Proof.
  revert s2. induction s1 as [|c1 s1 IH]; intros [|c2 s2] Hlen H;
    cbv [String.append] in H; fold String.append in H.
  - split; [reflexivity|exact H].
  - exfalso. subst t1. simpl in Hlen. rewrite string_length_app in Hlen. lia.
  - exfalso. subst t2. simpl in Hlen. rewrite string_length_app in Hlen. lia.
  - injection H as -> H. destruct (IH s2 Hlen H) as [-> ->]. split; reflexivity.
Qed.

Lemma inputKey_inj (p q : Detector.DiscoveredPrice) :
  inputKey p = inputKey q ->
  Detector.symbol p = Detector.symbol q
  /\ Detector.actionOf (Detector.spreadPctOf p)
     = Detector.actionOf (Detector.spreadPctOf q).
Proof.
  unfold inputKey, Detector.keyOf. intros H.
  apply string_app_inj_suffix in H as [Hs Ha].
  - split; [exact Hs|]. now injection Ha.
  - unfold Detector.actionOf.
    destruct (_ >? _)%js, (_ >? _)%js; reflexivity.
Qed.

(** ** The scenario of the specification, end to end

    BTCUSDT at 50000 against 50750, seen on two polls: the second poll
    returns one opportunity with a spread of 1.5%; its risk score is 35; with
    100000 of cash the allocation is 10%, capped at 5000; the Guardian
    passes; the execution against a deep book succeeds. *)
Example end_to_end :
  let w1 := afterPolls 1 [btcPrices] Sample.DEFAULT_STATE in
  let poll := Detector.detectArbitrage [btcPrices] Detector.noOptions w1 in
  exists o,
    fst poll = [o]
    /\ (Opportunity.spreadPct o ≈ dec 15 10)%js
    /\ Opportunity.persistenceCount o = 2
    /\ let risk := Risk.assessRisk Risk.sqrt6 (snd poll) o (Some (int 1))
                     (Returned deepBook) in
       let allocation :=
         Allocation.allocateCapitalForOpportunity o risk
           (Sample.wallet (Portfolio.cash (portfolio (snd poll))) (int 5000)) in
       let guardian := Runner.guardianCheck o risk allocation None (snd poll) in
       let run :=
         Execution.executeArbitrageWithPartialFills o
           (Allocation.allocatedUSDT allocation) (Returned deepBook)
           (snd guardian) in
       (Risk.riskScore risk <? int 50)%js = true
       /\ (Allocation.allocationPct allocation ≈ dec 10 100)%js
       /\ (Allocation.allocatedUSDT allocation ≈ int 5000)%js
       /\ Runner.pass (fst guardian) = true
       /\ Execution.success (fst run) = true
       /\ Execution.partialFill (fst run) = false.
Proof.
  eexists. split; [vm_compute; reflexivity|].
  vm_compute. repeat split; reflexivity.
Qed.

(** * Further properties of the pipeline *)

(** ** The execution engine: failure and booking *)

(** X1. When the order book cannot be fetched, the execution fails without
    touching the portfolio: the result carries the error and zeros, the audit
    log receives ['buy_order_placed'] and ['execution_failed'], and the
    record written at step 3 stays in status [executing]. *)
Theorem executeArbitrage_fetch_failure (opportunity : Opportunity.t)
    (allocatedUSDT : JS.number) (message : string) (w : World) :
  let run :=
    Execution.executeArbitrageWithPartialFills opportunity allocatedUSDT
      (Threw message) w in
  Execution.success (fst run) = false
  /\ Execution.error (fst run) = Some message
  /\ Execution.filledQty (fst run) = int 0
  /\ Execution.netProfit (fst run) = int 0
  /\ Execution.partialFill (fst run) = false
  /\ portfolio (snd run) = portfolio w
  /\ AuditLogEntry.action <$> Execution.appended w (snd run)
     = ["buy_order_placed"; "execution_failed"]
  /\ exists record,
       executionLog (snd run) = executionLog w ++ [record]
       /\ ExecutionRecord.id record = Execution.auditId (fst run)
       /\ ExecutionRecord.status record = executing.
Proof.
  cbv zeta. unfold Execution.appended,
    Execution.executeArbitrageWithPartialFills, addAuditLog,
    addExecutionRecord, bind, get, modify, ret, dateNow, mathRandom.
  cbn. rewrite <- !app_assoc, drop_app_length.
  repeat split; try reflexivity. eexists. repeat split; reflexivity.
Qed.

(** X2. A run that fetched the order book books its net profit: the cash and
    the total value of the portfolio both move by the [netProfit] it
    returns, the positions are untouched, and that profit is the sell
    revenue less 0.2% of it, less the buy cost and 0.1% of it. *)
Theorem executeArbitrage_books_netProfit (opportunity : Opportunity.t)
    (allocatedUSDT : JS.number) (orderbook : IndianMock.OrderBook) (w : World) :
  let run :=
    Execution.executeArbitrageWithPartialFills opportunity allocatedUSDT
      (Returned orderbook) w in
  let res := fst run in
  Execution.success res = true
  /\ Portfolio.cash (portfolio (snd run))
     = (Portfolio.cash (portfolio w) + Execution.netProfit res)%js
  /\ Portfolio.totalValue (portfolio (snd run))
     = (Portfolio.totalValue (portfolio w) + Execution.netProfit res)%js
  /\ Portfolio.positions (portfolio (snd run)) = Portfolio.positions (portfolio w)
  /\ Execution.netProfit res
     = (Execution.avgSellPrice res * Execution.filledQty res
        - Execution.avgSellPrice res * Execution.filledQty res * dec 2 1000
        - (Execution.buyPrice res * Execution.buyQty res
           + Execution.buyPrice res * Execution.buyQty res * dec 1 1000))%js.
Proof.
  cbv zeta. unfold Execution.executeArbitrageWithPartialFills.
  unfold addAuditLog, addExecutionRecord, updatePortfolio, getPortfolio,
    bind, get, modify, ret, dateNow, mathRandom. cbn -[updateExecutionRecord].
  destruct (Execution.sellAcross _ _ _ _) as [[remaining total] filledQty].
  cbn -[updateExecutionRecord].
  destruct (filledQty / _ <? dec 9 10)%js; cbn -[updateExecutionRecord].
  all: match goal with
       | |- context [updateExecutionRecord ?i ?u ?w0] =>
           pose proof (updateExecutionRecord_frame i u w0) as Hframe;
           destruct (updateExecutionRecord i u w0) as [[] w1]
       end.
  all: cbn in Hframe; destruct Hframe as (Ha & Hp & Hc & Hr & Hck & Hrd).
  all: cbn; rewrite Hp; cbn; repeat split; reflexivity.
Qed.

(** ** Walking the ask side

    The two loops over the asks add and subtract quantities; what is stated
    of them below are the comparisons and the bounds that hold however the
    sums are rounded: a sum of quantities that are not negative is not
    negative, a sum of smaller terms is not larger, and an order that the
    best ask covers is filled by that ask alone, without any sum. *)

(** the loop of the liquidity estimate and the loop of the engine are the
    same function *)
Lemma walkAsks_sellAcross (levels : list (JS.number * JS.number))
    (remaining total filled : JS.number) :
  IndianMock.walkAsks levels remaining total filled
  = Execution.sellAcross levels remaining total filled.
Proof.
  revert remaining total filled.
  induction levels as [|[p q] rest IH]; intros; [reflexivity|].
  cbn [IndianMock.walkAsks Execution.sellAcross].
  destruct (_ <=? _)%js; [reflexivity|apply IH].
Qed.

(** what the loop does from finite accumulators, next to the running depth
    [d] of the levels gone through: what remains stays a number that is not
    negative, and the filled quantity grows without overtaking the depth *)
Lemma sellAcross_within_depth (levels : list (JS.number * JS.number))
    (total : JS.number) (r f d : Q) :
  wellFormedAsks levels = true -> (0 <= r)%Q -> (f <= d)%Q ->
  exists r' f' d' : Q,
    fst (fst (Execution.sellAcross levels (JS.Num r) total (JS.Num f)))
    = JS.Num r'
    /\ snd (Execution.sellAcross levels (JS.Num r) total (JS.Num f))
       = JS.Num f'
    /\ foldl JS.add (JS.Num d) (snd <$> levels) = JS.Num d'
    /\ (0 <= r')%Q /\ (f <= f')%Q /\ (f' <= d')%Q.
Proof.
  revert total r f d.
  induction levels as [|[p q] rest IH]; intros total r f d Hwf Hr Hfd.
  - exists r, f, d. cbn. repeat split; lra.
  - apply wellFormedAsks_cons in Hwf as (x & -> & Hx & Hrest).
    cbn [Execution.sellAcross fmap list_fmap foldl snd]. js_unfold.
    cbn [JS.le JS.min JS.lt JS.add JS.neg].
    destruct (Qle_bool_spec r (0 # 1)).
    + destruct (depthOf_qdepth_acc rest (d + x) Hrest) as (d' & Ed & Hd).
      pose proof (qdepth_nonneg rest Hrest).
      exists r, f, d'. cbn [fst snd]. split; [reflexivity|].
      split; [reflexivity|]. split; [exact Ed|]. repeat split; lra.
    + destruct (Qlt_bool_spec x r).
      * destruct (IH (total + p * JS.Num x)%js (r + - x)%Q (f + x)%Q (d + x)%Q
                    Hrest ltac:(lra) ltac:(lra))
          as (r' & f' & d' & E1 & E2 & E3 & H1 & H2 & H3).
        exists r', f', d'. repeat split; first [assumption|lra].
      * destruct (IH (total + p * JS.Num r)%js (r + - r)%Q (f + r)%Q (d + x)%Q
                    Hrest ltac:(lra) ltac:(lra))
          as (r' & f' & d' & E1 & E2 & E3 & H1 & H2 & H3).
        exists r', f', d'. repeat split; first [assumption|lra].
Qed.

(** nothing is sold when nothing is asked for *)
Lemma sellAcross_nothing_to_sell (levels : list (JS.number * JS.number))
    (r : Q) (total filled : JS.number) :
  (r <= 0)%Q ->
  Execution.sellAcross levels (JS.Num r) total filled = (JS.Num r, total, filled).
Proof.
  intros Hr. destruct levels as [|[p q] rest]; [reflexivity|].
  cbn [Execution.sellAcross]. js_unfold. cbn [JS.le].
  destruct (Qle_bool_spec r (0 # 1)); [reflexivity|lra].
Qed.

(** an order that the best ask covers is filled by that ask alone: the
    loop fills [remaining] at the first level and stops *)
Lemma sellAcross_best_ask_covers (p : JS.number) (q r : Q)
    (rest : list (JS.number * JS.number)) :
  (0 < r <= q)%Q ->
  exists r' f' : Q,
    Execution.sellAcross ((p, JS.Num q) :: rest) (JS.Num r) (int 0) (int 0)
    = (JS.Num r', (int 0 + p * JS.Num r)%js, JS.Num f')
    /\ (r' == 0)%Q /\ (f' == r)%Q.
Proof.
  intros [Hr Hq]. cbn [Execution.sellAcross]. js_unfold.
  cbn [JS.le JS.min JS.lt JS.add JS.neg].
  destruct (Qle_bool_spec r (0 # 1)); [lra|].
  destruct (Qlt_bool_spec q r); [lra|]. cbn [JS.neg].
  rewrite sellAcross_nothing_to_sell by lra.
  eexists _, _. split; [reflexivity|]. split; lra.
Qed.

(** the sell leg of a run, as the result reports it *)
Lemma execute_result_sell (opportunity : Opportunity.t)
    (allocatedUSDT : JS.number) (orderbook : IndianMock.OrderBook) (w : World) :
  let buyQty := (allocatedUSDT / Opportunity.binancePrice opportunity)%js in
  let walk :=
    Execution.sellAcross (IndianMock.asks orderbook) buyQty (int 0) (int 0) in
  let res :=
    fst (Execution.executeArbitrageWithPartialFills opportunity allocatedUSDT
           (Returned orderbook) w) in
  Execution.buyQty res = buyQty
  /\ Execution.filledQty res = snd walk
  /\ Execution.avgSellPrice res
     = (if (snd walk >? int 0)%js then (snd (fst walk) / snd walk)%js else int 0)
  /\ Execution.partialFill res = (snd walk / buyQty <? int 1)%js.
Proof.
  cbv zeta. unfold Execution.executeArbitrageWithPartialFills.
  unfold addAuditLog, addExecutionRecord, updatePortfolio, getPortfolio,
    bind, get, modify, ret, dateNow, mathRandom. cbn -[updateExecutionRecord].
  destruct (Execution.sellAcross _ _ _ _) as [[remaining total] filledQty].
  cbn -[updateExecutionRecord].
  destruct (filledQty / _ <? dec 9 10)%js; cbn -[updateExecutionRecord].
  all: match goal with
       | |- context [updateExecutionRecord ?i ?u ?w0] =>
           destruct (updateExecutionRecord i u w0) as [[] w1]
       end.
  all: cbn; repeat split; reflexivity.
Qed.

(** the number of rollback events a run appends *)
Lemma execute_rollback_count (opportunity : Opportunity.t)
    (allocatedUSDT : JS.number) (orderbook : IndianMock.OrderBook) (w : World) :
  let buyQty := (allocatedUSDT / Opportunity.binancePrice opportunity)%js in
  let fillRatio := Execution.fillRatioOf (IndianMock.asks orderbook) buyQty in
  let w' :=
    snd (Execution.executeArbitrageWithPartialFills opportunity allocatedUSDT
           (Returned orderbook) w) in
  Execution.rollbackEvents (Execution.appended w w') = []
  <-> (fillRatio <? dec 9 10)%js = false.
Proof.
  cbv zeta.
  pose proof (execute_appended_actions opportunity allocatedUSDT orderbook w)
    as Ea. cbv zeta in Ea. unfold Execution.rollbackEvents.
  set (l := Execution.appended w _) in *.
  assert (E : forall l : list AuditLogEntry.t,
             List.filter
               (fun e => bool_decide (AuditLogEntry.action e = "rollback_triggered")) l
             = [] <->
             List.filter (fun a => bool_decide (a = "rollback_triggered"))
               (AuditLogEntry.action <$> l) = []).
  { clear. induction l as [|e l IH]; [split; reflexivity|]. cbn.
    destruct (bool_decide _); [split; discriminate|exact IH]. }
  rewrite E, Ea. destruct (_ <? dec 9 10)%js; vm_compute; split; intros H;
    first [reflexivity | discriminate H].
Qed.

(** X3. The engine sells within the book.  On an ask side whose quantities
    are finite and not negative, for a finite [buyQty] that is not negative,
    the filled quantity is a number between 0 and the depth of the asks (the
    sum of their quantities, added in the order of the book), and nothing is
    filled, at the average price 0, when nothing is to be bought.  An order
    that the best ask alone covers is filled whole by it: [filledQty] is
    [buyQty], [partialFill] is false and no rollback is logged. *)
Theorem executeArbitrage_fills_within_depth (opportunity : Opportunity.t)
    (allocatedUSDT : JS.number) (orderbook : IndianMock.OrderBook) (w : World)
    (b : Q) :
  wellFormedAsks (IndianMock.asks orderbook) = true ->
  (allocatedUSDT / Opportunity.binancePrice opportunity)%js = JS.Num b ->
  (0 <= b)%Q ->
  let run :=
    Execution.executeArbitrageWithPartialFills opportunity allocatedUSDT
      (Returned orderbook) w in
  exists f : Q,
    Execution.filledQty (fst run) = JS.Num f
    /\ (0 <= f)%Q
    /\ (JS.Num f <=? depthOf (IndianMock.asks orderbook))%js = true
    /\ ((b == 0)%Q -> (f == 0)%Q)
    /\ ((f == 0)%Q -> Execution.avgSellPrice (fst run) = int 0)
    /\ (forall p (q : Q) rest,
          IndianMock.asks orderbook = (p, JS.Num q) :: rest ->
          (0 < b <= q)%Q ->
          (f == b)%Q
          /\ Execution.partialFill (fst run) = false
          /\ Execution.rollbackEvents (Execution.appended w (snd run)) = []).
Proof.
  intros Hasks Hb Hpos run. subst run.
  destruct (execute_result_sell opportunity allocatedUSDT orderbook w)
    as (_ & Ef & Ea & Ep).
  pose proof (execute_rollback_count opportunity allocatedUSDT orderbook w)
    as Hroll.
  cbv zeta in Ef, Ea, Ep, Hroll.
  unfold Execution.fillRatioOf, Execution.filledOf in Hroll.
  rewrite Hb in Ef, Ea, Ep, Hroll.
  destruct (sellAcross_within_depth (IndianMock.asks orderbook) (int 0) b 0 0
              Hasks Hpos ltac:(lra))
    as (r' & f' & d' & E1 & E2 & E3 & H1 & H2 & H3).
  change (JS.Num 0) with (int 0) in E2, E3. fold (depthOf (IndianMock.asks orderbook)) in E3.
  rewrite E2 in Ef, Ea, Ep, Hroll.
  exists f'. split; [exact Ef|]. split; [lra|].
  split; [rewrite E3; cbn [JS.le]; destruct (Qle_bool_spec f' d');
          [reflexivity|lra]|].
  split; [|split].
  - intros Hb0. rewrite sellAcross_nothing_to_sell in E2 by lra.
    cbn [snd] in E2. injection E2 as <-. reflexivity.
  - intros Hf0. rewrite Ea. js_unfold. cbn [JS.lt].
    destruct (Qlt_bool_spec (0 # 1) f'); [lra|reflexivity].
  - intros p q rest Hbook Hcover.
    destruct (sellAcross_best_ask_covers p q b rest Hcover)
      as (r0 & f0 & E0 & Hr0 & Hf0).
    rewrite Hbook, E0 in E2. cbn [snd] in E2. injection E2 as <-.
    split; [exact Hf0|].
    assert (Hratio : (f0 / b == 1)%Q) by (rewrite Hf0; field; lra).
    split.
    + rewrite Ep. js_unfold. cbn [JS.lt JS.div].
      destruct (Qis_zero_spec b); [lra|]. cbn [JS.lt].
      destruct (Qlt_bool_spec (f0 / b) (1 # 1)); [lra|reflexivity].
    + apply Hroll. js_unfold. cbn [JS.lt JS.div].
      destruct (Qis_zero_spec b); [lra|]. cbn [JS.lt].
      destruct (Qlt_bool_spec (f0 / b) (9 # 10)); [lra|reflexivity].
Qed.

Lemma executeArbitrage_fills_within_depth_witness :
  let run :=
    Execution.executeArbitrageWithPartialFills Sample.btc (int 2500)
      (Returned deepBook) Sample.DEFAULT_STATE in
  exists f : Q,
    Execution.filledQty (fst run) = JS.Num f /\ (f == 5 # 100)%Q
    /\ Execution.partialFill (fst run) = false.
Proof.
  destruct (executeArbitrage_fills_within_depth Sample.btc (int 2500) deepBook
              Sample.DEFAULT_STATE (2500 / 50000))
    as (f & Ef & _ & _ & _ & _ & Hfull).
  - reflexivity.
  - reflexivity.
  - vm_compute. discriminate.
  - exists f. split; [exact Ef|].
    destruct (Hfull (int 50760) (5 # 100) [(int 50770, int 3)] eq_refl)
      as (E & Hp & _).
    + split; vm_compute; [reflexivity|discriminate].
    + split; [rewrite E; reflexivity|exact Hp].
Defined.

(** ** The liquidity estimate ([lib/exchanges/indianMock]) *)

(** X4. [getIndianLiquidityEstimate] fails exactly when the order book
    cannot be fetched.  On an ask side whose quantities are finite and not
    negative, for a finite target, the fillable quantity is a number between
    0 and the depth of the asks; it is 0, with an expected average price of
    0, when the target is not positive; and a target that the best ask
    alone covers is fillable whole. *)
Theorem getIndianLiquidityEstimate_within_depth
    (orderbook : IndianMock.OrderBook) (t : Q) :
  wellFormedAsks (IndianMock.asks orderbook) = true ->
  (forall (book : outcome IndianMock.OrderBook) message,
      IndianMock.getIndianLiquidityEstimate book (JS.Num t) = Threw message
      <-> book = Threw message)
  /\ exists (estimate : IndianMock.LiquidityEstimate) (f : Q),
       IndianMock.getIndianLiquidityEstimate (Returned orderbook) (JS.Num t)
       = Returned estimate
       /\ IndianMock.fillableQty estimate = JS.Num f
       /\ (0 <= f)%Q
       /\ (JS.Num f <=? depthOf (IndianMock.asks orderbook))%js = true
       /\ ((t <= 0)%Q -> (f == 0)%Q)
       /\ ((f == 0)%Q -> IndianMock.expectedAvgPrice estimate = int 0)
       /\ (forall p (q : Q) rest,
             IndianMock.asks orderbook = (p, JS.Num q) :: rest ->
             (0 < t <= q)%Q -> (f == t)%Q).
Proof.
  intros Hasks. split.
  { intros [m|book] message; cbn [IndianMock.getIndianLiquidityEstimate].
    - split; intros [= ->]; reflexivity.
    - destruct (IndianMock.walkAsks _ _ _ _) as [[r c] f].
      split; discriminate. }
  unfold IndianMock.getIndianLiquidityEstimate. rewrite walkAsks_sellAcross.
  destruct (depthOf_qdepth (IndianMock.asks orderbook) Hasks) as (d & Ed & Hd).
  pose proof (qdepth_nonneg _ Hasks) as Hd0.
  destruct (Qlt_le_dec 0 t) as [Hpos|Hneg].
  - destruct (sellAcross_within_depth (IndianMock.asks orderbook) (int 0) t 0 0
                Hasks ltac:(lra) ltac:(lra))
      as (r' & f' & d' & E1 & E2 & E3 & H1 & H2 & H3).
    change (JS.Num 0) with (int 0) in E2, E3.
    fold (depthOf (IndianMock.asks orderbook)) in E3.
    rewrite Ed in E3. injection E3 as <-.
    destruct (Execution.sellAcross _ _ _ _) as [[r0 c0] f0] eqn:Ewalk.
    cbn [snd] in E2. subst f0.
    eexists _, f'. split; [reflexivity|].
    cbn [IndianMock.fillableQty IndianMock.expectedAvgPrice].
    split; [reflexivity|]. split; [lra|].
    split; [rewrite Ed; cbn [JS.le]; destruct (Qle_bool_spec f' d);
            [reflexivity|lra]|].
    split; [intros; lra|]. split.
    + intros Hf0. js_unfold. cbn [JS.lt].
      destruct (Qlt_bool_spec (0 # 1) f'); [lra|reflexivity].
    + intros p q rest Hbook Hcover.
      destruct (sellAcross_best_ask_covers p q t rest Hcover)
        as (r1 & f1 & E0 & Hr1 & Hf1).
      change (JS.Num 0) with (int 0) in Ewalk.
      rewrite Hbook, E0 in Ewalk. injection Ewalk as _ _ <-. exact Hf1.
  - rewrite sellAcross_nothing_to_sell by lra.
    eexists _, 0%Q. split; [reflexivity|].
    cbn [IndianMock.fillableQty IndianMock.expectedAvgPrice].
    split; [reflexivity|]. split; [lra|].
    split; [rewrite Ed; cbn [JS.le]; destruct (Qle_bool_spec 0 d);
            [reflexivity|lra]|].
    split; [reflexivity|]. split; [reflexivity|].
    intros p q rest _ Hcover. lra.
Qed.

Lemma getIndianLiquidityEstimate_within_depth_witness :
  exists (estimate : IndianMock.LiquidityEstimate) (f : Q),
    IndianMock.getIndianLiquidityEstimate (Returned deepBook) (dec 5 100)
    = Returned estimate
    /\ IndianMock.fillableQty estimate = JS.Num f
    /\ (f == 5 # 100)%Q.
Proof.
  destruct (getIndianLiquidityEstimate_within_depth deepBook (5 # 100))
    as (_ & estimate & f & E & Ef & _ & _ & _ & _ & Hfull).
  - reflexivity.
  - exists estimate, f. split; [exact E|]. split; [exact Ef|].
    apply (Hfull (int 50760) (5 # 100) [(int 50770, int 3)] eq_refl).
    split; vm_compute; [reflexivity|discriminate].
Defined.

(** ** The risk assessor: range and spread *)

Lemma scoreOf_range (spreadPct volatilityPct fillRatio slippagePct : JS.number) :
  exists q : Q,
    Risk.scoreOf spreadPct volatilityPct fillRatio slippagePct = JS.Num q
    /\ (15 <= q <= 100)%Q.
Proof.
  unfold Risk.scoreOf. cbv zeta.
  repeat match goal with
    | |- context [if ?c then _ else _] => destruct c
    end;
    eexists; (split; [vm_compute; reflexivity|]); lra.
Qed.

(** X5. Whatever the opportunity, the price history and the order book, and also
    when the order book cannot be fetched, [assessRisk] returns a finite risk
    score between 15 and 100 and a slippage that is not negative; when the
    order book cannot be fetched the score is 80 and the fillable quantity
    is 0. *)
Theorem assessRisk_score_range (sqrt : JS.number -> JS.number) (w : World)
    (opportunity : Opportunity.t) (targetQuantity : option JS.number)
    (orderbook : outcome IndianMock.OrderBook) :
  let res := Risk.assessRisk sqrt w opportunity targetQuantity orderbook in
  (exists q : Q, Risk.riskScore res = JS.Num q /\ (15 <= q <= 100)%Q)
  /\ (Risk.slippagePct res <? int 0)%js = false
  /\ (forall message,
        orderbook = Threw message ->
        Risk.riskScore res = int 80
        /\ IndianMock.fillableQty (Risk.liquidityEstimate res) = int 0).
Proof.
  cbv zeta. unfold Risk.assessRisk.
  destruct (Risk.deriveVolatility sqrt _) as [v n].
  destruct orderbook as [message|book];
    cbn [IndianMock.getIndianLiquidityEstimate].
  - split; [exists 80%Q; split; [reflexivity|lra]|].
    split; [reflexivity|]. intros m _. split; reflexivity.
  - destruct (IndianMock.walkAsks _ _ _ _) as [[remaining total] filled].
    cbn [Risk.riskScore Risk.slippagePct IndianMock.fillableQty
           IndianMock.expectedAvgPrice].
    split; [apply scoreOf_range|]. split; [|intros m H; discriminate H].
    match goal with |- (JS.abs ?x <? _)%js = false => destruct x end;
      try reflexivity.
    js_unfold. cbn [JS.abs JS.lt]. destruct (Qlt_bool_spec (Qabs q) (0 # 1));
      [|reflexivity].
    pose proof (Qabs_nonneg q). lra.
Qed.

Lemma assessRisk_score_range_witness :
  let res :=
    Risk.assessRisk Risk.sqrt6 Sample.DEFAULT_STATE Sample.btc None
      (Threw "timeout") in
  Risk.riskScore res = int 80
  /\ IndianMock.fillableQty (Risk.liquidityEstimate res) = int 0.
Proof.
  intros res.
  destruct (assessRisk_score_range Risk.sqrt6 Sample.DEFAULT_STATE Sample.btc
              None (Threw "timeout")) as (_ & _ & Hthrew).
  exact (Hthrew "timeout" eq_refl).
Defined.

(** the spread step of the score goes down when the spread goes up *)
Lemma spread_bonus_antitone (s1 s2 : JS.number) :
  (s1 <=? s2)%js = true ->
  le_fin
    (if (s2 >? int 2)%js then (int 50 - int 20)%js
     else if (s2 >? int 1)%js then (int 50 - int 10)%js
     else if (s2 <? dec 5 10)%js then (int 50 + int 20)%js else int 50)
    (if (s1 >? int 2)%js then (int 50 - int 20)%js
     else if (s1 >? int 1)%js then (int 50 - int 10)%js
     else if (s1 <? dec 5 10)%js then (int 50 + int 20)%js else int 50).
Proof.
  intros Hle.
  destruct s1 as [a| | |], s2 as [b| | |]; try discriminate Hle;
    js_unfold; simpl in *; qcases; try discriminate; try lra;
    eexists _, _; (split; [reflexivity|split; [reflexivity|]]); simpl; lra.
Qed.

Lemma scoreOf_antitone_in_spread
    (s1 s2 volatilityPct fillRatio slippagePct : JS.number) :
  (s1 <=? s2)%js = true ->
  (Risk.scoreOf s2 volatilityPct fillRatio slippagePct
     <=? Risk.scoreOf s1 volatilityPct fillRatio slippagePct)%js = true.
Proof.
  intros Hle. unfold Risk.scoreOf. cbv zeta. apply le_fin_clamp.
  repeat match goal with
    | |- le_fin (if ?c then _ else _) (if ?c then _ else _) => destruct c
    | |- le_fin (_ + int _)%js (_ + int _)%js => apply le_fin_add
    | |- le_fin (_ - int _)%js (_ - int _)%js => apply le_fin_sub
    end.
  all: now apply spread_bonus_antitone.
Qed.

(** X6. A larger spread never raises the risk: of two opportunities that differ
    only in [spreadPct], assessed in the same state against the same order
    book, the one with the larger spread has a risk score that is not
    higher. *)
Theorem assessRisk_riskScore_antitone_in_spread
    (sqrt : JS.number -> JS.number) (w : World) (o1 o2 : Opportunity.t)
    (targetQuantity : option JS.number)
    (orderbook : outcome IndianMock.OrderBook) :
  Opportunity.symbol o1 = Opportunity.symbol o2 ->
  Opportunity.indianPrice o1 = Opportunity.indianPrice o2 ->
  (Opportunity.spreadPct o1 <=? Opportunity.spreadPct o2)%js = true ->
  (Risk.riskScore (Risk.assessRisk sqrt w o2 targetQuantity orderbook)
     <=? Risk.riskScore (Risk.assessRisk sqrt w o1 targetQuantity orderbook))%js
  = true.
Proof.
  intros Hs Hp Hle. unfold Risk.assessRisk. rewrite Hs, Hp.
  destruct (Risk.deriveVolatility sqrt _) as [v n].
  destruct (IndianMock.getIndianLiquidityEstimate orderbook _) as [e|est].
  - reflexivity.
  - cbn [Risk.riskScore]. now apply scoreOf_antitone_in_spread.
Qed.

Lemma assessRisk_riskScore_antitone_in_spread_witness :
  (Risk.riskScore
     (Risk.assessRisk Risk.sqrt6 Sample.DEFAULT_STATE
        (withSpread (dec 25 10) Sample.btc) None (Returned deepBook))
   <=? Risk.riskScore
         (Risk.assessRisk Risk.sqrt6 Sample.DEFAULT_STATE
            (withSpread (dec 4 10) Sample.btc) None (Returned deepBook)))%js
  = true.
Proof.
  apply (assessRisk_riskScore_antitone_in_spread Risk.sqrt6 Sample.DEFAULT_STATE
           (withSpread (dec 4 10) Sample.btc) (withSpread (dec 25 10) Sample.btc)
           None (Returned deepBook)); reflexivity.
Defined.

(** ** The Guardian: what a pass means, and what a check leaves behind *)

(** X7. A pass of [guardianCheck] means that no hard limit fails: the
    trade fraction [allocatedUSDT / totalValue] that the check computes is
    not above [maxTradePctOfPortfolio], the daily limit is not reached, the
    volatility veto does not apply and the risk score is not above 75; the
    result then has no reason, while a veto always has one.  A check changes
    nothing in the state but the position of the clock. *)
Theorem guardianCheck_pass_sound (opportunity : Opportunity.t)
    (risk : Risk.RiskAssessmentResult)
    (allocation : Allocation.AllocationResult)
    (guardianConfig : option GuardianConfig.t) (w : World) :
  let run := Runner.guardianCheck opportunity risk allocation guardianConfig w in
  (Runner.pass (fst run) = true ->
   tradeTooLarge allocation guardianConfig w = false
   /\ dailyLimitReached guardianConfig w = false
   /\ tooVolatile risk guardianConfig w = false
   /\ tooRisky risk = false
   /\ Runner.reason (fst run) = None)
  /\ (Runner.pass (fst run) = false -> Runner.reason (fst run) <> None)
  /\ (snd run = w \/ snd run = set_clockTicks (S (clockTicks w)) w).
Proof.
  cbv zeta. split; [|split].
  - rewrite guardianCheck_unfold. cbv zeta.
    destruct (tradeTooLarge allocation guardianConfig w); [discriminate|].
    destruct (dailyLimitReached guardianConfig w); [discriminate|].
    destruct (tooVolatile risk guardianConfig w); [discriminate|].
    destruct (tooRisky risk); [discriminate|].
    intros _. repeat split.
  - rewrite guardianCheck_unfold. cbv zeta.
    destruct (tradeTooLarge allocation guardianConfig w); [discriminate|].
    destruct (dailyLimitReached guardianConfig w); [discriminate|].
    destruct (tooVolatile risk guardianConfig w); [discriminate|].
    destruct (tooRisky risk); [discriminate|]. discriminate.
  - unfold Runner.guardianCheck, bind, getPortfolio, get, getAuditLog,
      dateNow, ret. cbn [fst snd].
    destruct (_ / _ >? _)%js; cbn [snd]; [now left|].
    destruct (JS.of_Z _ >=? _)%js; cbn [snd]; [now right|].
    destruct (GuardianConfig.highVolatility _ && _); cbn [snd]; [now right|].
    destruct (Risk.riskScore risk >? int 75)%js; now right.
Qed.

Lemma guardianCheck_pass_sound_witness :
  let run :=
    Runner.guardianCheck Sample.btc (Sample.riskOf (int 35) (dec 5 10))
      (Sample.allocationOf (int 5000)) None Sample.DEFAULT_STATE in
  Runner.pass (fst run) = true
  /\ tooRisky (Sample.riskOf (int 35) (dec 5 10)) = false
  /\ Runner.reason (fst run) = None.
Proof.
  intros run. assert (Hpass : Runner.pass (fst run) = true)
    by (vm_compute; reflexivity).
  split; [exact Hpass|].
  destruct (proj1 (guardianCheck_pass_sound Sample.btc
                     (Sample.riskOf (int 35) (dec 5 10))
                     (Sample.allocationOf (int 5000)) None Sample.DEFAULT_STATE)
              Hpass) as (_ & _ & _ & Hr & Hnone).
  split; [exact Hr|exact Hnone].
Defined.

(** ** The opportunity detector: what a poll returns *)

Lemma observe_entry_facts (currentTime : Z) (p : Detector.DiscoveredPrice)
    (buffer : gmap string OpportunityPersistence.t)
    (entry : OpportunityPersistence.t) :
  (exists old,
      buffer !! inputKey p = Some old
      /\ entry = Detector.refreshed currentTime p old)
  \/ (buffer !! inputKey p = None
      /\ exists oppId,
           entry = Detector.inserted currentTime oppId (inputKey p) p) ->
  snapshotOf currentTime p (OpportunityPersistence.data entry)
  /\ OpportunityPersistence.persistenceCount entry
     = countOf (buffer !! inputKey p) + 1
  /\ Opportunity.persistenceCount (OpportunityPersistence.data entry)
     = OpportunityPersistence.persistenceCount entry
  /\ OpportunityPersistence.firstSeenTs entry
     = from_option OpportunityPersistence.firstSeenTs currentTime
         (buffer !! inputKey p).
Proof.
  intros [(old & -> & ->)|(-> & oppId & ->)]; repeat split.
Qed.

Lemma forEach_observe_emits (currentTime : Z)
    (minSpread persistMs minCount : JS.number)
    (prices : list Detector.DiscoveredPrice) (l : Detector.Loop) (w : World) :
  let run :=
    forEach (Detector.observe currentTime minSpread persistMs minCount)
      prices l w in
  exists inputs new,
    Detector.opportunities (fst run) = Detector.opportunities l ++ new
    /\ inputs `sublist_of` List.filter (qualifies minSpread) prices
    /\ Forall2 (snapshotOf currentTime) inputs new.
Proof.
  revert l w. induction prices as [|p ps IH]; intros l w; cbv zeta.
  - exists [], []. cbn. rewrite app_nil_r. repeat split; constructor.
  - rewrite forEach_cons. cbn [List.filter].
    destruct (qualifies minSpread p) eqn:Hq.
    + destruct (observe_qualifying currentTime minSpread persistMs minCount
                  l p w Hq) as (entry & w1 & -> & Hbuf & Hentry).
      cbn [fst snd].
      destruct (observe_entry_facts _ _ _ _ Hentry) as (Hsnap & _).
      match goal with
      | |- context [forEach ?b ps ?l1 w1] =>
          destruct (IH l1 w1) as (inputs & new & Hopps & Hsub & Hall)
      end.
      cbv zeta in Hopps. rewrite Hopps. cbn [Detector.opportunities].
      destruct (Detector.meetsCriteria _ _ _ entry).
      * exists (p :: inputs), (OpportunityPersistence.data entry :: new).
        rewrite <- app_assoc. split; [reflexivity|].
        split; [now apply sublist_skip|now constructor].
      * exists inputs, new. rewrite app_nil_r. split; [reflexivity|].
        split; [now apply sublist_cons|exact Hall].
    + rewrite (observe_skip _ _ _ _ _ _ _ Hq). apply IH.
Qed.

Lemma length_sort_insert {A} (cmp : A -> A -> JS.number) (x : A) (l : list A) :
  length (sort_insert cmp x l) = S (length l).
Proof.
  induction l as [|y l IH]; cbn [sort_insert]; [reflexivity|].
  destruct (cmp x y >? int 0)%js; cbn [length]; [now rewrite IH|reflexivity].
Qed.

Lemma length_js_sort {A} (cmp : A -> A -> JS.number) (l : list A) :
  length (js_sort cmp l) = length l.
Proof.
  induction l as [|y l IH]; [reflexivity|].
  cbn [js_sort foldr]. fold (js_sort cmp l).
  now rewrite length_sort_insert, IH.
Qed.

Lemma qualifies_spread (minSpread : JS.number) (p : Detector.DiscoveredPrice) :
  qualifies minSpread p = true ->
  (JS.abs (Detector.spreadPctOf p) <? minSpread)%js = false
  /\ JS.truthy (Detector.binancePrice p) = true
  /\ JS.truthy (Detector.indianPrice p) = true.
Proof.
  unfold qualifies, Detector.missingPrice, Detector.belowThreshold.
  destruct (JS.truthy (Detector.binancePrice p)),
    (JS.truthy (Detector.indianPrice p)), (_ <? _)%js; cbn;
    intros H; try discriminate H; auto.
Qed.

Lemma detectArbitrage_returns_snapshots_aux
    (prices : list Detector.DiscoveredPrice)
    (opts : Detector.DetectArbitrageOptions) (w : World) :
  exists inputs emitted,
    fst (Detector.detectArbitrage prices opts w)
    = js_sort Detector.byProfitDesc emitted
    /\ inputs `sublist_of`
         List.filter (qualifies (Detector.minSpreadPctOf opts)) prices
    /\ Forall2 (snapshotOf (pollTime w)) inputs emitted.
Proof.
  rewrite detectArbitrage_unfold. cbv zeta. cbn [fst].
  destruct (forEach_observe_emits (pollTime w) (Detector.minSpreadPctOf opts)
              (Detector.persistenceMsOf opts)
              (Detector.minPersistenceCountOf opts) prices
              {| Detector.seenKeys := ∅; Detector.opportunities := [] |}
              (set_clockTicks (S (clockTicks w)) w))
    as (inputs & new & Hopps & Hsub & Hall).
  cbv zeta in Hopps. rewrite Hopps. cbn [Detector.opportunities app].
  exists inputs, new. auto.
Qed.

(** X8. Every opportunity a poll returns is the snapshot of an input of this
    poll that passed the two guards: it carries the two prices of that input,
    the absolute spread computed from them (not below [minSpreadPct]), that
    spread less 0.3 as estimated profit, and the time of the poll as
    [lastSeenTs].  The returned list is a reordering of a list that follows
    the order of the inputs, each input giving at most one opportunity; so a
    poll returns at most as many opportunities as inputs passed the guards. *)
Theorem detectArbitrage_returns_snapshots
    (prices : list Detector.DiscoveredPrice)
    (opts : Detector.DetectArbitrageOptions) (w : World) :
  let minSpread := Detector.minSpreadPctOf opts in
  let out := fst (Detector.detectArbitrage prices opts w) in
  (exists inputs emitted,
      out = js_sort Detector.byProfitDesc emitted
      /\ inputs `sublist_of` List.filter (qualifies minSpread) prices
      /\ Forall2 (snapshotOf (pollTime w)) inputs emitted)
  /\ (forall o, o ∈ out ->
        exists p, p ∈ prices
                  /\ qualifies minSpread p = true
                  /\ snapshotOf (pollTime w) p o
                  /\ (Opportunity.spreadPct o <? minSpread)%js = false)
  /\ (length out <= length (List.filter (qualifies minSpread) prices))%nat.
Proof.
  cbv zeta.
  destruct (detectArbitrage_returns_snapshots_aux prices opts w)
    as (inputs & new & -> & Hsub & Hall).
  split; [|split].
  - exists inputs, new. auto.
  - intros o Ho. apply elem_of_js_sort in Ho.
    apply list_elem_of_lookup in Ho as [i Hi].
    destruct (Forall2_lookup_r _ _ _ _ _ Hall Hi) as (p & Hp & Hsnap).
    assert (Hin : p ∈ List.filter (qualifies (Detector.minSpreadPctOf opts))
                        prices).
    { eapply elem_of_sublist; [|exact Hsub]. eapply list_elem_of_lookup_2.
      exact Hp. }
    apply list_elem_of_In, List.filter_In in Hin as [Hin Hq].
    exists p. split; [now apply list_elem_of_In|]. split; [exact Hq|].
    split; [exact Hsnap|].
    destruct Hsnap as (_ & _ & _ & -> & _). now apply qualifies_spread.
  - rewrite length_js_sort, <- (Forall2_length _ _ _ Hall).
    now apply sublist_length.
Qed.

Lemma detectArbitrage_returns_snapshots_witness :
  let w := afterPolls 1 [btcPrices; solPrices] Sample.DEFAULT_STATE in
  let out :=
    fst (Detector.detectArbitrage [btcPrices; solPrices] Detector.noOptions w) in
  exists o p,
    out !! 0%nat = Some o
    /\ p ∈ [btcPrices; solPrices]
    /\ snapshotOf (pollTime w) p o.
Proof.
  intros w out.
  assert (Ho : exists o, out !! 0%nat = Some o)
    by (vm_compute; eexists; reflexivity).
  destruct Ho as [o Ho].
  destruct (detectArbitrage_returns_snapshots [btcPrices; solPrices]
              Detector.noOptions w) as (_ & Hall & _).
  destruct (Hall o (list_elem_of_lookup_2 _ _ _ Ho)) as (p & Hp & _ & Hs & _).
  exists o, p. split; [exact Ho|]. split; [exact Hp|exact Hs].
Defined.

(** *** The order of the returned list *)

Section Sorted.
Context {A : Type} (cmp : A -> A -> JS.number) (P : A -> Prop)
  (R : A -> A -> Prop).
Hypothesis cmp_le : forall x y, P x -> P y -> (cmp x y >? int 0)%js = false -> R x y.
Hypothesis cmp_gt : forall x y, P x -> P y -> (cmp x y >? int 0)%js = true -> R y x.
Hypothesis R_trans :
  forall x y z, P x -> P y -> P z -> R x y -> R y z -> R x z.

Lemma Forall_sort_insert (Q : A -> Prop) (x : A) (l : list A) :
  Q x -> Forall Q l -> Forall Q (sort_insert cmp x l).
Proof.
  intros Hx Hl. apply Forall_forall. intros y Hy.
  apply elem_of_sort_insert in Hy as [->|Hy]; [exact Hx|].
  rewrite Forall_forall in Hl. now apply Hl.
Qed.

Lemma sort_insert_sorted (x : A) (l : list A) :
  P x -> Forall P l -> StronglySorted R l ->
  StronglySorted R (sort_insert cmp x l).
Proof.
  intros Hx. induction l as [|y l IH]; intros HP Hs; cbn [sort_insert].
  - repeat constructor.
  - apply Forall_cons in HP as [Hy HP].
    apply StronglySorted_inv in Hs as [Hs Hall].
    destruct (cmp x y >? int 0)%js eqn:E.
    + constructor; [now apply IH|].
      apply Forall_sort_insert; [now apply cmp_gt|exact Hall].
    + constructor; [now constructor|].
      constructor; [now apply cmp_le|].
      rewrite Forall_forall in Hall, HP |- *. intros z Hz.
      apply (R_trans x y z); auto.
Qed.

Lemma js_sort_sorted (l : list A) :
  Forall P l -> StronglySorted R (js_sort cmp l).
Proof.
  induction l as [|x l IH]; intros HP; [constructor|].
  apply Forall_cons in HP as [Hx HP]. cbn [js_sort foldr]. fold (js_sort cmp l).
  apply sort_insert_sorted; [exact Hx| |now apply IH].
  apply Forall_forall. intros y Hy. apply elem_of_js_sort in Hy.
  rewrite Forall_forall in HP. now apply HP.
Qed.

End Sorted.

Lemma snapshot_profit_finite (currentTime : Z) (minSpread : JS.number)
    (p : Detector.DiscoveredPrice) (o : Opportunity.t) :
  finitePrices p -> qualifies minSpread p = true ->
  snapshotOf currentTime p o ->
  JS.is_finite (Opportunity.estimatedGrossProfitPct o) = true.
Proof.
  intros [Hb Hi] Hq (_ & _ & _ & _ & ->).
  apply qualifies_spread in Hq as (_ & Ht & _).
  unfold Detector.spreadPctOf.
  destruct (Detector.binancePrice p) as [b| | |]; try discriminate Hb.
  destruct (Detector.indianPrice p) as [i| | |]; try discriminate Hi.
  cbn in Ht. js_unfold. cbn [JS.neg JS.add JS.div].
  destruct (JS.Qis_zero b); [discriminate Ht|]. reflexivity.
Qed.

(** X9. When the prices of the inputs are finite numbers, the list a poll
    returns is in descending order of [estimatedGrossProfitPct]: no
    opportunity is listed before one of a larger estimated profit. *)
Theorem detectArbitrage_sorted_by_profit
    (prices : list Detector.DiscoveredPrice)
    (opts : Detector.DetectArbitrageOptions) (w : World) :
  Forall finitePrices prices ->
  StronglySorted profitDesc (fst (Detector.detectArbitrage prices opts w)).
Proof.
  intros Hfin.
  destruct (detectArbitrage_returns_snapshots_aux prices opts w)
    as (inputs & emitted & -> & Hsub & Hall).
  apply (js_sort_sorted Detector.byProfitDesc
           (fun o => JS.is_finite (Opportunity.estimatedGrossProfitPct o) = true)).
  - unfold profitDesc, Detector.byProfitDesc. intros x y Hx Hy.
    destruct (Opportunity.estimatedGrossProfitPct x); try discriminate Hx.
    destruct (Opportunity.estimatedGrossProfitPct y); try discriminate Hy.
    js_unfold. cbn. qcases; intros; try reflexivity; try discriminate; lra.
  - unfold profitDesc, Detector.byProfitDesc. intros x y Hx Hy.
    destruct (Opportunity.estimatedGrossProfitPct x); try discriminate Hx.
    destruct (Opportunity.estimatedGrossProfitPct y); try discriminate Hy.
    js_unfold. cbn. qcases; intros; try reflexivity; try discriminate; lra.
  - unfold profitDesc. intros x y z Hx Hy Hz.
    destruct (Opportunity.estimatedGrossProfitPct x); try discriminate Hx.
    destruct (Opportunity.estimatedGrossProfitPct y); try discriminate Hy.
    destruct (Opportunity.estimatedGrossProfitPct z); try discriminate Hz.
    cbn. qcases; intros; try reflexivity; try discriminate; lra.
  - apply Forall_forall. intros o Ho.
    apply list_elem_of_lookup in Ho as [i Hi].
    destruct (Forall2_lookup_r _ _ _ _ _ Hall Hi) as (p & Hp & Hsnap).
    assert (Hin : p ∈ List.filter (qualifies (Detector.minSpreadPctOf opts))
                        prices).
    { eapply elem_of_sublist; [|exact Hsub]. eapply list_elem_of_lookup_2.
      exact Hp. }
    apply list_elem_of_In, List.filter_In in Hin as [Hin Hq].
    apply (snapshot_profit_finite (pollTime w) (Detector.minSpreadPctOf opts) p);
      [|exact Hq|exact Hsnap].
    rewrite Forall_forall in Hfin. apply Hfin. now apply list_elem_of_In.
Qed.

Lemma detectArbitrage_sorted_by_profit_witness :
  let w := afterPolls 1 [btcPrices; solPrices] Sample.DEFAULT_STATE in
  let out :=
    fst (Detector.detectArbitrage [btcPrices; solPrices] Detector.noOptions w) in
  (Opportunity.symbol <$> out) = ["SOLUSDT"; "BTCUSDT"]
  /\ StronglySorted profitDesc out.
Proof.
  intros w out. split; [vm_compute; reflexivity|].
  apply (detectArbitrage_sorted_by_profit [btcPrices; solPrices]
           Detector.noOptions w).
  repeat constructor.
Defined.

(** *** Counting the sightings *)

Lemma occurrences_cons (minSpread : JS.number) (p : Detector.DiscoveredPrice)
    (ps : list Detector.DiscoveredPrice) (k : string) :
  occurrences minSpread (p :: ps) k
  = (if qualifies minSpread p && bool_decide (inputKey p = k) then 1 else 0)
    + occurrences minSpread ps k.
Proof.
  unfold occurrences. cbn [List.filter].
  destruct (qualifies minSpread p && bool_decide (inputKey p = k));
    cbn [length]; lia.
Qed.

Lemma occurrences_nonneg (minSpread : JS.number)
    (ps : list Detector.DiscoveredPrice) (k : string) :
  0 <= occurrences minSpread ps k.
Proof. unfold occurrences. lia. Qed.

Lemma occurrences_observed (minSpread : JS.number)
    (ps : list Detector.DiscoveredPrice) (k : string) :
  k ∈ observedKeys minSpread ps <-> 1 <= occurrences minSpread ps k.
Proof.
  induction ps as [|p ps IH].
  - unfold observedKeys, occurrences. cbn. split; [set_solver|lia].
  - rewrite observedKeys_cons, occurrences_cons.
    pose proof (occurrences_nonneg minSpread ps k).
    destruct (qualifies minSpread p); cbn [andb].
    + rewrite elem_of_union, elem_of_singleton, IH.
      destruct (bool_decide_reflect (inputKey p = k)) as [->|Hne].
      * split; [lia|now left].
      * split; [|now right]. intros [Hk|Hk]; [now subst k|lia].
    + rewrite IH. lia.
Qed.

Lemma forEach_observe_counts (currentTime : Z)
    (minSpread persistMs minCount : JS.number)
    (prices : list Detector.DiscoveredPrice) (l : Detector.Loop) (w : World)
    (k : string) :
  let run :=
    forEach (Detector.observe currentTime minSpread persistMs minCount)
      prices l w in
  countOf (persistenceBuffer (snd run) !! k)
  = countOf (persistenceBuffer w !! k) + occurrences minSpread prices k
  /\ from_option OpportunityPersistence.firstSeenTs currentTime
       (persistenceBuffer (snd run) !! k)
     = from_option OpportunityPersistence.firstSeenTs currentTime
         (persistenceBuffer w !! k).
Proof.
  revert l w. induction prices as [|p ps IH]; intros l w; cbv zeta.
  - cbn [forEach ret snd]. unfold occurrences. cbn. split; [lia|reflexivity].
  - rewrite forEach_cons, occurrences_cons.
    destruct (qualifies minSpread p) eqn:Hq; cbn [andb].
    + destruct (observe_qualifying currentTime minSpread persistMs minCount
                  l p w Hq) as (entry & w1 & -> & Hbuf & Hentry).
      cbn [fst snd].
      destruct (observe_entry_facts _ _ _ _ Hentry)
        as (_ & Hcount & _ & Hfirst).
      match goal with
      | |- context [forEach ?b ps ?l1 w1] =>
          destruct (IH l1 w1) as [IHc IHf]
      end.
      cbv zeta in IHc, IHf. rewrite IHc, IHf, Hbuf.
      destruct (bool_decide_reflect (inputKey p = k)) as [<-|Hne].
      * rewrite lookup_insert_eq. cbn [countOf from_option].
        rewrite Hcount, Hfirst. unfold countOf. split; [lia|reflexivity].
      * rewrite lookup_insert_ne by exact Hne. split; [lia|reflexivity].
    + rewrite (observe_skip _ _ _ _ _ _ _ Hq). cbn [fst snd].
      destruct (IH l w) as [IHc IHf]. cbv zeta in IHc, IHf.
      rewrite IHc, IHf. split; [lia|reflexivity].
Qed.

Lemma detectArbitrage_counts (prices : list Detector.DiscoveredPrice)
    (opts : Detector.DetectArbitrageOptions) (w : World) (k : string) :
  let minSpread := Detector.minSpreadPctOf opts in
  k ∈ observedKeys minSpread prices ->
  exists e,
    persistenceBuffer (snd (Detector.detectArbitrage prices opts w)) !! k
    = Some e
    /\ OpportunityPersistence.persistenceCount e
       = countOf (persistenceBuffer w !! k) + occurrences minSpread prices k
    /\ OpportunityPersistence.firstSeenTs e
       = from_option OpportunityPersistence.firstSeenTs (pollTime w)
           (persistenceBuffer w !! k)
    /\ OpportunityPersistence.lastSeenTs e = pollTime w.
Proof.
  cbv zeta. intros Hk.
  destruct (proj1 (detectArbitrage_spec prices opts w) k Hk) as (e & He & Hlast).
  exists e. split; [exact He|]. split; [|split; [|exact Hlast]].
  - revert He. rewrite detectArbitrage_unfold. cbv zeta.
    cbn [snd persistenceBuffer set_persistenceBuffer].
    rewrite lookup_foldr_delete. destruct (decide _); [discriminate|].
    intros He.
    pose proof (proj1 (forEach_observe_counts (pollTime w)
                  (Detector.minSpreadPctOf opts) (Detector.persistenceMsOf opts)
                  (Detector.minPersistenceCountOf opts) prices
                  {| Detector.seenKeys := ∅; Detector.opportunities := [] |}
                  (set_clockTicks (S (clockTicks w)) w) k)) as Hc.
    cbv zeta in Hc. rewrite He in Hc. exact Hc.
  - revert He. rewrite detectArbitrage_unfold. cbv zeta.
    cbn [snd persistenceBuffer set_persistenceBuffer].
    rewrite lookup_foldr_delete. destruct (decide _); [discriminate|].
    intros He.
    pose proof (proj2 (forEach_observe_counts (pollTime w)
                  (Detector.minSpreadPctOf opts) (Detector.persistenceMsOf opts)
                  (Detector.minPersistenceCountOf opts) prices
                  {| Detector.seenKeys := ∅; Detector.opportunities := [] |}
                  (set_clockTicks (S (clockTicks w)) w) k)) as Hf.
    cbv zeta in Hf. rewrite He in Hf. exact Hf.
Qed.

(** X10. A poll counts every sighting: for a key observed in the poll, the
    entry of the buffer after the poll has the [persistenceCount] of the entry
    before it (zero if there was none) plus the number of inputs of the poll
    observed under the key (at least one; an input repeated in the same poll
    counts again), the [firstSeenTs] of the old entry (the time of the poll
    if there was none) and the time of the poll as [lastSeenTs].  So after
    [n + 1] polls of the same prices the count has grown by [n + 1] times the
    number of sightings per poll. *)
Theorem detectArbitrage_counts_sightings
    (prices : list Detector.DiscoveredPrice)
    (opts : Detector.DetectArbitrageOptions) (w : World) (k : string) :
  let minSpread := Detector.minSpreadPctOf opts in
  k ∈ observedKeys minSpread prices ->
  1 <= occurrences minSpread prices k
  /\ (exists e,
        persistenceBuffer (snd (Detector.detectArbitrage prices opts w)) !! k
        = Some e
        /\ OpportunityPersistence.persistenceCount e
           = countOf (persistenceBuffer w !! k) + occurrences minSpread prices k
        /\ OpportunityPersistence.firstSeenTs e
           = from_option OpportunityPersistence.firstSeenTs (pollTime w)
               (persistenceBuffer w !! k)
        /\ OpportunityPersistence.lastSeenTs e = pollTime w)
  /\ (opts = Detector.noOptions ->
      forall n,
        countOf (persistenceBuffer (afterPolls (S n) prices w) !! k)
        = countOf (persistenceBuffer w !! k)
          + Z.of_nat (S n) * occurrences minSpread prices k).
Proof.
  cbv zeta. intros Hk. split; [now apply occurrences_observed|].
  split; [now apply detectArbitrage_counts|].
  intros -> n. revert w. induction n as [|n IH]; intros w.
  - cbn [afterPolls].
    destruct (detectArbitrage_counts prices Detector.noOptions w k Hk)
      as (e & -> & Hc & _). cbn [countOf from_option]. lia.
  - change (afterPolls (S (S n)) prices w)
      with (afterPolls (S n) prices
              (snd (Detector.detectArbitrage prices Detector.noOptions w))).
    rewrite IH.
    destruct (detectArbitrage_counts prices Detector.noOptions w k Hk)
      as (e & -> & Hc & _). cbn [countOf from_option]. lia.
Qed.

Lemma detectArbitrage_counts_sightings_witness :
  countOf
    (persistenceBuffer
       (afterPolls 3 [btcPrices; solPrices; btcPrices] Sample.DEFAULT_STATE)
     !! inputKey btcPrices)
  = 6.
Proof.
  destruct (detectArbitrage_counts_sightings [btcPrices; solPrices; btcPrices]
              Detector.noOptions Sample.DEFAULT_STATE (inputKey btcPrices))
    as (_ & _ & H).
  - vm_compute. reflexivity.
  - rewrite (H eq_refl 2%nat). vm_compute. reflexivity.
Defined.

(** *** Which inputs are returned *)

Lemma ge_of_Z_mono (c c' : Z) (m : JS.number) :
  c <= c' -> (JS.of_Z c >=? m)%js = true -> (JS.of_Z c' >=? m)%js = true.
Proof.
  intros Hc. unfold JS.ge, JS.of_Z. destruct m as [b| | |]; cbn; auto.
  qcases; intros; try reflexivity; try discriminate.
  exfalso. assert (inject_Z c <= inject_Z c')%Q by (rewrite <- Zle_Qle; lia).
  lra.
Qed.

Lemma lt_not_ge (x y : JS.number) :
  (x <? y)%js = true -> (x >=? y)%js = false.
Proof.
  unfold JS.ge. destruct x, y; cbn; try discriminate; try reflexivity.
  qcases; intros; try reflexivity; try discriminate; lra.
Qed.

Lemma forEach_observe_emits_all (currentTime : Z)
    (minSpread persistMs minCount : JS.number)
    (prices : list Detector.DiscoveredPrice) (l : Detector.Loop) (w : World) :
  (forall p, p ∈ prices -> qualifies minSpread p = true ->
     (JS.of_Z (countOf (persistenceBuffer w !! inputKey p) + 1) >=? minCount)%js
     = true) ->
  let run :=
    forEach (Detector.observe currentTime minSpread persistMs minCount)
      prices l w in
  exists new,
    Detector.opportunities (fst run) = Detector.opportunities l ++ new
    /\ Forall2 (snapshotOf currentTime)
         (List.filter (qualifies minSpread) prices) new.
Proof.
  revert l w. induction prices as [|p ps IH]; intros l w Hknown; cbv zeta.
  - exists []. cbn. rewrite app_nil_r. split; constructor.
  - rewrite forEach_cons. cbn [List.filter].
    destruct (qualifies minSpread p) eqn:Hq.
    + destruct (observe_qualifying currentTime minSpread persistMs minCount
                  l p w Hq) as (entry & w1 & -> & Hbuf & Hentry).
      cbn [fst snd].
      destruct (observe_entry_facts _ _ _ _ Hentry) as (Hsnap & Hcount & _).
      assert (Hmeets : Detector.meetsCriteria currentTime persistMs minCount
                         entry = true).
      { unfold Detector.meetsCriteria. cbv zeta. rewrite Hcount.
        rewrite (Hknown p) by (auto; left). reflexivity. }
      rewrite Hmeets.
      match goal with
      | |- context [forEach ?b ps ?l1 w1] =>
          destruct (IH l1 w1) as (new & Hopps & Hall)
      end.
      * intros q Hin Hqq. rewrite Hbuf.
        destruct (decide (inputKey p = inputKey q)) as [He|Hne].
        -- rewrite <- He, lookup_insert_eq. cbn [countOf from_option].
           rewrite Hcount. eapply ge_of_Z_mono; [|apply (Hknown p); auto; left].
           lia.
        -- rewrite lookup_insert_ne by exact Hne. apply Hknown; auto.
           now right.
      * cbv zeta in Hopps. rewrite Hopps. cbn [Detector.opportunities].
        exists (OpportunityPersistence.data entry :: new).
        rewrite <- app_assoc. split; [reflexivity|now constructor].
    + rewrite (observe_skip _ _ _ _ _ _ _ Hq). apply IH.
      intros q Hin. apply Hknown. now right.
Qed.

(** X11. When every input that passes the guards has a key whose
    [persistenceCount] in the buffer (zero if the key has no entry), plus one,
    reaches [minPersistenceCount] (with the default of 2: when every such key
    is already buffered with a positive count), the poll returns one
    opportunity for each of these inputs: the returned list is the sorted
    list of their snapshots, as many as inputs passed the guards. *)
Theorem detectArbitrage_returns_known_keys
    (prices : list Detector.DiscoveredPrice)
    (opts : Detector.DetectArbitrageOptions) (w : World) :
  let minSpread := Detector.minSpreadPctOf opts in
  let out := fst (Detector.detectArbitrage prices opts w) in
  (forall p, p ∈ prices -> qualifies minSpread p = true ->
     (JS.of_Z (countOf (persistenceBuffer w !! inputKey p) + 1)
        >=? Detector.minPersistenceCountOf opts)%js = true) ->
  (exists emitted,
      out = js_sort Detector.byProfitDesc emitted
      /\ Forall2 (snapshotOf (pollTime w))
           (List.filter (qualifies minSpread) prices) emitted)
  /\ length out = length (List.filter (qualifies minSpread) prices).
Proof.
  cbv zeta. intros Hknown. rewrite detectArbitrage_unfold. cbv zeta. cbn [fst].
  destruct (forEach_observe_emits_all (pollTime w) (Detector.minSpreadPctOf opts)
              (Detector.persistenceMsOf opts)
              (Detector.minPersistenceCountOf opts) prices
              {| Detector.seenKeys := ∅; Detector.opportunities := [] |}
              (set_clockTicks (S (clockTicks w)) w) Hknown)
    as (new & Hopps & Hall).
  cbv zeta in Hopps. rewrite Hopps. cbn [Detector.opportunities app].
  split; [exists new; auto|].
  rewrite length_js_sort. symmetry. exact (Forall2_length _ _ _ Hall).
Qed.

Lemma detectArbitrage_returns_known_keys_witness :
  let w := afterPolls 1 [btcPrices; solPrices] Sample.DEFAULT_STATE in
  length
    (fst (Detector.detectArbitrage [solPrices; ethPrices; btcPrices]
            Detector.noOptions w))
  = 2%nat.
Proof.
  intros w.
  apply (detectArbitrage_returns_known_keys [solPrices; ethPrices; btcPrices]
           Detector.noOptions w).
  intros p Hp Hq.
  apply elem_of_cons in Hp as [->|Hp]; [vm_compute; reflexivity|].
  apply elem_of_cons in Hp as [->|Hp]; [vm_compute in Hq; discriminate Hq|].
  apply list_elem_of_singleton in Hp as ->. vm_compute. reflexivity.
Defined.

Lemma forEach_observe_first_sighting (currentTime : Z)
    (minSpread persistMs minCount : JS.number)
    (prices : list Detector.DiscoveredPrice) (l : Detector.Loop) (w : World) :
  (int 1 <? minCount)%js = true ->
  (int 0 <? persistMs)%js = true ->
  (forall p, p ∈ prices -> qualifies minSpread p = true ->
     persistenceBuffer w !! inputKey p = None) ->
  NoDup (inputKey <$> List.filter (qualifies minSpread) prices) ->
  Detector.opportunities
    (fst (forEach (Detector.observe currentTime minSpread persistMs minCount)
            prices l w))
  = Detector.opportunities l.
Proof.
  intros Hcount Hms. revert l w.
  induction prices as [|p ps IH]; intros l w Hnew Hdup; [reflexivity|].
  rewrite forEach_cons. cbn [List.filter] in Hdup.
  destruct (qualifies minSpread p) eqn:Hq.
  - destruct (observe_qualifying currentTime minSpread persistMs minCount
                l p w Hq) as (entry & w1 & -> & Hbuf & Hentry).
    cbn [fst snd].
    destruct (observe_entry_facts _ _ _ _ Hentry) as (_ & Hc & _ & Hf).
    rewrite (Hnew p) in Hc, Hf by (auto; left).
    cbn [countOf from_option] in Hc, Hf.
    assert (Hmeets : Detector.meetsCriteria currentTime persistMs minCount
                       entry = false).
    { unfold Detector.meetsCriteria. cbv zeta. rewrite Hc, Hf, Z.sub_diag.
      change (JS.of_Z (0 + 1)) with (int 1). change (JS.of_Z 0) with (int 0).
      now rewrite (lt_not_ge (int 1) _ Hcount), (lt_not_ge (int 0) _ Hms). }
    rewrite Hmeets, app_nil_r. cbn [fmap list_fmap] in Hdup.
    apply NoDup_cons in Hdup as [Hfresh Hdup].
    rewrite IH; [reflexivity| |exact Hdup].
    intros q Hin Hqq. rewrite Hbuf, lookup_insert_ne.
    + apply Hnew; auto. now right.
    + intros He. apply Hfresh. rewrite He. apply list_elem_of_fmap.
      exists q. split; [reflexivity|].
      apply list_elem_of_In, List.filter_In. split; [|exact Hqq].
      now apply list_elem_of_In.
  - rewrite (observe_skip _ _ _ _ _ _ _ Hq). cbn [fst snd]. apply IH.
    + intros q Hin. apply Hnew. now right.
    + exact Hdup.
Qed.

(** X12. With [minPersistenceCount] above 1 and [persistenceMs] above 0 (as
    by default), a poll in which no observed key is buffered yet and no key is
    observed twice returns nothing: a first sighting is only recorded, with
    a count of 1 and the time of the poll as first and last sighting. *)
Theorem detectArbitrage_first_sighting_not_returned
    (prices : list Detector.DiscoveredPrice)
    (opts : Detector.DetectArbitrageOptions) (w : World) :
  let minSpread := Detector.minSpreadPctOf opts in
  let run := Detector.detectArbitrage prices opts w in
  (int 1 <? Detector.minPersistenceCountOf opts)%js = true ->
  (int 0 <? Detector.persistenceMsOf opts)%js = true ->
  (forall p, p ∈ prices -> qualifies minSpread p = true ->
     persistenceBuffer w !! inputKey p = None) ->
  NoDup (inputKey <$> List.filter (qualifies minSpread) prices) ->
  fst run = []
  /\ (forall p, p ∈ prices -> qualifies minSpread p = true ->
        exists e,
          persistenceBuffer (snd run) !! inputKey p = Some e
          /\ OpportunityPersistence.persistenceCount e = 1
          /\ OpportunityPersistence.firstSeenTs e = pollTime w
          /\ OpportunityPersistence.lastSeenTs e = pollTime w).
Proof.
  cbv zeta. intros Hcount Hms Hnew Hdup. split.
  - rewrite detectArbitrage_unfold. cbv zeta. cbn [fst].
    rewrite forEach_observe_first_sighting; auto.
  - intros p Hin Hq.
    assert (Hk : inputKey p ∈ observedKeys (Detector.minSpreadPctOf opts) prices)
      by (apply elem_of_observedKeys; eauto).
    destruct (detectArbitrage_counts prices opts w (inputKey p) Hk)
      as (e & He & Hc & Hf & Hl).
    exists e. split; [exact He|]. rewrite (Hnew p Hin Hq) in Hc, Hf.
    cbn [countOf from_option] in Hc, Hf. split; [|auto].
    rewrite Hc. cbn [Z.add].
    assert (Hocc : occurrences (Detector.minSpreadPctOf opts) prices (inputKey p)
                   <= 1); [|apply occurrences_observed in Hk; lia].
    clear -Hdup. unfold occurrences.
    induction prices as [|q qs IH]; cbn [List.filter length]; [lia|].
    cbn [List.filter] in Hdup.
    destruct (qualifies (Detector.minSpreadPctOf opts) q) eqn:Hq; cbn [andb].
    + cbn [fmap list_fmap] in Hdup. apply NoDup_cons in Hdup as [Hfresh Hdup].
      destruct (bool_decide_reflect (inputKey q = inputKey p)) as [He|Hne];
        [|now apply IH].
      cbn [length].
      assert (Hnone :
        List.filter
          (fun p0 => qualifies (Detector.minSpreadPctOf opts) p0
                     && bool_decide (inputKey p0 = inputKey p)) qs = []).
      { clear IH Hdup. induction qs as [|r rs IHr]; [reflexivity|].
        cbn [List.filter] in Hfresh |- *.
        destruct (qualifies (Detector.minSpreadPctOf opts) r); cbn [andb].
        - cbn [fmap list_fmap] in Hfresh.
          apply not_elem_of_cons in Hfresh as [Hne Hfresh].
          destruct (bool_decide_reflect (inputKey r = inputKey p)) as [Her|_];
            [congruence|now apply IHr].
        - now apply IHr. }
      rewrite Hnone. cbn [length]. lia.
    + now apply IH.
Qed.

Lemma detectArbitrage_first_sighting_not_returned_witness :
  fst (Detector.detectArbitrage [btcPrices; ethPrices; solPrices]
         Detector.noOptions Sample.DEFAULT_STATE)
  = [].
Proof.
  apply (detectArbitrage_first_sighting_not_returned
           [btcPrices; ethPrices; solPrices] Detector.noOptions
           Sample.DEFAULT_STATE).
  - reflexivity.
  - reflexivity.
  - intros p _ _. reflexivity.
  - vm_compute. repeat constructor; set_solver.
Defined.

(** ** Executions and the daily limit of the Guardian *)








(** ** The execution log *)

Lemma findIndex_app_fresh {A} (f : A -> bool) (l : list A) (x : A) :
  Forall (fun y => f y = false) l -> f x = true ->
  findIndex f (l ++ [x]) = Some (length l).
Proof.
  intros Hl Hx. induction Hl as [|y l Hy _ IH]; cbn [app findIndex length].
  - now rewrite Hx.
  - now rewrite Hy, IH.
Qed.

Lemma findIndex_none {A} (f : A -> bool) (l : list A) :
  Forall (fun y => f y = false) l -> findIndex f l = None.
Proof.
  induction 1 as [|y l Hy _ IH]; cbn [findIndex]; [reflexivity|].
  now rewrite Hy, IH.
Qed.

Lemma findIndex_some {A} (f : A -> bool) (l : list A) (i : nat) :
  findIndex f l = Some i ->
  exists x, l !! i = Some x /\ f x = true
            /\ forall j y, (j < i)%nat -> l !! j = Some y -> f y = false.
Proof.
  revert i. induction l as [|y l IH]; intros i; cbn [findIndex];
    [discriminate|].
  destruct (f y) eqn:Hy.
  - intros [= <-]. exists y. split; [reflexivity|]. split; [exact Hy|]. lia.
  - destruct (findIndex f l) as [i'|]; [|discriminate].
    intros [= <-]. destruct (IH i' eq_refl) as (x & Hx & Hfx & Hbefore).
    exists x. split; [exact Hx|]. split; [exact Hfx|].
    intros [|j] z Hj; cbn; [now intros [= <-]|].
    apply Hbefore. lia.
Qed.

Lemma updateExecutionRecord_last (rid : text)
    (upd : ExecutionRecord.t -> ExecutionRecord.t) (w : World)
    (l : list ExecutionRecord.t) (r : ExecutionRecord.t) :
  executionLog w = l ++ [r] -> ExecutionRecord.id r = rid ->
  Forall (fun r' => ExecutionRecord.id r' <> rid) l ->
  updateExecutionRecord rid upd w = (tt, set_executionLog (l ++ [upd r]) w).
Proof.
  intros Hlog Hid Hfresh.
  unfold updateExecutionRecord, bind, get, modify, ret. rewrite Hlog.
  rewrite findIndex_app_fresh.
  - rewrite lookup_app_r, Nat.sub_diag by lia. cbn [lookup list_lookup].
    rewrite insert_app_r_alt, Nat.sub_diag by lia. reflexivity.
  - eapply Forall_impl; [exact Hfresh|]. intros r' Hr'.
    now apply bool_decide_eq_false_2.
  - now apply bool_decide_eq_true_2.
Qed.

(** X14. The execution log.  [updateExecutionRecord] updates the first
    record of the given id and no other, and leaves the log as it is when no
    record has the id; the log keeps its length.  In a run that fetched the
    order book the log grows by one record; when no older record has the
    identifier of the run, that record is the one of the run, completed, with
    the fill and the profit the run returns. *)
Theorem executionLog_records_the_run
    (opportunity : Opportunity.t) (allocatedUSDT : JS.number)
    (orderbook : IndianMock.OrderBook) (w : World) :
  let run :=
    Execution.executeArbitrageWithPartialFills opportunity allocatedUSDT
      (Returned orderbook) w in
  (forall rid upd w0,
      let log' := executionLog (snd (updateExecutionRecord rid upd w0)) in
      length log' = length (executionLog w0)
      /\ (Forall (fun r => ExecutionRecord.id r <> rid) (executionLog w0) ->
          log' = executionLog w0)
      /\ (forall i r,
            executionLog w0 !! i = Some r -> ExecutionRecord.id r = rid ->
            (forall j r', (j < i)%nat -> executionLog w0 !! j = Some r' ->
                          ExecutionRecord.id r' <> rid) ->
            log' = <[i := upd r]> (executionLog w0)))
  /\ length (executionLog (snd run)) = S (length (executionLog w))
  /\ (Forall (fun r => ExecutionRecord.id r <> Execution.auditId (fst run))
        (executionLog w) ->
      exists r,
        executionLog (snd run) = executionLog w ++ [r]
        /\ ExecutionRecord.id r = Execution.auditId (fst run)
        /\ ExecutionRecord.status r = completed
        /\ ExecutionRecord.buyPrice r = Some (Execution.buyPrice (fst run))
        /\ ExecutionRecord.buyQty r = Some (Execution.buyQty (fst run))
        /\ ExecutionRecord.sellPrice r = Some (Execution.avgSellPrice (fst run))
        /\ ExecutionRecord.sellQty r = Some (Execution.filledQty (fst run))
        /\ ExecutionRecord.profit r = Some (Execution.netProfit (fst run))
        /\ ExecutionRecord.partialFill r
           = Some (Execution.partialFill (fst run))).
Proof.
  cbv zeta.
  assert (Hupdate : forall rid upd w0,
    length (executionLog (snd (updateExecutionRecord rid upd w0)))
    = length (executionLog w0)).
  { intros rid upd w0. unfold updateExecutionRecord, bind, get, modify, ret.
    destruct (findIndex _ _) as [i|]; [|reflexivity].
    destruct (executionLog w0 !! i); [|reflexivity].
    cbn. apply length_insert. }
  split; [|split].
  - intros rid upd w0. split; [apply Hupdate|]. split.
    + intros Hfresh. unfold updateExecutionRecord, bind, get, modify, ret.
      rewrite findIndex_none; [reflexivity|].
      eapply Forall_impl; [exact Hfresh|]. intros r Hr.
      now apply bool_decide_eq_false_2.
    + intros i r Hi Hid Hfirst.
      unfold updateExecutionRecord, bind, get, modify, ret.
      destruct (findIndex _ _) as [i'|] eqn:E.
      * apply findIndex_some in E as (x & Hx & Hfx & Hbefore).
        apply bool_decide_eq_true_1 in Hfx.
        assert (i' = i) as ->.
        { destruct (Nat.lt_trichotomy i' i) as [Hlt|[Heq|Hgt]];
            [|exact Heq|].
          - exfalso. exact (Hfirst i' x Hlt Hx Hfx).
          - exfalso. specialize (Hbefore i r Hgt Hi).
            apply bool_decide_eq_false_1 in Hbefore. contradiction. }
        rewrite Hi. reflexivity.
      * exfalso. clear -E Hi Hid. revert i Hi.
        induction (executionLog w0) as [|y l IH]; intros i Hi;
          [discriminate Hi|].
        cbn [findIndex] in E.
        destruct (bool_decide_reflect (ExecutionRecord.id y = rid)) as [|Hne];
          [discriminate E|].
        destruct (findIndex _ l) as [?|] eqn:E'; [discriminate E|].
        destruct i as [|i]; cbn in Hi; [injection Hi as ->; contradiction|].
        now apply (IH eq_refl i).
  - unfold Execution.executeArbitrageWithPartialFills.
    unfold addAuditLog, addExecutionRecord, updatePortfolio, getPortfolio,
      bind, get, modify, ret, dateNow, mathRandom.
    cbn -[updateExecutionRecord].
    destruct (Execution.sellAcross _ _ _ _) as [[remaining total] filledQty].
    cbn -[updateExecutionRecord].
    destruct (filledQty / _ <? dec 9 10)%js; cbn -[updateExecutionRecord].
    all: match goal with
         | |- context [updateExecutionRecord ?i ?u ?w0] =>
             pose proof (Hupdate i u w0) as Hlen;
             destruct (updateExecutionRecord i u w0) as [[] w1]
         end.
    all: cbn in Hlen |- *; rewrite Hlen, length_app; cbn; lia.
  - unfold Execution.executeArbitrageWithPartialFills.
    unfold addAuditLog, addExecutionRecord, updatePortfolio, getPortfolio,
      bind, get, modify, ret, dateNow, mathRandom.
    cbn -[updateExecutionRecord].
    destruct (Execution.sellAcross _ _ _ _) as [[remaining total] filledQty].
    cbn -[updateExecutionRecord].
    destruct (filledQty / _ <? dec 9 10)%js; cbn -[updateExecutionRecord].
    all: match goal with
         | |- context [updateExecutionRecord ?i ?u ?w0] =>
             pose proof (fun l r => updateExecutionRecord_last i u w0 l r)
               as Hlast;
             destruct (updateExecutionRecord i u w0) as [[] w1]
         end.
    all: cbn -[updateExecutionRecord] in Hlast |- *; intros Hfresh.
    all: specialize (Hlast _ _ eq_refl eq_refl Hfresh).
    all: injection Hlast as ->; cbn.
    all: eexists; split; [reflexivity|]; cbn; repeat split.
Qed.

Lemma executionLog_records_the_run_witness :
  let run :=
    Execution.executeArbitrageWithPartialFills Sample.btc (int 5000)
      (Returned thinBook) Sample.DEFAULT_STATE in
  exists r,
    executionLog (snd run) = [r]
    /\ ExecutionRecord.status r = completed
    /\ ExecutionRecord.sellQty r = Some (Execution.filledQty (fst run)).
Proof.
  intros run.
  destruct (proj2 (proj2 (executionLog_records_the_run Sample.btc (int 5000)
                            thinBook Sample.DEFAULT_STATE)))
    as (r & Hlog & _ & Hstatus & _ & _ & _ & Hqty & _).
  - constructor.
  - exists r. split; [exact Hlog|]. split; [exact Hstatus|exact Hqty].
Defined.

(** ** The allocation across opportunities *)

(** *** Finite numbers are closed under the operations *)

Lemma finite_add (x y : JS.number) :
  JS.is_finite x = true -> JS.is_finite y = true ->
  JS.is_finite (x + y)%js = true.
Proof. destruct x, y; try discriminate; reflexivity. Qed.

Lemma finite_sub (x y : JS.number) :
  JS.is_finite x = true -> JS.is_finite y = true ->
  JS.is_finite (x - y)%js = true.
Proof. destruct x, y; try discriminate; reflexivity. Qed.

Lemma finite_mul (x y : JS.number) :
  JS.is_finite x = true -> JS.is_finite y = true ->
  JS.is_finite (x * y)%js = true.
Proof. destruct x, y; try discriminate; reflexivity. Qed.

Lemma finite_min (x y : JS.number) :
  JS.is_finite x = true -> JS.is_finite y = true ->
  JS.is_finite (JS.min x y) = true.
Proof.
  destruct x, y; try discriminate; intros _ _. cbn.
  destruct (JS.Qlt_bool _ _); reflexivity.
Qed.

Lemma finite_max (x y : JS.number) :
  JS.is_finite x = true -> JS.is_finite y = true ->
  JS.is_finite (JS.max x y) = true.
Proof.
  destruct x, y; try discriminate; intros _ _. cbn.
  destruct (JS.Qlt_bool _ _); reflexivity.
Qed.

Lemma min_finite (x y : Q) :
  exists m : Q,
    JS.min (JS.Num x) (JS.Num y) = JS.Num m
    /\ (m <= x)%Q /\ (m <= y)%Q /\ (m == x \/ m == y)%Q.
Proof.
  cbn. destruct (Qlt_bool_spec y x).
  - exists y. split; [reflexivity|]. split; [lra|]. split; [lra|now right].
  - exists x. split; [reflexivity|]. split; [lra|]. split; [lra|now left].
Qed.

Lemma max_finite (x y : Q) :
  exists m : Q,
    JS.max (JS.Num x) (JS.Num y) = JS.Num m
    /\ (x <= m)%Q /\ (y <= m)%Q /\ (m == x \/ m == y)%Q.
Proof.
  cbn. destruct (Qlt_bool_spec x y).
  - exists y. split; [reflexivity|]. split; [lra|]. split; [lra|now right].
  - exists x. split; [reflexivity|]. split; [lra|]. split; [lra|now left].
Qed.

Lemma finite_is_num (x : JS.number) :
  JS.is_finite x = true -> exists q, x = JS.Num q.
Proof. destruct x; try discriminate. eauto. Qed.

Lemma sized_finite (portfolio : Capital.PortfolioState) (i : nat)
    (opp : Capital.OpportunityScore) :
  JS.is_finite (Capital.availableCapital portfolio) = true ->
  finiteScore opp ->
  JS.is_finite (Capital.sized portfolio i opp) = true.
Proof.
  intros Ha (He & Hr & Hs). unfold Capital.sized. cbv zeta.
  assert (Hk : JS.is_finite
                 ((Capital.expectedReturn opp - Capital.risk opp)
                    / JS.max (Capital.expectedReturn opp) (dec 1 100))%js = true).
  { destruct (Capital.expectedReturn opp) as [e| | |]; try discriminate He.
    destruct (Capital.risk opp) as [r| | |]; try discriminate Hr.
    unfold dec. destruct (max_finite e (1 # 100)) as (m & -> & _ & Hm & _).
    js_unfold. cbn. destruct (Qis_zero_spec m); [lra|reflexivity]. }
  assert (Hspread : JS.is_finite (Capital.spreadOrZero opp) = true).
  { unfold Capital.spreadOrZero, JS.or_default.
    destruct (Capital.spreadSize opp) as [s|]; [|reflexivity].
    cbn in Hs. destruct (JS.truthy s); [exact Hs|reflexivity]. }
  apply finite_mul; [|apply finite_max; [apply finite_sub; [reflexivity|]|
                                         reflexivity]].
  - destruct (Capital.hasSpread opp).
    + apply finite_mul; [|apply finite_min; [|reflexivity]].
      * apply finite_mul; [apply finite_mul; [exact Ha|]|].
        -- apply finite_max; [reflexivity|]. apply finite_min; [exact Hk|].
           reflexivity.
        -- apply finite_max; [|reflexivity]. apply finite_sub; [reflexivity|].
           apply finite_mul; reflexivity.
      * apply finite_add; [reflexivity|].
        destruct (Capital.spreadOrZero opp); try discriminate Hspread.
        reflexivity.
    + apply finite_mul; [apply finite_mul; [exact Ha|]|].
      * apply finite_max; [reflexivity|]. apply finite_min; [exact Hk|].
        reflexivity.
      * apply finite_max; [|reflexivity]. apply finite_sub; [reflexivity|].
        apply finite_mul; reflexivity.
  - apply finite_mul; [exact Hr|reflexivity].
Qed.

(** the running total of the loop is the total of the allocations made *)
Lemma totalOf_app (l : list Capital.AllocationStrategy)
    (s : Capital.AllocationStrategy) :
  Capital.totalOf (l ++ [s])
  = (Capital.totalOf l + Capital.allocatedCapital s)%js.
Proof. unfold Capital.totalOf. now rewrite foldl_app. Qed.

(** what the loop keeps from one rank to the next.  The amounts are compared
    as the loop compares them; the running total is bounded with some room:
    it never exceeds 85% of the available capital, the level at which
    [checkDiversification] warns, since each allocation is capped by what is
    left of 80% *)
Lemma allocateFrom_limits (portfolio : Capital.PortfolioState) (a : Q)
    (scored : list (Capital.OpportunityScore * JS.number)) :
  Capital.availableCapital portfolio = JS.Num a ->
  Forall (fun so => finiteScore (fst so)) scored ->
  forall (i : nat) (r t : Q) (allocations : list Capital.AllocationStrategy),
    (r <= a)%Q ->
    Forall (withinSingleLimit (JS.Num a)) allocations ->
    Capital.totalOf allocations = JS.Num t ->
    (t == 0 \/ 0 <= t <= (85 # 100) * a)%Q ->
    let result :=
      Capital.allocateFrom portfolio i scored (JS.Num r) (JS.Num t)
        allocations in
    Forall (withinSingleLimit (JS.Num a)) result
    /\ (exists t' : Q,
          Capital.totalOf result = JS.Num t'
          /\ (t' == 0 \/ 0 <= t' <= (85 # 100) * a)%Q)
    /\ (length result <= length allocations + length scored)%nat
    /\ (forall s, s ∈ result ->
          s ∈ allocations
          \/ exists so, so ∈ scored
                        /\ Capital.opportunityId s = Capital.id (fst so)
                        /\ Capital.priority s = snd so).
Proof.
  intros Ha Hfin. induction Hfin as [|[opp priority] rest Hopp _ IH];
    intros i r t allocations Hr Hall Hsum Hcap; cbv zeta.
  - cbn [Capital.allocateFrom length]. split; [exact Hall|].
    split; [exists t; auto|]. split; [lia|auto].
  - cbn [Capital.allocateFrom]. rewrite Ha.
    assert (Hstop :
      Forall (withinSingleLimit (JS.Num a)) allocations
      /\ (exists t' : Q,
            Capital.totalOf allocations = JS.Num t'
            /\ (t' == 0 \/ 0 <= t' <= (85 # 100) * a)%Q)
      /\ (length allocations
          <= length allocations + length ((opp, priority) :: rest))%nat
      /\ (forall s, s ∈ allocations ->
            s ∈ allocations
            \/ exists so, so ∈ (opp, priority) :: rest
                          /\ Capital.opportunityId s = Capital.id (fst so)
                          /\ Capital.priority s = snd so)).
    { split; [exact Hall|]. split; [exists t; auto|]. split; [lia|auto]. }
    destruct (JS.Num r <? Capital.MIN_ALLOCATION)%js eqn:Hlow; [exact Hstop|].
    destruct (JS.Num t >=? JS.Num a * Capital.MAX_TOTAL_ALLOCATION_PCT)%js
      eqn:Hfull; [exact Hstop|].
    clear Hstop.
    destruct (finite_is_num (Capital.sized portfolio i opp)) as [s Hs].
    { apply sized_finite; [now rewrite Ha|exact Hopp]. }
    rewrite Hs. unfold Capital.MAX_SINGLE_ALLOCATION_PCT,
      Capital.MAX_TOTAL_ALLOCATION_PCT, Capital.MIN_ALLOCATION in *.
    js_unfold. cbn [JS.mul JS.neg JS.add] in *.
    destruct (min_finite s (a * (20 # 100))) as (m1 & -> & _ & Hm1 & _).
    destruct (min_finite m1 r) as (m2 & -> & Hm21 & Hm2r & _).
    destruct (min_finite m2 (a * (80 # 100) + - t))
      as (m3 & -> & Hm32 & Hm3t & _).
    cbn [JS.lt JS.le] in *.
    destruct (Qlt_bool_spec r 100); [discriminate Hlow|].
    destruct (Qle_bool_spec (a * (80 # 100)) t); [discriminate Hfull|].
    destruct (Qlt_bool_spec m3 100) as [Hsmall|Hbig].
    + destruct (IH (S i) r t allocations Hr Hall Hsum Hcap)
        as (H1 & H2 & H3 & H4).
      split; [exact H1|]. split; [exact H2|]. cbn [length].
      split; [lia|]. intros x Hx. destruct (H4 x Hx) as [?|(so & Hso & ?)];
        [now left|right]. exists so. split; [now right|assumption].
    + match goal with
      | |- context [Capital.allocateFrom _ _ _ _ _ (allocations ++ [?e])] =>
          set (entry := e)
      end.
      destruct (IH (S i) (r + - m3)%Q (t + m3)%Q (allocations ++ [entry]))
        as (H1 & H2 & H3 & H4).
      * lra.
      * apply Forall_app. split; [exact Hall|]. constructor; [|constructor].
        unfold withinSingleLimit, entry. cbn [Capital.allocatedCapital].
        unfold Capital.MAX_SINGLE_ALLOCATION_PCT, Capital.MIN_ALLOCATION.
        js_unfold. cbn [JS.is_finite JS.lt JS.le JS.mul].
        split; [reflexivity|].
        split; [destruct (Qlt_bool_spec m3 100); [lra|reflexivity]|].
        split; [destruct (Qle_bool_spec m3 (a * (20 # 100)));
                [reflexivity|lra]|].
        destruct (Qle_bool_spec m3 a); [reflexivity|lra].
      * rewrite totalOf_app, Hsum. reflexivity.
      * right. destruct Hcap; split; lra.
      * split; [exact H1|]. split; [exact H2|].
        rewrite length_app in H3. cbn [length] in H3 |- *.
        split; [eapply Nat.le_trans; [exact H3|lia]|]. intros x Hx.
        destruct (H4 x Hx) as [Hin|(so & Hso & ?)].
        -- apply elem_of_app in Hin as [Hin|Hin]; [now left|right].
           apply list_elem_of_singleton in Hin as ->.
           exists (opp, priority). split; [left|]. split; reflexivity.
        -- right. exists so. split; [now right|assumption].
Qed.

Lemma allocateCapital_limits_aux (opportunities : list Capital.OpportunityScore)
    (portfolio : Capital.PortfolioState) (a : Q) :
  Capital.availableCapital portfolio = JS.Num a ->
  Forall finiteScore opportunities ->
  let result := Capital.allocateCapital opportunities portfolio in
  Forall (withinSingleLimit (JS.Num a)) result
  /\ (exists t : Q,
        Capital.totalOf result = JS.Num t
        /\ (t == 0 \/ 0 <= t <= (85 # 100) * a)%Q)
  /\ (length result <= length opportunities)%nat
  /\ (forall s, s ∈ result ->
        exists opp, opp ∈ opportunities
                    /\ Capital.opportunityId s = Capital.id opp
                    /\ Capital.priority s = Capital.calculatePriority opp).
Proof.
  intros Ha Hfin. cbv zeta.
  destruct opportunities as [|o os].
  { cbn. split; [constructor|]. split; [exists 0%Q; split; [reflexivity|now left]|].
    split; [lia|]. intros s Hs. now apply elem_of_nil in Hs. }
  unfold Capital.allocateCapital. rewrite Ha.
  set (scored := js_sort Capital.byPriorityDesc
                   ((fun opp => (opp, Capital.calculatePriority opp))
                      <$> o :: os)).
  assert (Hscored : forall so, so ∈ scored ->
            fst so ∈ o :: os /\ snd so = Capital.calculatePriority (fst so)).
  { intros so Hso. apply elem_of_js_sort, list_elem_of_fmap in Hso
      as (opp & -> & Hopp). split; [exact Hopp|reflexivity]. }
  destruct (allocateFrom_limits portfolio a scored Ha) with
    (i := 0%nat) (r := a) (t := 0%Q)
    (allocations := @nil Capital.AllocationStrategy)
    as (H1 & H2 & H3 & H4).
  - apply Forall_forall. intros so Hso. rewrite Forall_forall in Hfin.
    apply Hfin, Hscored, Hso.
  - lra.
  - constructor.
  - reflexivity.
  - now left.
  - change (int 0) with (JS.Num 0). split; [exact H1|]. split; [exact H2|].
    split.
    + unfold scored in H3. rewrite length_js_sort, length_fmap in H3.
      exact H3.
    + intros s Hs. destruct (H4 s Hs) as [Hnil|(so & Hso & Hid & Hp)];
        [now apply elem_of_nil in Hnil|].
      destruct (Hscored so Hso) as [Hin Hpri]. exists (fst so).
      split; [exact Hin|]. split; [exact Hid|]. now rewrite Hp.
Qed.

(** X15. The limits of [allocateCapital].  When the available capital and
    the expected return, the risk and the spread of every opportunity are
    finite numbers, every allocation is a finite amount that the loop found
    not below 100, not above the single-position cap
    [availableCapital * 0.20] it computed, and not above the available
    capital; there is at most one allocation per opportunity, each for an
    opportunity of the input and with its priority; and nothing is allocated
    when that cap is below 100.  [allocateForSingleOpportunity] returns 0 or
    such an allocation multiplied by the risk tolerance, 0.5 by default. *)
Theorem allocateCapital_within_limits
    (opportunities : list Capital.OpportunityScore)
    (portfolio : Capital.PortfolioState) (a : Q) :
  Capital.availableCapital portfolio = JS.Num a ->
  Forall finiteScore opportunities ->
  let available := Capital.availableCapital portfolio in
  let result := Capital.allocateCapital opportunities portfolio in
  Forall (withinSingleLimit available) result
  /\ (length result <= length opportunities)%nat
  /\ (forall s, s ∈ result ->
        exists opp, opp ∈ opportunities
                    /\ Capital.opportunityId s = Capital.id opp
                    /\ Capital.priority s = Capital.calculatePriority opp)
  /\ ((available * Capital.MAX_SINGLE_ALLOCATION_PCT
         <? Capital.MIN_ALLOCATION)%js = true ->
      result = [])
  /\ (forall opp riskTolerance,
        opp ∈ opportunities ->
        let single :=
          Capital.allocateForSingleOpportunity opp portfolio riskTolerance in
        single = int 0
        \/ exists s,
             withinSingleLimit available s
             /\ single
                = (Capital.allocatedCapital s
                   * default (dec 5 10) riskTolerance)%js).
Proof.
  intros Ha Hfin. cbv zeta. rewrite Ha.
  destruct (allocateCapital_limits_aux opportunities portfolio a Ha Hfin)
    as (H1 & _ & H3 & H4).
  split; [exact H1|]. split; [exact H3|]. split; [exact H4|]. split.
  - intros Hcap.
    destruct (Capital.allocateCapital opportunities portfolio) as [|s l];
      [reflexivity|exfalso].
    apply Forall_cons in H1 as [(Hf & Hmin & Hmax & _) _].
    destruct (Capital.allocatedCapital s) as [x| | |]; try discriminate Hf.
    unfold Capital.MAX_SINGLE_ALLOCATION_PCT, Capital.MIN_ALLOCATION in *.
    js_unfold. cbn [JS.mul JS.lt JS.le] in *.
    destruct (Qlt_bool_spec x 100); [discriminate Hmin|].
    destruct (Qle_bool_spec x (a * (20 # 100))); [|discriminate Hmax].
    destruct (Qlt_bool_spec (a * (20 # 100)) 100); [lra|discriminate Hcap].
  - intros opp riskTolerance Hopp.
    assert (Hone : Forall finiteScore [opp]).
    { constructor; [|constructor]. rewrite Forall_forall in Hfin. auto. }
    destruct (allocateCapital_limits_aux [opp] portfolio a Ha Hone)
      as (Hs & _).
    unfold Capital.allocateForSingleOpportunity.
    destruct (Capital.allocateCapital [opp] portfolio) as [|first rest];
      [now left|right].
    apply Forall_cons in Hs as [Hfirst _].
    exists first. split; [exact Hfirst|reflexivity].
Qed.

Lemma allocateCapital_within_limits_witness :
  let opportunities :=
    [score "slow" (dec 2 100) (dec 1 100) None;
     score "wide" (dec 5 100) (dec 1 100) (Some (int 3))] in
  let result := Capital.allocateCapital opportunities (fund (int 10000) (int 10000)) in
  (Capital.opportunityId <$> result) = ["wide"; "slow"]
  /\ Forall (withinSingleLimit (int 10000)) result.
Proof.
  intros opportunities result. split; [vm_compute; reflexivity|].
  apply (allocateCapital_within_limits opportunities
           (fund (int 10000) (int 10000)) 10000).
  - reflexivity.
  - repeat constructor.
Defined.

(** *** Allocations and the diversification check *)

Lemma no_concentration_warning (portfolio : Capital.PortfolioState) (a c : Q)
    (s : Capital.AllocationStrategy) :
  Capital.totalCapital portfolio = JS.Num c -> (a <= c)%Q ->
  withinSingleLimit (JS.Num a) s ->
  (Capital.concentrationOf portfolio s >? int 25)%js = false.
Proof.
  intros Hc Hac (Hf & Hmin & Hmax & _).
  destruct (Capital.allocatedCapital s) as [x| | |] eqn:Hx;
    try discriminate Hf.
  unfold Capital.concentrationOf. rewrite Hx, Hc.
  unfold Capital.MAX_SINGLE_ALLOCATION_PCT, Capital.MIN_ALLOCATION in *.
  js_unfold. cbn [JS.mul JS.lt JS.le] in *.
  destruct (Qlt_bool_spec x 100); [discriminate Hmin|].
  destruct (Qle_bool_spec x (a * (20 # 100))); [|discriminate Hmax].
  cbn [JS.div]. destruct (Qis_zero_spec c); [lra|]. cbn [JS.mul JS.lt].
  destruct (Qlt_bool_spec 25 (x / c * 100)) as [Hgt|]; [|reflexivity].
  exfalso. assert (Hpos : (0 < c)%Q) by lra.
  assert (Hdiv : (x / c <= 1 # 4)%Q).
  { apply Qle_shift_div_r; [exact Hpos|]. lra. }
  lra.
Qed.

(** X16. What [allocateCapital] returns never draws a concentration warning
    from [checkDiversification]: when the available capital is at most the
    total capital (and the inputs are finite numbers), no allocation is
    found above 25% of the portfolio and the total is not found above 85%;
    the only warning the check can leave is the one for fewer than three
    allocations, so the result is diversified exactly when it is empty or
    has at least three allocations. *)
Theorem allocateCapital_passes_concentration_checks
    (opportunities : list Capital.OpportunityScore)
    (portfolio : Capital.PortfolioState) (a c : Q) :
  Capital.availableCapital portfolio = JS.Num a ->
  Capital.totalCapital portfolio = JS.Num c -> (a <= c)%Q ->
  Forall finiteScore opportunities ->
  let result := Capital.allocateCapital opportunities portfolio in
  let check := Capital.checkDiversification result portfolio in
  Capital.warnings check
  = (if (length result <? 3)%nat && (0 <? length result)%nat then
       [[Lit "Only "; Show (JS.of_Z (Z.of_nat (length result)));
         Lit " opportunities allocated. Consider more diversification."]]
     else [])
  /\ (Capital.isDiversified check = true
      <-> result = [] \/ (3 <= length result)%nat).
Proof.
  intros Ha Hc Hac Hfin. cbv zeta.
  destruct (allocateCapital_limits_aux opportunities portfolio a Ha Hfin)
    as (Hall & (t & Ht & Hsum) & _).
  set (result := Capital.allocateCapital opportunities portfolio) in *.
  assert (Hwarn : Capital.warnings (Capital.checkDiversification result portfolio)
    = (if (length result <? 3)%nat && (0 <? length result)%nat then
         [[Lit "Only "; Show (JS.of_Z (Z.of_nat (length result)));
           Lit " opportunities allocated. Consider more diversification."]]
       else [])).
  { unfold Capital.checkDiversification. cbv zeta. cbn [Capital.warnings].
    assert (Hflat : forall l, Forall (withinSingleLimit (JS.Num a)) l ->
      flat_map
        (fun allocation =>
           if (Capital.concentrationOf portfolio allocation >? int 25)%js then
             [[Lit "Opportunity "; Lit (Capital.opportunityId allocation);
               Lit " represents ";
               Fixed (Capital.concentrationOf portfolio allocation) 1;
               Lit "% of portfolio (>25% limit)"]]
           else []) l = []).
    { induction 1 as [|s l Hs _ IH]; [reflexivity|]. cbn [flat_map].
      now rewrite (no_concentration_warning portfolio a c s Hc Hac Hs), IH. }
    rewrite (Hflat result Hall). cbn [app].
    assert (Htotal :
      ((Capital.totalOf result / Capital.totalCapital portfolio) * int 100
         >? int 85)%js = false).
    { rewrite Ht, Hc. js_unfold. cbn [JS.div].
      destruct (Qis_zero_spec c) as [Hz|Hnz].
      - destruct (Qis_zero_spec t); [reflexivity|].
        destruct (Qis_pos_spec t); [|reflexivity]. exfalso.
        destruct Hsum as [Hsum|Hsum]; [contradiction|lra].
      - cbn [JS.mul JS.lt].
        destruct (Qlt_bool_spec 85 (t / c * 100)) as [Hgt|]; [|reflexivity].
        exfalso. destruct Hsum as [Hsum|Hsum].
        + assert (t / c == 0)%Q by (rewrite Hsum; field; lra). lra.
        + assert (Hpos : (0 < c)%Q) by lra.
          assert (Hdiv : (t / c <= 85 # 100)%Q).
          { apply Qle_shift_div_r; [exact Hpos|]. lra. }
          lra. }
    rewrite Htotal. reflexivity. }
  split; [exact Hwarn|].
  unfold Capital.checkDiversification in *. cbv zeta in *.
  cbn [Capital.isDiversified Capital.warnings] in *. rewrite Hwarn.
  destruct result as [|s1 [|s2 [|s3 rest]]]; cbn; split; intros H;
    try reflexivity; try (now left); try (right; lia);
    try discriminate H.
  - destruct H as [H|H]; [discriminate H|lia].
  - destruct H as [H|H]; [discriminate H|lia].
Qed.

Lemma allocateCapital_passes_concentration_checks_witness :
  let opportunities :=
    [score "slow" (dec 2 100) (dec 1 100) None;
     score "wide" (dec 5 100) (dec 1 100) (Some (int 3))] in
  let portfolio := fund (int 12000) (int 10000) in
  Capital.isDiversified
    (Capital.checkDiversification
       (Capital.allocateCapital opportunities portfolio) portfolio) = false.
Proof.
  intros opportunities portfolio.
  destruct (allocateCapital_passes_concentration_checks opportunities portfolio
              10000 12000 eq_refl eq_refl) as [Hwarn Hiff].
  - lra.
  - repeat constructor.
  - destruct (Capital.isDiversified _) eqn:E; [|reflexivity].
    exfalso. destruct (proj1 Hiff eq_refl) as [H|H];
      vm_compute in H; [discriminate H|lia].
Defined.

(** ** The trade-risk assessment *)

(** what a factor of one of the three assessors looks like: never
    critical, with an impact between 0.1 and 0.8 *)
Lemma assessVolatility_range (sqrt : JS.number -> JS.number)
    (priceChecks : outcome (list JS.number)) :
  let f := TradeRisk.assessVolatility sqrt priceChecks in
  TradeRisk.severity f <> TradeRisk.critical
  /\ exists x : Q, TradeRisk.impact f = JS.Num x /\ (1 # 10 <= x <= 8 # 10)%Q.
Proof.
  cbv zeta. unfold TradeRisk.assessVolatility.
  destruct priceChecks as [message|priceChecks].
  - split; [discriminate|]. eexists. split; [reflexivity|]. split; lra.
  - destruct (length priceChecks <? 2)%nat.
    + split; [discriminate|]. eexists. split; [reflexivity|]. split; lra.
    + cbv zeta.
      repeat match goal with
             | |- context [if (?a <? ?b)%js then _ else _] =>
                 destruct (a <? b)%js
             end;
        (split; [discriminate|]); eexists; (split; [reflexivity|]);
        split; lra.
Qed.

Lemma assessLiquidity_range (nseVolumes : list JS.number)
    (quantity : JS.number) :
  let f := TradeRisk.assessLiquidity nseVolumes quantity in
  TradeRisk.severity f <> TradeRisk.critical
  /\ exists x : Q, TradeRisk.impact f = JS.Num x /\ (1 # 10 <= x <= 8 # 10)%Q.
Proof.
  cbv zeta. unfold TradeRisk.assessLiquidity. cbv zeta.
  repeat match goal with
         | |- context [if (?a >? ?b)%js then _ else _] =>
             destruct (a >? b)%js
         end;
    (split; [discriminate|]); eexists; (split; [reflexivity|]); split; lra.
Qed.

Lemma assessSpreadPersistence_range (sqrt : JS.number -> JS.number)
    (currentSpread : option JS.number) (later : outcome (list JS.number)) :
  let f := TradeRisk.assessSpreadPersistence sqrt currentSpread later in
  TradeRisk.severity f <> TradeRisk.critical
  /\ exists x : Q, TradeRisk.impact f = JS.Num x /\ (1 # 10 <= x <= 8 # 10)%Q.
Proof.
  cbv zeta. unfold TradeRisk.assessSpreadPersistence.
  destruct currentSpread as [currentSpread|];
    [|split; [discriminate|]; eexists; (split; [reflexivity|]); split; lra].
  destruct (negb (JS.truthy currentSpread));
    [split; [discriminate|]; eexists; (split; [reflexivity|]); split; lra|].
  destruct later as [message|later];
    [split; [discriminate|]; eexists; (split; [reflexivity|]); split; lra|].
  cbv zeta.
  repeat match goal with
         | |- context [if (?a <? ?b)%js then _ else _] =>
             destruct (a <? b)%js
         end;
    (split; [discriminate|]); eexists; (split; [reflexivity|]); split; lra.
Qed.

(** X17. [quickRiskCheck] does not depend on the volatility: no path of
    [assessVolatility] returns the severity ['critical'], whatever the prices
    collected and also when a check fails, so the answer is [safe] exactly
    when the estimated value is not above 100000, and the reason is never
    the one of the volatility. *)
Theorem quickRiskCheck_ignores_volatility (sqrt : JS.number -> JS.number)
    (priceChecks : outcome (list JS.number)) (estimatedValue : JS.number) :
  TradeRisk.severity (TradeRisk.assessVolatility sqrt priceChecks)
  <> TradeRisk.critical
  /\ TradeRisk.quickRiskCheck sqrt priceChecks estimatedValue
     = (if (estimatedValue >? int 100000)%js
        then (false, "Trade value exceeds safe limits")
        else (true, "Passed quick risk check"))
  /\ snd (TradeRisk.quickRiskCheck sqrt priceChecks estimatedValue)
     <> "Extreme volatility detected".
Proof.
  destruct (assessVolatility_range sqrt priceChecks) as [Hsev _].
  cbv zeta in Hsev. split; [exact Hsev|].
  unfold TradeRisk.quickRiskCheck. cbv zeta.
  rewrite (bool_decide_eq_false_2 _ Hsev).
  split; [reflexivity|]. destruct (_ >? _)%js; discriminate.
Qed.

(** the overall risk, and what is decided from it.  The recommendation and
    the level are those of the comparisons of the source *)
Lemma assessTradeRisk_overall (sqrt : JS.number -> JS.number)
    (priceChecks : outcome (list JS.number)) (nseVolumes : list JS.number)
    (laterSpreads : outcome (list JS.number))
    (exchangeRisk : TradeRisk.RiskFactor) (trade : TradeRisk.TradeRequest)
    (v : Q) (w : World) :
  unitImpact exchangeRisk ->
  TradeRisk.estimatedValue trade = JS.Num v -> (0 <= v)%Q ->
  let assessment :=
    fst (TradeRisk.assessTradeRisk sqrt priceChecks nseVolumes laterSpreads
           exchangeRisk trade w) in
  let overallRisk := TradeRisk.overallRisk assessment in
  (exists o : Q, overallRisk = JS.Num o /\ (0 < o < 1)%Q)
  /\ TradeRisk.recommendation assessment
     = (if (overallRisk <? dec 3 10)%js then TradeRisk.proceed
        else if (overallRisk <? dec 7 10)%js
             then TradeRisk.proceed_with_caution
             else TradeRisk.abort)
  /\ TradeRisk.riskLevel assessment
     = (if (overallRisk <? dec 3 10)%js then TradeRisk.low
        else if (overallRisk <? dec 5 10)%js then TradeRisk.medium
        else if (overallRisk <? dec 7 10)%js then TradeRisk.high
        else TradeRisk.critical)
  /\ length (TradeRisk.factors assessment) = 5%nat.
Proof.
  intros (e & He & He01) Hv Hv0. cbv zeta.
  unfold TradeRisk.assessTradeRisk. cbv zeta.
  destruct (assessVolatility_range sqrt priceChecks) as (_ & x1 & H1 & Hx1).
  destruct (assessLiquidity_range nseVolumes (TradeRisk.quantity trade))
    as (_ & x2 & H2 & Hx2).
  destruct (assessSpreadPersistence_range sqrt
              (TradeRisk.opportunitySpread trade) laterSpreads)
    as (_ & x3 & H3 & Hx3).
  assert (Hval : exists m : Q,
            TradeRisk.impact (TradeRisk.valueRiskOf trade) = JS.Num m
            /\ (0 <= m <= 1)%Q).
  { unfold TradeRisk.valueRiskOf. cbn [TradeRisk.impact]. rewrite Hv.
    js_unfold. cbn [JS.div]. change (JS.Qis_zero (100000 # 1)) with false.
    cbv iota.
    destruct (min_finite (v / (100000 # 1)) (1 # 1))
      as (m & -> & _ & Hm1 & Hm).
    exists m. split; [reflexivity|]. split; [|exact Hm1].
    destruct Hm as [Hm|Hm]; rewrite Hm; [|lra].
    apply Qle_shift_div_l; lra. }
  destruct Hval as (m & Hval & Hm0 & Hm1).
  cbv zeta in H1, H2, H3. rewrite H1, H2, H3, He, Hval. js_unfold.
  cbn [JS.mul JS.add JS.lt].
  set (o := (x1 * (25 # 100) + x2 * (25 # 100) + x3 * (30 # 100)
             + e * (10 # 100) + m * (10 # 100))%Q).
  assert (Ho : (0 < o < 1)%Q) by (unfold o; lra).
  clearbody o. unfold bind, dateNow, ret.
  assert (H57 : JS.Qlt_bool o (5 # 10) = true -> JS.Qlt_bool o (7 # 10) = true).
  { intros H5. destruct (Qlt_bool_spec o (5 # 10)); [|discriminate].
    destruct (Qlt_bool_spec o (7 # 10)); [reflexivity|lra]. }
  destruct (JS.Qlt_bool o (3 # 10)) eqn:E3;
    [|destruct (JS.Qlt_bool o (5 # 10)) eqn:E5;
      [specialize (H57 eq_refl)|destruct (JS.Qlt_bool o (7 # 10)) eqn:E7]];
    cbn -[JS.Qlt_bool]; rewrite ?E3, ?E5, ?E7, ?H57;
    (split; [exists o; split; [reflexivity|exact Ho]|]);
    repeat split; reflexivity.
Qed.

(** the quantity kept from an allocation and a cap, at a positive price *)
Lemma safeQuantity_bounds (riskAdjusted maxAllocation avgPrice : Q) :
  (0 <= riskAdjusted)%Q -> (0 <= maxAllocation)%Q -> (0 < avgPrice)%Q ->
  let size :=
    JS.max (int 0)
      (JS.min (JS.Num riskAdjusted) (JS.Num maxAllocation)
         / JS.Num avgPrice)%js in
  (int 0 <=? size)%js = true
  /\ (size <=? JS.Num riskAdjusted / JS.Num avgPrice)%js = true
  /\ (size <=? JS.Num maxAllocation / JS.Num avgPrice)%js = true
  /\ ((maxAllocation == 0)%Q -> exists s : Q, size = JS.Num s /\ (s == 0)%Q).
Proof.
  intros Hr Hm Hp. cbv zeta.
  destruct (min_finite riskAdjusted maxAllocation)
    as (m & -> & Hm1 & Hm2 & Hm3).
  assert (Hm0 : (0 <= m)%Q) by (destruct Hm3 as [E|E]; rewrite E; assumption).
  js_unfold. cbn [JS.div].
  destruct (Qis_zero_spec avgPrice); [lra|].
  destruct (max_finite (0 # 1) (m / avgPrice)) as (s & -> & Hs0 & _ & Hs).
  assert (Hdiv : forall x : Q, (m <= x)%Q -> (s <= x / avgPrice)%Q).
  { intros x Hx. destruct Hs as [Hs|Hs]; rewrite Hs.
    - apply Qle_shift_div_l; [exact Hp|]. lra.
    - apply Qle_shift_div_l; [exact Hp|].
      assert (Heq : (m / avgPrice * avgPrice == m)%Q) by (field; lra).
      rewrite Heq. exact Hx. }
  cbn [JS.le]. split; [now apply Qle_bool_iff|].
  split; [apply Qle_bool_iff, Hdiv, Hm1|].
  split; [apply Qle_bool_iff, Hdiv, Hm2|].
  intros Hz. exists s. split; [reflexivity|].
  assert (Hmz : (m == 0)%Q) by lra.
  destruct Hs as [Hs|Hs]; rewrite Hs; [reflexivity|].
  rewrite Hmz. field. lra.
Qed.

(** X18. The overall risk and the safe position size.  With an exchange
    factor whose impact is between 0 and 1 and a trade whose value is not
    negative, the overall risk of [assessTradeRisk] is a number strictly
    between 0 and 1; the recommendation is to proceed exactly when the
    comparison [overallRisk < 0.3] holds and to abort exactly when
    [overallRisk < 0.7] does not.  When moreover the average price
    [estimatedValue / quantity] is a positive number and the risk tolerance
    is between 0 and 1, the quantity that [calculateSafePositionSize]
    returns is not negative, is at most the risk-adjusted allocation
    [100000 * 0.05 * riskTolerance * (1 - overallRisk)] divided by the
    average price, is at most the cap of the recommendation divided by the
    average price ([100000 * 0.10] to proceed, [100000 * 0.03] to proceed
    with caution), and is zero when the recommendation is to abort. *)
Theorem calculateSafePositionSize_within_caps
    (sqrt : JS.number -> JS.number)
    (priceChecks : outcome (list JS.number)) (nseVolumes : list JS.number)
    (laterSpreads : outcome (list JS.number))
    (exchangeRisk : TradeRisk.RiskFactor) (trade : TradeRisk.TradeRequest)
    (v p t : Q) (w : World) :
  unitImpact exchangeRisk ->
  TradeRisk.estimatedValue trade = JS.Num v -> (0 <= v)%Q ->
  (TradeRisk.estimatedValue trade / TradeRisk.quantity trade)%js = JS.Num p ->
  (0 < p)%Q -> (0 <= t <= 1)%Q ->
  let assessment :=
    fst (TradeRisk.assessTradeRisk sqrt priceChecks nseVolumes laterSpreads
           exchangeRisk trade w) in
  let overallRisk := TradeRisk.overallRisk assessment in
  let avgPrice :=
    (TradeRisk.estimatedValue trade / TradeRisk.quantity trade)%js in
  let size :=
    fst (TradeRisk.calculateSafePositionSize sqrt priceChecks nseVolumes
           laterSpreads exchangeRisk trade (JS.Num t) w) in
  (exists o : Q, overallRisk = JS.Num o /\ (0 < o < 1)%Q)
  /\ (TradeRisk.recommendation assessment = TradeRisk.proceed
      <-> (overallRisk <? dec 3 10)%js = true)
  /\ (TradeRisk.recommendation assessment = TradeRisk.abort
      <-> (overallRisk <? dec 7 10)%js = false)
  /\ (int 0 <=? size)%js = true
  /\ (size <=? int 100000 * dec 5 100 * JS.Num t * (int 1 - overallRisk)
               / avgPrice)%js = true
  /\ (TradeRisk.recommendation assessment = TradeRisk.proceed ->
      (size <=? int 100000 * dec 10 100 / avgPrice)%js = true)
  /\ (TradeRisk.recommendation assessment = TradeRisk.proceed_with_caution ->
      (size <=? int 100000 * dec 3 100 / avgPrice)%js = true)
  /\ (TradeRisk.recommendation assessment = TradeRisk.abort ->
      exists s : Q, size = JS.Num s /\ (s == 0)%Q).
Proof.
  intros He Hv Hv0 Hp Hp0 Ht. cbv zeta.
  destruct (assessTradeRisk_overall sqrt priceChecks nseVolumes laterSpreads
              exchangeRisk trade v w He Hv Hv0)
    as ((o & Ho & Hrange) & Hrec & _).
  cbv zeta in Ho, Hrec.
  unfold TradeRisk.calculateSafePositionSize, bind, ret.
  destruct (TradeRisk.assessTradeRisk _ _ _ _ _ _ w) as [assessment w1].
  cbn [fst] in *. rewrite Hp.
  split; [exists o; split; [exact Ho|exact Hrange]|].
  assert (Hra : exists ra : Q,
            (int 100000 * dec 5 100 * JS.Num t
             * (int 1 - TradeRisk.overallRisk assessment))%js = JS.Num ra
            /\ (0 <= ra)%Q).
  { rewrite Ho. js_unfold. cbn [JS.mul JS.neg JS.add].
    eexists. split; [reflexivity|]. nra. }
  destruct Hra as (ra & Hra & Hra0). rewrite Hra.
  assert (Hcap : forall cap : Q, (0 <= cap)%Q ->
            let size :=
              JS.max (int 0)
                (JS.min (JS.Num ra) (JS.Num cap) / JS.Num p)%js in
            (int 0 <=? size)%js = true
            /\ (size <=? JS.Num ra / JS.Num p)%js = true
            /\ (size <=? JS.Num cap / JS.Num p)%js = true
            /\ ((cap == 0)%Q -> exists s : Q, size = JS.Num s /\ (s == 0)%Q))
    by (intros cap Hcap; apply safeQuantity_bounds; assumption).
  rewrite Hrec. rewrite Ho in *.
  destruct (JS.Num o <? dec 3 10)%js eqn:E3.
  - assert (E7 : (JS.Num o <? dec 7 10)%js = true).
    { cbn in E3 |- *. destruct (Qlt_bool_spec o (3 # 10)); [|discriminate].
      destruct (Qlt_bool_spec o (7 # 10)); [reflexivity|lra]. }
    rewrite E7.
    destruct (Hcap (100000 * (10 # 100))%Q ltac:(lra))
      as (Hs0 & Hs1 & Hs2 & _).
    split; [split; reflexivity|]. split; [split; discriminate|].
    split; [exact Hs0|]. split; [exact Hs1|].
    split; [intros _; exact Hs2|]. split; discriminate.
  - destruct (JS.Num o <? dec 7 10)%js eqn:E7.
    + destruct (Hcap (100000 * (3 # 100))%Q ltac:(lra))
        as (Hs0 & Hs1 & Hs2 & _).
      split; [split; discriminate|]. split; [split; discriminate|].
      split; [exact Hs0|]. split; [exact Hs1|].
      split; [discriminate|]. split; [intros _; exact Hs2|discriminate].
    + destruct (Hcap 0%Q ltac:(lra)) as (Hs0 & Hs1 & _ & Hz).
      split; [split; discriminate|]. split; [split; reflexivity|].
      split; [exact Hs0|]. split; [exact Hs1|].
      split; [discriminate|]. split; [discriminate|].
      intros _. apply Hz. reflexivity.
Qed.

Lemma calculateSafePositionSize_within_caps_witness :
  let assessment :=
    fst (TradeRisk.assessTradeRisk Risk.sqrt6
           (Returned [int 50000; int 50010; int 50020]) [] (Returned [])
           reliable (trade (int 1) (int 50000) (Some (dec 15 10)))
           Sample.DEFAULT_STATE) in
  let size :=
    fst (TradeRisk.calculateSafePositionSize Risk.sqrt6
           (Returned [int 50000; int 50010; int 50020]) [] (Returned [])
           reliable (trade (int 1) (int 50000) (Some (dec 15 10)))
           (JS.Num 1) Sample.DEFAULT_STATE) in
  TradeRisk.recommendation assessment = TradeRisk.proceed
  /\ (int 0 <=? size)%js = true
  /\ (size <=? int 100000 * dec 10 100 / int 50000)%js = true.
Proof.
  intros assessment size.
  destruct (calculateSafePositionSize_within_caps Risk.sqrt6
              (Returned [int 50000; int 50010; int 50020]) [] (Returned [])
              reliable (trade (int 1) (int 50000) (Some (dec 15 10)))
              50000 50000 1 Sample.DEFAULT_STATE)
    as (_ & Hproceed & _ & Hs0 & _ & Hcap & _).
  - exists (10 # 100). split; [reflexivity|]. split; lra.
  - reflexivity.
  - lra.
  - reflexivity.
  - lra.
  - split; lra.
  - assert (Hrec : TradeRisk.recommendation assessment = TradeRisk.proceed)
      by (apply Hproceed; vm_compute; reflexivity).
    split; [exact Hrec|]. split; [exact Hs0|]. exact (Hcap Hrec).
Defined.

(** ** The debate sessions *)

Lemma mapGet_mapSet (key : text) (ref : nat) (entries : list (text * nat)) :
  Session.mapGet key (Session.mapSet key ref entries) = Some ref.
Proof.
  induction entries as [|[k r] rest IH]; cbn [Session.mapSet Session.mapGet].
  - now rewrite bool_decide_eq_true_2.
  - destruct (bool_decide_reflect (k = key)) as [->|Hne];
      cbn [Session.mapGet].
    + now rewrite bool_decide_eq_true_2.
    + now rewrite (bool_decide_eq_false_2 _ Hne).
Qed.

(** [startDebate] creates the session object and files it under its id *)
Lemma startDebate_spec (topic : string) (context : Session.Context)
    (d : Session.Debates) :
  let run := Session.startDebate topic context d in
  let session := Session.objects (snd run) (Session.allocated d) in
  fst run = Session.allocated d
  /\ Session.DebateSession.rounds session = []
  /\ Session.DebateSession.finalDecision session = None
  /\ Session.mapGet (Session.DebateSession.sessionId session)
       (Session.debateSessions (snd run)) = Some (Session.allocated d).
Proof.
  cbv zeta. unfold Session.startDebate, Session.dbind, Session.dret,
    Session.lift, Session.alloc, Session.setSession, dateNow, mathRandom.
  cbn [fst snd Session.objects Session.allocated Session.debateSessions
       Session.world].
  rewrite Nat.eqb_refl. cbn [Session.DebateSession.rounds
    Session.DebateSession.finalDecision Session.DebateSession.sessionId].
  rewrite mapGet_mapSet. repeat split.
Qed.

(** a round without the language model: both confidences are 0.6 *)
Lemma conductDebateRound_without_model (session : nat)
    (context : Session.Context) (groq : Session.Groq) (d : Session.Debates) :
  withoutModel groq ->
  let run := Session.conductDebateRound session context groq d in
  let round := fst run in
  (exists bull bear,
      Session.DebateRound.arguments round = [bull; bear]
      /\ Session.AgentArgument.stance bull = Session.bullish
      /\ Session.AgentArgument.stance bear = Session.bearish
      /\ Session.AgentArgument.confidence bull = dec 6 10
      /\ Session.AgentArgument.confidence bear = dec 6 10
      /\ Session.AgentArgument.reasoning bull
         = Session.fallbackBullishReasoning context
      /\ Session.AgentArgument.reasoning bear
         = Session.fallbackBearishReasoning context)
  /\ Session.DebateRound.roundNumber round
     = S (length (Session.DebateSession.rounds (Session.objects d session)))
  /\ Session.DebateRound.consensus round = Some Session.needs_more_data
  /\ Session.objects (snd run) session
     = Session.pushRound round (Session.objects d session)
  /\ (forall other, other <> session ->
        Session.objects (snd run) other = Session.objects d other)
  /\ Session.debateSessions (snd run) = Session.debateSessions d
  /\ Session.allocated (snd run) = Session.allocated d.
Proof.
  intros Hgroq. cbv zeta.
  assert (Hcases : groq = None \/ exists m1 m2, groq = Some (Threw m1, Threw m2)).
  { destruct groq as [[[m1|c1] [m2|c2]]|]; try contradiction; eauto. }
  unfold Session.conductDebateRound, Session.generateBullishArgument,
    Session.generateBearishArgument, Session.dbind, Session.dret,
    Session.lift, Session.assign, Session.deref, dateNow.
  destruct Hcases as [->|(m1 & m2 & ->)].
  all: cbn [fst snd Session.objects Session.allocated Session.debateSessions
            Session.world Session.AgentArgument.confidence].
  all: rewrite Nat.eqb_refl.
  all: split; [eexists _, _; repeat split|].
  all: split; [reflexivity|]. all: split; [reflexivity|].
  all: split; [reflexivity|]. all: split; [|split; reflexivity].
  all: intros other Hne; now rewrite (proj2 (Nat.eqb_neq other session) Hne).
Qed.

(** a round with the language model: the confidences come from the spread
    and the risk score of the context *)
Lemma conductDebateRound_with_model (session : nat)
    (context : Session.Context) (c1 c2 : option string) (d : Session.Debates) :
  let run :=
    Session.conductDebateRound session context
      (Some (Returned c1, Returned c2)) d in
  let round := fst run in
  (exists bull bear,
      Session.DebateRound.arguments round = [bull; bear]
      /\ Session.AgentArgument.stance bull = Session.bullish
      /\ Session.AgentArgument.stance bear = Session.bearish
      /\ Session.AgentArgument.confidence bull
         = JS.min (dec 9 10)
             (Session.orElse (Session.spread context) (int 1) / int 2
              * (int 1 - Session.orElse (Session.riskScore context) (dec 3 10)))%js
      /\ Session.AgentArgument.confidence bear
         = JS.min (dec 9 10)
             (Session.orElse (Session.riskScore context) (dec 3 10)
              + dec 3 10)%js)
  /\ Session.objects (snd run) session
     = Session.pushRound round (Session.objects d session).
Proof.
  cbv zeta.
  unfold Session.conductDebateRound, Session.generateBullishArgument,
    Session.generateBearishArgument, Session.dbind, Session.dret,
    Session.lift, Session.assign, Session.deref, dateNow.
  cbn [fst snd Session.objects Session.allocated Session.debateSessions
       Session.world Session.AgentArgument.confidence].
  rewrite Nat.eqb_refl.
  split; [eexists _, _; repeat split|reflexivity].
Qed.

(** the sign and the size of the net sentiment of a single round: the
    averages are over one argument each *)
Lemma netSentiment_sign (x y : JS.number) :
  (((int 0 + x) / JS.of_Z 1 - (int 0 + y) / JS.of_Z 1) >? int 0)%js
  = (x >? y)%js.
Proof.
  destruct x as [b| | |], y as [e| | |]; try reflexivity.
  js_unfold. cbn [JS.add JS.div].
  change (JS.Qis_zero (1 # 1)) with false. cbv iota.
  cbn [JS.neg JS.add JS.lt].
  destruct (Qlt_bool_spec (0 # 1)
              (((0 # 1) + b) / (1 # 1) + - (((0 # 1) + e) / (1 # 1)))) as [H|H],
           (Qlt_bool_spec e b) as [H'|H']; try reflexivity; exfalso.
  - apply H'. field_simplify in H. lra.
  - apply H. field_simplify. lra.
Qed.

Lemma netSentiment_abs (x y : JS.number) :
  (JS.abs ((int 0 + x) / JS.of_Z 1 - (int 0 + y) / JS.of_Z 1)
   ≈ JS.abs (x - y))%js.
Proof.
  destruct x as [b| | |], y as [e| | |]; try exact I.
  js_unfold. cbn [JS.add JS.div].
  change (JS.Qis_zero (1 # 1)) with false. cbv iota.
  cbn [JS.neg JS.add JS.abs JS.eqv].
  assert (H : (((0 # 1) + b) / (1 # 1) + - (((0 # 1) + e) / (1 # 1))
               == b + - e)%Q) by field.
  now rewrite H.
Qed.

(** the verdict on a session of one round, from its two confidences: the
    decision is the comparison of the two, the confidence their distance *)
Lemma reachConsensus_one_round (session : nat) (d : Session.Debates)
    (round : Session.DebateRound.t) (bull bear : Session.AgentArgument.t) :
  Session.DebateSession.rounds (Session.objects d session) = [round] ->
  Session.DebateRound.arguments round = [bull; bear] ->
  Session.AgentArgument.stance bull = Session.bullish ->
  Session.AgentArgument.stance bear = Session.bearish ->
  let run := Session.reachConsensus session d in
  let decision :=
    if (Session.AgentArgument.confidence bull
        >? Session.AgentArgument.confidence bear)%js
    then Session.proceed else Session.abort in
  Session.decision (fst run) = decision
  /\ (Session.confidence (fst run)
      ≈ JS.abs (Session.AgentArgument.confidence bull
                - Session.AgentArgument.confidence bear))%js
  /\ (exists confidence now,
        Session.objects (snd run) session
        = Session.conclude decision confidence now (Session.objects d session))
  /\ Session.debateSessions (snd run) = Session.debateSessions d.
Proof.
  intros Hrounds Hargs Hs1 Hs2. cbv zeta.
  unfold Session.reachConsensus, Session.dbind, Session.deref.
  rewrite Hrounds. unfold Session.tallyRounds. cbn [foldl]. rewrite Hargs.
  cbn [foldl]. unfold Session.tally. rewrite Hs1, Hs2.
  unfold Session.dret, Session.lift, Session.assign, dateNow.
  cbn [Nat.ltb Nat.leb]. change (Z.of_nat 1) with 1%Z.
  rewrite netSentiment_sign.
  cbn [fst snd Session.objects Session.allocated Session.debateSessions
       Session.world Session.decision Session.confidence].
  rewrite Nat.eqb_refl.
  split; [destruct (_ >? _)%js; reflexivity|].
  split; [apply netSentiment_abs|].
  split; [eexists _, _; reflexivity|reflexivity].
Qed.

(** X19. Without the language model (no API key, or both calls failed) the
    two analysts fall back to a confidence of 0.6 each, so [quickDebate]
    always decides to abort, with a confidence of zero, and returns the two
    fallback reasonings; the round it ran asks for more data.  The session
    object reached through [debateSessions] is the one the round and the
    verdict were written to: [getDebateHistory] with its id returns it with
    that one round, the final decision and an end time. *)
Theorem quickDebate_without_model_aborts (topic : string)
    (context : Session.Context) (groq : Session.Groq) (d : Session.Debates) :
  withoutModel groq ->
  let run := Session.quickDebate topic context groq d in
  let session := Session.objects (snd run) (Session.allocated d) in
  Session.decision (Session.verdict (fst run)) = Session.abort
  /\ (Session.confidence (Session.verdict (fst run)) ≈ int 0)%js
  /\ Session.bullishReasoning (fst run)
     = Session.fallbackBullishReasoning context
  /\ Session.bearishReasoning (fst run)
     = Session.fallbackBearishReasoning context
  /\ (exists round,
        Session.DebateSession.rounds session = [round]
        /\ Session.DebateRound.roundNumber round = 1%nat
        /\ Session.DebateRound.consensus round = Some Session.needs_more_data)
  /\ Session.DebateSession.finalDecision session = Some Session.abort
  /\ is_Some (Session.DebateSession.endTime session)
  /\ fst (Session.getDebateHistory
            (Session.DebateSession.sessionId session) (snd run))
     = Some session.
Proof.
  intros Hgroq. cbv zeta. unfold Session.quickDebate, Session.dbind.
  pose proof (startDebate_spec topic context d) as Hstart.
  cbv zeta in Hstart.
  destruct (Session.startDebate topic context d) as [ref d1].
  cbn [fst snd] in Hstart. destruct Hstart as (-> & Hnone & _ & Hget).
  pose proof (conductDebateRound_without_model (Session.allocated d) context
                groq d1 Hgroq) as Hround.
  cbv zeta in Hround.
  destruct (Session.conductDebateRound (Session.allocated d) context groq d1)
    as [round d2].
  cbn [fst snd] in Hround.
  destruct Hround as ((bull & bear & Hargs & Hs1 & Hs2 & Hc1 & Hc2 & Hr1 & Hr2)
                      & Hnum & Hcons & Hobj & _ & Hmap & _).
  assert (Hrounds : Session.DebateSession.rounds
                      (Session.objects d2 (Session.allocated d)) = [round]).
  { rewrite Hobj. unfold Session.pushRound.
    cbn [Session.DebateSession.rounds]. now rewrite Hnone. }
  pose proof (reachConsensus_one_round (Session.allocated d) d2 round
                bull bear Hrounds Hargs Hs1 Hs2) as Hverdict.
  cbv zeta in Hverdict. rewrite Hc1, Hc2 in Hverdict.
  destruct (Session.reachConsensus (Session.allocated d) d2) as [verdict d3].
  cbn [fst snd] in Hverdict.
  destruct Hverdict as (Hdec & Hconf & (confidence & now & Hfinal) & Hmap3).
  change (dec 6 10 >? dec 6 10)%js with false in Hdec, Hfinal.
  unfold Session.dret.
  cbn [fst snd Session.verdict Session.bullishReasoning
       Session.bearishReasoning].
  split; [exact Hdec|].
  split; [destruct (Session.confidence verdict); cbn in Hconf |- *;
          first [contradiction|rewrite Hconf; reflexivity]|].
  assert (Hfb : List.find
                  (fun a => bool_decide
                              (Session.AgentArgument.stance a = Session.bullish))
                  [bull; bear] = Some bull).
  { cbn [List.find]. rewrite Hs1. now rewrite bool_decide_eq_true_2. }
  assert (Hfe : List.find
                  (fun a => bool_decide
                              (Session.AgentArgument.stance a = Session.bearish))
                  [bull; bear] = Some bear).
  { cbn [List.find]. rewrite Hs1, Hs2.
    rewrite bool_decide_eq_false_2 by discriminate.
    now rewrite bool_decide_eq_true_2. }
  rewrite Hargs, Hfb, Hfe. unfold Session.reasoningOr. rewrite Hr1, Hr2.
  split; [reflexivity|]. split; [reflexivity|].
  rewrite Hfinal. unfold Session.conclude at 1 2 3.
  cbn [Session.DebateSession.rounds Session.DebateSession.finalDecision
       Session.DebateSession.endTime].
  split.
  { exists round. split; [exact Hrounds|]. split; [|exact Hcons].
    rewrite Hnum, Hnone. reflexivity. }
  split; [reflexivity|]. split; [eexists; reflexivity|].
  unfold Session.getDebateHistory. cbn [fst].
  rewrite Hmap3, Hmap. unfold Session.conclude at 1.
  cbn [Session.DebateSession.sessionId]. rewrite Hobj.
  unfold Session.pushRound at 1. cbn [Session.DebateSession.sessionId].
  rewrite Hget. rewrite Hfinal, Hobj. reflexivity.
Qed.

Lemma quickDebate_without_model_aborts_witness :
  let run :=
    Session.quickDebate "Execute BTC/USDT arbitrage"
      {| Session.spread := Some (dec 15 10); Session.riskScore := None |}
      None (noSessions Sample.DEFAULT_STATE) in
  Session.decision (Session.verdict (fst run)) = Session.abort
  /\ Session.DebateSession.finalDecision (Session.objects (snd run) 0)
     = Some Session.abort.
Proof.
  intros run.
  destruct (quickDebate_without_model_aborts "Execute BTC/USDT arbitrage"
              {| Session.spread := Some (dec 15 10);
                 Session.riskScore := None |}
              None (noSessions Sample.DEFAULT_STATE) I)
    as (Hd & _ & _ & _ & _ & Hf & _).
  split; [exact Hd|exact Hf].
Defined.

(** X20. When both calls to the language model succeed, the verdict of
    [quickDebate] depends on the context alone, whatever the consensus of
    the round: with the bullish confidence
    [Math.min(0.9, (spread || 1) / 2 * (1 - (riskScore || 0.3)))] and the
    bearish confidence [Math.min(0.9, (riskScore || 0.3) + 0.3)], the
    decision is to proceed when the comparison [bullish > bearish] holds and
    to abort otherwise, and the confidence of the verdict is
    [Math.abs(bullish - bearish)].  Hence a risk score of 0.7 or more always
    aborts, a spread of 2 or more with a risk score of 0.2 or less always
    proceeds, and for a spread that is not negative and a risk score between
    0 and 1 the confidence of the verdict is between 0 and 0.9. *)
Theorem quickDebate_proceeds_iff (topic : string)
    (context : Session.Context) (c1 c2 : option string)
    (d : Session.Debates) :
  let run :=
    Session.quickDebate topic context (Some (Returned c1, Returned c2)) d in
  let verdict := Session.verdict (fst run) in
  let bullish :=
    JS.min (dec 9 10)
      (Session.orElse (Session.spread context) (int 1) / int 2
       * (int 1 - Session.orElse (Session.riskScore context) (dec 3 10)))%js in
  let bearish :=
    JS.min (dec 9 10)
      (Session.orElse (Session.riskScore context) (dec 3 10) + dec 3 10)%js in
  Session.decision verdict
  = (if (bullish >? bearish)%js then Session.proceed else Session.abort)
  /\ (Session.confidence verdict ≈ JS.abs (bullish - bearish))%js
  /\ (forall r : Q,
        Session.riskScore context = Some (JS.Num r) -> (7 # 10 <= r)%Q ->
        Session.decision verdict = Session.abort)
  /\ (forall s r : Q,
        Session.spread context = Some (JS.Num s) ->
        Session.riskScore context = Some (JS.Num r) ->
        (2 <= s)%Q -> (r <= 2 # 10)%Q ->
        Session.decision verdict = Session.proceed)
  /\ (forall s r : Q,
        Session.spread context = Some (JS.Num s) ->
        Session.riskScore context = Some (JS.Num r) ->
        (0 <= s)%Q -> (0 <= r <= 1)%Q ->
        (int 0 <=? Session.confidence verdict)%js = true
        /\ (Session.confidence verdict <=? dec 9 10)%js = true).
Proof.
  cbv zeta. unfold Session.quickDebate, Session.dbind.
  pose proof (startDebate_spec topic context d) as Hstart.
  cbv zeta in Hstart.
  destruct (Session.startDebate topic context d) as [ref d1].
  cbn [fst snd] in Hstart. destruct Hstart as (-> & Hnone & _ & _).
  pose proof (conductDebateRound_with_model (Session.allocated d) context
                c1 c2 d1) as Hround.
  cbv zeta in Hround.
  destruct (Session.conductDebateRound (Session.allocated d) context _ d1)
    as [round d2].
  cbn [fst snd] in Hround.
  destruct Hround as ((bull & bear & Hargs & Hs1 & Hs2 & Hc1 & Hc2) & Hobj).
  assert (Hrounds : Session.DebateSession.rounds
                      (Session.objects d2 (Session.allocated d)) = [round]).
  { rewrite Hobj. unfold Session.pushRound.
    cbn [Session.DebateSession.rounds]. now rewrite Hnone. }
  pose proof (reachConsensus_one_round (Session.allocated d) d2 round
                bull bear Hrounds Hargs Hs1 Hs2) as Hverdict.
  cbv zeta in Hverdict. rewrite Hc1, Hc2 in Hverdict.
  destruct (Session.reachConsensus (Session.allocated d) d2) as [verdict d3].
  cbn [fst snd] in Hverdict.
  destruct Hverdict as (Hdec & Hconf & _).
  unfold Session.dret. cbn [fst Session.verdict].
  split; [exact Hdec|]. split; [exact Hconf|].
  assert (Hrisk : forall r : Q,
            Session.riskScore context = Some (JS.Num r) ->
            exists r' : Q,
              Session.orElse (Session.riskScore context) (dec 3 10)
              = JS.Num r'
              /\ ((r == 0 /\ r' == 3 # 10) \/ r' == r)%Q).
  { intros r Hr. rewrite Hr. unfold Session.orElse, JS.or_default.
    cbn [JS.truthy]. destruct (Qis_zero_spec r); cbn [negb].
    - exists (3 # 10). split; [reflexivity|]. left. split; [assumption|lra].
    - exists r. split; [reflexivity|]. right. reflexivity. }
  assert (Hspread : forall s : Q,
            Session.spread context = Some (JS.Num s) ->
            exists s' : Q,
              Session.orElse (Session.spread context) (int 1) = JS.Num s'
              /\ ((s == 0 /\ s' == 1) \/ s' == s)%Q).
  { intros s Hs. rewrite Hs. unfold Session.orElse, JS.or_default.
    cbn [JS.truthy]. destruct (Qis_zero_spec s); cbn [negb].
    - exists 1%Q. split; [reflexivity|]. left. split; [assumption|lra].
    - exists s. split; [reflexivity|]. right. reflexivity. }
  split; [|split].
  - intros r Hr Hr7. rewrite Hdec.
    destruct (Hrisk r Hr) as (r' & -> & Hr').
    assert (Hr'' : (r' == r)%Q) by (destruct Hr' as [[H0 _]|H]; [lra|exact H]).
    destruct (Session.orElse (Session.spread context) (int 1) / int 2
              * (int 1 - JS.Num r'))%js as [x| | |]; js_unfold;
      cbn [JS.add JS.min JS.lt];
      qcases; first [reflexivity|cbn [JS.lt]; qcases; first [reflexivity|lra]].
  - intros s r Hs Hr Hs2' Hr2. rewrite Hdec.
    destruct (Hrisk r Hr) as (r' & -> & Hr').
    destruct (Hspread s Hs) as (s' & -> & Hs').
    assert (Hs'' : (s' == s)%Q) by (destruct Hs' as [[H0 _]|H]; [lra|exact H]).
    assert (Hr'' : (r' <= 3 # 10)%Q) by (destruct Hr' as [[_ H]|H]; lra).
    js_unfold. cbn [JS.div]. change (JS.Qis_zero (2 # 1)) with false.
    cbv iota. cbn [JS.neg JS.add JS.mul].
    destruct (min_finite (9 # 10) (s' / (2 # 1) * ((1 # 1) + - r')))
      as (b & -> & Hb1 & Hb2 & Hb3).
    destruct (min_finite (9 # 10) (r' + (3 # 10)))
      as (e & -> & He1 & He2 & He3).
    cbn [JS.lt].
    assert (Hhalf : (1 <= s' / (2 # 1))%Q) by (apply Qle_shift_div_l; lra).
    assert (Hprod : (7 # 10 <= s' / (2 # 1) * ((1 # 1) + - r'))%Q) by nra.
    assert (Hlt : (e < b)%Q).
    { destruct Hr' as [[_ H]|H].
      - destruct Hb3 as [Hb3|Hb3]; rewrite Hb3; lra.
      - assert (8 # 10 <= s' / (2 # 1) * ((1 # 1) + - r'))%Q by nra.
        destruct Hb3 as [Hb3|Hb3]; rewrite Hb3; lra. }
    destruct (Qlt_bool_spec e b); [reflexivity|lra].
  - intros s r Hs Hr Hs0 Hr01.
    destruct (Hrisk r Hr) as (r' & Er & Hr').
    destruct (Hspread s Hs) as (s' & Es & Hs').
    rewrite Er, Es in Hconf.
    assert (Hs'' : (0 <= s')%Q) by (destruct Hs' as [[_ H]|H]; lra).
    assert (Hr'' : (0 <= r' <= 1)%Q) by (destruct Hr' as [[_ H]|H]; lra).
    js_unfold. cbn [JS.div] in Hconf.
    change (JS.Qis_zero (2 # 1)) with false in Hconf.
    cbv iota in Hconf. cbn [JS.neg JS.add JS.mul] in Hconf.
    destruct (min_finite (9 # 10) (s' / (2 # 1) * ((1 # 1) + - r')))
      as (b & Eb & Hb1 & Hb2 & Hb3).
    destruct (min_finite (9 # 10) (r' + (3 # 10)))
      as (e & Ee & He1 & He2 & He3).
    rewrite Eb, Ee in Hconf. cbn [JS.neg JS.add JS.abs] in Hconf.
    assert (Hprod : (0 <= s' / (2 # 1) * ((1 # 1) + - r'))%Q).
    { apply Qmult_le_0_compat; [apply Qle_shift_div_l; lra|lra]. }
    assert (Hb0 : (0 <= b)%Q) by (destruct Hb3 as [H|H]; rewrite H; lra).
    assert (He0 : (0 <= e)%Q) by (destruct He3 as [H|H]; rewrite H; lra).
    destruct (Session.confidence verdict) as [c| | |];
      cbn [JS.eqv] in Hconf; try contradiction.
    cbn [JS.le]. rewrite Hconf.
    split; apply Qle_bool_iff; [apply Qabs_nonneg|].
    apply Qabs_Qle_condition. split; lra.
Qed.

Lemma quickDebate_proceeds_iff_witness :
  Session.decision
    (Session.verdict
       (fst (Session.quickDebate "Execute BTC/USDT arbitrage"
               {| Session.spread := Some (int 2);
                  Session.riskScore := Some (dec 1 10) |}
               (Some (Returned (Some "buy"), Returned (Some "wait")))
               (noSessions Sample.DEFAULT_STATE))))
  = Session.proceed.
Proof.
  destruct (quickDebate_proceeds_iff "Execute BTC/USDT arbitrage"
              {| Session.spread := Some (int 2);
                 Session.riskScore := Some (dec 1 10) |}
              (Some "buy") (Some "wait") (noSessions Sample.DEFAULT_STATE))
    as (_ & _ & _ & Hproceed & _).
  apply (Hproceed 2%Q (1 # 10)%Q eq_refl eq_refl); lra.
Defined.

(** ** The positions of the portfolio *)

Lemma held_key (symbol exchange : string) (p : Position.t) :
  Positions.held symbol exchange p = true <-> positionKey p = (symbol, exchange).
Proof.
  unfold Positions.held, positionKey. rewrite andb_true_iff.
  rewrite !bool_decide_eq_true. split; [intros [-> ->]; reflexivity|].
  intros [= -> ->]. split; reflexivity.
Qed.

Lemma addPosition_positions (position : Position.t) (w : World) :
  positionsOf (snd (Positions.addPosition position w))
  = match findIndex (Positions.held (Position.symbol position)
                       (Position.exchange position)) (positionsOf w) with
    | Some index => <[index := position]> (positionsOf w)
    | None => positionsOf w ++ [position]
    end.
Proof. reflexivity. Qed.

Lemma removePosition_positions (symbol exchange : string) (w : World) :
  positionsOf (snd (Positions.removePosition symbol exchange w))
  = List.filter (fun p => negb (Positions.held symbol exchange p))
      (positionsOf w).
Proof. reflexivity. Qed.

Lemma findIndex_none_inv {A} (f : A -> bool) (l : list A) :
  findIndex f l = None -> Forall (fun y => f y = false) l.
Proof.
  induction l as [|y l IH]; cbn [findIndex]; [constructor|].
  destruct (f y) eqn:Hy; [discriminate|].
  destruct (findIndex f l); [discriminate|]. intros _.
  constructor; [exact Hy|now apply IH].
Qed.

Lemma fmap_insert_same_key (l : list Position.t) (i : nat)
    (old position : Position.t) :
  l !! i = Some old -> positionKey old = positionKey position ->
  positionKey <$> <[i := position]> l = positionKey <$> l.
Proof.
  intros Hi Hkey. rewrite list_fmap_insert.
  apply list_insert_id. rewrite list_lookup_fmap, Hi. cbn. now rewrite Hkey.
Qed.

(** X21. The positions of the portfolio are keyed by symbol and exchange.
    [addPosition] replaces the first position of the same key or, when there
    is none, appends the position; [removePosition] drops every position of
    the key and keeps the others in order.  Both keep the keys distinct when
    they were, leave the cash and the total value alone and stamp the
    portfolio with the reading of the clock.  After [addPosition] the
    position is held under its key; removing the key after adding it gives
    what removing it alone gives. *)
Theorem positions_are_keyed (position : Position.t) (w : World) :
  let symbol := Position.symbol position in
  let exchange := Position.exchange position in
  let added := snd (Positions.addPosition position w) in
  let removed := snd (Positions.removePosition symbol exchange w) in
  (NoDup (positionKey <$> positionsOf w) ->
   NoDup (positionKey <$> positionsOf added)
   /\ NoDup (positionKey <$> positionsOf removed)
   /\ forall p, p ∈ positionsOf added ->
                positionKey p = positionKey position -> p = position)
  /\ List.find (Positions.held symbol exchange) (positionsOf added)
     = Some position
  /\ (length (positionsOf w) <= length (positionsOf added)
      <= S (length (positionsOf w)))%nat
  /\ (forall p, p ∈ positionsOf removed
                <-> p ∈ positionsOf w /\ positionKey p <> positionKey position)
  /\ positionsOf (snd (Positions.removePosition symbol exchange added))
     = positionsOf removed
  /\ Portfolio.cash (portfolio added) = Portfolio.cash (portfolio w)
  /\ Portfolio.totalValue (portfolio added)
     = Portfolio.totalValue (portfolio w)
  /\ Portfolio.lastUpdate (portfolio added) = clock w (clockTicks w).
Proof.
  cbv zeta.
  assert (Hself : Positions.held (Position.symbol position)
                    (Position.exchange position) position = true)
    by now apply held_key.
  rewrite !removePosition_positions, !addPosition_positions.
  set (f := Positions.held (Position.symbol position)
              (Position.exchange position)) in *.
  split; [|split; [|split; [|split; [|split]]]].
  - intros Hnodup. split; [|split].
    + destruct (findIndex f (positionsOf w)) as [i|] eqn:E.
      * apply findIndex_some in E as (old & Hold & Hf & _).
        rewrite (fmap_insert_same_key _ _ old); [exact Hnodup|exact Hold|].
        apply held_key in Hf. exact Hf.
      * apply findIndex_none_inv in E. rewrite fmap_app. cbn [fmap list_fmap].
        apply NoDup_app. split; [exact Hnodup|]. split; [|apply NoDup_singleton].
        intros k Hk Hk'. apply list_elem_of_singleton in Hk'. subst k.
        apply list_elem_of_fmap in Hk as (p & Hp & Hin).
        rewrite Forall_forall in E. specialize (E p Hin).
        assert (f p = true) by (apply held_key; now rewrite <- Hp).
        congruence.
    + clear -Hnodup. induction (positionsOf w) as [|p l IH];
        cbn [List.filter fmap list_fmap]; [constructor|].
      cbn [fmap list_fmap] in Hnodup. apply NoDup_cons in Hnodup as [Hp Hl].
      destruct (negb (f p)); [|now apply IH].
      cbn [fmap list_fmap]. apply NoDup_cons. split; [|now apply IH].
      intros Hin. apply Hp. apply list_elem_of_fmap in Hin as (q & Hq & Hin).
      apply list_elem_of_fmap. exists q. split; [exact Hq|].
      apply list_elem_of_In, List.filter_In in Hin as [Hin _].
      now apply list_elem_of_In.
    + intros p Hin Hkey.
      destruct (findIndex f (positionsOf w)) as [i|] eqn:E.
      * apply findIndex_some in E as (old & Hold & Hf & _).
        apply held_key in Hf.
        apply list_elem_of_lookup in Hin as [j Hj].
        destruct (decide (j = i)) as [->|Hne].
        -- rewrite list_lookup_insert_eq in Hj
             by (eapply lookup_lt_Some; exact Hold). congruence.
        -- rewrite list_lookup_insert_ne in Hj by congruence. exfalso.
           assert (Hk1 : (positionKey <$> positionsOf w) !! j
                         = Some (positionKey position))
             by (rewrite list_lookup_fmap, Hj; cbn; now rewrite Hkey).
           assert (Hk2 : (positionKey <$> positionsOf w) !! i
                         = Some (positionKey position))
             by (rewrite list_lookup_fmap, Hold; cbn; now rewrite Hf).
           apply Hne. exact (NoDup_lookup _ _ _ _ Hnodup Hk1 Hk2).
      * apply findIndex_none_inv in E.
        apply elem_of_app in Hin as [Hin|Hin];
          [|now apply list_elem_of_singleton in Hin].
        exfalso. rewrite Forall_forall in E. specialize (E p Hin).
        assert (f p = true) by (apply held_key; exact Hkey). congruence.
  - destruct (findIndex f (positionsOf w)) as [i|] eqn:E.
    + apply findIndex_some in E as (old & Hold & Hf & Hbefore).
      clear Hf. revert i old Hold Hbefore.
      induction (positionsOf w) as [|q l IH]; intros i old Hold Hbefore;
        [discriminate Hold|].
      destruct i as [|i]; cbn [insert list_insert List.find].
      * now rewrite Hself.
      * rewrite (Hbefore 0%nat q) by first [lia|reflexivity].
        apply (IH i old); [exact Hold|].
        intros j y Hj Hy. apply (Hbefore (S j) y); [lia|exact Hy].
    + apply findIndex_none_inv in E.
      induction E as [|q l Hq _ IH]; cbn [app List.find].
      * now rewrite Hself.
      * now rewrite Hq.
  - destruct (findIndex f (positionsOf w)) as [i|].
    + rewrite length_insert. lia.
    + rewrite length_app. cbn [length]. lia.
  - intros p. rewrite list_elem_of_In, List.filter_In, <- list_elem_of_In.
    rewrite negb_true_iff. split; intros [Hin Hk]; (split; [exact Hin|]).
    + intros Hkey. assert (f p = true) by (apply held_key; exact Hkey).
      congruence.
    + destruct (f p) eqn:Hf; [|reflexivity]. exfalso. apply Hk.
      now apply held_key in Hf.
  - destruct (findIndex f (positionsOf w)) as [i|] eqn:E.
    + apply findIndex_some in E as (old & Hold & Hf & _).
      revert i old Hold Hf.
      induction (positionsOf w) as [|q l IH]; intros i old Hold Hf;
        [discriminate Hold|].
      destruct i as [|i]; cbn [insert list_insert List.filter].
      * cbn in Hold. injection Hold as ->. now rewrite Hself, Hf.
      * destruct (negb (f q)); [f_equal|]; now apply (IH i old).
    + rewrite List.filter_app. cbn [List.filter]. rewrite Hself.
      cbn [negb]. apply app_nil_r.
  - repeat split.
Qed.

Lemma positions_are_keyed_witness :
  let w :=
    snd (Positions.addPosition (holding "BTCUSDT" "binance" (int 1))
           Sample.DEFAULT_STATE) in
  positionsOf (snd (Positions.addPosition (holding "BTCUSDT" "binance" (int 2)) w))
  = [holding "BTCUSDT" "binance" (int 2)]
  /\ NoDup (positionKey
              <$> positionsOf
                    (snd (Positions.addPosition
                            (holding "BTCUSDT" "binance" (int 2)) w))).
Proof.
  intros w. split; [reflexivity|].
  apply (proj1 (positions_are_keyed (holding "BTCUSDT" "binance" (int 2)) w)).
  vm_compute. repeat constructor. set_solver.
Defined.

(** ** Reading the execution log *)

Lemma truncate_inject_Z (n : Z) : Executions.truncate (inject_Z n) = n.
Proof. unfold Executions.truncate, inject_Z. cbn. apply Z.quot_1_r. Qed.

Lemma slice_suffix {A} (start : JS.number) (l : list A) :
  Executions.slice start l `suffix_of` l.
Proof.
  unfold Executions.slice. destruct start; cbv zeta.
  - apply suffix_drop.
  - apply suffix_nil.
  - reflexivity.
  - reflexivity.
Qed.

(** the log after [updateExecutionRecord] *)
Lemma updateExecutionRecord_log (rid : text)
    (upd : ExecutionRecord.t -> ExecutionRecord.t) (w : World) :
  executionLog (snd (updateExecutionRecord rid upd w))
  = match findIndex (fun r => bool_decide (ExecutionRecord.id r = rid))
            (executionLog w) with
    | Some index =>
        match executionLog w !! index with
        | Some r => <[index := upd r]> (executionLog w)
        | None => executionLog w
        end
    | None => executionLog w
    end.
Proof.
  unfold updateExecutionRecord, bind, get, modify, ret.
  destruct (findIndex _ _) as [index|]; [|reflexivity].
  destruct (executionLog w !! index); reflexivity.
Qed.

Lemma find_updated (f : ExecutionRecord.t -> bool)
    (upd : ExecutionRecord.t -> ExecutionRecord.t)
    (l : list ExecutionRecord.t) :
  (forall r, f (upd r) = f r) ->
  List.find f
    (match findIndex f l with
     | Some index =>
         match l !! index with
         | Some r => <[index := upd r]> l
         | None => l
         end
     | None => l
     end)
  = upd <$> List.find f l.
Proof.
  intros Hf. induction l as [|y l IH]; [reflexivity|].
  cbn [findIndex List.find]. destruct (f y) eqn:Hy.
  - cbn [lookup list_lookup insert list_insert List.find].
    now rewrite Hf, Hy.
  - destruct (findIndex f l) as [i|] eqn:E; cbn [fmap option_fmap option_map].
    + cbn [lookup list_lookup]. change (list_lookup i l) with (l !! i).
      destruct (l !! i) as [r|] eqn:Hi.
      * cbn [insert list_insert List.find].
        change (list_insert i (upd r) l) with (<[i := upd r]> l).
        rewrite Hy. exact IH.
      * cbn [List.find]. rewrite Hy. exact IH.
    + cbn [List.find]. rewrite Hy. exact IH.
Qed.

Lemma find_not_updated (f g : ExecutionRecord.t -> bool)
    (upd : ExecutionRecord.t -> ExecutionRecord.t)
    (l : list ExecutionRecord.t) :
  (forall r, g (upd r) = g r) -> (forall r, f r = true -> g r = false) ->
  List.find g
    (match findIndex f l with
     | Some index =>
         match l !! index with
         | Some r => <[index := upd r]> l
         | None => l
         end
     | None => l
     end)
  = List.find g l.
Proof.
  intros Hg Hfg. induction l as [|y l IH]; [reflexivity|].
  cbn [findIndex List.find]. destruct (f y) eqn:Hy.
  - cbn [lookup list_lookup insert list_insert List.find].
    now rewrite Hg, (Hfg y Hy).
  - destruct (findIndex f l) as [i|] eqn:E; cbn [fmap option_fmap option_map].
    + cbn [lookup list_lookup]. change (list_lookup i l) with (l !! i).
      destruct (l !! i) as [r|] eqn:Hi.
      * cbn [insert list_insert List.find].
        change (list_insert i (upd r) l) with (<[i := upd r]> l).
        destruct (g y); [reflexivity|exact IH].
      * reflexivity.
    + reflexivity.
Qed.

(** X22. Reading the execution log.  [getExecutionLog(limit)] returns a
    suffix of the log: the last [n] records (all of them when there are
    fewer) for a limit [n > 0], the whole log without a limit and also for
    the limit 0, and the log without its [k] oldest records for a limit
    [-k].  [getExecutionById] and [updateExecutionRecord] address the same
    record, the first one of the id: after an update that keeps the id, the
    record found under the id is the updated one, and the record found
    under any other id is as before. *)
Theorem executionLog_queries (w : World) :
  (forall limit, Executions.getExecutionLog limit w `suffix_of` executionLog w)
  /\ (forall n : Z, 0 < n ->
        Executions.getExecutionLog (Some (int n)) w
        = drop (length (executionLog w) - Z.to_nat n) (executionLog w)
        /\ length (Executions.getExecutionLog (Some (int n)) w)
           = Nat.min (Z.to_nat n) (length (executionLog w)))
  /\ Executions.getExecutionLog (Some (int 0)) w = executionLog w
  /\ Executions.getExecutionLog None w = executionLog w
  /\ (forall k : Z, 0 < k ->
        Executions.getExecutionLog (Some (int (- k))) w
        = drop (Z.to_nat k) (executionLog w))
  /\ (forall rid upd,
        (forall r, ExecutionRecord.id (upd r) = ExecutionRecord.id r) ->
        let w' := snd (updateExecutionRecord rid upd w) in
        Executions.getExecutionById rid w'
        = upd <$> Executions.getExecutionById rid w
        /\ forall other, other <> rid ->
             Executions.getExecutionById other w'
             = Executions.getExecutionById other w).
Proof.
  split; [|split; [|split; [|split; [|split]]]].
  - intros [limit|]; [|reflexivity]. unfold Executions.getExecutionLog.
    destruct (JS.truthy limit); [apply slice_suffix|reflexivity].
  - intros n Hn.
    assert (Hlog : Executions.getExecutionLog (Some (int n)) w
                   = drop (length (executionLog w) - Z.to_nat n)
                       (executionLog w)).
    { unfold Executions.getExecutionLog, int, JS.of_Z. cbn [JS.truthy JS.neg].
      destruct (Qis_zero_spec (inject_Z n)) as [Hz|_].
      { exfalso. apply (Qeq_alt (inject_Z n) 0) in Hz.
        unfold Qcompare, inject_Z in Hz. cbn in Hz.
        rewrite Z.mul_1_r in Hz. apply Z.compare_eq in Hz. lia. }
      cbn [negb]. unfold Executions.slice. cbv zeta.
      replace (- inject_Z n)%Q with (inject_Z (- n)) by reflexivity.
      rewrite truncate_inject_Z.
      destruct (Z.ltb_spec (- n) 0); [|lia]. f_equal. lia. }
    split; [exact Hlog|]. rewrite Hlog, length_drop. lia.
  - reflexivity.
  - reflexivity.
  - intros k Hk. unfold Executions.getExecutionLog, int, JS.of_Z.
    cbn [JS.truthy JS.neg].
    destruct (Qis_zero_spec (inject_Z (- k))) as [Hz|_].
    { exfalso. apply (Qeq_alt (inject_Z (- k)) 0) in Hz.
      unfold Qcompare, inject_Z in Hz. cbn in Hz.
      rewrite Z.mul_1_r in Hz. apply Z.compare_eq in Hz. lia. }
    cbn [negb]. unfold Executions.slice. cbv zeta.
    replace (- inject_Z (- k))%Q with (inject_Z k)
      by (unfold inject_Z, Qopp; cbn; now rewrite Z.opp_involutive).
    rewrite truncate_inject_Z.
    destruct (Z.ltb_spec k 0); [lia|].
    destruct (Z.min_spec k (Z.of_nat (length (executionLog w))))
      as [[_ ->]|[Hle ->]]; [reflexivity|].
    rewrite Nat2Z.id, drop_all. symmetry. apply drop_ge. lia.
  - intros rid upd Hid. cbv zeta. unfold Executions.getExecutionById.
    rewrite updateExecutionRecord_log. split.
    + apply find_updated. intros r. now rewrite Hid.
    + intros other Hne. apply find_not_updated.
      * intros r. now rewrite Hid.
      * intros r Hr. apply bool_decide_eq_true_1 in Hr.
        apply bool_decide_eq_false_2. congruence.
Qed.

Lemma executionLog_queries_witness :
  let w :=
    snd (Execution.executeArbitrageWithPartialFills Sample.btc (int 5000)
           (Returned deepBook)
           (snd (Execution.executeArbitrageWithPartialFills Sample.btc
                   (int 5000) (Returned thinBook) Sample.DEFAULT_STATE))) in
  length (executionLog w) = 2%nat
  /\ length (Executions.getExecutionLog (Some (int 1)) w) = 1%nat.
Proof.
  intros w. split; [reflexivity|].
  destruct (proj1 (proj2 (executionLog_queries w)) 1 ltac:(lia)) as [_ H].
  rewrite H. reflexivity.
Defined.

(** ** The price discovery *)

Lemma addPriceTick_history (symbol : string) (price : JS.number) (w : World) :
  let ticks :=
    Risk.getPriceHistory w symbol
    ++ [{| PriceTick.price := price;
           PriceTick.timestamp := clock w (clockTicks w) |}] in
  priceHistory (snd (PriceDiscovery.addPriceTick symbol price w))
  = <[symbol := if (PriceDiscovery.MAX_TICKS <? length ticks)%nat
                then tail ticks else ticks]> (priceHistory w).
Proof. reflexivity. Qed.

Lemma addPriceTick_window (symbol : string) (price : JS.number) (w : World) :
  let ticks :=
    Risk.getPriceHistory w symbol
    ++ [{| PriceTick.price := price;
           PriceTick.timestamp := clock w (clockTicks w) |}] in
  Risk.getPriceHistory (snd (PriceDiscovery.addPriceTick symbol price w)) symbol
  = if (PriceDiscovery.MAX_TICKS <? length ticks)%nat
    then tail ticks else ticks.
Proof.
  cbv zeta. unfold Risk.getPriceHistory at 1.
  rewrite addPriceTick_history. cbv zeta. now rewrite lookup_insert_eq.
Qed.

Lemma length_of_tail {A} (l : list A) : length (tail l) = pred (length l).
Proof. destruct l; reflexivity. Qed.

Lemma last_tail {A} (l : list A) :
  (2 <= length l)%nat -> last (tail l) = last l.
Proof.
  destruct l as [|x [|y l]]; cbn [length]; try lia. reflexivity.
Qed.

Lemma addPriceTick_bounded (symbol : string) (price : JS.number) (w : World) :
  boundedHistory w ->
  boundedHistory (snd (PriceDiscovery.addPriceTick symbol price w)).
Proof.
  unfold boundedHistory. intros Hw. rewrite addPriceTick_history. cbv zeta.
  apply map_Forall_insert_2; [|exact Hw].
  set (before := Risk.getPriceHistory w symbol).
  set (tick := {| PriceTick.price := price;
                  PriceTick.timestamp := clock w (clockTicks w) |}).
  assert (Hlen : length (before ++ [tick]) = S (length before))
    by (rewrite length_app; cbn; lia).
  unfold PriceDiscovery.MAX_TICKS.
  destruct (Nat.ltb_spec 100 (length (before ++ [tick]))) as [Hgt|Hle];
    cbv iota; [|exact Hle].
  rewrite length_of_tail.
  assert (length before <= 100)%nat; [|lia].
  unfold before, Risk.getPriceHistory.
  destruct (priceHistory w !! symbol) as [ticks|] eqn:E; cbn; [|lia].
  exact (Hw symbol ticks E).
Qed.

(** X23. The rolling window of prices.  [addPriceTick] appends the price,
    stamped with the reading of the clock, to the window of the symbol and
    drops the oldest tick when the window then holds more than 100: the new
    window is a suffix of the old one with the new tick at its end; a window
    of at most 100 ticks grows by one up to 100 and stays there (one of more
    than 100 keeps its length); the windows of the other symbols are not
    touched; so no window ever exceeds 100 ticks once none does. *)
Theorem addPriceTick_rolling_window (symbol : string) (price : JS.number)
    (w : World) :
  let w' := snd (PriceDiscovery.addPriceTick symbol price w) in
  let before := Risk.getPriceHistory w symbol in
  let after := Risk.getPriceHistory w' symbol in
  let tick := {| PriceTick.price := price;
                 PriceTick.timestamp := clock w (clockTicks w) |} in
  after `suffix_of` before ++ [tick]
  /\ last after = Some tick
  /\ ((length before <= 100)%nat ->
      length after = Nat.min (S (length before)) 100)
  /\ ((100 < length before)%nat -> length after = length before)
  /\ (forall other, other <> symbol ->
        Risk.getPriceHistory w' other = Risk.getPriceHistory w other)
  /\ (boundedHistory w -> boundedHistory w').
Proof.
  cbv zeta. rewrite addPriceTick_window. cbv zeta.
  set (before := Risk.getPriceHistory w symbol).
  set (tick := {| PriceTick.price := price;
                  PriceTick.timestamp := clock w (clockTicks w) |}).
  assert (Hlen : length (before ++ [tick]) = S (length before))
    by (rewrite length_app; cbn; lia).
  unfold PriceDiscovery.MAX_TICKS.
  split; [|split; [|split; [|split; [|split]]]].
  - destruct (_ <? _)%nat; [|reflexivity].
    destruct (before ++ [tick]) as [|x l]; [reflexivity|].
    cbn [tail]. apply suffix_cons_r. reflexivity.
  - destruct (Nat.ltb_spec 100 (length (before ++ [tick]))); cbv iota.
    + rewrite last_tail by lia. apply last_snoc.
    + apply last_snoc.
  - intros Hb. destruct (Nat.ltb_spec 100 (length (before ++ [tick])));
      cbv iota.
    + rewrite length_of_tail. lia.
    + lia.
  - intros Hb. destruct (Nat.ltb_spec 100 (length (before ++ [tick])));
      cbv iota.
    + rewrite length_of_tail. lia.
    + lia.
  - intros other Hne. unfold Risk.getPriceHistory.
    rewrite addPriceTick_history. cbv zeta.
    now rewrite lookup_insert_ne by congruence.
  - apply addPriceTick_bounded.
Qed.

Lemma addPriceTick_rolling_window_witness :
  let w := Sample.withHistory "BTCUSDT" (replicate 100 (int 50000))
             Sample.DEFAULT_STATE in
  boundedHistory (snd (PriceDiscovery.addPriceTick "BTCUSDT" (int 50100) w)).
Proof.
  intros w.
  apply (proj2 (proj2 (proj2 (proj2 (proj2
           (addPriceTick_rolling_window "BTCUSDT" (int 50100) w)))))).
  unfold boundedHistory, w, Sample.withHistory. cbn [priceHistory].
  apply map_Forall_insert_2; [|apply map_Forall_empty].
  rewrite length_fmap, length_replicate. reflexivity.
Defined.

(** *** From the feeds to the detector *)

Lemma discoverOne_spec (sqrt : JS.number -> JS.number) (symbol : string)
    (fetched : PriceDiscovery.Fetched) (w : World) :
  let run := PriceDiscovery.discoverOne sqrt symbol fetched w in
  reported (symbol, fetched) (fst run)
  /\ persistenceBuffer (snd run) = persistenceBuffer w
  /\ (boundedHistory w ->
      boundedHistory (snd run)
      /\ Detector.tickCount (fst (fst run)) <= 100).
Proof.
  cbv zeta. unfold PriceDiscovery.discoverOne.
  destruct (PriceDiscovery.binance fetched) as [price|] eqn:Hb.
  - unfold bind, get, dateNow, ret.
    pose proof (addPriceTick_bounded symbol price w) as Hbound.
    assert (Hbuf : persistenceBuffer
                     (snd (PriceDiscovery.addPriceTick symbol price w))
                   = persistenceBuffer w) by reflexivity.
    destruct (PriceDiscovery.addPriceTick symbol price w) as [[] w1].
    cbn [snd] in Hbound, Hbuf. cbn [fst snd].
    split; [unfold reported; cbn [fst snd]; rewrite ?Hb;
            repeat split; first [reflexivity|cbn; lia]|]. split; [exact Hbuf|].
    intros Hw. specialize (Hbound Hw). split; [exact Hbound|].
    cbn [Detector.tickCount]. unfold Risk.getPriceHistory.
    destruct (priceHistory w1 !! symbol) as [ticks|] eqn:E; cbn; [|lia].
    pose proof (Hbound symbol ticks E) as Hlen. cbn in Hlen.
    unfold PriceDiscovery.MAX_TICKS in Hlen. lia.
  - unfold bind, get, dateNow, ret. cbn [fst snd].
    split; [unfold reported; cbn [fst snd]; rewrite ?Hb;
            repeat split; first [reflexivity|cbn; lia]|]. split; [reflexivity|].
    intros Hw. split; [exact Hw|].
    cbn [Detector.tickCount]. unfold Risk.getPriceHistory.
    destruct (priceHistory w !! symbol) as [ticks|] eqn:E; cbn; [|lia].
    pose proof (Hw symbol ticks E) as Hlen. cbn in Hlen.
    unfold PriceDiscovery.MAX_TICKS in Hlen. lia.
Qed.

Lemma discoverPrices_loop (sqrt : JS.number -> JS.number)
    (fetches : list (string * PriceDiscovery.Fetched))
    (acc : list (Detector.DiscoveredPrice * PriceDiscovery.Spreads))
    (w : World) :
  let run :=
    forEach
      (fun results '(symbol, fetched) =>
         result <- PriceDiscovery.discoverOne sqrt symbol fetched ;;
         ret (results ++ [result]))
      fetches acc w in
  exists new,
    fst run = acc ++ new
    /\ Forall2 reported fetches new
    /\ persistenceBuffer (snd run) = persistenceBuffer w
    /\ (boundedHistory w ->
        boundedHistory (snd run)
        /\ Forall (fun result => Detector.tickCount (fst result) <= 100) new).
Proof.
  revert acc w. induction fetches as [|[symbol fetched] rest IH];
    intros acc w; cbv zeta.
  - exists []. cbn. rewrite app_nil_r. split; [reflexivity|].
    split; [constructor|]. split; [reflexivity|]. intros Hw.
    split; [exact Hw|constructor].
  - rewrite forEach_cons.
    destruct (discoverOne_spec sqrt symbol fetched w) as (Hrep & Hbuf & Hbound).
    cbv zeta in Hrep, Hbuf, Hbound.
    assert (Hstep :
      (result <- PriceDiscovery.discoverOne sqrt symbol fetched ;;
       ret (acc ++ [result])) w
      = (acc ++ [fst (PriceDiscovery.discoverOne sqrt symbol fetched w)],
         snd (PriceDiscovery.discoverOne sqrt symbol fetched w))).
    { unfold bind, ret.
      now destruct (PriceDiscovery.discoverOne sqrt symbol fetched w). }
    rewrite Hstep. cbn [fst snd].
    destruct (PriceDiscovery.discoverOne sqrt symbol fetched w) as [result w1].
    cbn [fst snd] in *.
    destruct (IH (acc ++ [result]) w1) as (new & Hrun & Hall & Hbuf' & Hbound').
    cbv zeta in Hrun, Hbuf', Hbound'. exists (result :: new).
    split; [rewrite Hrun, <- app_assoc; reflexivity|].
    split; [constructor; assumption|]. split; [congruence|].
    intros Hw. destruct (Hbound Hw) as [Hw1 Hticks].
    destruct (Hbound' Hw1) as [Hw2 Hrest]. split; [exact Hw2|].
    constructor; assumption.
Qed.

Lemma truthy_orZero (x : option JS.number) :
  JS.truthy (PriceDiscovery.orZero x) = true ->
  exists v, x = Some v /\ PriceDiscovery.orZero x = v /\ JS.truthy v = true.
Proof.
  destruct x as [v|]; cbn; [|discriminate].
  unfold JS.or_default. destruct (JS.truthy v) eqn:Hv; [eauto|discriminate].
Qed.

Lemma reported_qualifies (entry : string * PriceDiscovery.Fetched)
    (result : Detector.DiscoveredPrice * PriceDiscovery.Spreads) :
  reported entry result ->
  Detector.missingPrice (fst result) = false ->
  quotedAt (snd entry) (Detector.binancePrice (fst result))
    (Detector.indianPrice (fst result))
  /\ PriceDiscovery.binanceVsIndian (snd result)
     = Some (Detector.spreadPctOf (fst result)).
Proof.
  intros (_ & Hb & Hi & Hs & _) Hmiss. unfold Detector.missingPrice in Hmiss.
  apply orb_false_iff in Hmiss as [H1 H2].
  apply negb_false_iff in H1, H2. rewrite Hb in H1. rewrite Hi in H2.
  apply truthy_orZero in H1 as (b & Hfb & Hob & Htb).
  apply truthy_orZero in H2 as (i & Hfi & Hoi & Hti).
  rewrite Hs. unfold Detector.spreadPctOf. rewrite Hb, Hi, Hob, Hoi.
  split; [repeat split; assumption|].
  unfold PriceDiscovery.spreadBetween, PriceDiscovery.both.
  now rewrite Hfb, Hfi, Htb, Hti.
Qed.

(** X24. From the feeds to the detector.  [discoverPrices] reports one
    price record per symbol, in order, and leaves the buffer of the detector
    alone; it keeps every window of the price history within 100 ticks, so
    no tick count it reports exceeds 100.  A symbol for which Binance or the
    Indian exchange gave no price (or a zero) is reported with the
    placeholder 0 and never passes the guards of the detector; for the
    others the spread it records is the one the detector computes.  So
    every opportunity that [detectArbitrage] returns on these records
    carries two prices that the feeds actually gave. *)
Theorem discoverPrices_feeds_detector (sqrt : JS.number -> JS.number)
    (fetches : list (string * PriceDiscovery.Fetched))
    (opts : Detector.DetectArbitrageOptions) (w : World) :
  let found := PriceDiscovery.discoverPrices sqrt fetches w in
  let prices := fst <$> fst found in
  Detector.symbol <$> prices = fst <$> fetches
  /\ persistenceBuffer (snd found) = persistenceBuffer w
  /\ (boundedHistory w ->
      boundedHistory (snd found)
      /\ Forall (fun p => 0 <= Detector.tickCount p <= 100) prices)
  /\ Forall2
       (fun entry result =>
          (forall minSpread,
              ~ (exists b i, quotedAt (snd entry) b i) ->
              qualifies minSpread (fst result) = false)
          /\ (Detector.missingPrice (fst result) = false ->
              PriceDiscovery.binanceVsIndian (snd result)
              = Some (Detector.spreadPctOf (fst result))))
       fetches (fst found)
  /\ (forall o,
        o ∈ fst (Detector.detectArbitrage prices opts (snd found)) ->
        exists symbol fetched,
          (symbol, fetched) ∈ fetches
          /\ quotedAt fetched (Opportunity.binancePrice o)
               (Opportunity.indianPrice o)).
Proof.
  cbv zeta. unfold PriceDiscovery.discoverPrices.
  destruct (discoverPrices_loop sqrt fetches [] w)
    as (new & Hrun & Hall & Hbuf & Hbound).
  cbv zeta in Hrun, Hbuf, Hbound. rewrite Hrun. cbn [app].
  split; [|split; [exact Hbuf|split; [|split]]].
  - clear -Hall. induction Hall as [|entry result fetches new Hr _ IH];
      [reflexivity|]. cbn [fmap list_fmap]. f_equal; [|exact IH].
    apply Hr.
  - intros Hw. destruct (Hbound Hw) as [Hw' Hticks]. split; [exact Hw'|].
    apply Forall_fmap. clear -Hall Hticks.
    induction Hall as [|entry result fetches new Hr _ IH]; [constructor|].
    apply Forall_cons in Hticks as [Ht Hticks].
    constructor; [|now apply IH]. cbn. split; [apply Hr|exact Ht].
  - eapply Forall2_impl; [exact Hall|]. intros entry result Hr. split.
    + intros minSpread Hnone. unfold qualifies.
      destruct (Detector.missingPrice (fst result)) eqn:Hmiss; [reflexivity|].
      exfalso. apply Hnone.
      destruct (reported_qualifies entry result Hr Hmiss) as [Hq _]. eauto.
    + intros Hmiss. now apply (reported_qualifies entry result Hr Hmiss).
  - intros o Ho.
    match type of Ho with
    | _ ∈ fst (Detector.detectArbitrage _ _ ?w') =>
        destruct (detectArbitrage_returns_snapshots_aux (fst <$> new) opts w')
          as (inputs & emitted & Hout & Hsub & Hsnap)
    end.
    rewrite Hout in Ho. apply elem_of_js_sort in Ho.
    apply list_elem_of_lookup in Ho as [k Hk].
    destruct (Forall2_lookup_r _ _ _ _ _ Hsnap Hk) as (p & Hp & Hps).
    assert (Hin : p ∈ List.filter (qualifies (Detector.minSpreadPctOf opts))
                        (fst <$> new)).
    { eapply elem_of_sublist; [|exact Hsub]. eapply list_elem_of_lookup_2.
      exact Hp. }
    apply list_elem_of_In, List.filter_In in Hin as [Hin Hq].
    apply list_elem_of_In, list_elem_of_fmap in Hin as (result & -> & Hin).
    apply list_elem_of_lookup in Hin as [j Hj].
    destruct (Forall2_lookup_r _ _ _ _ _ Hall Hj) as ([symbol fetched] & Hf & Hr).
    exists symbol, fetched. split; [eapply list_elem_of_lookup_2; exact Hf|].
    assert (Hmiss : Detector.missingPrice (fst result) = false).
    { unfold qualifies in Hq. apply andb_true_iff in Hq as [Hq _].
      now apply negb_true_iff in Hq. }
    destruct (reported_qualifies _ _ Hr Hmiss) as [Hquoted _].
    destruct Hps as (_ & -> & -> & _). exact Hquoted.
Qed.

Lemma discoverPrices_feeds_detector_witness :
  let found :=
    PriceDiscovery.discoverPrices Risk.sqrt6
      [("BTCUSDT", quoted (int 50000) (int 50750));
       ("ETHUSDT", {| PriceDiscovery.binance := None;
                      PriceDiscovery.indian := Some (int 3006);
                      PriceDiscovery.nse := None |})]
      Sample.DEFAULT_STATE in
  boundedHistory (snd found)
  /\ (Detector.tickCount <$> (fst <$> fst found)) = [1; 0].
Proof.
  intros found. split; [|reflexivity].
  apply (proj1 (proj2 (proj2 (discoverPrices_feeds_detector Risk.sqrt6
                  [("BTCUSDT", quoted (int 50000) (int 50750));
                   ("ETHUSDT", {| PriceDiscovery.binance := None;
                                  PriceDiscovery.indian := Some (int 3006);
                                  PriceDiscovery.nse := None |})]
                  Detector.noOptions Sample.DEFAULT_STATE)))).
  apply map_Forall_empty.
Defined.

(** ** The mock of the Indian exchange *)

Lemma levelsFrom_S (priceAt : nat -> JS.number) (i count : nat) (w : World) :
  IndianFeed.levelsFrom priceAt i (S count) w
  = ((priceAt i, (dec 1 10 + random w (randomTicks w) * int 5)%js)
       :: fst (IndianFeed.levelsFrom priceAt (S i) count
                 (set_randomTicks (S (randomTicks w)) w)),
     snd (IndianFeed.levelsFrom priceAt (S i) count
            (set_randomTicks (S (randomTicks w)) w))).
Proof.
  cbn [IndianFeed.levelsFrom]. unfold bind, mathRandom, ret.
  now destruct (IndianFeed.levelsFrom priceAt (S i) count _).
Qed.

Lemma levelsFrom_frame (priceAt : nat -> JS.number) (i count : nat)
    (w : World) :
  let w' := snd (IndianFeed.levelsFrom priceAt i count w) in
  random w' = random w /\ clock w' = clock w
  /\ clockTicks w' = clockTicks w /\ portfolio w' = portfolio w
  /\ auditLog w' = auditLog w /\ executionLog w' = executionLog w.
Proof.
  revert i w. induction count as [|count IH]; intros i w; cbv zeta;
    [repeat split|].
  rewrite levelsFrom_S. cbn [snd].
  exact (IH (S i) (set_randomTicks (S (randomTicks w)) w)).
Qed.

Lemma unitRandom_frame (w w' : World) :
  random w' = random w -> unitRandom w -> unitRandom w'.
Proof. unfold unitRandom. now intros ->. Qed.

(** a side of the book: as many levels as asked for, priced by [priceAt]
    in order, each with a quantity of at least 0.1 and less than 5.1 *)
Lemma levelsFrom_spec (priceAt : nat -> JS.number) (i count : nat)
    (w : World) :
  unitRandom w ->
  let levels := fst (IndianFeed.levelsFrom priceAt i count w) in
  fst <$> levels = priceAt <$> seq i count
  /\ Forall mockQuantity levels.
Proof.
  revert i w. induction count as [|count IH]; intros i w Hw; cbv zeta.
  - split; [reflexivity|constructor].
  - rewrite levelsFrom_S. cbn [fst seq].
    assert (Hw1 : unitRandom (set_randomTicks (S (randomTicks w)) w))
      by (apply (unitRandom_frame w); [reflexivity|exact Hw]).
    specialize (IH (S i) _ Hw1). cbv zeta in IH.
    destruct IH as (Hprices & Hqty).
    split; [cbn [fmap list_fmap fst]; now rewrite Hprices|].
    constructor; [|exact Hqty]. unfold mockQuantity. cbn [snd].
    destruct (Hw (randomTicks w)) as (q & -> & Hq). js_unfold.
    cbn [JS.mul JS.add]. eexists. split; [reflexivity|]. split; lra.
Qed.

(** the quantities of the mock make a well-formed side *)
Lemma mockQuantity_wellFormed (levels : list (JS.number * JS.number)) :
  Forall mockQuantity levels -> wellFormedAsks levels = true.
Proof.
  induction 1 as [|[p x] levels (q & Hq & Hrange) _ IH]; [reflexivity|].
  cbn [snd] in Hq. subst x. unfold wellFormedAsks in *. cbn [forallb snd].
  rewrite IH. js_unfold. cbn [JS.is_finite JS.le].
  destruct (Qle_bool_spec (0 # 1) q); [reflexivity|lra].
Qed.

Lemma getIndianOrderBook_unfold (m : JS.number) (depth : option nat)
    (w : World) :
  let n := default 10%nat depth in
  let spreadPercent := (dec 1 1000 + random w (randomTicks w) * dec 4 1000)%js in
  let priceOffset (i : nat) :=
    (spreadPercent * (JS.of_Z (Z.of_nat i) + int 1))%js in
  let w1 := set_randomTicks (S (randomTicks w)) w in
  let bids :=
    IndianFeed.levelsFrom (fun i => (m * (int 1 - priceOffset i))%js) 0 n w1 in
  let asks :=
    IndianFeed.levelsFrom (fun i => (m * (int 1 + priceOffset i))%js) 0 n
      (snd bids) in
  IndianFeed.getIndianOrderBook (Returned m) depth w
  = (Returned {| IndianMock.bids := fst bids; IndianMock.asks := fst asks |},
     snd asks).
Proof.
  cbv zeta. unfold IndianFeed.getIndianOrderBook, bind, mathRandom, ret.
  destruct (IndianFeed.levelsFrom _ 0 _ (set_randomTicks _ w)) as [bids w2].
  cbn [fst snd].
  destruct (IndianFeed.levelsFrom _ 0 _ w2) as [asks w3]. reflexivity.
Qed.

Lemma levels_prices (P : JS.number -> Prop) (priceAt : nat -> JS.number)
    (i count : nat) (levels : list (JS.number * JS.number)) :
  fst <$> levels = priceAt <$> seq i count ->
  (forall j, (i <= j < i + count)%nat -> P (priceAt j)) ->
  Forall (fun level => P (fst level)) levels.
Proof.
  intros Heq HP. apply (Forall_fmap fst P). rewrite Heq. apply Forall_fmap.
  apply Forall_forall. intros j Hj. apply elem_of_seq in Hj. cbn.
  apply HP. lia.
Qed.

(** levels priced in order are sorted when the prices are *)
Lemma levels_sorted (R : JS.number -> JS.number -> Prop)
    (priceAt : nat -> JS.number) (i count : nat)
    (levels : list (JS.number * JS.number)) :
  fst <$> levels = priceAt <$> seq i count ->
  (forall j k, (i <= j < k)%nat -> (k < i + count)%nat ->
     R (priceAt j) (priceAt k)) ->
  StronglySorted (fun a b => R (fst a) (fst b)) levels.
Proof.
  revert i levels. induction count as [|count IH]; intros i levels Heq Hup.
  - destruct levels; [constructor|discriminate Heq].
  - destruct levels as [|level levels]; [discriminate Heq|].
    cbn [seq fmap list_fmap] in Heq. injection Heq as Hhead Htail.
    constructor.
    + apply (IH (S i)); [exact Htail|]. intros j k Hj Hk. apply Hup; lia.
    + rewrite Hhead.
      apply (levels_prices (fun p => R (priceAt i) p) priceAt (S i)
               count levels Htail).
      intros j Hj. apply Hup; lia.
Qed.

(** an order that the best ask of a book covers: the run fills it whole *)
Lemma execute_best_ask_covers (opportunity : Opportunity.t)
    (allocatedUSDT : JS.number) (orderbook : IndianMock.OrderBook) (w : World)
    (p : JS.number) (q b : Q) (rest : list (JS.number * JS.number)) :
  IndianMock.asks orderbook = (p, JS.Num q) :: rest ->
  (allocatedUSDT / Opportunity.binancePrice opportunity)%js = JS.Num b ->
  (0 < b <= q)%Q ->
  let run :=
    Execution.executeArbitrageWithPartialFills opportunity allocatedUSDT
      (Returned orderbook) w in
  (exists f : Q, Execution.filledQty (fst run) = JS.Num f /\ (f == b)%Q)
  /\ Execution.partialFill (fst run) = false
  /\ Execution.rollbackEvents (Execution.appended w (snd run)) = [].
Proof.
  intros Hbook Hb Hcover run. subst run.
  destruct (execute_result_sell opportunity allocatedUSDT orderbook w)
    as (_ & Ef & _ & Ep).
  pose proof (execute_rollback_count opportunity allocatedUSDT orderbook w)
    as Hroll.
  cbv zeta in Ef, Ep, Hroll.
  unfold Execution.fillRatioOf, Execution.filledOf in Hroll.
  rewrite Hb in Ef, Ep, Hroll.
  destruct (sellAcross_best_ask_covers p q b rest Hcover)
    as (r0 & f0 & E0 & Hr0 & Hf0).
  rewrite Hbook, E0 in Ef, Ep, Hroll. cbn [snd] in Ef, Ep, Hroll.
  assert (Hratio : (f0 / b == 1)%Q) by (rewrite Hf0; field; lra).
  split; [exists f0; split; [exact Ef|exact Hf0]|]. split.
  - rewrite Ep. js_unfold. cbn [JS.lt JS.div].
    destruct (Qis_zero_spec b); [lra|]. cbn [JS.lt].
    destruct (Qlt_bool_spec (f0 / b) (1 # 1)); [lra|reflexivity].
  - apply Hroll. js_unfold. cbn [JS.lt JS.div].
    destruct (Qis_zero_spec b); [lra|]. cbn [JS.lt].
    destruct (Qlt_bool_spec (f0 / b) (9 # 10)); [lra|reflexivity].
Qed.

(** X25. The order book of the mock.  When the price cannot be fetched,
    [getIndianOrderBook] fails with the same error and changes nothing.  For
    a positive mid price and random draws in [0, 1), it returns a book of
    [depth] bids and [depth] asks (10 by default): no ask is priced below
    the mid price and no bid above it, the asks are listed from the lowest
    price and the bids from the highest, and every quantity is at least 0.1
    and less than 5.1, so that the ask side is well formed.  An order of at
    most 0.1, executed against a book of one level or more, is therefore
    covered by the best ask: it is filled in full, with no partial fill and
    no rollback. *)
Theorem getIndianOrderBook_absorbs_small_orders (m : Q) (depth : option nat)
    (w : World) :
  unitRandom w -> (0 < m)%Q ->
  let n := default 10%nat depth in
  let made := IndianFeed.getIndianOrderBook (Returned (JS.Num m)) depth w in
  (forall message,
      IndianFeed.getIndianOrderBook (Threw message) depth w
      = (Threw message, w))
  /\ exists book,
       fst made = Returned book
       /\ length (IndianMock.asks book) = n
       /\ length (IndianMock.bids book) = n
       /\ Forall (fun level => (JS.Num m <=? fst level)%js = true)
            (IndianMock.asks book)
       /\ Forall (fun level => (fst level <=? JS.Num m)%js = true)
            (IndianMock.bids book)
       /\ StronglySorted upward (IndianMock.asks book)
       /\ StronglySorted downward (IndianMock.bids book)
       /\ Forall mockQuantity (IndianMock.bids book ++ IndianMock.asks book)
       /\ wellFormedAsks (IndianMock.asks book) = true
       /\ (forall opportunity allocatedUSDT (b : Q),
             (0 < n)%nat ->
             (allocatedUSDT / Opportunity.binancePrice opportunity)%js
             = JS.Num b ->
             (0 < b <= 1 # 10)%Q ->
             let run :=
               Execution.executeArbitrageWithPartialFills opportunity
                 allocatedUSDT (fst made) (snd made) in
             Execution.success (fst run) = true
             /\ (exists f : Q,
                   Execution.filledQty (fst run) = JS.Num f /\ (f == b)%Q)
             /\ Execution.partialFill (fst run) = false
             /\ Execution.rollbackEvents
                  (Execution.appended (snd made) (snd run)) = []).
Proof.
  intros Hw Hm. cbv zeta. split; [reflexivity|].
  rewrite getIndianOrderBook_unfold. cbv zeta.
  set (n := default 10%nat depth).
  destruct (Hw (randomTicks w)) as (r & Hr & Hr01). rewrite Hr.
  set (w1 := set_randomTicks (S (randomTicks w)) w).
  assert (Hw1 : unitRandom w1) by (apply (unitRandom_frame w); easy).
  set (s := ((1 # 1000) + r * (4 # 1000))%Q).
  assert (Hs : (1 # 1000 <= s < 5 # 1000)%Q) by (unfold s; lra).
  assert (Hidx : forall j : nat,
            (0 <= inject_Z (Z.of_nat j))%Q
            /\ forall k : nat, (j < k)%nat ->
                 (inject_Z (Z.of_nat j) + 1 <= inject_Z (Z.of_nat k))%Q).
  { intros j. split.
    - change 0%Q with (inject_Z 0). rewrite <- Zle_Qle. lia.
    - intros k Hk. change 1%Q with (inject_Z 1).
      rewrite <- inject_Z_plus, <- Zle_Qle. lia. }
  assert (Hbid : forall j : nat,
    (JS.Num m
     * (int 1 - (dec 1 1000 + JS.Num r * dec 4 1000)
                * (JS.of_Z (Z.of_nat j) + int 1)))%js
    = JS.Num (m * (1 + - (s * (inject_Z (Z.of_nat j) + 1))))) by reflexivity.
  assert (Hask : forall j : nat,
    (JS.Num m
     * (int 1 + (dec 1 1000 + JS.Num r * dec 4 1000)
                * (JS.of_Z (Z.of_nat j) + int 1)))%js
    = JS.Num (m * (1 + s * (inject_Z (Z.of_nat j) + 1)))) by reflexivity.
  match goal with
  | |- context [IndianFeed.levelsFrom ?bidAt 0 n w1] =>
      destruct (levelsFrom_spec bidAt 0 n w1 Hw1) as (Hbids & Hbidq);
      pose proof (levelsFrom_frame bidAt 0 n w1) as Hframe;
      set (bids := IndianFeed.levelsFrom bidAt 0 n w1) in *
  end.
  cbv zeta in Hbids, Hbidq, Hframe. destruct Hframe as (Hrandom & _).
  assert (Hw2 : unitRandom (snd bids))
    by (apply (unitRandom_frame w1); assumption).
  match goal with
  | |- context [IndianFeed.levelsFrom ?askAt 0 n (snd bids)] =>
      destruct (levelsFrom_spec askAt 0 n (snd bids) Hw2)
        as (Hasks & Haskq);
      set (asks := IndianFeed.levelsFrom askAt 0 n (snd bids)) in *
  end.
  cbv zeta in Hasks, Haskq. cbn [fst snd].
  eexists. split; [reflexivity|]. cbn [IndianMock.asks IndianMock.bids].
  assert (Hlen : forall (levels : list (JS.number * JS.number)) priceAt,
            fst <$> levels = priceAt <$> seq 0 n -> length levels = n).
  { intros levels priceAt H. apply (f_equal length) in H.
    now rewrite !length_fmap, length_seq in H. }
  assert (Hwf : wellFormedAsks (fst asks) = true)
    by (apply mockQuantity_wellFormed; exact Haskq).
  split; [now apply (Hlen _ _ Hasks)|]. split; [now apply (Hlen _ _ Hbids)|].
  split.
  { apply (levels_prices (fun p => (JS.Num m <=? p)%js = true) _ 0 n _ Hasks).
    intros j Hj. rewrite Hask. cbn [JS.le]. destruct (Hidx j) as [Hj0 _].
    apply Qle_bool_iff.
    assert (Ht : (0 <= s * (inject_Z (Z.of_nat j) + 1))%Q) by nra.
    revert Ht. generalize (s * (inject_Z (Z.of_nat j) + 1))%Q.
    intros t Ht. nra. }
  split.
  { apply (levels_prices (fun p => (p <=? JS.Num m)%js = true) _ 0 n _ Hbids).
    intros j Hj. rewrite Hbid. cbn [JS.le]. destruct (Hidx j) as [Hj0 _].
    apply Qle_bool_iff.
    assert (Ht : (0 <= s * (inject_Z (Z.of_nat j) + 1))%Q) by nra.
    revert Ht. generalize (s * (inject_Z (Z.of_nat j) + 1))%Q.
    intros t Ht. nra. }
  split.
  { apply (levels_sorted (fun a b => (a <=? b)%js = true) _ 0 n _ Hasks).
    intros j k Hj Hk. rewrite !Hask. cbn [JS.le].
    destruct (Hidx j) as [Hj0 Hjk]. specialize (Hjk k ltac:(lia)).
    apply Qle_bool_iff.
    assert (Ht : (s * (inject_Z (Z.of_nat j) + 1)
                  <= s * (inject_Z (Z.of_nat k) + 1))%Q) by nra.
    revert Ht. generalize (s * (inject_Z (Z.of_nat j) + 1))%Q.
    generalize (s * (inject_Z (Z.of_nat k) + 1))%Q. intros tk tj Ht. nra. }
  split.
  { apply (levels_sorted (fun a b => (b <=? a)%js = true) _ 0 n _ Hbids).
    intros j k Hj Hk. rewrite !Hbid. cbn [JS.le].
    destruct (Hidx j) as [Hj0 Hjk]. specialize (Hjk k ltac:(lia)).
    apply Qle_bool_iff.
    assert (Ht : (s * (inject_Z (Z.of_nat j) + 1)
                  <= s * (inject_Z (Z.of_nat k) + 1))%Q) by nra.
    revert Ht. generalize (s * (inject_Z (Z.of_nat j) + 1))%Q.
    generalize (s * (inject_Z (Z.of_nat k) + 1))%Q. intros tk tj Ht. nra. }
  split; [apply Forall_app; split; assumption|].
  split; [exact Hwf|].
  intros opportunity allocatedUSDT b Hn Hb Hrange. cbv zeta.
  destruct (execute_result_fill opportunity allocatedUSDT
              {| IndianMock.bids := fst bids; IndianMock.asks := fst asks |}
              (snd asks)) as (Hsuccess & _).
  split; [exact Hsuccess|].
  destruct (fst asks) as [|[p x] rest] eqn:Easks.
  { exfalso. apply (f_equal length) in Hasks.
    rewrite !length_fmap, length_seq in Hasks. cbn in Hasks. lia. }
  apply Forall_cons in Haskq as [(q & Hq & Hqr) _]. cbn [snd] in Hq. subst x.
  apply (execute_best_ask_covers opportunity allocatedUSDT
           {| IndianMock.bids := fst bids;
              IndianMock.asks := (p, JS.Num q) :: rest |}
           (snd asks) p q b rest eq_refl Hb).
  lra.
Qed.

Lemma getIndianOrderBook_absorbs_small_orders_witness :
  let made :=
    IndianFeed.getIndianOrderBook (Returned (JS.Num 50750)) (Some 20%nat)
      Sample.DEFAULT_STATE in
  exists book,
    fst made = Returned book
    /\ length (IndianMock.asks book) = 20%nat
    /\ StronglySorted upward (IndianMock.asks book).
Proof.
  intros made.
  destruct (getIndianOrderBook_absorbs_small_orders 50750 (Some 20%nat)
              Sample.DEFAULT_STATE)
    as (_ & book & Hbook & Hlen & _ & _ & _ & Hsorted & _).
  - intros n. exists (5 # 10). split; [reflexivity|]. split; lra.
  - lra.
  - exists book. split; [exact Hbook|]. split; [exact Hlen|exact Hsorted].
Defined.

(** ** The autonomous runner *)

(** one opportunity, step by step *)
Lemma processOpportunity_unfold (sqrt : JS.number -> JS.number)
    (answers : RunnerLoop.Answers) (opp : Opportunity.t)
    (p : RunnerLoop.Process) :
  let w := RunnerLoop.world p in
  let risk := RunnerLoop.riskFor sqrt w answers opp in
  let allocation := RunnerLoop.allocationFor sqrt w answers opp in
  let debate := RunnerLoop.debateFor sqrt w answers opp in
  let check :=
    Runner.guardianCheck opp risk allocation (Some (guardianSettings w)) w in
  let logged :=
    addAuditLog execution "autonomous_execution_initiated" (Some "runner")
      [("opportunity", VText (Opportunity.id opp));
       ("symbol", VStr (Opportunity.symbol opp));
       ("riskScore", VNum (Risk.riskScore risk));
       ("allocation", VNum (Allocation.allocatedUSDT allocation));
       ("debateScore", VNum (Debate.finalDecisionScore debate))]
      (snd check) in
  let run :=
    Execution.executeArbitrageWithPartialFills opp
      (Allocation.allocatedUSDT allocation) (RunnerLoop.executionBook answers)
      (snd logged) in
  snd (RunnerLoop.processOpportunity sqrt answers opp p)
  = if Runner.pass (fst check)
       && bool_decide (Debate.decision debate = Debate.execute)
    then
      {| RunnerLoop.world := snd run;
         RunnerLoop.runner :=
           if Execution.success (fst run)
           then RunnerLoop.succeeded
                  (RunnerLoop.attempted
                     (RunnerLoop.processed (RunnerLoop.runner p)))
           else RunnerLoop.attempted
                  (RunnerLoop.processed (RunnerLoop.runner p));
         RunnerLoop.runnerInterval := RunnerLoop.runnerInterval p |}
    else
      {| RunnerLoop.world := snd check;
         RunnerLoop.runner := RunnerLoop.processed (RunnerLoop.runner p);
         RunnerLoop.runnerInterval := RunnerLoop.runnerInterval p |}.
Proof.
  cbv zeta.
  unfold RunnerLoop.processOpportunity, RunnerLoop.pbind, RunnerLoop.lift,
    RunnerLoop.getRunner, RunnerLoop.setRunner, RunnerLoop.pret, get.
  cbn [RunnerLoop.world RunnerLoop.runner RunnerLoop.runnerInterval fst snd].
  destruct (Runner.guardianCheck _ _ _ _ (RunnerLoop.world p)) as [guardian w1].
  cbn [fst snd RunnerLoop.world RunnerLoop.runner RunnerLoop.runnerInterval].
  destruct (Runner.pass guardian && _); [|reflexivity].
  cbn [RunnerLoop.world RunnerLoop.runner RunnerLoop.runnerInterval fst snd].
  destruct (addAuditLog _ _ _ _ w1) as [entry w2].
  cbn [fst snd RunnerLoop.world RunnerLoop.runner RunnerLoop.runnerInterval].
  destruct (Execution.executeArbitrageWithPartialFills _ _ _ w2)
    as [result w3].
  cbn [fst snd RunnerLoop.world RunnerLoop.runner RunnerLoop.runnerInterval].
  destruct (Execution.success result); reflexivity.
Qed.

(** what one opportunity does to the counters *)
Lemma processOpportunity_counters (sqrt : JS.number -> JS.number)
    (answers : RunnerLoop.Answers) (opp : Opportunity.t)
    (p : RunnerLoop.Process) :
  let r := RunnerLoop.runner p in
  let r' :=
    RunnerLoop.runner (snd (RunnerLoop.processOpportunity sqrt answers opp p)) in
  RunnerLoop.opportunitiesProcessed r'
  = RunnerLoop.opportunitiesProcessed r + 1
  /\ RunnerLoop.pollCount r' = RunnerLoop.pollCount r
  /\ RunnerLoop.isRunning r' = RunnerLoop.isRunning r
  /\ RunnerLoop.startTime r' = RunnerLoop.startTime r
  /\ RunnerLoop.lastPollTime r' = RunnerLoop.lastPollTime r
  /\ RunnerLoop.currentSymbols r' = RunnerLoop.currentSymbols r
  /\ 0 <= RunnerLoop.executionsSuccessful r'
          - RunnerLoop.executionsSuccessful r
       <= RunnerLoop.executionsAttempted r' - RunnerLoop.executionsAttempted r
  /\ RunnerLoop.executionsAttempted r' - RunnerLoop.executionsAttempted r <= 1
  /\ RunnerLoop.runnerInterval
       (snd (RunnerLoop.processOpportunity sqrt answers opp p))
     = RunnerLoop.runnerInterval p.
Proof.
  cbv zeta. rewrite processOpportunity_unfold. cbv zeta.
  destruct (Runner.pass _ && _).
  - destruct (Execution.success _); cbn; repeat split; lia.
  - cbn. repeat split; lia.
Qed.

Lemma processAll_cons (sqrt : JS.number -> JS.number)
    (answers : nat -> RunnerLoop.Answers) (i : nat) (opp : Opportunity.t)
    (rest : list Opportunity.t) (p : RunnerLoop.Process) :
  snd (RunnerLoop.processAll sqrt answers i (opp :: rest) p)
  = snd (RunnerLoop.processAll sqrt answers (S i) rest
           (snd (RunnerLoop.processOpportunity sqrt (answers i) opp p))).
Proof.
  cbn [RunnerLoop.processAll]. unfold RunnerLoop.pbind.
  now destruct (RunnerLoop.processOpportunity sqrt (answers i) opp p).
Qed.

Lemma processAll_counters (sqrt : JS.number -> JS.number)
    (answers : nat -> RunnerLoop.Answers) (i : nat)
    (opportunities : list Opportunity.t) (p : RunnerLoop.Process) :
  let r := RunnerLoop.runner p in
  let r' :=
    RunnerLoop.runner
      (snd (RunnerLoop.processAll sqrt answers i opportunities p)) in
  RunnerLoop.opportunitiesProcessed r'
  = RunnerLoop.opportunitiesProcessed r + Z.of_nat (length opportunities)
  /\ RunnerLoop.pollCount r' = RunnerLoop.pollCount r
  /\ RunnerLoop.isRunning r' = RunnerLoop.isRunning r
  /\ RunnerLoop.startTime r' = RunnerLoop.startTime r
  /\ RunnerLoop.lastPollTime r' = RunnerLoop.lastPollTime r
  /\ RunnerLoop.currentSymbols r' = RunnerLoop.currentSymbols r
  /\ 0 <= RunnerLoop.executionsSuccessful r'
          - RunnerLoop.executionsSuccessful r
       <= RunnerLoop.executionsAttempted r' - RunnerLoop.executionsAttempted r
  /\ RunnerLoop.executionsAttempted r' - RunnerLoop.executionsAttempted r
     <= Z.of_nat (length opportunities)
  /\ RunnerLoop.runnerInterval
       (snd (RunnerLoop.processAll sqrt answers i opportunities p))
     = RunnerLoop.runnerInterval p.
Proof.
  revert i p. induction opportunities as [|opp rest IH]; intros i p; cbv zeta.
  - cbn. repeat split; lia.
  - rewrite processAll_cons.
    destruct (processOpportunity_counters sqrt (answers i) opp p)
      as (H1 & H2 & H3 & H4 & H5 & H6 & H7 & H8 & H9).
    destruct (IH (S i) (snd (RunnerLoop.processOpportunity sqrt (answers i)
                               opp p)))
      as (J1 & J2 & J3 & J4 & J5 & J6 & J7 & J8 & J9).
    cbv zeta in *. cbn [length]. rewrite Nat2Z.inj_succ.
    repeat split; try congruence; lia.
Qed.

(** a check of the Guardian reads the clock at most once and changes nothing
    else *)
Lemma guardianCheck_state (opportunity : Opportunity.t)
    (risk : Risk.RiskAssessmentResult)
    (allocation : Allocation.AllocationResult)
    (guardianConfig : option GuardianConfig.t) (w : World) :
  let w' :=
    snd (Runner.guardianCheck opportunity risk allocation guardianConfig w) in
  w' = w \/ w' = set_clockTicks (S (clockTicks w)) w.
Proof.
  cbv zeta. unfold Runner.guardianCheck, bind, getPortfolio, get, getAuditLog,
    dateNow, ret. cbn [fst snd].
  destruct (_ / _ >? _)%js; cbn [snd]; [now left|].
  destruct (JS.of_Z _ >=? _)%js; cbn [snd]; [now right|].
  destruct (GuardianConfig.highVolatility _ && _); cbn [snd]; [now right|].
  destruct (Risk.riskScore risk >? int 75)%js; now right.
Qed.

(** a risk the Guardian lets through is given 5, 10 or 15 per cent of the
    balance, up to the cap *)
Lemma allocation_of_accepted_risk (opportunity : Opportunity.t)
    (risk : Risk.RiskAssessmentResult) (portfolio : Allocation.Portfolio) :
  tooRisky risk = false ->
  let allocation :=
    Allocation.allocateCapitalForOpportunity opportunity risk portfolio in
  (Allocation.allocationPct allocation = dec 5 100
   \/ Allocation.allocationPct allocation = dec 10 100
   \/ Allocation.allocationPct allocation = dec 15 100)
  /\ Allocation.allocatedUSDT allocation
     = JS.min (Allocation.usdtBalance portfolio
               * Allocation.allocationPct allocation)%js
         (Allocation.maxTradeAmount portfolio).
Proof.
  cbv zeta.
  unfold tooRisky, Allocation.allocateCapitalForOpportunity. intros Hrisk.
  assert (H80 : (Risk.riskScore risk >? int 80)%js = false).
  { destruct (Risk.riskScore risk); js_unfold; cbn in *;
      try reflexivity; try discriminate.
    destruct (Qlt_bool_spec 75 q); [discriminate|].
    destruct (Qlt_bool_spec 80 q); [lra|reflexivity]. }
  rewrite H80.
  destruct (Risk.riskScore risk >=? int 60)%js;
    [|destruct (Risk.riskScore risk >=? int 30)%js];
    cbn [Allocation.allocationPct Allocation.allocatedUSDT];
    (split; [|reflexivity]); [now left|right; now left|right; now right].
Qed.

(** the decision of the debate is the comparison of its final score with the
    threshold, whoever provided the perspectives *)
Lemma debate_decision_rule (provider : Debate.Provider)
    (opportunity : Opportunity.t) (risk : Risk.RiskAssessmentResult)
    (allocation : Allocation.AllocationResult) (threshold : option JS.number) :
  let res :=
    Debate.debateWithMedianConsensus provider opportunity risk allocation
      threshold in
  Debate.decision res
  = Debate.decide_ (Debate.finalDecisionScore res)
      (default (dec 6 10) threshold).
Proof.
  cbv zeta. unfold Debate.debateWithMedianConsensus.
  destruct provider as [| |raw [parsed|]]; try reflexivity.
  destruct (Debate.parsed_bullish parsed) as [b|],
    (Debate.parsed_bearish parsed) as [e|],
    (Debate.parsed_neutral parsed) as [n|]; try reflexivity.
  destruct (Debate.perspectiveOf 3 b); [reflexivity|].
  destruct (Debate.perspectiveOf 3 e); [reflexivity|].
  destruct (Debate.perspectiveOf 2 n); reflexivity.
Qed.

(** X26. One opportunity in the loop of the runner.  The runner counts the
    opportunity, and starts an execution exactly when the Guardian passes
    and the debate decides to execute.  An execution that is started was
    therefore for a risk score that the comparison [riskScore > 75] does
    not reject and a final debate score for which [score >= 0.6] holds, on a
    day whose limit was not reached; its amount is the smaller of 5000 and
    [cash * allocationPct], where the percentage is 0.05, 0.10 or 0.15, and
    for a finite cash that is not negative the amount lies between 0 and
    5000 and does not exceed the cash.  An opportunity that is not
    executed leaves the portfolio, the execution log, the audit log and the
    Guardian settings as they were. *)
Theorem processOpportunity_executes_only_approved
    (sqrt : JS.number -> JS.number) (answers : RunnerLoop.Answers)
    (opp : Opportunity.t) (p : RunnerLoop.Process) :
  let w := RunnerLoop.world p in
  let risk := RunnerLoop.riskFor sqrt w answers opp in
  let allocation := RunnerLoop.allocationFor sqrt w answers opp in
  let debate := RunnerLoop.debateFor sqrt w answers opp in
  let settings := Some (guardianSettings w) in
  let guardian := fst (Runner.guardianCheck opp risk allocation settings w) in
  let p' := snd (RunnerLoop.processOpportunity sqrt answers opp p) in
  let attempts :=
    RunnerLoop.executionsAttempted (RunnerLoop.runner p')
    - RunnerLoop.executionsAttempted (RunnerLoop.runner p) in
  RunnerLoop.opportunitiesProcessed (RunnerLoop.runner p')
  = RunnerLoop.opportunitiesProcessed (RunnerLoop.runner p) + 1
  /\ (attempts = 0 \/ attempts = 1)
  /\ (attempts = 1 <->
      Runner.pass guardian = true /\ Debate.decision debate = Debate.execute)
  /\ (attempts = 1 ->
      tooRisky risk = false
      /\ tradeTooLarge allocation settings w = false
      /\ dailyLimitReached settings w = false
      /\ (Debate.finalDecisionScore debate >=? dec 6 10)%js = true
      /\ (Allocation.allocationPct allocation = dec 5 100
          \/ Allocation.allocationPct allocation = dec 10 100
          \/ Allocation.allocationPct allocation = dec 15 100)
      /\ Allocation.allocatedUSDT allocation
         = JS.min (Portfolio.cash (portfolio w)
                   * Allocation.allocationPct allocation)%js (int 5000)
      /\ (forall cash : Q,
             Portfolio.cash (portfolio w) = JS.Num cash -> (0 <= cash)%Q ->
             exists amount : Q,
               Allocation.allocatedUSDT allocation = JS.Num amount
               /\ (0 <= amount <= 5000)%Q
               /\ (amount <= cash)%Q))
  /\ (attempts = 0 ->
      portfolio (RunnerLoop.world p') = portfolio w
      /\ executionLog (RunnerLoop.world p') = executionLog w
      /\ auditLog (RunnerLoop.world p') = auditLog w
      /\ guardianSettings (RunnerLoop.world p') = guardianSettings w).
Proof.
  cbv zeta. rewrite processOpportunity_unfold. cbv zeta.
  set (w := RunnerLoop.world p).
  set (risk := RunnerLoop.riskFor sqrt w answers opp).
  set (allocation := RunnerLoop.allocationFor sqrt w answers opp).
  set (debate := RunnerLoop.debateFor sqrt w answers opp).
  set (check :=
         Runner.guardianCheck opp risk allocation (Some (guardianSettings w)) w).
  destruct (Runner.pass (fst check)) eqn:Hpass; cbn [andb].
  - destruct (bool_decide (Debate.decision debate = Debate.execute)) eqn:Hd.
    + apply bool_decide_eq_true in Hd.
      assert (Hone :
        RunnerLoop.executionsAttempted
          (if Execution.success
                (fst (Execution.executeArbitrageWithPartialFills opp
                        (Allocation.allocatedUSDT allocation)
                        (RunnerLoop.executionBook answers)
                        (snd (addAuditLog execution
                                "autonomous_execution_initiated"
                                (Some "runner")
                                [("opportunity", VText (Opportunity.id opp));
                                 ("symbol", VStr (Opportunity.symbol opp));
                                 ("riskScore", VNum (Risk.riskScore risk));
                                 ("allocation",
                                  VNum (Allocation.allocatedUSDT allocation));
                                 ("debateScore",
                                  VNum (Debate.finalDecisionScore debate))]
                                (snd check)))))
           then RunnerLoop.succeeded
                  (RunnerLoop.attempted
                     (RunnerLoop.processed (RunnerLoop.runner p)))
           else RunnerLoop.attempted
                  (RunnerLoop.processed (RunnerLoop.runner p)))
        - RunnerLoop.executionsAttempted (RunnerLoop.runner p) = 1).
      { destruct (Execution.success _); cbn; lia. }
      cbn [RunnerLoop.runner RunnerLoop.world]. rewrite Hone.
      split; [destruct (Execution.success _); reflexivity|].
      split; [now right|]. split; [now split|].
      split; [|intros; lia]. intros _.
      assert (Hg := guardianCheck_unfold opp risk allocation
                      (Some (guardianSettings w)) w).
      cbv zeta in Hg. fold check in Hg. rewrite Hg in Hpass.
      destruct (tradeTooLarge allocation (Some (guardianSettings w)) w);
        [discriminate|].
      destruct (dailyLimitReached (Some (guardianSettings w)) w);
        [discriminate|].
      destruct (tooVolatile risk (Some (guardianSettings w)) w);
        [discriminate|].
      destruct (tooRisky risk) eqn:Hrisk; [discriminate|].
      do 3 (split; [reflexivity|]).
      split.
      { assert (Hr := debate_decision_rule (RunnerLoop.provider answers) opp
                        risk allocation (Some (dec 6 10))).
        cbv zeta in Hr.
        change (Debate.debateWithMedianConsensus _ _ _ _ _) with debate in Hr.
        change (default (dec 6 10) (Some (dec 6 10))) with (dec 6 10) in Hr.
        rewrite Hd in Hr. unfold Debate.decide_ in Hr.
        destruct (Debate.finalDecisionScore debate >=? dec 6 10)%js;
          [reflexivity|discriminate]. }
      destruct (allocation_of_accepted_risk opp risk
                  {| Allocation.usdtBalance := Portfolio.cash (portfolio w);
                     Allocation.maxTradeAmount := int 5000;
                     Allocation.exposurePct := None |} Hrisk)
        as (Hpct & Hmin).
      cbv zeta in Hpct, Hmin.
      cbn [Allocation.usdtBalance Allocation.maxTradeAmount] in Hmin.
      change (Allocation.allocateCapitalForOpportunity opp risk _)
        with allocation in Hpct, Hmin.
      split; [exact Hpct|]. split; [exact Hmin|].
      intros cash Hcash Hpos. rewrite Hmin, Hcash.
      assert (Hq : exists pct : Q,
                Allocation.allocationPct allocation = JS.Num pct
                /\ (0 <= pct <= 1)%Q).
      { destruct Hpct as [-> | [-> | ->]]; eexists; (split; [reflexivity|]);
          split; lra. }
      destruct Hq as (pct & -> & Hq).
      change (JS.Num cash * JS.Num pct)%js with (JS.Num (cash * pct)).
      change (int 5000) with (JS.Num 5000).
      destruct (min_finite (cash * pct) 5000) as (m & -> & Hm1 & Hm2 & Hm3).
      exists m. split; [reflexivity|]. split; [|nra].
      split; [|exact Hm2]. destruct Hm3 as [Hm3|Hm3]; rewrite Hm3; nra.
    + apply bool_decide_eq_false in Hd.
      cbn [RunnerLoop.runner RunnerLoop.world RunnerLoop.processed
           RunnerLoop.executionsAttempted RunnerLoop.opportunitiesProcessed].
      split; [reflexivity|]. split; [left; lia|].
      split; [split; [intros; lia|intros [_ He]; contradiction]|].
      split; [intros; lia|]. intros _.
      destruct (guardianCheck_state opp risk allocation
                  (Some (guardianSettings w)) w) as [Hw|Hw];
        cbv zeta in Hw; fold check in Hw; rewrite Hw; repeat split.
  - cbn [RunnerLoop.runner RunnerLoop.world RunnerLoop.processed
         RunnerLoop.executionsAttempted RunnerLoop.opportunitiesProcessed].
    split; [reflexivity|]. split; [left; lia|].
    split; [split; [intros; lia|intros [Ht _]; discriminate]|].
    split; [intros; lia|]. intros _.
    destruct (guardianCheck_state opp risk allocation
                (Some (guardianSettings w)) w) as [Hw|Hw];
      cbv zeta in Hw; fold check in Hw; rewrite Hw; repeat split.
Qed.

Lemma processOpportunity_executes_only_approved_witness :
  let opp := withSpread (dec 25 10) Sample.btc in
  let p := idle Sample.DEFAULT_STATE in
  let w := RunnerLoop.world p in
  let risk := RunnerLoop.riskFor Risk.sqrt6 w calm opp in
  let allocation := RunnerLoop.allocationFor Risk.sqrt6 w calm opp in
  let p' := snd (RunnerLoop.processOpportunity Risk.sqrt6 calm opp p) in
  RunnerLoop.executionsAttempted (RunnerLoop.runner p')
  - RunnerLoop.executionsAttempted (RunnerLoop.runner p) = 1
  /\ tooRisky risk = false
  /\ exists amount : Q,
       Allocation.allocatedUSDT allocation = JS.Num amount
       /\ (0 <= amount <= 5000)%Q.
Proof.
  intros opp p w risk allocation p'.
  assert (Hone : RunnerLoop.executionsAttempted (RunnerLoop.runner p')
                 - RunnerLoop.executionsAttempted (RunnerLoop.runner p) = 1)
    by (vm_compute; reflexivity).
  split; [exact Hone|].
  destruct (processOpportunity_executes_only_approved Risk.sqrt6 calm opp p)
    as (_ & _ & _ & Hyes & _).
  destruct (Hyes Hone) as (Hr & _ & _ & _ & _ & _ & Hcash).
  split; [exact Hr|].
  destruct (Hcash 100000%Q) as (a & Ha & Hb & _);
    [reflexivity|vm_compute; discriminate|].
  exists a. split; assumption.
Defined.

(** the options the runner gives the detector *)
Lemma pollOnce_unfold (sqrt : JS.number -> JS.number)
    (feeds : string -> PriceDiscovery.Fetched)
    (answers : nat -> RunnerLoop.Answers) (p : RunnerLoop.Process) :
  let w := RunnerLoop.world p in
  let r := RunnerLoop.polled (RunnerLoop.runner p) (clock w (clockTicks w)) in
  let found :=
    PriceDiscovery.discoverPrices sqrt
      ((fun symbol => (symbol, feeds symbol))
         <$> RunnerLoop.currentSymbols (RunnerLoop.runner p))
      (set_clockTicks (S (clockTicks w)) w) in
  let detected :=
    Detector.detectArbitrage (fst <$> fst found)
      {| Detector.minSpreadPct := Some (dec 5 10);
         Detector.persistenceMs := Some (int 2000);
         Detector.minPersistenceCount := Some (int 2) |} (snd found) in
  snd (RunnerLoop.pollOnce sqrt feeds answers p)
  = snd (RunnerLoop.processAll sqrt answers 0 (fst detected)
           {| RunnerLoop.world := snd detected;
              RunnerLoop.runner := r;
              RunnerLoop.runnerInterval := RunnerLoop.runnerInterval p |}).
Proof.
  cbv zeta.
  unfold RunnerLoop.pollOnce, RunnerLoop.pollBegin, RunnerLoop.pollRest,
    RunnerLoop.pbind, RunnerLoop.lift, RunnerLoop.getRunner,
    RunnerLoop.setRunner, dateNow.
  cbn [RunnerLoop.world RunnerLoop.runner RunnerLoop.runnerInterval fst snd
       RunnerLoop.polled RunnerLoop.currentSymbols].
  destruct (PriceDiscovery.discoverPrices _ _ _) as [prices w1].
  cbn [RunnerLoop.world RunnerLoop.runner RunnerLoop.runnerInterval fst snd].
  destruct (Detector.detectArbitrage _ _ w1) as [opportunities w2].
  reflexivity.
Qed.

(** X27. One poll of the runner.  A poll counts itself and notes the time
    it read from the clock; it processes what the detector returns for the
    prices of the symbols of the runner, which is at most one opportunity
    per symbol; it starts at most one execution per opportunity and counts
    no more successes than executions.  So counters that are in order stay
    in order, and a poll changes neither the running flag, nor the start
    time, nor the symbols, nor the timer. *)
Theorem pollOnce_counters (sqrt : JS.number -> JS.number)
    (feeds : string -> PriceDiscovery.Fetched)
    (answers : nat -> RunnerLoop.Answers) (p : RunnerLoop.Process) :
  let w := RunnerLoop.world p in
  let r := RunnerLoop.runner p in
  let p' := snd (RunnerLoop.pollOnce sqrt feeds answers p) in
  let r' := RunnerLoop.runner p' in
  let processed :=
    RunnerLoop.opportunitiesProcessed r'
    - RunnerLoop.opportunitiesProcessed r in
  let attempts :=
    RunnerLoop.executionsAttempted r' - RunnerLoop.executionsAttempted r in
  let successes :=
    RunnerLoop.executionsSuccessful r' - RunnerLoop.executionsSuccessful r in
  RunnerLoop.pollCount r' = RunnerLoop.pollCount r + 1
  /\ RunnerLoop.lastPollTime r' = Some (clock w (clockTicks w))
  /\ 0 <= successes <= attempts
  /\ attempts <= processed
  /\ processed <= Z.of_nat (length (RunnerLoop.currentSymbols r))
  /\ (countersOrdered r -> countersOrdered r')
  /\ RunnerLoop.isRunning r' = RunnerLoop.isRunning r
  /\ RunnerLoop.startTime r' = RunnerLoop.startTime r
  /\ RunnerLoop.currentSymbols r' = RunnerLoop.currentSymbols r
  /\ RunnerLoop.runnerInterval p' = RunnerLoop.runnerInterval p.
Proof.
  cbv zeta. rewrite pollOnce_unfold. cbv zeta.
  set (w := RunnerLoop.world p).
  set (fetches := (fun symbol => (symbol, feeds symbol))
                    <$> RunnerLoop.currentSymbols (RunnerLoop.runner p)).
  set (found := PriceDiscovery.discoverPrices sqrt fetches
                  (set_clockTicks (S (clockTicks w)) w)).
  set (opts := {| Detector.minSpreadPct := Some (dec 5 10);
                  Detector.persistenceMs := Some (int 2000);
                  Detector.minPersistenceCount := Some (int 2) |}).
  set (detected := Detector.detectArbitrage (fst <$> fst found) opts
                     (snd found)).
  assert (Hlen : (length (fst detected)
                  <= length (RunnerLoop.currentSymbols (RunnerLoop.runner p)))
                 %nat).
  { destruct (detectArbitrage_returns_snapshots_aux (fst <$> fst found) opts
                (snd found)) as (inputs & new & Hout & Hsub & Hall).
    fold detected in Hout. rewrite Hout, length_js_sort.
    rewrite <- (Forall2_length _ _ _ Hall).
    apply sublist_length in Hsub.
    destruct (discoverPrices_loop sqrt fetches []
                (set_clockTicks (S (clockTicks w)) w))
      as (reports & Hrun & Hrep & _).
    cbv zeta in Hrun.
    change (forEach _ fetches [] _) with found in Hrun.
    cbn [app] in Hrun. apply Forall2_length in Hrep.
    pose proof (List.filter_length_le (qualifies (Detector.minSpreadPctOf opts))
                  (fst <$> fst found)) as Hf.
    rewrite length_fmap, Hrun, <- Hrep in Hf. unfold fetches in Hf.
    rewrite length_fmap in Hf. rewrite Hrun in Hsub. lia. }
  destruct (processAll_counters sqrt answers 0 (fst detected)
              {| RunnerLoop.world := snd detected;
                 RunnerLoop.runner :=
                   RunnerLoop.polled (RunnerLoop.runner p)
                     (clock w (clockTicks w));
                 RunnerLoop.runnerInterval := RunnerLoop.runnerInterval p |})
    as (H1 & H2 & H3 & H4 & H5 & H6 & H7 & H8 & H9).
  cbv zeta in H1, H2, H3, H4, H5, H6, H7, H8, H9.
  cbn [RunnerLoop.runner RunnerLoop.runnerInterval RunnerLoop.polled
       RunnerLoop.pollCount RunnerLoop.opportunitiesProcessed
       RunnerLoop.isRunning RunnerLoop.startTime RunnerLoop.lastPollTime
       RunnerLoop.currentSymbols RunnerLoop.executionsAttempted
       RunnerLoop.executionsSuccessful] in H1, H2, H3, H4, H5, H6, H7, H8, H9.
  unfold countersOrdered.
  repeat split; try assumption; try lia.
Qed.

Lemma pollOnce_counters_witness :
  let feeds := fun _ : string => quoted (int 50000) (int 51250) in
  let p :=
    snd (RunnerLoop.pollOnce Risk.sqrt6 feeds (fun _ => calm)
           (idle Sample.DEFAULT_STATE)) in
  let p' := snd (RunnerLoop.pollOnce Risk.sqrt6 feeds (fun _ => calm) p) in
  countersOrdered (RunnerLoop.runner p)
  /\ countersOrdered (RunnerLoop.runner p')
  /\ RunnerLoop.pollCount (RunnerLoop.runner p') = 2.
Proof.
  intros feeds p p'.
  assert (H0 : countersOrdered (RunnerLoop.runner p))
    by (vm_compute; repeat split; discriminate).
  split; [exact H0|].
  destruct (pollOnce_counters Risk.sqrt6 feeds (fun _ => calm) p)
    as (Hc & _ & _ & _ & _ & Hord & _).
  split; [exact (Hord H0)|]. fold p' in Hc. rewrite Hc.
  vm_compute. reflexivity.
Defined.

(** [startRunner] on a stopped runner, step by step *)
Lemma startRunner_unfold (pollMs : option JS.number) (p : RunnerLoop.Process) :
  let w := RunnerLoop.world p in
  let r := RunnerLoop.runner p in
  let logged :=
    addAuditLog system "runner_started" (Some "runner")
      [("pollMs", VNum (default (int 2000) pollMs));
       ("symbols", VText (Lit <$> RunnerLoop.currentSymbols r))]
      (set_clockTicks (S (clockTicks w)) w) in
  RunnerLoop.isRunning r = false ->
  RunnerLoop.startRunner pollMs p
  = (true,
     {| RunnerLoop.world :=
          set_clockTicks (S (clockTicks (snd logged))) (snd logged);
        RunnerLoop.runner :=
          {| RunnerLoop.isRunning := true;
             RunnerLoop.startTime := Some (clock w (clockTicks w));
             RunnerLoop.pollCount := 0 + 1;
             RunnerLoop.opportunitiesProcessed := 0;
             RunnerLoop.executionsAttempted := 0;
             RunnerLoop.executionsSuccessful := 0;
             RunnerLoop.lastPollTime :=
               Some (clock (snd logged) (clockTicks (snd logged)));
             RunnerLoop.currentSymbols := RunnerLoop.currentSymbols r |};
        RunnerLoop.runnerInterval := Some (default (int 2000) pollMs) |}).
Proof.
  cbv zeta. intros Hstopped.
  unfold RunnerLoop.startRunner, RunnerLoop.pollBegin, RunnerLoop.pbind,
    RunnerLoop.lift, RunnerLoop.getRunner, RunnerLoop.setRunner,
    RunnerLoop.setInterval, RunnerLoop.pret, dateNow.
  rewrite Hstopped.
  cbn [RunnerLoop.world RunnerLoop.runner RunnerLoop.runnerInterval fst snd].
  destruct (addAuditLog _ _ _ _ _) as [entry w1].
  reflexivity.
Qed.

(** [stopRunner] on a running runner, step by step *)
Lemma stopRunner_unfold (p : RunnerLoop.Process) :
  let w := RunnerLoop.world p in
  let r := RunnerLoop.runner p in
  let runtime :=
    match RunnerLoop.startTime r with
    | Some start => clock w (clockTicks w) - start
    | None => 0
    end in
  let w1 :=
    match RunnerLoop.startTime r with
    | Some _ => set_clockTicks (S (clockTicks w)) w
    | None => w
    end in
  let logged :=
    addAuditLog system "runner_stopped" (Some "runner")
      [("totalPolls", VNum (JS.of_Z (RunnerLoop.pollCount r)));
       ("opportunitiesProcessed",
        VNum (JS.of_Z (RunnerLoop.opportunitiesProcessed r)));
       ("executionsAttempted",
        VNum (JS.of_Z (RunnerLoop.executionsAttempted r)));
       ("executionsSuccessful",
        VNum (JS.of_Z (RunnerLoop.executionsSuccessful r)));
       ("runtime", VNum (JS.of_Z runtime))] w1 in
  RunnerLoop.isRunning r = true ->
  RunnerLoop.stopRunner p
  = (true,
     {| RunnerLoop.world := snd logged;
        RunnerLoop.runner :=
          {| RunnerLoop.isRunning := false;
             RunnerLoop.startTime := RunnerLoop.startTime r;
             RunnerLoop.pollCount := RunnerLoop.pollCount r;
             RunnerLoop.opportunitiesProcessed :=
               RunnerLoop.opportunitiesProcessed r;
             RunnerLoop.executionsAttempted := RunnerLoop.executionsAttempted r;
             RunnerLoop.executionsSuccessful :=
               RunnerLoop.executionsSuccessful r;
             RunnerLoop.lastPollTime := RunnerLoop.lastPollTime r;
             RunnerLoop.currentSymbols := RunnerLoop.currentSymbols r |};
        RunnerLoop.runnerInterval := None |}).
Proof.
  cbv zeta. intros Hrunning.
  unfold RunnerLoop.stopRunner, RunnerLoop.pbind, RunnerLoop.lift,
    RunnerLoop.getRunner, RunnerLoop.setRunner, RunnerLoop.setInterval,
    RunnerLoop.pret, dateNow.
  rewrite Hrunning.
  cbn [negb RunnerLoop.world RunnerLoop.runner RunnerLoop.runnerInterval
       fst snd].
  destruct (RunnerLoop.startTime (RunnerLoop.runner p)) as [start|];
    cbn [RunnerLoop.world RunnerLoop.runner RunnerLoop.runnerInterval fst snd];
    destruct (addAuditLog _ _ _ _ _) as [entry w1]; reflexivity.
Qed.

(** what [addAuditLog] does to the state *)
Lemma addAuditLog_state (ev : EventType) (act : string) (comp : option string)
    (det : list (string * jsval)) (w : World) :
  let w' := snd (addAuditLog ev act comp det w) in
  auditLog w'
  = auditLog w
      ++ [{| AuditLogEntry.id :=
               [Lit "audit_"; Show (JS.of_Z (clock w (clockTicks w)));
                Lit "_"; Base36 (random w (randomTicks w)) 9];
             AuditLogEntry.timestamp := clock w (S (clockTicks w));
             AuditLogEntry.eventType := ev;
             AuditLogEntry.component := comp;
             AuditLogEntry.action := act;
             AuditLogEntry.details := det |}]
  /\ portfolio w' = portfolio w
  /\ executionLog w' = executionLog w
  /\ guardianSettings w' = guardianSettings w
  /\ persistenceBuffer w' = persistenceBuffer w
  /\ priceHistory w' = priceHistory w
  /\ clock w' = clock w
  /\ clockTicks w' = S (S (clockTicks w)).
Proof. cbv zeta. repeat split. Qed.

(** X28. Starting and stopping the runner.  [startRunner] refuses (returns
    false and changes nothing) when the runner is running; otherwise it
    returns true, marks the runner as running since the time it read, resets
    the counters, starts the first poll (so the poll count is 1 when it
    returns), arms the timer with the period it was given, 2000 ms by
    default, and logs one ['runner_started'] entry; it leaves the portfolio,
    the execution log and the Guardian settings alone.  [stopRunner] refuses
    when the runner is not running; otherwise it returns true, clears the
    timer and the running flag, keeps the counters, and logs one
    ['runner_stopped'] entry that reports the counters and, as runtime, the
    time it read less the start time. *)
Theorem startRunner_stopRunner (pollMs : option JS.number)
    (p : RunnerLoop.Process) :
  let w := RunnerLoop.world p in
  let r := RunnerLoop.runner p in
  let started := RunnerLoop.startRunner pollMs p in
  let stopped := RunnerLoop.stopRunner p in
  (RunnerLoop.isRunning r = true -> started = (false, p))
  /\ (RunnerLoop.isRunning r = false -> stopped = (false, p))
  /\ (RunnerLoop.isRunning r = false ->
      let r' := RunnerLoop.runner (snd started) in
      let w' := RunnerLoop.world (snd started) in
      fst started = true
      /\ RunnerLoop.isRunning r' = true
      /\ RunnerLoop.startTime r' = Some (clock w (clockTicks w))
      /\ countersOf r' = (1, 0, 0, 0)
      /\ RunnerLoop.lastPollTime r' = Some (clock w (clockTicks w + 3))
      /\ RunnerLoop.currentSymbols r' = RunnerLoop.currentSymbols r
      /\ RunnerLoop.runnerInterval (snd started)
         = Some (default (int 2000) pollMs)
      /\ (exists entry,
             auditLog w' = auditLog w ++ [entry]
             /\ AuditLogEntry.action entry = "runner_started"
             /\ AuditLogEntry.details entry
                = [("pollMs", VNum (default (int 2000) pollMs));
                   ("symbols",
                    VText (Lit <$> RunnerLoop.currentSymbols r))])
      /\ portfolio w' = portfolio w
      /\ executionLog w' = executionLog w
      /\ guardianSettings w' = guardianSettings w)
  /\ (RunnerLoop.isRunning r = true ->
      let r' := RunnerLoop.runner (snd stopped) in
      let w' := RunnerLoop.world (snd stopped) in
      fst stopped = true
      /\ RunnerLoop.isRunning r' = false
      /\ RunnerLoop.runnerInterval (snd stopped) = None
      /\ countersOf r' = countersOf r
      /\ RunnerLoop.startTime r' = RunnerLoop.startTime r
      /\ RunnerLoop.lastPollTime r' = RunnerLoop.lastPollTime r
      /\ RunnerLoop.currentSymbols r' = RunnerLoop.currentSymbols r
      /\ (exists entry,
             auditLog w' = auditLog w ++ [entry]
             /\ AuditLogEntry.action entry = "runner_stopped"
             /\ AuditLogEntry.details entry
                = [("totalPolls", VNum (JS.of_Z (RunnerLoop.pollCount r)));
                   ("opportunitiesProcessed",
                    VNum (JS.of_Z (RunnerLoop.opportunitiesProcessed r)));
                   ("executionsAttempted",
                    VNum (JS.of_Z (RunnerLoop.executionsAttempted r)));
                   ("executionsSuccessful",
                    VNum (JS.of_Z (RunnerLoop.executionsSuccessful r)));
                   ("runtime",
                    VNum (JS.of_Z
                            match RunnerLoop.startTime r with
                            | Some start => clock w (clockTicks w) - start
                            | None => 0
                            end))])
      /\ portfolio w' = portfolio w
      /\ executionLog w' = executionLog w
      /\ guardianSettings w' = guardianSettings w).
Proof.
  cbv zeta. split; [|split; [|split]].
  - intros Hr. unfold RunnerLoop.startRunner, RunnerLoop.pbind,
      RunnerLoop.getRunner, RunnerLoop.pret. now rewrite Hr.
  - intros Hr. unfold RunnerLoop.stopRunner, RunnerLoop.pbind,
      RunnerLoop.getRunner, RunnerLoop.pret. now rewrite Hr.
  - intros Hr. rewrite (startRunner_unfold pollMs p Hr).
    cbn [fst snd RunnerLoop.world RunnerLoop.runner RunnerLoop.runnerInterval
         RunnerLoop.isRunning RunnerLoop.startTime RunnerLoop.lastPollTime
         RunnerLoop.currentSymbols].
    match goal with
    | |- context [addAuditLog ?ev ?act ?comp ?det ?w0] =>
        destruct (addAuditLog_state ev act comp det w0)
          as (Ha & Hp & He & Hg & _ & _ & Hc & Ht);
        cbv zeta in Ha, Hp, He, Hg, Hc, Ht;
        set (w1 := snd (addAuditLog ev act comp det w0)) in *
    end.
    split; [reflexivity|]. split; [reflexivity|]. split; [reflexivity|].
    split; [reflexivity|].
    split; [rewrite Hc, Ht; cbn [clock clockTicks set_clockTicks]; do 2 f_equal;
            lia|].
    split; [reflexivity|]. split; [reflexivity|].
    split; [eexists; split; [exact Ha|split; reflexivity]|].
    cbn [portfolio executionLog guardianSettings set_clockTicks].
    rewrite Hp, He, Hg. repeat split.
  - intros Hr. rewrite (stopRunner_unfold p Hr).
    destruct (RunnerLoop.startTime (RunnerLoop.runner p)) as [start|].
    all: cbn [fst snd RunnerLoop.world RunnerLoop.runner RunnerLoop.runnerInterval
         RunnerLoop.isRunning RunnerLoop.startTime RunnerLoop.lastPollTime
         RunnerLoop.currentSymbols].
    all: match goal with
    | |- context [addAuditLog ?ev ?act ?comp ?det ?w0] =>
        destruct (addAuditLog_state ev act comp det w0)
          as (Ha & Hp & He & Hg & _ & _ & Hc & Ht);
        cbv zeta in Ha, Hp, He, Hg, Hc, Ht;
        set (w1 := snd (addAuditLog ev act comp det w0)) in *
    end.
    all: do 7 (split; [reflexivity|]).
    all: (split; [eexists; split; [exact Ha|split; reflexivity]|]).
    all: rewrite Hp, He, Hg; repeat split.
Qed.

Lemma startRunner_stopRunner_witness :
  let started := RunnerLoop.startRunner None (idle Sample.DEFAULT_STATE) in
  fst started = true
  /\ countersOf (RunnerLoop.runner (snd started)) = (1, 0, 0, 0)
  /\ RunnerLoop.runnerInterval (snd started) = Some (int 2000).
Proof.
  intros started.
  destruct (startRunner_stopRunner None (idle Sample.DEFAULT_STATE))
    as (_ & _ & Hs & _).
  destruct (Hs eq_refl) as (H1 & _ & _ & H4 & _ & _ & H7 & _).
  split; [exact H1|]. split; [exact H4|exact H7].
Defined.

(** X29. The timer and the running flag.  The timer of the runner is set
    exactly while the runner is marked as running: this holds in the default
    state and is kept by [startRunner], [stopRunner], [setRunnerSymbols] and
    by every poll.  So [startRunner] never arms a second timer over a live
    one: right after a start that succeeded a second start is refused and
    leaves the period of the timer as it is, while a stop succeeds; and right
    after a stop that succeeded a second stop is refused, while a start
    succeeds. *)
Theorem runner_timer_matches_running (sqrt : JS.number -> JS.number)
    (feeds : string -> PriceDiscovery.Fetched)
    (answers : nat -> RunnerLoop.Answers) (pollMs again : option JS.number)
    (symbols : list string) (w : World) (p : RunnerLoop.Process) :
  let started := snd (RunnerLoop.startRunner pollMs p) in
  let stopped := snd (RunnerLoop.stopRunner p) in
  timerMatches (idle w)
  /\ (timerMatches p ->
      timerMatches started
      /\ timerMatches stopped
      /\ timerMatches (snd (RunnerLoop.setRunnerSymbols symbols p))
      /\ timerMatches (snd (RunnerLoop.pollOnce sqrt feeds answers p)))
  /\ (fst (RunnerLoop.startRunner pollMs p) = true ->
      RunnerLoop.startRunner again started = (false, started)
      /\ RunnerLoop.runnerInterval started = Some (default (int 2000) pollMs)
      /\ fst (RunnerLoop.stopRunner started) = true)
  /\ (fst (RunnerLoop.stopRunner p) = true ->
      RunnerLoop.stopRunner stopped = (false, stopped)
      /\ fst (RunnerLoop.startRunner again stopped) = true).
Proof.
  cbv zeta. unfold timerMatches.
  assert (Hstart : forall ms q,
            RunnerLoop.isRunning (RunnerLoop.runner q) = true ->
            RunnerLoop.startRunner ms q = (false, q)).
  { intros ms q Hq. unfold RunnerLoop.startRunner, RunnerLoop.pbind,
      RunnerLoop.getRunner, RunnerLoop.pret. now rewrite Hq. }
  assert (Hstop : forall q,
            RunnerLoop.isRunning (RunnerLoop.runner q) = false ->
            RunnerLoop.stopRunner q = (false, q)).
  { intros q Hq. unfold RunnerLoop.stopRunner, RunnerLoop.pbind,
      RunnerLoop.getRunner, RunnerLoop.pret. now rewrite Hq. }
  split; [|split; [|split]].
  - cbn. split; [discriminate|]. intros [x Hx]. discriminate.
  - intros Hp. split; [|split; [|split]].
    + destruct (RunnerLoop.isRunning (RunnerLoop.runner p)) eqn:Hr.
      * rewrite (Hstart pollMs p Hr). cbn [snd]. now rewrite Hr.
      * rewrite (startRunner_unfold pollMs p Hr). cbn. split; eauto.
    + destruct (RunnerLoop.isRunning (RunnerLoop.runner p)) eqn:Hr.
      * rewrite (stopRunner_unfold p Hr). cbn. split; [discriminate|].
        intros [x Hx]. discriminate.
      * rewrite (Hstop p Hr). cbn [snd]. now rewrite Hr.
    + exact Hp.
    + rewrite pollOnce_unfold. cbv zeta.
      match goal with
      | |- context [RunnerLoop.processAll sqrt answers 0 ?l ?q] =>
          destruct (processAll_counters sqrt answers 0 l q)
            as (_ & _ & H3 & _ & _ & _ & _ & _ & H9)
      end.
      cbv zeta in H3, H9. rewrite H3, H9. exact Hp.
  - intros Hok.
    destruct (RunnerLoop.isRunning (RunnerLoop.runner p)) eqn:Hr.
    { rewrite (Hstart pollMs p Hr) in Hok. discriminate. }
    rewrite (startRunner_unfold pollMs p Hr). cbn [snd].
    split; [now apply Hstart|]. split; [reflexivity|].
    now rewrite stopRunner_unfold.
  - intros Hok.
    destruct (RunnerLoop.isRunning (RunnerLoop.runner p)) eqn:Hr.
    2: { rewrite (Hstop p Hr) in Hok. discriminate. }
    rewrite (stopRunner_unfold p Hr). cbn [snd].
    split; [now apply Hstop|]. now rewrite startRunner_unfold.
Qed.

Lemma runner_timer_matches_running_witness :
  timerMatches (idle Sample.DEFAULT_STATE)
  /\ timerMatches
       (snd (RunnerLoop.startRunner None (idle Sample.DEFAULT_STATE))).
Proof.
  assert (H0 : timerMatches (idle Sample.DEFAULT_STATE)).
  { split; [discriminate|]. intros [x Hx]. discriminate. }
  split; [exact H0|].
  destruct (runner_timer_matches_running Risk.sqrt6
              (fun _ => quoted (int 50000) (int 51250)) (fun _ => calm)
              None None [] Sample.DEFAULT_STATE (idle Sample.DEFAULT_STATE))
    as (_ & Hinv & _).
  exact (proj1 (Hinv H0)).
Defined.

(** a loop leaves alone what each of its iterations leaves alone *)
Lemma forEach_preserves {A S T} (f : World -> T) (body : S -> A -> M S) :
  (forall s x w, f (snd (body s x w)) = f w) ->
  forall l s w, f (snd (forEach body l s w)) = f w.
Proof.
  intros Hbody l. induction l as [|x l IH]; intros s w; [reflexivity|].
  rewrite forEach_cons, IH. apply Hbody.
Qed.

Lemma ledger_eq (w w' : World) :
  ledger w = ledger w' ->
  portfolio w = portfolio w' /\ executionLog w = executionLog w'
  /\ auditLog w = auditLog w' /\ guardianSettings w = guardianSettings w'.
Proof. unfold ledger. intros H. injection H as Hp He Ha Hg. auto. Qed.

(** price discovery and detection do not touch the ledger *)
Lemma discoverPrices_ledger (sqrt : JS.number -> JS.number)
    (fetches : list (string * PriceDiscovery.Fetched)) (w : World) :
  ledger (snd (PriceDiscovery.discoverPrices sqrt fetches w)) = ledger w.
Proof.
  unfold PriceDiscovery.discoverPrices. apply forEach_preserves.
  intros results [symbol fetched] w0. unfold PriceDiscovery.discoverOne.
  destruct (PriceDiscovery.binance fetched); reflexivity.
Qed.

Lemma detectArbitrage_ledger (prices : list Detector.DiscoveredPrice)
    (opts : Detector.DetectArbitrageOptions) (w : World) :
  ledger (snd (Detector.detectArbitrage prices opts w)) = ledger w.
Proof.
  rewrite detectArbitrage_unfold. cbv zeta. cbn [snd].
  change (ledger (set_persistenceBuffer ?b ?w0)) with (ledger w0).
  rewrite (forEach_preserves ledger). { reflexivity. }
  intros l priceData w0. unfold Detector.observe.
  destruct (Detector.missingPrice priceData); [reflexivity|].
  destruct (Detector.belowThreshold _ priceData); [reflexivity|].
  unfold bind, get, modify, ret, dateNow, mathRandom.
  destruct (persistenceBuffer w0 !! _); cbn [fst snd];
    destruct (Detector.meetsCriteria _ _ _ _); reflexivity.
Qed.

(** with a daily limit that is not positive the Guardian lets nothing
    through *)
Lemma guardianCheck_no_trades_allowed (opportunity : Opportunity.t)
    (risk : Risk.RiskAssessmentResult)
    (allocation : Allocation.AllocationResult) (w : World) (limit : Q) :
  GuardianConfig.dailyMaxTrades (guardianSettings w) = JS.Num limit ->
  (limit <= 0)%Q ->
  Runner.pass
    (fst (Runner.guardianCheck opportunity risk allocation
            (Some (guardianSettings w)) w)) = false.
Proof.
  intros Hlimit Hle. rewrite guardianCheck_unfold. cbv zeta.
  destruct (tradeTooLarge _ _ _); [reflexivity|].
  assert (Hd : dailyLimitReached (Some (guardianSettings w)) w = true).
  { unfold dailyLimitReached.
    change (configOf (Some (guardianSettings w)) w) with (guardianSettings w).
    rewrite Hlimit. unfold todayCount. cbv zeta.
    set (n := length _). js_unfold. cbn [JS.le].
    destruct (Qle_bool_spec limit (Z.of_nat n # 1)); [reflexivity|].
    exfalso. assert (0 <= Z.of_nat n # 1)%Q by (unfold Qle; cbn; lia). lra. }
  now rewrite Hd.
Qed.

Lemma processOpportunity_vetoed (sqrt : JS.number -> JS.number)
    (answers : RunnerLoop.Answers) (opp : Opportunity.t)
    (p : RunnerLoop.Process) (limit : Q) :
  GuardianConfig.dailyMaxTrades (guardianSettings (RunnerLoop.world p))
  = JS.Num limit ->
  (limit <= 0)%Q ->
  let p' := snd (RunnerLoop.processOpportunity sqrt answers opp p) in
  ledger (RunnerLoop.world p') = ledger (RunnerLoop.world p)
  /\ RunnerLoop.runner p' = RunnerLoop.processed (RunnerLoop.runner p).
Proof.
  intros Hlimit Hle. cbv zeta. rewrite processOpportunity_unfold. cbv zeta.
  rewrite (guardianCheck_no_trades_allowed _ _ _ _ limit Hlimit Hle).
  cbn [andb RunnerLoop.world RunnerLoop.runner]. split; [|reflexivity].
  match goal with
  | |- context [Runner.guardianCheck ?o ?r ?a ?c ?w0] =>
      destruct (guardianCheck_state o r a c w0) as [Hw|Hw];
      cbv zeta in Hw; rewrite Hw
  end; reflexivity.
Qed.

Lemma processAll_vetoed (sqrt : JS.number -> JS.number)
    (answers : nat -> RunnerLoop.Answers) (i : nat)
    (opportunities : list Opportunity.t) (p : RunnerLoop.Process)
    (limit : Q) :
  GuardianConfig.dailyMaxTrades (guardianSettings (RunnerLoop.world p))
  = JS.Num limit ->
  (limit <= 0)%Q ->
  let p' := snd (RunnerLoop.processAll sqrt answers i opportunities p) in
  ledger (RunnerLoop.world p') = ledger (RunnerLoop.world p)
  /\ RunnerLoop.executionsAttempted (RunnerLoop.runner p')
     = RunnerLoop.executionsAttempted (RunnerLoop.runner p)
  /\ RunnerLoop.executionsSuccessful (RunnerLoop.runner p')
     = RunnerLoop.executionsSuccessful (RunnerLoop.runner p).
Proof.
  intros Hlimit Hle. revert i p Hlimit.
  induction opportunities as [|opp rest IH]; intros i p Hlimit; cbv zeta.
  - repeat split.
  - rewrite processAll_cons.
    destruct (processOpportunity_vetoed sqrt (answers i) opp p limit Hlimit Hle)
      as [Hl Hr]. cbv zeta in Hl, Hr.
    assert (Hlimit' :
      GuardianConfig.dailyMaxTrades
        (guardianSettings
           (RunnerLoop.world
              (snd (RunnerLoop.processOpportunity sqrt (answers i) opp p))))
      = JS.Num limit).
    { destruct (ledger_eq _ _ Hl) as (_ & _ & _ & Hg). now rewrite Hg. }
    destruct (IH (S i) _ Hlimit') as (J1 & J2 & J3). cbv zeta in J1, J2, J3.
    rewrite J1, J2, J3, Hl, Hr. repeat split.
Qed.

(** X30. The Guardian settings as a switch.  [updateGuardianConfig] merges
    the patch into the settings: a field of the patch replaces the setting,
    the other settings stay, and [getGuardianConfig] returns the result.
    After a patch that sets [dailyMaxTrades] to zero (or less) a poll of the
    runner still counts itself and processes the opportunities it finds,
    but starts no execution: the counters of executions, the portfolio, the
    execution log, the audit log and the settings are after the poll what
    they were before it. *)
Theorem updateGuardianConfig_daily_limit_zero (sqrt : JS.number -> JS.number)
    (feeds : string -> PriceDiscovery.Fetched)
    (answers : nat -> RunnerLoop.Answers) (p : RunnerLoop.Process)
    (limit : Q) :
  (limit <= 0)%Q ->
  let w := RunnerLoop.world p in
  let patched :=
    snd (RunnerLoop.lift
           (RunnerLoop.updateGuardianConfig (dailyLimit (JS.Num limit))) p) in
  let config := fst (RunnerLoop.getGuardianConfig (RunnerLoop.world patched)) in
  let p' := snd (RunnerLoop.pollOnce sqrt feeds answers patched) in
  GuardianConfig.dailyMaxTrades config = JS.Num limit
  /\ GuardianConfig.maxTradePctOfPortfolio config
     = GuardianConfig.maxTradePctOfPortfolio (guardianSettings w)
  /\ GuardianConfig.globalMaxExposurePct config
     = GuardianConfig.globalMaxExposurePct (guardianSettings w)
  /\ GuardianConfig.vetoconditions config
     = GuardianConfig.vetoconditions (guardianSettings w)
  /\ RunnerLoop.runner patched = RunnerLoop.runner p
  /\ RunnerLoop.pollCount (RunnerLoop.runner p')
     = RunnerLoop.pollCount (RunnerLoop.runner p) + 1
  /\ RunnerLoop.executionsAttempted (RunnerLoop.runner p')
     = RunnerLoop.executionsAttempted (RunnerLoop.runner p)
  /\ RunnerLoop.executionsSuccessful (RunnerLoop.runner p')
     = RunnerLoop.executionsSuccessful (RunnerLoop.runner p)
  /\ portfolio (RunnerLoop.world p') = portfolio w
  /\ executionLog (RunnerLoop.world p') = executionLog w
  /\ auditLog (RunnerLoop.world p') = auditLog w
  /\ guardianSettings (RunnerLoop.world p') = config.
Proof.
  intros Hle. cbv zeta.
  set (patched := snd (RunnerLoop.lift _ p)).
  assert (Hpatched :
    patched
    = {| RunnerLoop.world :=
           RunnerLoop.set_guardianSettings
             (RunnerLoop.merged (guardianSettings (RunnerLoop.world p))
                (dailyLimit (JS.Num limit))) (RunnerLoop.world p);
         RunnerLoop.runner := RunnerLoop.runner p;
         RunnerLoop.runnerInterval := RunnerLoop.runnerInterval p |})
    by reflexivity.
  do 5 (split; [rewrite Hpatched; reflexivity|]).
  rewrite pollOnce_unfold. cbv zeta.
  match goal with
  | |- context [RunnerLoop.processAll sqrt answers 0 ?l ?q] =>
      set (opportunities := l); set (q0 := q)
  end.
  assert (Hledger : ledger (RunnerLoop.world q0)
                    = ledger (RunnerLoop.world patched)).
  { unfold q0. cbn [RunnerLoop.world].
    now rewrite detectArbitrage_ledger, discoverPrices_ledger. }
  assert (Hlimit :
    GuardianConfig.dailyMaxTrades (guardianSettings (RunnerLoop.world q0))
    = JS.Num limit).
  { destruct (ledger_eq _ _ Hledger) as (_ & _ & _ & Hg). rewrite Hg.
    rewrite Hpatched. reflexivity. }
  destruct (processAll_vetoed sqrt answers 0 opportunities q0 limit Hlimit Hle)
    as (J1 & J2 & J3). cbv zeta in J1, J2, J3.
  destruct (processAll_counters sqrt answers 0 opportunities q0)
    as (_ & K2 & _). cbv zeta in K2.
  rewrite K2, J2, J3. rewrite Hledger in J1.
  destruct (ledger_eq _ _ J1) as (Hp & He & Ha & Hg).
  rewrite Hp, He, Ha, Hg. unfold q0. rewrite Hpatched. repeat split.
Qed.

Lemma updateGuardianConfig_daily_limit_zero_witness :
  let feeds := fun _ : string => quoted (int 50000) (int 51250) in
  let p :=
    snd (RunnerLoop.pollOnce Risk.sqrt6 feeds (fun _ => calm)
           (idle Sample.DEFAULT_STATE)) in
  let patched :=
    snd (RunnerLoop.lift
           (RunnerLoop.updateGuardianConfig (dailyLimit (JS.Num 0))) p) in
  RunnerLoop.executionsAttempted
    (RunnerLoop.runner
       (snd (RunnerLoop.pollOnce Risk.sqrt6 feeds (fun _ => calm) p))) = 3
  /\ RunnerLoop.executionsAttempted
       (RunnerLoop.runner
          (snd (RunnerLoop.pollOnce Risk.sqrt6 feeds (fun _ => calm) patched)))
     = 0.
Proof.
  intros feeds p patched. split; [vm_compute; reflexivity|].
  destruct (updateGuardianConfig_daily_limit_zero Risk.sqrt6 feeds
              (fun _ => calm) p 0)
    as (_ & _ & _ & _ & _ & _ & Hnone & _); [vm_compute; discriminate|].
  fold patched in Hnone. rewrite Hnone. vm_compute. reflexivity.
Defined.
